(** * CVSS score calculator (versions 3.0, 3.1 and 4.0): shallow embedding

    The development follows the TypeScript sources
      - [models.ts]           metric catalogues and the v4 tables,
      - [validator.ts]        [validate] and its helpers,
      - [score-calculator.ts] the v3.x equations and the v4 MacroVector engine.

    Conventions.
      - JavaScript strings are [string]; JS objects and [Map]s used as
        dictionaries are association lists (insertion order is kept, as in JS).
      - [undefined] is [None].
      - A thrown [Error] is the [Throw] constructor of [result].
      - JavaScript numbers are an interface [JSNumber] with two instances: exact
        rationals extended with NaN ([Exact]), and IEEE-754 binary64
        ([Float64]).  The algebraic theorems are stated on exact arithmetic,
        the regression values are also evaluated on binary64. *)

From Stdlib Require Import ZArith QArith Qround Qabs Qpower.
From Stdlib Require Import String Ascii List Bool Lia Lqa DecimalString.
From Stdlib Require Import Floats.
Import ListNotations.

Local Close Scope Q_scope.
Local Open Scope nat_scope.
Local Open Scope string_scope.
Local Open Scope list_scope.

(* ===================================================================== *)
(** ** Exceptions *)

Inductive result (E A : Type) : Type :=
| Ok (a : A)
| Throw (e : E).
Arguments Ok {E A} a.
Arguments Throw {E A} e.

Definition bind {E A B} (r : result E A) (k : A -> result E B) : result E B :=
  match r with
  | Ok a => k a
  | Throw e => Throw e
  end.

Notation "x <- r ;; k" := (bind r (fun x => k))
  (at level 61, r at next level, right associativity).
Notation "r ;;; k" := (bind r (fun _ => k))
  (at level 61, right associativity).

Definition throws {E A} (r : result E A) : Prop :=
  exists e, r = Throw e.

(* ===================================================================== *)
(** ** JavaScript strings and dictionaries *)

Module JS.

(** [s.split(sep)] for a one-character separator. *)
Fixpoint split (sep : ascii) (s : string) : list string :=
  match s with
  | EmptyString => [EmptyString]
  | String c rest =>
      if Ascii.eqb c sep then EmptyString :: split sep rest
      else match split sep rest with
           | [] => [String c EmptyString]
           | hd :: tl => String c hd :: tl
           end
  end.

(** [s.startsWith(p)]. *)
Definition startsWith (s p : string) : bool := String.prefix p s.

(** [s.indexOf(needle)]: [None] stands for -1. *)
Fixpoint indexOf (needle s : string) : option nat :=
  if String.prefix needle s then Some 0
  else match s with
       | EmptyString => None
       | String _ rest => option_map S (indexOf needle rest)
       end.

(** [s.includes(needle)]. *)
Definition includes (needle s : string) : bool :=
  match indexOf needle s with Some _ => true | None => false end.

(** [s.slice(n)] for a non-negative [n]. *)
Fixpoint slice (n : nat) (s : string) : string :=
  match n, s with
  | O, _ => s
  | S k, EmptyString => EmptyString
  | S k, String _ rest => slice k rest
  end.

(** [s.substring(0, n)]. *)
Fixpoint substring0 (n : nat) (s : string) : string :=
  match n, s with
  | O, _ => EmptyString
  | S k, EmptyString => EmptyString
  | S k, String c rest => String c (substring0 k rest)
  end.

(** [xs.includes(x)] on an array of strings. *)
Definition arr_includes (xs : list string) (x : string) : bool :=
  existsb (String.eqb x) xs.

(** Truthiness of a string: only the empty string is falsy. *)
Definition truthy (s : string) : bool :=
  match s with EmptyString => false | _ => true end.

(** Dictionaries: [obj[k]], [map.get(k)]. *)
Fixpoint get {A} (d : list (string * A)) (k : string) : option A :=
  match d with
  | [] => None
  | (k', v) :: rest => if String.eqb k' k then Some v else get rest k
  end.

(** [map.has(k)], [Object.keys(obj).includes(k)]. *)
Definition has {A} (d : list (string * A)) (k : string) : bool :=
  match get d k with Some _ => true | None => false end.

(** [obj[k] = v], [map.set(k, v)]: an existing key keeps its position. *)
Fixpoint set {A} (d : list (string * A)) (k : string) (v : A) : list (string * A) :=
  match d with
  | [] => [(k, v)]
  | (k', v') :: rest =>
      if String.eqb k' k then (k', v) :: rest else (k', v') :: set rest k v
  end.

Definition keys {A} (d : list (string * A)) : list string := map fst d.

(** The property names every object inherits from [Object.prototype]; the
    [in] operator sees them. *)
Definition objectPrototypeKeys : list string :=
  [ "constructor"; "__defineGetter__"; "__defineSetter__"; "hasOwnProperty";
    "__lookupGetter__"; "__lookupSetter__"; "isPrototypeOf";
    "propertyIsEnumerable"; "toString"; "valueOf"; "__proto__";
    "toLocaleString" ].

(** [k in obj] for an object literal. *)
Definition key_in {A} (k : string) (obj : list (string * A)) : bool :=
  has obj k || arr_includes objectPrototypeKeys k.

(** Loose comparison of a possibly undefined string with a string literal. *)
Definition eqs (x : option string) (lit : string) : bool :=
  match x with Some s => String.eqb s lit | None => false end.

End JS.

(* ===================================================================== *)
(** ** JavaScript numbers *)

Class JSNumber (num : Type) : Type := {
  lit : Q -> num;                 (* a decimal literal of the source *)
  NaN : num;
  add : num -> num -> num;
  sub : num -> num -> num;
  mul : num -> num -> num;
  div : num -> num -> num;
  rem : num -> num -> num;        (* the % operator *)
  lt : num -> num -> bool;
  le : num -> num -> bool;
  strict_eq : num -> num -> bool; (* === *)
  isNaN : num -> bool;
  Math_round : num -> num;
  Math_floor : num -> num;
  Math_pow : num -> nat -> num
}.

Arguments lit {num JSNumber} q%_Q.

Declare Scope js_scope.
Delimit Scope js_scope with js.
Notation "x + y" := (add x y) : js_scope.
Notation "x - y" := (sub x y) : js_scope.
Notation "x * y" := (mul x y) : js_scope.
Notation "x / y" := (div x y) : js_scope.
Notation "x 'mod' y" := (rem x y) : js_scope.
Notation "x <? y" := (lt x y) : js_scope.
Notation "x >? y" := (lt y x) : js_scope.
Notation "x <=? y" := (le x y) : js_scope.
Notation "x === y" := (strict_eq x y) (at level 70, no associativity) : js_scope.

(** [Math.min] of two arguments. *)
Definition Math_min {num} `{JSNumber num} (a b : num) : num :=
  if isNaN a || isNaN b then NaN else if lt b a then b else a.

(** A possibly undefined number used in arithmetic: [undefined] becomes NaN. *)
Definition toNumber {num} `{JSNumber num} (x : option num) : num :=
  match x with Some v => v | None => NaN end.

(** *** Exact arithmetic: rationals in lowest terms, [None] is NaN.
    There are no infinities: a division by zero gives NaN. *)
Module Exact.

Definition num : Type := option Q.

Definition lift2 (f : Q -> Q -> Q) (a b : num) : num :=
  match a, b with
  | Some x, Some y => Some (Qred (f x y))
  | _, _ => None
  end.

Definition cmp2 (f : Q -> Q -> bool) (a b : num) : bool :=
  match a, b with
  | Some x, Some y => f x y
  | _, _ => false
  end.

Local Open Scope Q_scope.

Definition Qltb (x y : Q) : bool := negb (Qle_bool y x).

(** Truncation toward zero. *)
Definition Qtrunc (x : Q) : Z :=
  if Qle_bool 0 x then Qfloor x else Qceiling x.

Definition qdiv (a b : num) : num :=
  match a, b with
  | Some x, Some y => if Qeq_bool y 0 then None else Some (Qred (x / y))
  | _, _ => None
  end.

Definition qrem (a b : num) : num :=
  match a, b with
  | Some x, Some y =>
      if Qeq_bool y 0 then None
      else Some (Qred (x - y * inject_Z (Qtrunc (x / y))))
  | _, _ => None
  end.

(** [Math.round]: the nearest integer, ties toward +infinity. *)
Definition qround (a : num) : num :=
  option_map (fun x => inject_Z (Qfloor (x + (1 # 2)))) a.

Definition qfloor (a : num) : num :=
  option_map (fun x => inject_Z (Qfloor x)) a.

Definition qpow (a : num) (n : nat) : num :=
  option_map (fun x => Qred (Qpower x (Z.of_nat n))) a.

#[global] Instance exact_number : JSNumber num := {|
  lit := fun q => Some (Qred q);
  NaN := None;
  add := lift2 Qplus;
  sub := lift2 Qminus;
  mul := lift2 Qmult;
  div := qdiv;
  rem := qrem;
  lt := cmp2 Qltb;
  le := cmp2 Qle_bool;
  strict_eq := cmp2 Qeq_bool;
  isNaN := fun a => match a with None => true | Some _ => false end;
  Math_round := qround;
  Math_floor := qfloor;
  Math_pow := qpow
|}.

End Exact.

(** *** IEEE-754 binary64.
    [+], [-], [*], [/] and the comparisons are the primitive operations;
    [Math.round], [Math.floor] and [%] are computed exactly from the
    mantissa and exponent.  ECMAScript leaves the precision of [Math.pow] to
    the implementation: it is taken here as the iterated product. *)
Module Float64.

Definition num : Type := float.

Definition of_Z (z : Z) : float :=
  match z with
  | Z0 => zero
  | Zpos _ => of_uint63 (Uint63.of_Z z)
  | Zneg p => (- of_uint63 (Uint63.of_Z (Zpos p)))%float
  end.

(** The double nearest to the decimal literal [q]. *)
Definition flit (q : Q) : float :=
  (of_Z (Qnum q) / of_Z (Zpos (Qden q)))%float.

Definition signed (s : bool) (m : positive) : Z :=
  if s then Zneg m else Zpos m.

Definition ffloor (x : float) : float :=
  match Prim2SF x with
  | S754_finite s m e =>
      if (0 <=? e)%Z then x else of_Z (Z.shiftr (signed s m) (- e))
  | _ => x
  end.

Definition fround (x : float) : float :=
  match Prim2SF x with
  | S754_finite s m e =>
      if (0 <=? e)%Z then x
      else
        let k := Z.shiftr (2 * signed s m + 2 ^ (- e))%Z (1 - e) in
        if (k =? 0)%Z && s then neg_zero else of_Z k
  | _ => x
  end.

Definition frem (x y : float) : float :=
  match Prim2SF x, Prim2SF y with
  | S754_nan, _ | _, S754_nan => nan
  | S754_infinity _, _ => nan
  | _, S754_zero _ => nan
  | _, S754_infinity _ => x
  | S754_zero _, _ => x
  | S754_finite sx mx ex, S754_finite _ my ey =>
      let e := Z.min ex ey in
      let X := (Zpos mx * 2 ^ (ex - e))%Z in
      let Y := (Zpos my * 2 ^ (ey - e))%Z in
      let r := Z.ldexp (of_Z (X mod Y)) e in
      if sx then (- r)%float else r
  end.

Fixpoint fpow (x : float) (n : nat) : float :=
  match n with
  | O => one
  | S O => x
  | S k => (fpow x k * x)%float
  end.

#[global] Instance float_number : JSNumber num := {|
  lit := flit;
  NaN := nan;
  add := PrimFloat.add;
  sub := PrimFloat.sub;
  mul := PrimFloat.mul;
  div := PrimFloat.div;
  rem := frem;
  lt := PrimFloat.ltb;
  le := PrimFloat.leb;
  strict_eq := PrimFloat.eqb;
  isNaN := PrimFloat.is_nan;
  Math_round := fround;
  Math_floor := ffloor;
  Math_pow := fpow
|}.

End Float64.

(* ===================================================================== *)
(** ** models.ts: metric catalogues and the v4 tables *)

Module BaseMetric.
Definition ATTACK_VECTOR := "AV".
Definition ATTACK_COMPLEXITY := "AC".
Definition PRIVILEGES_REQUIRED := "PR".
Definition USER_INTERACTION := "UI".
Definition SCOPE := "S".
Definition CONFIDENTIALITY := "C".
Definition INTEGRITY := "I".
Definition AVAILABILITY := "A".
End BaseMetric.

Module TemporalMetric.
Definition EXPLOIT_CODE_MATURITY := "E".
Definition REMEDIATION_LEVEL := "RL".
Definition REPORT_CONFIDENCE := "RC".
End TemporalMetric.

Module EnvironmentalMetric.
Definition CONFIDENTIALITY_REQUIREMENT := "CR".
Definition INTEGRITY_REQUIREMENT := "IR".
Definition AVAILABILITY_REQUIREMENT := "AR".
Definition MODIFIED_ATTACK_VECTOR := "MAV".
Definition MODIFIED_ATTACK_COMPLEXITY := "MAC".
Definition MODIFIED_PRIVILEGES_REQUIRED := "MPR".
Definition MODIFIED_USER_INTERACTION := "MUI".
Definition MODIFIED_SCOPE := "MS".
Definition MODIFIED_CONFIDENTIALITY := "MC".
Definition MODIFIED_INTEGRITY := "MI".
Definition MODIFIED_AVAILABILITY := "MA".
End EnvironmentalMetric.

Definition baseMetrics : list string :=
  [ BaseMetric.ATTACK_VECTOR; BaseMetric.ATTACK_COMPLEXITY;
    BaseMetric.PRIVILEGES_REQUIRED; BaseMetric.USER_INTERACTION;
    BaseMetric.SCOPE; BaseMetric.CONFIDENTIALITY; BaseMetric.INTEGRITY;
    BaseMetric.AVAILABILITY ].

Definition temporalMetrics : list string :=
  [ TemporalMetric.EXPLOIT_CODE_MATURITY; TemporalMetric.REMEDIATION_LEVEL;
    TemporalMetric.REPORT_CONFIDENCE ].

Definition environmentalMetrics : list string :=
  [ EnvironmentalMetric.AVAILABILITY_REQUIREMENT;
    EnvironmentalMetric.CONFIDENTIALITY_REQUIREMENT;
    EnvironmentalMetric.INTEGRITY_REQUIREMENT;
    EnvironmentalMetric.MODIFIED_ATTACK_VECTOR;
    EnvironmentalMetric.MODIFIED_ATTACK_COMPLEXITY;
    EnvironmentalMetric.MODIFIED_PRIVILEGES_REQUIRED;
    EnvironmentalMetric.MODIFIED_USER_INTERACTION;
    EnvironmentalMetric.MODIFIED_SCOPE;
    EnvironmentalMetric.MODIFIED_CONFIDENTIALITY;
    EnvironmentalMetric.MODIFIED_INTEGRITY;
    EnvironmentalMetric.MODIFIED_AVAILABILITY ].

Definition baseMetricValues : list (string * list string) :=
  [ (BaseMetric.ATTACK_VECTOR, ["N"; "A"; "L"; "P"]);
    (BaseMetric.ATTACK_COMPLEXITY, ["L"; "H"]);
    (BaseMetric.PRIVILEGES_REQUIRED, ["N"; "L"; "H"]);
    (BaseMetric.USER_INTERACTION, ["N"; "R"]);
    (BaseMetric.SCOPE, ["U"; "C"]);
    (BaseMetric.CONFIDENTIALITY, ["N"; "L"; "H"]);
    (BaseMetric.INTEGRITY, ["N"; "L"; "H"]);
    (BaseMetric.AVAILABILITY, ["N"; "L"; "H"]) ].

Definition temporalMetricValues : list (string * list string) :=
  [ (TemporalMetric.EXPLOIT_CODE_MATURITY, ["X"; "H"; "F"; "P"; "U"]);
    (TemporalMetric.REMEDIATION_LEVEL, ["X"; "U"; "W"; "T"; "O"]);
    (TemporalMetric.REPORT_CONFIDENCE, ["X"; "C"; "R"; "U"]) ].

Definition environmentalMetricValues : list (string * list string) :=
  [ (EnvironmentalMetric.CONFIDENTIALITY_REQUIREMENT, ["X"; "H"; "M"; "L"]);
    (EnvironmentalMetric.INTEGRITY_REQUIREMENT, ["X"; "H"; "M"; "L"]);
    (EnvironmentalMetric.AVAILABILITY_REQUIREMENT, ["X"; "H"; "M"; "L"]);
    (EnvironmentalMetric.MODIFIED_ATTACK_VECTOR, ["X"; "N"; "A"; "L"; "P"]);
    (EnvironmentalMetric.MODIFIED_ATTACK_COMPLEXITY, ["X"; "L"; "H"]);
    (EnvironmentalMetric.MODIFIED_PRIVILEGES_REQUIRED, ["X"; "N"; "L"; "H"]);
    (EnvironmentalMetric.MODIFIED_USER_INTERACTION, ["X"; "N"; "R"]);
    (EnvironmentalMetric.MODIFIED_SCOPE, ["X"; "U"; "C"]);
    (EnvironmentalMetric.MODIFIED_CONFIDENTIALITY, ["X"; "N"; "L"; "H"]);
    (EnvironmentalMetric.MODIFIED_INTEGRITY, ["X"; "N"; "L"; "H"]);
    (EnvironmentalMetric.MODIFIED_AVAILABILITY, ["X"; "N"; "L"; "H"]) ].

(** CVSS v4.0 metrics ordering and valid values. *)
Definition expectedMetricOrder : list (string * list string) :=
  [ ("AV", ["N"; "A"; "L"; "P"]);
    ("AC", ["L"; "H"]);
    ("AT", ["N"; "P"]);
    ("PR", ["N"; "L"; "H"]);
    ("UI", ["N"; "P"; "A"]);
    ("VC", ["H"; "L"; "N"]);
    ("VI", ["H"; "L"; "N"]);
    ("VA", ["H"; "L"; "N"]);
    ("SC", ["H"; "L"; "N"]);
    ("SI", ["H"; "L"; "N"]);
    ("SA", ["H"; "L"; "N"]);
    ("E", ["X"; "A"; "P"; "U"]);
    ("CR", ["X"; "H"; "M"; "L"]);
    ("IR", ["X"; "H"; "M"; "L"]);
    ("AR", ["X"; "H"; "M"; "L"]);
    ("MAV", ["X"; "N"; "A"; "L"; "P"]);
    ("MAC", ["X"; "L"; "H"]);
    ("MAT", ["X"; "N"; "P"]);
    ("MPR", ["X"; "N"; "L"; "H"]);
    ("MUI", ["X"; "N"; "P"; "A"]);
    ("MVC", ["X"; "H"; "L"; "N"]);
    ("MVI", ["X"; "H"; "L"; "N"]);
    ("MVA", ["X"; "H"; "L"; "N"]);
    ("MSC", ["X"; "H"; "L"; "N"]);
    ("MSI", ["X"; "S"; "H"; "L"; "N"]);
    ("MSA", ["X"; "S"; "H"; "L"; "N"]);
    ("S", ["X"; "N"; "P"]);
    ("AU", ["X"; "N"; "Y"]);
    ("R", ["X"; "A"; "U"; "I"]);
    ("V", ["X"; "D"; "C"]);
    ("RE", ["X"; "L"; "M"; "H"]);
    ("U", ["X"; "Clear"; "Green"; "Amber"; "Red"]) ].

(** Max severity distances in EQs MacroVectors (+1).  The keys are the
    class digits. *)
Record MaxSeverityData : Type := {
  msd_eq1 : list (nat * Q);
  msd_eq2 : list (nat * Q);
  msd_eq3eq6 : list (nat * list (nat * Q));
  msd_eq4 : list (nat * Q);
  msd_eq5 : list (nat * Q)
}.

Definition maxSeverityV4 : MaxSeverityData := {|
  msd_eq1 := [(0, 1%Q); (1, 4%Q); (2, 5%Q)];
  msd_eq2 := [(0, 1%Q); (1, 2%Q)];
  msd_eq3eq6 := [ (0, [(0, 7%Q); (1, 6%Q)]);
                  (1, [(0, 8%Q); (1, 8%Q)]);
                  (2, [(1, 10%Q)]) ];
  msd_eq4 := [(0, 6%Q); (1, 5%Q); (2, 4%Q)];
  msd_eq5 := [(0, 1%Q); (1, 1%Q); (2, 1%Q)]
|}.

(** The 270 MacroVector scores. *)
Definition cvssLookup_globalV4 : list (string * Q) :=
  [
    ("000000", 10); ("000001", 9.9); ("000010", 9.8); ("000011", 9.5);
    ("000020", 9.5); ("000021", 9.2); ("000100", 10); ("000101", 9.6);
    ("000110", 9.3); ("000111", 8.7); ("000120", 9.1); ("000121", 8.1);
    ("000200", 9.3); ("000201", 9); ("000210", 8.9); ("000211", 8);
    ("000220", 8.1); ("000221", 6.8); ("001000", 9.8); ("001001", 9.5);
    ("001010", 9.5); ("001011", 9.2); ("001020", 9); ("001021", 8.4);
    ("001100", 9.3); ("001101", 9.2); ("001110", 8.9); ("001111", 8.1);
    ("001120", 8.1); ("001121", 6.5); ("001200", 8.8); ("001201", 8);
    ("001210", 7.8); ("001211", 7); ("001220", 6.9); ("001221", 4.8);
    ("002001", 9.2); ("002011", 8.2); ("002021", 7.2); ("002101", 7.9);
    ("002111", 6.9); ("002121", 5); ("002201", 6.9); ("002211", 5.5);
    ("002221", 2.7); ("010000", 9.9); ("010001", 9.7); ("010010", 9.5);
    ("010011", 9.2); ("010020", 9.2); ("010021", 8.5); ("010100", 9.5);
    ("010101", 9.1); ("010110", 9); ("010111", 8.3); ("010120", 8.4);
    ("010121", 7.1); ("010200", 9.2); ("010201", 8.1); ("010210", 8.2);
    ("010211", 7.1); ("010220", 7.2); ("010221", 5.3); ("011000", 9.5);
    ("011001", 9.3); ("011010", 9.2); ("011011", 8.5); ("011020", 8.5);
    ("011021", 7.3); ("011100", 9.2); ("011101", 8.2); ("011110", 8);
    ("011111", 7.2); ("011120", 7); ("011121", 5.9); ("011200", 8.4);
    ("011201", 7); ("011210", 7.1); ("011211", 5.2); ("011220", 5);
    ("011221", 3); ("012001", 8.6); ("012011", 7.5); ("012021", 5.2);
    ("012101", 7.1); ("012111", 5.2); ("012121", 2.9); ("012201", 6.3);
    ("012211", 2.9); ("012221", 1.7); ("100000", 9.8); ("100001", 9.5);
    ("100010", 9.4); ("100011", 8.7); ("100020", 9.1); ("100021", 8.1);
    ("100100", 9.4); ("100101", 8.9); ("100110", 8.6); ("100111", 7.4);
    ("100120", 7.7); ("100121", 6.4); ("100200", 8.7); ("100201", 7.5);
    ("100210", 7.4); ("100211", 6.3); ("100220", 6.3); ("100221", 4.9);
    ("101000", 9.4); ("101001", 8.9); ("101010", 8.8); ("101011", 7.7);
    ("101020", 7.6); ("101021", 6.7); ("101100", 8.6); ("101101", 7.6);
    ("101110", 7.4); ("101111", 5.8); ("101120", 5.9); ("101121", 5);
    ("101200", 7.2); ("101201", 5.7); ("101210", 5.7); ("101211", 5.2);
    ("101220", 5.2); ("101221", 2.5); ("102001", 8.3); ("102011", 7);
    ("102021", 5.4); ("102101", 6.5); ("102111", 5.8); ("102121", 2.6);
    ("102201", 5.3); ("102211", 2.1); ("102221", 1.3); ("110000", 9.5);
    ("110001", 9); ("110010", 8.8); ("110011", 7.6); ("110020", 7.6);
    ("110021", 7); ("110100", 9); ("110101", 7.7); ("110110", 7.5);
    ("110111", 6.2); ("110120", 6.1); ("110121", 5.3); ("110200", 7.7);
    ("110201", 6.6); ("110210", 6.8); ("110211", 5.9); ("110220", 5.2);
    ("110221", 3); ("111000", 8.9); ("111001", 7.8); ("111010", 7.6);
    ("111011", 6.7); ("111020", 6.2); ("111021", 5.8); ("111100", 7.4);
    ("111101", 5.9); ("111110", 5.7); ("111111", 5.7); ("111120", 4.7);
    ("111121", 2.3); ("111200", 6.1); ("111201", 5.2); ("111210", 5.7);
    ("111211", 2.9); ("111220", 2.4); ("111221", 1.6); ("112001", 7.1);
    ("112011", 5.9); ("112021", 3); ("112101", 5.8); ("112111", 2.6);
    ("112121", 1.5); ("112201", 2.3); ("112211", 1.3); ("112221", 0.6);
    ("200000", 9.3); ("200001", 8.7); ("200010", 8.6); ("200011", 7.2);
    ("200020", 7.5); ("200021", 5.8); ("200100", 8.6); ("200101", 7.4);
    ("200110", 7.4); ("200111", 6.1); ("200120", 5.6); ("200121", 3.4);
    ("200200", 7); ("200201", 5.4); ("200210", 5.2); ("200211", 4);
    ("200220", 4); ("200221", 2.2); ("201000", 8.5); ("201001", 7.5);
    ("201010", 7.4); ("201011", 5.5); ("201020", 6.2); ("201021", 5.1);
    ("201100", 7.2); ("201101", 5.7); ("201110", 5.5); ("201111", 4.1);
    ("201120", 4.6); ("201121", 1.9); ("201200", 5.3); ("201201", 3.6);
    ("201210", 3.4); ("201211", 1.9); ("201220", 1.9); ("201221", 0.8);
    ("202001", 6.4); ("202011", 5.1); ("202021", 2); ("202101", 4.7);
    ("202111", 2.1); ("202121", 1.1); ("202201", 2.4); ("202211", 0.9);
    ("202221", 0.4); ("210000", 8.8); ("210001", 7.5); ("210010", 7.3);
    ("210011", 5.3); ("210020", 6); ("210021", 5); ("210100", 7.3);
    ("210101", 5.5); ("210110", 5.9); ("210111", 4); ("210120", 4.1);
    ("210121", 2); ("210200", 5.4); ("210201", 4.3); ("210210", 4.5);
    ("210211", 2.2); ("210220", 2); ("210221", 1.1); ("211000", 7.5);
    ("211001", 5.5); ("211010", 5.8); ("211011", 4.5); ("211020", 4);
    ("211021", 2.1); ("211100", 6.1); ("211101", 5.1); ("211110", 4.8);
    ("211111", 1.8); ("211120", 2); ("211121", 0.9); ("211200", 4.6);
    ("211201", 1.8); ("211210", 1.7); ("211211", 0.7); ("211220", 0.8);
    ("211221", 0.2); ("212001", 5.3); ("212011", 2.4); ("212021", 1.4);
    ("212101", 2.4); ("212111", 1.2); ("212121", 0.5); ("212201", 1);
    ("212211", 0.3); ("212221", 0.1)
  ]%Q.

(** The maximal vectors of each equivalence class; EQ3 is indexed by the
    EQ3 digit and then by the EQ6 digit. *)
Inductive eqmaxes : Type :=
| Vectors (vs : list string)
| ByEq6 (d : list (string * list string)).

Definition maxComposed : list (string * list (string * eqmaxes)) :=
  [ ("eq1",
     [ ("0", Vectors ["AV:N/PR:N/UI:N/"]);
       ("1", Vectors ["AV:A/PR:N/UI:N/"; "AV:N/PR:L/UI:N/"; "AV:N/PR:N/UI:P/"]);
       ("2", Vectors ["AV:P/PR:N/UI:N/"; "AV:A/PR:L/UI:P/"]) ]);
    ("eq2",
     [ ("0", Vectors ["AC:L/AT:N/"]);
       ("1", Vectors ["AC:H/AT:N/"; "AC:L/AT:P/"]) ]);
    ("eq3",
     [ ("0", ByEq6
          [ ("0", ["VC:H/VI:H/VA:H/CR:H/IR:H/AR:H/"]);
            ("1", ["VC:H/VI:H/VA:L/CR:M/IR:M/AR:H/";
                   "VC:H/VI:H/VA:H/CR:M/IR:M/AR:M/"]) ]);
       ("1", ByEq6
          [ ("0", ["VC:L/VI:H/VA:H/CR:H/IR:H/AR:H/";
                   "VC:H/VI:L/VA:H/CR:H/IR:H/AR:H/"]);
            ("1", ["VC:L/VI:H/VA:L/CR:H/IR:M/AR:H/";
                   "VC:L/VI:H/VA:H/CR:H/IR:M/AR:M/";
                   "VC:H/VI:L/VA:H/CR:M/IR:H/AR:M/";
                   "VC:H/VI:L/VA:L/CR:M/IR:H/AR:H/";
                   "VC:L/VI:L/VA:H/CR:H/IR:H/AR:M/"]) ]);
       ("2", ByEq6
          [ ("1", ["VC:L/VI:L/VA:L/CR:H/IR:H/AR:H/"]) ]) ]);
    ("eq4",
     [ ("0", Vectors ["SC:H/SI:S/SA:S/"]);
       ("1", Vectors ["SC:H/SI:H/SA:H/"]);
       ("2", Vectors ["SC:L/SI:L/SA:L/"]) ]);
    ("eq5",
     [ ("0", Vectors ["E:A/"]);
       ("1", Vectors ["E:P/"]);
       ("2", Vectors ["E:U/"]) ]) ].

(* ===================================================================== *)
(** ** The v4 vector validator

    [validateVectorV4] is defined twice in the sources, in [validator.ts] and
    in [score-calculator.ts]; the two bodies are the same text, so a single
    definition stands for both. *)

Inductive v4error : Type :=
| InvalidVectorPrefix
| RepeatedMetric (key : string)
| MetricOutOfSequence (key : string)
| UnexpectedMetric (key : string)
| ValueNotAllowed (key : string) (value : option string)
| MissingMandatoryMetrics (missing : list string).

(** The returned object [{ valid, error?, selectedMetrics? }]. *)
Inductive v4validation : Type :=
| Valid (selectedMetrics : list (string * string))
| Invalid (error : v4error).

Definition valid (r : v4validation) : bool :=
  match r with Valid _ => true | Invalid _ => false end.

(** [const [key, value] = metric.split(":")]. *)
Definition split_metric (metric : string) : string * option string :=
  match JS.split ":" metric with
  | [] => (EmptyString, None)
  | [k] => (k, None)
  | k :: v :: _ => (k, Some v)
  end.

Definition mandatoryMetrics : list string :=
  ["AV"; "AC"; "AT"; "PR"; "UI"; "VC"; "VI"; "VA"; "SC"; "SI"; "SA"].

(** [while (expectedIndex < expectedEntries.length
           && expectedEntries[expectedIndex][0] !== key) expectedIndex++],
    where [entries] is the part of [expectedEntries] from [expectedIndex] on. *)
Fixpoint advance (key : string) (entries : list (string * list string))
  (expectedIndex : nat) : nat :=
  match entries with
  | [] => expectedIndex
  | entry :: rest =>
      if String.eqb (fst entry) key then expectedIndex
      else advance key rest (S expectedIndex)
  end.

Section ValidateV4.

Variable expectedEntries : list (string * list string).

(** The body of [for (const metric of metrics)]. *)
Fixpoint validate_metrics (metrics : list string) (expectedIndex : nat)
  (toSelect : list (string * string)) : v4validation :=
  match metrics with
  | [] => Valid toSelect
  | metric :: rest =>
      let '(key, value) := split_metric metric in
      let expectedEntry :=
        find (fun entry => String.eqb (fst entry) key) expectedEntries in
      if JS.key_in key toSelect then Invalid (RepeatedMetric key)
      else
        let expectedIndex :=
          advance key (skipn expectedIndex expectedEntries) expectedIndex in
        if Nat.leb (length expectedEntries) expectedIndex
        then Invalid (MetricOutOfSequence key)
        else
          match expectedEntry with
          | None => Invalid (UnexpectedMetric key)
          | Some entry =>
              match value with
              | Some v =>
                  if JS.arr_includes (snd entry) v
                  then validate_metrics rest expectedIndex (JS.set toSelect key v)
                  else Invalid (ValueNotAllowed key value)
              | None => Invalid (ValueNotAllowed key value)
              end
          end
  end.

End ValidateV4.

Definition validateVectorV4 (vectorString : string) : v4validation :=
  let metrics :=
    if JS.truthy vectorString then JS.split "/" vectorString else [] in
  match metrics with
  | prefix :: metrics =>
      if negb (String.eqb prefix "CVSS:4.0") then Invalid InvalidVectorPrefix
      else
        match validate_metrics expectedMetricOrder metrics 0 [] with
        | Invalid e => Invalid e
        | Valid toSelect =>
            let missingMandatoryMetrics :=
              filter (fun metric => negb (JS.key_in metric toSelect))
                     mandatoryMetrics in
            if Nat.ltb 0 (length missingMandatoryMetrics)
            then Invalid (MissingMandatoryMetrics missingMandatoryMetrics)
            else Valid toSelect
        end
  | [] => Invalid InvalidVectorPrefix
  end.

(* ===================================================================== *)
(** ** parser.ts (not part of the sources under study) *)

(** The text before the first [sep], and the text after it when there is one. *)
Fixpoint cut (sep : ascii) (s : string) : string * option string :=
  match s with
  | EmptyString => (EmptyString, None)
  | String c rest =>
      if Ascii.eqb c sep then (EmptyString, Some rest)
      else let '(hd, tl) := cut sep rest in (String c hd, tl)
  end.

(** Modelled from the spec: [parseVersion] of the absent [parser.ts],
    "version tag extraction from the CVSS: prefix": the text between
    [CVSS:] and the first [/], [null] when the prefix is missing. *)
Definition parseVersion (cvssStr : string) : option string :=
  if JS.startsWith cvssStr "CVSS:" then Some (JS.slice 5 (fst (cut "/" cvssStr)))
  else None.

(** Modelled from the spec: [parseVector] of the absent [parser.ts], the
    [<KEY>:<VALUE>(/<KEY>:<VALUE>)*] part of the wire format, that is the text
    after the first [/]; [null] when there is none. *)
Definition parseVector (cvssStr : string) : option string :=
  if JS.startsWith cvssStr "CVSS:" then snd (cut "/" cvssStr) else None.

(** Errors thrown by the v3.x path and by the dispatchers. *)
Inductive error : Type :=
| MustStartWithCVSS
| InvalidCVSSString
| UnsupportedVersion (versionStr : string)
| DuplicatedMetric (key : string)
| MissingMandatoryMetric (metric : string)
| UnknownMetric (metric : string)
| InvalidMetricValue (metric value : string)
| UnknownScopeValue (value : string)
| UnknownPrivilegesRequiredValue (value : string)
| MissingMetric (metric : string)
| MissingMetricScore (metric : string)
| UnsupportedCvssVersion (versionPrefix : string)
| InvalidV4Vector (e : v4error)
| TypeError.

(** Modelled from the spec: [parseMetricsAsMap] of the absent [parser.ts],
    "tokenization into an ordered, duplicate-free sequence of (key, value)
    pairs": the segments between [/], each split at [:]; a repeated key is a
    [DuplicateMetricError].  A segment without [:] gets the empty value. *)
Fixpoint tokenize (segments : list string) (acc : list (string * string))
  : result error (list (string * string)) :=
  match segments with
  | [] => Ok acc
  | seg :: rest =>
      let '(key, value) := split_metric seg in
      if JS.has acc key then Throw (DuplicatedMetric key)
      else tokenize rest (JS.set acc key (match value with Some v => v | None => EmptyString end))
  end.

Definition parseMetricsAsMap (cvssStr : string)
  : result error (list (string * string)) :=
  match parseVector cvssStr with
  | Some vectorStr =>
      if JS.truthy vectorStr then tokenize (JS.split "/" vectorStr) [] else Ok []
  | None => Ok []
  end.

(* ===================================================================== *)
(** ** validator.ts *)

Definition validateVersion (versionStr : option string) : result error unit :=
  match versionStr with
  | None => Throw InvalidCVSSString
  | Some v =>
      if negb (JS.truthy v) then Throw InvalidCVSSString
      else if negb (String.eqb v "3.0") && negb (String.eqb v "3.1")
              && negb (String.eqb v "4.0")
      then Throw (UnsupportedVersion v)
      else Ok tt
  end.

Definition validateVector (vectorStr : option string) : result error unit :=
  match vectorStr with
  | None => Throw InvalidCVSSString
  | Some v =>
      if negb (JS.truthy v) || JS.includes "//" v then Throw InvalidCVSSString
      else Ok tt
  end.

(** [{...a, ...b}]. *)
Definition spread {A} (a b : list (string * A)) : list (string * A) :=
  fold_left (fun d kv => JS.set d (fst kv) (snd kv)) b a.

Fixpoint checkUnknownMetrics_loop (userMetrics allKnownMetrics : list string)
  : result error unit :=
  match userMetrics with
  | [] => Ok tt
  | userMetric :: rest =>
      if negb (JS.arr_includes allKnownMetrics userMetric)
      then Throw (UnknownMetric userMetric)
      else checkUnknownMetrics_loop rest allKnownMetrics
  end.

Definition checkUnknownMetrics (metricsMap : list (string * string))
  (knownMetrics : option (list string)) : result error unit :=
  let allKnownMetrics :=
    match knownMetrics with
    | Some l => l
    | None => baseMetrics ++ temporalMetrics ++ environmentalMetrics
    end in
  checkUnknownMetrics_loop (JS.keys metricsMap) allKnownMetrics.

Fixpoint checkMandatoryMetrics_loop (metricsMap : list (string * string))
  (metrics : list string) : result error unit :=
  match metrics with
  | [] => Ok tt
  | metric :: rest =>
      if negb (JS.has metricsMap metric) then Throw (MissingMandatoryMetric metric)
      else checkMandatoryMetrics_loop metricsMap rest
  end.

(** The second parameter defaults to [baseMetrics]. *)
Definition checkMandatoryMetrics (metricsMap : list (string * string))
  : result error unit :=
  checkMandatoryMetrics_loop metricsMap baseMetrics.

Fixpoint checkMetricsValues (metricsMap : list (string * string))
  (metrics : list string) (metricsValues : list (string * list string))
  : result error unit :=
  match metrics with
  | [] => Ok tt
  | metric :: rest =>
      match JS.get metricsMap metric with
      | None => checkMetricsValues metricsMap rest metricsValues
      | Some userValue =>
          if negb (JS.truthy userValue)
          then checkMetricsValues metricsMap rest metricsValues
          else
            match JS.get metricsValues metric with
            | None => Throw TypeError
            | Some allowed =>
                if negb (JS.arr_includes allowed userValue)
                then Throw (InvalidMetricValue metric userValue)
                else checkMetricsValues metricsMap rest metricsValues
            end
      end
  end.

Record ValidationResult : Type := {
  isTemporal : bool;
  isEnvironmental : bool;
  metricsMap : list (string * string);
  versionStr : option string
}.

Definition validate (cvssStr : string) : result error ValidationResult :=
  if negb (JS.truthy cvssStr) || negb (JS.startsWith cvssStr "CVSS:")
  then Throw MustStartWithCVSS
  else
    (* the result of the v4 validator is not looked at *)
    let _ := if JS.startsWith cvssStr "CVSS:4"
             then Some (validateVectorV4 cvssStr) else None in
    let allKnownMetrics := baseMetrics ++ temporalMetrics ++ environmentalMetrics in
    let allKnownMetricsValues :=
      spread (spread baseMetricValues temporalMetricValues)
             environmentalMetricValues in
    let versionStr := parseVersion cvssStr in
    validateVersion versionStr ;;;
    let vectorStr := parseVector cvssStr in
    validateVector vectorStr ;;;
    metricsMap <- parseMetricsAsMap cvssStr ;;
    checkMandatoryMetrics metricsMap ;;;
    checkUnknownMetrics metricsMap (Some allKnownMetrics) ;;;
    checkMetricsValues metricsMap allKnownMetrics allKnownMetricsValues ;;;
    let isTemporal :=
      existsb (fun metric => JS.arr_includes temporalMetrics metric)
              (JS.keys metricsMap) in
    let isEnvironmental :=
      existsb (fun metric => JS.arr_includes environmentalMetrics metric)
              (JS.keys metricsMap) in
    Ok {| metricsMap := metricsMap;
          isTemporal := isTemporal;
          isEnvironmental := isEnvironmental;
          versionStr := versionStr |}.

(* ===================================================================== *)
(** ** score-calculator.ts: the v3.x formula engine *)

Definition detectCvssVersion (cvssString : string) : result error string :=
  let versionPrefix := hd EmptyString (JS.split "/" cvssString) in
  if JS.startsWith versionPrefix "CVSS:4.0" then Ok "4.0"
  else if JS.startsWith versionPrefix "CVSS:3." then Ok "3.1"
  else Throw (UnsupportedCvssVersion versionPrefix).

(** [obj[k]] where a missing entry and a [null] entry are both falsy. *)
Definition field {A} (d : list (string * option A)) (k : string) : option A :=
  match JS.get d k with Some v => v | None => None end.

Section V3.

Context {num : Type} `{JSNumber num}.
Local Open Scope js_scope.

Definition scores (l : list (string * Q)) : list (string * num) :=
  map (fun kv => (fst kv, lit (snd kv))) l.

Definition baseMetricValueScores : list (string * option (list (string * num))) :=
  [ (BaseMetric.ATTACK_VECTOR,
     Some (scores [("N", 0.85); ("A", 0.62); ("L", 0.55); ("P", 0.2)]%Q));
    (BaseMetric.ATTACK_COMPLEXITY, Some (scores [("L", 0.77); ("H", 0.44)]%Q));
    (BaseMetric.PRIVILEGES_REQUIRED, None);
    (BaseMetric.USER_INTERACTION, Some (scores [("N", 0.85); ("R", 0.62)]%Q));
    (BaseMetric.SCOPE, Some (scores [("U", 0); ("C", 0)]%Q));
    (BaseMetric.CONFIDENTIALITY,
     Some (scores [("N", 0); ("L", 0.22); ("H", 0.56)]%Q));
    (BaseMetric.INTEGRITY, Some (scores [("N", 0); ("L", 0.22); ("H", 0.56)]%Q));
    (BaseMetric.AVAILABILITY,
     Some (scores [("N", 0); ("L", 0.22); ("H", 0.56)]%Q)) ].

Definition temporalMetricValueScores
  : list (string * option (list (string * num))) :=
  [ (TemporalMetric.EXPLOIT_CODE_MATURITY,
     Some (scores [("X", 1); ("U", 0.91); ("F", 0.97); ("P", 0.94); ("H", 1)]%Q));
    (TemporalMetric.REMEDIATION_LEVEL,
     Some (scores [("X", 1); ("O", 0.95); ("T", 0.96); ("W", 0.97); ("U", 1)]%Q));
    (TemporalMetric.REPORT_CONFIDENCE,
     Some (scores [("X", 1); ("U", 0.92); ("R", 0.96); ("C", 1)]%Q)) ].

Definition environmentalMetricValueScores
  : list (string * option (list (string * num))) :=
  [ (EnvironmentalMetric.CONFIDENTIALITY_REQUIREMENT,
     Some (scores [("M", 1); ("L", 0.5); ("H", 1.5); ("X", 1)]%Q));
    (EnvironmentalMetric.INTEGRITY_REQUIREMENT,
     Some (scores [("M", 1); ("L", 0.5); ("H", 1.5); ("X", 1)]%Q));
    (EnvironmentalMetric.AVAILABILITY_REQUIREMENT,
     Some (scores [("M", 1); ("L", 0.5); ("H", 1.5); ("X", 1)]%Q));
    (EnvironmentalMetric.MODIFIED_ATTACK_VECTOR,
     field baseMetricValueScores BaseMetric.ATTACK_VECTOR);
    (EnvironmentalMetric.MODIFIED_ATTACK_COMPLEXITY,
     field baseMetricValueScores BaseMetric.ATTACK_COMPLEXITY);
    (EnvironmentalMetric.MODIFIED_PRIVILEGES_REQUIRED, None);
    (EnvironmentalMetric.MODIFIED_USER_INTERACTION,
     field baseMetricValueScores BaseMetric.USER_INTERACTION);
    (EnvironmentalMetric.MODIFIED_SCOPE,
     field baseMetricValueScores BaseMetric.SCOPE);
    (EnvironmentalMetric.MODIFIED_CONFIDENTIALITY,
     field baseMetricValueScores BaseMetric.CONFIDENTIALITY);
    (EnvironmentalMetric.MODIFIED_INTEGRITY,
     field baseMetricValueScores BaseMetric.INTEGRITY);
    (EnvironmentalMetric.MODIFIED_AVAILABILITY,
     field baseMetricValueScores BaseMetric.AVAILABILITY) ].

Definition getPrivilegesRequiredNumericValue (value scopeValue : string)
  : result error num :=
  if negb (String.eqb scopeValue "U") && negb (String.eqb scopeValue "C")
     && negb (String.eqb scopeValue "X")
  then Throw (UnknownScopeValue scopeValue)
  else if String.eqb value "N" then Ok (lit 0.85)
  else if String.eqb value "L"
       then Ok (if String.eqb scopeValue "U" then lit 0.62 else lit 0.68)
  else if String.eqb value "H"
       then Ok (if String.eqb scopeValue "U" then lit 0.27 else lit 0.5)
  else Throw (UnknownPrivilegesRequiredValue value).

Definition getMetricValue (metric : string) (metricsMap : list (string * string))
  : result error string :=
  match JS.get metricsMap metric with
  | None => Throw (MissingMetric metric)
  | Some v => Ok v
  end.

Definition getMetricNumericValue (metric : string)
  (metricsMap : list (string * string)) : result error num :=
  value <- getMetricValue metric metricsMap ;;
  if String.eqb metric BaseMetric.PRIVILEGES_REQUIRED then
    scopeValue <- getMetricValue BaseMetric.SCOPE metricsMap ;;
    getPrivilegesRequiredNumericValue value scopeValue
  else if String.eqb metric EnvironmentalMetric.MODIFIED_PRIVILEGES_REQUIRED then
    scopeValue <- getMetricValue EnvironmentalMetric.MODIFIED_SCOPE metricsMap ;;
    getPrivilegesRequiredNumericValue value scopeValue
  else
    match field (spread (spread baseMetricValueScores temporalMetricValueScores)
                        environmentalMetricValueScores) metric with
    | None => Throw (MissingMetricScore metric)
    | Some score => Ok (toNumber (JS.get score value))
    end.

(** ISS = 1 - [ (1 - Confidentiality) x (1 - Integrity) x (1 - Availability) ] *)
Definition calculateIss (metricsMap : list (string * string)) : result error num :=
  confidentiality <- getMetricNumericValue BaseMetric.CONFIDENTIALITY metricsMap ;;
  integrity <- getMetricNumericValue BaseMetric.INTEGRITY metricsMap ;;
  availability <- getMetricNumericValue BaseMetric.AVAILABILITY metricsMap ;;
  Ok (lit 1 - (lit 1 - confidentiality) * (lit 1 - integrity)
            * (lit 1 - availability)).

Definition calculateMiss (metricsMap : list (string * string)) : result error num :=
  rConfidentiality <-
    getMetricNumericValue EnvironmentalMetric.CONFIDENTIALITY_REQUIREMENT metricsMap ;;
  mConfidentiality <-
    getMetricNumericValue EnvironmentalMetric.MODIFIED_CONFIDENTIALITY metricsMap ;;
  rIntegrity <-
    getMetricNumericValue EnvironmentalMetric.INTEGRITY_REQUIREMENT metricsMap ;;
  mIntegrity <-
    getMetricNumericValue EnvironmentalMetric.MODIFIED_INTEGRITY metricsMap ;;
  rAvailability <-
    getMetricNumericValue EnvironmentalMetric.AVAILABILITY_REQUIREMENT metricsMap ;;
  mAvailability <-
    getMetricNumericValue EnvironmentalMetric.MODIFIED_AVAILABILITY metricsMap ;;
  Ok (Math_min
        (lit 1 - (lit 1 - rConfidentiality * mConfidentiality)
                 * (lit 1 - rIntegrity * mIntegrity)
                 * (lit 1 - rAvailability * mAvailability))
        (lit 0.915)).

Definition calculateImpact (metricsMap : list (string * string)) (iss : num) : num :=
  if JS.eqs (JS.get metricsMap BaseMetric.SCOPE) "U"
  then lit 6.42 * iss
  else lit 7.52 * (iss - lit 0.029) - lit 3.25 * Math_pow (iss - lit 0.02) 15.

(** Note of the source: Math.pow is 15 in 3.0 but 13 in 3.1. *)
Definition calculateModifiedImpact (metricsMap : list (string * string))
  (miss : num) (versionStr : option string) : num :=
  if JS.eqs (JS.get metricsMap EnvironmentalMetric.MODIFIED_SCOPE) "U"
  then lit 6.42 * miss
  else lit 7.52 * (miss - lit 0.029)
       - lit 3.25
         * Math_pow
             (miss * (if JS.eqs versionStr "3.0" then lit 1 else lit 0.9731)
              - lit 0.02)
             (if JS.eqs versionStr "3.0" then 15%nat else 13%nat).

Definition calculateExploitability (metricsMap : list (string * string))
  : result error num :=
  av <- getMetricNumericValue BaseMetric.ATTACK_VECTOR metricsMap ;;
  ac <- getMetricNumericValue BaseMetric.ATTACK_COMPLEXITY metricsMap ;;
  pr <- getMetricNumericValue BaseMetric.PRIVILEGES_REQUIRED metricsMap ;;
  ui <- getMetricNumericValue BaseMetric.USER_INTERACTION metricsMap ;;
  Ok (lit 8.22 * av * ac * pr * ui).

Definition calculateModifiedExploitability (metricsMap : list (string * string))
  : result error num :=
  mav <- getMetricNumericValue EnvironmentalMetric.MODIFIED_ATTACK_VECTOR metricsMap ;;
  mac <- getMetricNumericValue EnvironmentalMetric.MODIFIED_ATTACK_COMPLEXITY metricsMap ;;
  mpr <- getMetricNumericValue EnvironmentalMetric.MODIFIED_PRIVILEGES_REQUIRED metricsMap ;;
  mui <- getMetricNumericValue EnvironmentalMetric.MODIFIED_USER_INTERACTION metricsMap ;;
  Ok (lit 8.22 * mav * mac * mpr * mui).

(** Appendix A, floating point rounding. *)
Definition roundUp (input : num) : num :=
  let intInput := Math_round (input * lit 100000) in
  if intInput mod lit 10000 === lit 0
  then intInput / lit 100000
  else (Math_floor (intInput / lit 10000) + lit 1) / lit 10.

Definition modifiedMetricsMap : list (string * string) :=
  [ ("MAV", BaseMetric.ATTACK_VECTOR);
    ("MAC", BaseMetric.ATTACK_COMPLEXITY);
    ("MPR", BaseMetric.PRIVILEGES_REQUIRED);
    ("MUI", BaseMetric.USER_INTERACTION);
    ("MS", BaseMetric.SCOPE);
    ("MC", BaseMetric.CONFIDENTIALITY);
    ("MI", BaseMetric.INTEGRITY);
    ("MA", BaseMetric.AVAILABILITY) ].

Definition populateTemporalMetricDefaults (metricsMap : list (string * string))
  : list (string * string) :=
  fold_left
    (fun metricsMap metric =>
       if negb (JS.has metricsMap metric) then JS.set metricsMap metric "X"
       else metricsMap)
    temporalMetrics metricsMap.

Definition populateEnvironmentalMetricDefaults (metricsMap : list (string * string))
  : list (string * string) :=
  fold_left
    (fun metricsMap metric =>
       let metricsMap :=
         if negb (JS.has metricsMap metric) then JS.set metricsMap metric "X"
         else metricsMap in
       if JS.eqs (JS.get metricsMap metric) "X"
       then JS.set metricsMap metric
              (match JS.get modifiedMetricsMap metric with
               | Some baseMetric =>
                   match JS.get metricsMap baseMetric with
                   | Some v => v
                   | None => "X"
                   end
               | None => "X"
               end)
       else metricsMap)
    environmentalMetrics metricsMap.

Record ScoreResult : Type := {
  score : num;
  impact : num;
  exploitability : num;
  sr_metricsMap : list (string * string)
}.

Definition calculateBaseResult (cvssString : string) : result error ScoreResult :=
  v <- validate cvssString ;;
  let metricsMap := metricsMap v in
  iss <- calculateIss metricsMap ;;
  let impact := calculateImpact metricsMap iss in
  exploitability <- calculateExploitability metricsMap ;;
  let scopeUnchanged := JS.eqs (JS.get metricsMap BaseMetric.SCOPE) "U" in
  let score :=
    if impact <=? lit 0 then lit 0
    else if scopeUnchanged
         then roundUp (Math_min (impact + exploitability) (lit 10))
         else roundUp (Math_min (lit 1.08 * (impact + exploitability)) (lit 10)) in
  Ok {| score := score;
        sr_metricsMap := metricsMap;
        impact := if impact <=? lit 0 then lit 0 else roundUp impact;
        exploitability :=
          if impact <=? lit 0 then lit 0 else roundUp exploitability |}.

Definition calculateEnvironmentalResult (cvssString : string)
  : result error ScoreResult :=
  validationResult <- validate cvssString ;;
  let versionStr := versionStr validationResult in
  let metricsMap := metricsMap validationResult in
  let metricsMap := populateTemporalMetricDefaults metricsMap in
  let metricsMap := populateEnvironmentalMetricDefaults metricsMap in
  miss <- calculateMiss metricsMap ;;
  let impact := calculateModifiedImpact metricsMap miss versionStr in
  exploitability <- calculateModifiedExploitability metricsMap ;;
  let scopeUnchanged :=
    JS.eqs (JS.get metricsMap EnvironmentalMetric.MODIFIED_SCOPE) "U" in
  score <-
    (if impact <=? lit 0 then Ok (lit 0)
     else
       e <- getMetricNumericValue TemporalMetric.EXPLOIT_CODE_MATURITY metricsMap ;;
       rl <- getMetricNumericValue TemporalMetric.REMEDIATION_LEVEL metricsMap ;;
       rc <- getMetricNumericValue TemporalMetric.REPORT_CONFIDENCE metricsMap ;;
       if scopeUnchanged
       then Ok (roundUp
                  (roundUp (Math_min (impact + exploitability) (lit 10))
                   * e * rl * rc))
       else Ok (roundUp
                  (roundUp (Math_min (lit 1.08 * (impact + exploitability)) (lit 10))
                   * e * rl * rc))) ;;
  Ok {| score := score;
        sr_metricsMap := metricsMap;
        impact := if impact <=? lit 0 then lit 0 else roundUp impact;
        exploitability :=
          if impact <=? lit 0 then lit 0 else roundUp exploitability |}.

Definition calculateEnvironmentalScore (cvssString : string) : result error num :=
  r <- calculateEnvironmentalResult cvssString ;;
  Ok (score r).

Definition calculateTemporalResult (cvssString : string) : result error ScoreResult :=
  v <- validate cvssString ;;
  let metricsMap := populateTemporalMetricDefaults (metricsMap v) in
  base <- calculateBaseResult cvssString ;;
  rc <- getMetricNumericValue TemporalMetric.REPORT_CONFIDENCE metricsMap ;;
  e <- getMetricNumericValue TemporalMetric.EXPLOIT_CODE_MATURITY metricsMap ;;
  rl <- getMetricNumericValue TemporalMetric.REMEDIATION_LEVEL metricsMap ;;
  let tempScore := roundUp (score base * rc * e * rl) in
  Ok {| score := tempScore;
        sr_metricsMap := metricsMap;
        impact := impact base;
        exploitability := exploitability base |}.

Definition calculateTemporalScore (cvssString : string) : result error num :=
  r <- calculateTemporalResult cvssString ;;
  Ok (score r).

End V3.

(* ===================================================================== *)
(** ** score-calculator.ts: the v4.0 MacroVector engine *)

(** [parseVectorV4]: the selected metrics, with the default [X] for [E],
    [CR], [IR] and [AR]. *)
Definition parseVectorV4 (vector : string) : list (string * option string) :=
  let metrics := tl (JS.split "/" vector) in
  let cvssSelected :=
    fold_left
      (fun cvssSelected metric =>
         let '(key, value) := split_metric metric in
         JS.set cvssSelected key value)
      metrics [] in
  let default key (cvssSelected : list (string * option string)) :=
    if negb (JS.key_in key cvssSelected) then JS.set cvssSelected key (Some "X")
    else cvssSelected in
  default "AR" (default "IR" (default "CR" (default "E" cvssSelected))).

Definition calculateQualScore {num} `{JSNumber num} (score : num) : string :=
  if (score === lit 0)%js then "None"
  else if (score <? lit 4.0)%js then "Low"
  else if (score <? lit 7.0)%js then "Medium"
  else if (score <? lit 9.0)%js then "High"
  else "Critical".

(** The effective value of a metric. *)
Definition m (cvssSelected : list (string * option string)) (metric : string)
  : option string :=
  let selected := field cvssSelected metric in
  (* If E=X it will default to the worst case i.e. E=A *)
  if String.eqb metric "E" && JS.eqs selected "X" then Some "A"
  (* If CR=X, IR=X or AR=X they will default to the worst case *)
  else if String.eqb metric "CR" && JS.eqs selected "X" then Some "H"
  else if String.eqb metric "IR" && JS.eqs selected "X" then Some "H"
  else if String.eqb metric "AR" && JS.eqs selected "X" then Some "H"
  (* All other environmental metrics just overwrite base score values *)
  else if JS.arr_includes (JS.keys cvssSelected) ("M" ++ metric)
          && negb (JS.eqs (field cvssSelected ("M" ++ metric)) "X")
       then field cvssSelected ("M" ++ metric)
  else selected.

(** Decimal rendering of a class digit inside a template string. *)
Definition show (n : nat) : string := NilEmpty.string_of_uint (Nat.to_uint n).

Definition template (eq1 eq2 eq3 eq4 eq5 eq6 : nat) : string :=
  show eq1 ++ show eq2 ++ show eq3 ++ show eq4 ++ show eq5 ++ show eq6.

Definition macroVector (cvssSelected : list (string * option string)) : string :=
  let mv metric value := JS.eqs (m cvssSelected metric) value in
  (* EQ1 *)
  let eq1 :=
    if mv "AV" "N" && mv "PR" "N" && mv "UI" "N" then 0
    else if (mv "AV" "N" || mv "PR" "N" || mv "UI" "N")
            && negb (mv "AV" "N" && mv "PR" "N" && mv "UI" "N")
            && negb (mv "AV" "P") then 1
    else if mv "AV" "P" || negb (mv "AV" "N" || mv "PR" "N" || mv "UI" "N") then 2
    else 0 in
  (* EQ2 *)
  let eq2 :=
    if mv "AC" "L" && mv "AT" "N" then 0
    else if negb (mv "AC" "L" && mv "AT" "N") then 1
    else 0 in
  (* EQ3 *)
  let eq3 :=
    if mv "VC" "H" && mv "VI" "H" then 0
    else if negb (mv "VC" "H" && mv "VI" "H")
            && (mv "VC" "H" || mv "VI" "H" || mv "VA" "H") then 1
    else if negb (mv "VC" "H" || mv "VI" "H" || mv "VA" "H") then 2
    else 0 in
  (* EQ4 *)
  let eq4 :=
    if mv "MSI" "S" || mv "MSA" "S" then 0
    else if negb (mv "MSI" "S" || mv "MSA" "S")
            && (mv "SC" "H" || mv "SI" "H" || mv "SA" "H") then 1
    else if negb (mv "MSI" "S" || mv "MSA" "S")
            && negb (mv "SC" "H" || mv "SI" "H" || mv "SA" "H") then 2
    else 0 in
  (* EQ5 *)
  let eq5 :=
    if mv "E" "A" then 0
    else if mv "E" "P" then 1
    else if mv "E" "U" then 2
    else 0 in
  (* EQ6 *)
  let eq6 :=
    if (mv "CR" "H" && mv "VC" "H") || (mv "IR" "H" && mv "VI" "H")
       || (mv "AR" "H" && mv "VA" "H") then 0
    else if negb ((mv "CR" "H" && mv "VC" "H") || (mv "IR" "H" && mv "VI" "H")
                  || (mv "AR" "H" && mv "VA" "H")) then 1
    else 0 in
  template eq1 eq2 eq3 eq4 eq5 eq6.

(** [lookup[i]]: the character at position [i], as a string. *)
Definition char_at (s : string) (i : nat) : option string :=
  option_map (fun c => String c EmptyString) (String.get i s).

(** [parseInt] of a one-character string. *)
Definition parseInt (s : option string) : option nat :=
  match s with
  | Some (String c EmptyString) =>
      let n := nat_of_ascii c in
      if Nat.leb 48 n && Nat.leb n 57 then Some (n - 48) else None
  | _ => None
  end.

Definition getEQMaxes (lookup : string) (eq : nat) : option eqmaxes :=
  match JS.get maxComposed ("eq" ++ show eq) with
  | Some d => match char_at lookup (eq - 1) with
              | Some key => JS.get d key
              | None => None
              end
  | None => None
  end.

Definition extractValueMetric (metric str : string) : string :=
  (* indexOf gives first index of the metric, we then need to go over its size *)
  let start :=
    match JS.indexOf metric str with
    | Some i => i + String.length metric + 1
    | None => String.length metric
    end in
  let extracted := JS.slice start str in
  (* remove what follow *)
  match JS.indexOf "/" extracted with
  | Some (S i) => JS.substring0 (S i) extracted
  | _ => extracted
  end.

Fixpoint nget {A} (d : list (nat * A)) (k : nat) : option A :=
  match d with
  | [] => None
  | (k', v) :: rest => if Nat.eqb k' k then Some v else nget rest k
  end.

Section V4.

Context {num : Type} `{JSNumber num}.
Local Open Scope js_scope.

Definition of_nat (n : nat) : num := lit (inject_Z (Z.of_nat n)).

(** The index of each metric's values. *)
Definition AV_levels : list (string * num) :=
  scores [("N", 0.0); ("A", 0.1); ("L", 0.2); ("P", 0.3)]%Q.
Definition PR_levels : list (string * num) :=
  scores [("N", 0.0); ("L", 0.1); ("H", 0.2)]%Q.
Definition UI_levels : list (string * num) :=
  scores [("N", 0.0); ("P", 0.1); ("A", 0.2)]%Q.
Definition AC_levels : list (string * num) := scores [("L", 0.0); ("H", 0.1)]%Q.
Definition AT_levels : list (string * num) := scores [("N", 0.0); ("P", 0.1)]%Q.
Definition VC_levels : list (string * num) :=
  scores [("H", 0.0); ("L", 0.1); ("N", 0.2)]%Q.
Definition VI_levels : list (string * num) :=
  scores [("H", 0.0); ("L", 0.1); ("N", 0.2)]%Q.
Definition VA_levels : list (string * num) :=
  scores [("H", 0.0); ("L", 0.1); ("N", 0.2)]%Q.
Definition SC_levels : list (string * num) :=
  scores [("H", 0.1); ("L", 0.2); ("N", 0.3)]%Q.
Definition SI_levels : list (string * num) :=
  scores [("S", 0.0); ("H", 0.1); ("L", 0.2); ("N", 0.3)]%Q.
Definition SA_levels : list (string * num) :=
  scores [("S", 0.0); ("H", 0.1); ("L", 0.2); ("N", 0.3)]%Q.
Definition CR_levels : list (string * num) :=
  scores [("H", 0.0); ("M", 0.1); ("L", 0.2)]%Q.
Definition IR_levels : list (string * num) :=
  scores [("H", 0.0); ("M", 0.1); ("L", 0.2)]%Q.
Definition AR_levels : list (string * num) :=
  scores [("H", 0.0); ("M", 0.1); ("L", 0.2)]%Q.

(** [levels[value]] used as a number. *)
Definition level (levels : list (string * num)) (value : option string) : num :=
  toNumber (match value with Some v => JS.get levels v | None => None end).

Record severity_distances : Type := {
  severity_distance_AV : num;
  severity_distance_PR : num;
  severity_distance_UI : num;
  severity_distance_AC : num;
  severity_distance_AT : num;
  severity_distance_VC : num;
  severity_distance_VI : num;
  severity_distance_VA : num;
  severity_distance_SC : num;
  severity_distance_SI : num;
  severity_distance_SA : num;
  severity_distance_CR : num;
  severity_distance_IR : num;
  severity_distance_AR : num
}.

Definition no_distance : severity_distances :=
  {| severity_distance_AV := lit 0; severity_distance_PR := lit 0;
     severity_distance_UI := lit 0; severity_distance_AC := lit 0;
     severity_distance_AT := lit 0; severity_distance_VC := lit 0;
     severity_distance_VI := lit 0; severity_distance_VA := lit 0;
     severity_distance_SC := lit 0; severity_distance_SI := lit 0;
     severity_distance_SA := lit 0; severity_distance_CR := lit 0;
     severity_distance_IR := lit 0; severity_distance_AR := lit 0 |}.

(** The assignments at the head of the loop over [max_vectors]. *)
Definition distances_to (cvssSelected : list (string * option string))
  (max_vector : string) : severity_distances :=
  let d levels metric :=
    level levels (m cvssSelected metric)
    - level levels (Some (extractValueMetric metric max_vector)) in
  {| severity_distance_AV := d AV_levels "AV";
     severity_distance_PR := d PR_levels "PR";
     severity_distance_UI := d UI_levels "UI";
     severity_distance_AC := d AC_levels "AC";
     severity_distance_AT := d AT_levels "AT";
     severity_distance_VC := d VC_levels "VC";
     severity_distance_VI := d VI_levels "VI";
     severity_distance_VA := d VA_levels "VA";
     severity_distance_SC := d SC_levels "SC";
     severity_distance_SI := d SI_levels "SI";
     severity_distance_SA := d SA_levels "SA";
     severity_distance_CR := d CR_levels "CR";
     severity_distance_IR := d IR_levels "IR";
     severity_distance_AR := d AR_levels "AR" |}.

(** If any is less than zero this is not the right max. *)
Definition some_negative (d : severity_distances) : bool :=
  existsb (fun met => met <? lit 0)
    [ severity_distance_AV d; severity_distance_PR d; severity_distance_UI d;
      severity_distance_AC d; severity_distance_AT d; severity_distance_VC d;
      severity_distance_VI d; severity_distance_VA d; severity_distance_SC d;
      severity_distance_SI d; severity_distance_SA d; severity_distance_CR d;
      severity_distance_IR d; severity_distance_AR d ].

(** The loop over [max_vectors], with its [continue] and [break]: the
    distances are those of the first maximal vector none of whose distances is
    negative, or of the last one tried. *)
Fixpoint select_max (cvssSelected : list (string * option string))
  (max_vectors : list string) (current : severity_distances)
  : severity_distances :=
  match max_vectors with
  | [] => current
  | max_vector :: rest =>
      let d := distances_to cvssSelected max_vector in
      if some_negative d then select_max cvssSelected rest d else d
  end.

(** The five nested loops that compose the maximal vectors. *)
Definition compose_max_vectors
  (eq1_maxes eq2_maxes eq3_eq6_maxes eq4_maxes eq5_maxes : list string)
  : list string :=
  flat_map (fun eq1_max =>
  flat_map (fun eq2_max =>
  flat_map (fun eq3_eq6_max =>
  flat_map (fun eq4_max =>
  map (fun eq5_max =>
         (eq1_max ++ eq2_max ++ eq3_eq6_max ++ eq4_max ++ eq5_max)%string)
      eq5_maxes) eq4_maxes) eq3_eq6_maxes) eq2_maxes) eq1_maxes.

(** The next lower macro of the coupled classes EQ3 and EQ6: the three
    variables [eq3eq6_next_lower_macro], [.._left] and [.._right]. *)
Definition eq3eq6_next_lower_macros (eq1 eq2 eq3 eq4 eq5 eq6 : nat)
  : string * string * string :=
  if Nat.eqb eq3 1 && Nat.eqb eq6 1 then
    (* 11 --> 21 *)
    (template eq1 eq2 (eq3 + 1) eq4 eq5 (eq6 + 1), EmptyString, EmptyString)
  else if Nat.eqb eq3 0 && Nat.eqb eq6 1 then
    (* 01 --> 11 *)
    (template eq1 eq2 (eq3 + 1) eq4 eq5 eq6, EmptyString, EmptyString)
  else if Nat.eqb eq3 1 && Nat.eqb eq6 0 then
    (* 10 --> 11 *)
    (template eq1 eq2 eq3 eq4 eq5 (eq6 + 1), EmptyString, EmptyString)
  else if Nat.eqb eq3 0 && Nat.eqb eq6 0 then
    (* 00 --> 01, 00 --> 10 *)
    (EmptyString,
     template eq1 eq2 eq3 eq4 eq5 (eq6 + 1),
     template eq1 eq2 (eq3 + 1) eq4 eq5 eq6)
  else
    (* 21 --> 32 (do not exist) *)
    (template eq1 eq2 (eq3 + 1) eq4 eq5 (eq6 + 1), EmptyString, EmptyString).

Definition score_eq3eq6_next_lower_macro (lookup : list (string * num))
  (eq1 eq2 eq3 eq4 eq5 eq6 : nat) : option num :=
  let '(eq3eq6_next_lower_macro, eq3eq6_next_lower_macro_left,
        eq3eq6_next_lower_macro_right) :=
    eq3eq6_next_lower_macros eq1 eq2 eq3 eq4 eq5 eq6 in
  if Nat.eqb eq3 0 && Nat.eqb eq6 0 then
    (* multiple path take the one with higher score *)
    let score_eq3eq6_next_lower_macro_left :=
      JS.get lookup eq3eq6_next_lower_macro_left in
    let score_eq3eq6_next_lower_macro_right :=
      JS.get lookup eq3eq6_next_lower_macro_right in
    if toNumber score_eq3eq6_next_lower_macro_left
       >? toNumber score_eq3eq6_next_lower_macro_right
    then score_eq3eq6_next_lower_macro_left
    else score_eq3eq6_next_lower_macro_right
  else JS.get lookup eq3eq6_next_lower_macro.

(** Steps c, d and 2 of the source: the proportional distances of the classes
    whose next lower macro exists, and their mean. *)
Definition mean_distance
  (available_distance_eq1 available_distance_eq2 available_distance_eq3eq6
   available_distance_eq4 available_distance_eq5 : num)
  (current_severity_distance_eq1 current_severity_distance_eq2
   current_severity_distance_eq3eq6 current_severity_distance_eq4 : num)
  (maxSeverity_eq1 maxSeverity_eq2 maxSeverity_eq3eq6 maxSeverity_eq4 : num)
  : num :=
  let n_existing_lower := 0%nat in
  let '(n_existing_lower, normalized_severity_eq1) :=
    if negb (isNaN available_distance_eq1) then
      (S n_existing_lower,
       available_distance_eq1
       * (current_severity_distance_eq1 / maxSeverity_eq1))
    else (n_existing_lower, lit 0) in
  let '(n_existing_lower, normalized_severity_eq2) :=
    if negb (isNaN available_distance_eq2) then
      (S n_existing_lower,
       available_distance_eq2
       * (current_severity_distance_eq2 / maxSeverity_eq2))
    else (n_existing_lower, lit 0) in
  let '(n_existing_lower, normalized_severity_eq3eq6) :=
    if negb (isNaN available_distance_eq3eq6) then
      (S n_existing_lower,
       available_distance_eq3eq6
       * (current_severity_distance_eq3eq6 / maxSeverity_eq3eq6))
    else (n_existing_lower, lit 0) in
  let '(n_existing_lower, normalized_severity_eq4) :=
    if negb (isNaN available_distance_eq4) then
      (S n_existing_lower,
       available_distance_eq4
       * (current_severity_distance_eq4 / maxSeverity_eq4))
    else (n_existing_lower, lit 0) in
  let '(n_existing_lower, normalized_severity_eq5) :=
    if negb (isNaN available_distance_eq5) then
      (* for eq5 is always 0 the percentage *)
      (S n_existing_lower, available_distance_eq5 * lit 0)
    else (n_existing_lower, lit 0) in
  if Nat.eqb n_existing_lower 0 then lit 0
  else (normalized_severity_eq1 + normalized_severity_eq2
        + normalized_severity_eq3eq6 + normalized_severity_eq4
        + normalized_severity_eq5) / of_nat n_existing_lower.

(** Step 3: the score of the MacroVector minus the mean distance, kept in
    [0, 10] and rounded to one decimal place. *)
Definition final_score (value mean_distance : num) : num :=
  let value := value - mean_distance in
  let value := if value <? lit 0 then lit 0.0 else value in
  let value := if value >? lit 10 then lit 10.0 else value in
  Math_round (value * lit 10) / lit 10.

Definition cvss_score (cvssSelected : list (string * option string))
  (lookup : list (string * num)) (maxSeverityData : MaxSeverityData)
  (macroVectorResult : string) : result error num :=
  (* Exception for no impact on system (shortcut) *)
  if forallb (fun metric => JS.eqs (m cvssSelected metric) "N")
             ["VC"; "VI"; "VA"; "SC"; "SI"; "SA"]
  then Ok (lit 0.0)
  else
    let value := JS.get lookup macroVectorResult in
    match parseInt (char_at macroVectorResult 0),
          parseInt (char_at macroVectorResult 1),
          parseInt (char_at macroVectorResult 2),
          parseInt (char_at macroVectorResult 3),
          parseInt (char_at macroVectorResult 4),
          parseInt (char_at macroVectorResult 5) with
    | Some eq1, Some eq2, Some eq3, Some eq4, Some eq5, Some eq6 =>
        (* compute next lower macro, it can also not exist *)
        let eq1_next_lower_macro := template (eq1 + 1) eq2 eq3 eq4 eq5 eq6 in
        let eq2_next_lower_macro := template eq1 (eq2 + 1) eq3 eq4 eq5 eq6 in
        let eq4_next_lower_macro := template eq1 eq2 eq3 (eq4 + 1) eq5 eq6 in
        let eq5_next_lower_macro := template eq1 eq2 eq3 eq4 (eq5 + 1) eq6 in
        (* get their score *)
        let score_eq1_next_lower_macro := JS.get lookup eq1_next_lower_macro in
        let score_eq2_next_lower_macro := JS.get lookup eq2_next_lower_macro in
        let score_eq3eq6_next_lower_macro :=
          score_eq3eq6_next_lower_macro lookup eq1 eq2 eq3 eq4 eq5 eq6 in
        let score_eq4_next_lower_macro := JS.get lookup eq4_next_lower_macro in
        let score_eq5_next_lower_macro := JS.get lookup eq5_next_lower_macro in
        (* the maximal vectors of each class *)
        match getEQMaxes macroVectorResult 1, getEQMaxes macroVectorResult 2,
              getEQMaxes macroVectorResult 3, getEQMaxes macroVectorResult 4,
              getEQMaxes macroVectorResult 5,
              nget (msd_eq3eq6 maxSeverityData) eq3 with
        | Some (Vectors eq1_maxes), Some (Vectors eq2_maxes), Some (ByEq6 by_eq6),
          Some (Vectors eq4_maxes), Some (Vectors eq5_maxes),
          Some maxSeverity_eq3 =>
            match char_at macroVectorResult 5 with
            | Some key6 =>
                match JS.get by_eq6 key6 with
                | Some eq3_eq6_maxes =>
                    let max_vectors :=
                      compose_max_vectors eq1_maxes eq2_maxes eq3_eq6_maxes
                                          eq4_maxes eq5_maxes in
                    let sd := select_max cvssSelected max_vectors no_distance in
                    let current_severity_distance_eq1 :=
                      severity_distance_AV sd + severity_distance_PR sd
                      + severity_distance_UI sd in
                    let current_severity_distance_eq2 :=
                      severity_distance_AC sd + severity_distance_AT sd in
                    let current_severity_distance_eq3eq6 :=
                      severity_distance_VC sd + severity_distance_VI sd
                      + severity_distance_VA sd + severity_distance_CR sd
                      + severity_distance_IR sd + severity_distance_AR sd in
                    let current_severity_distance_eq4 :=
                      severity_distance_SC sd + severity_distance_SI sd
                      + severity_distance_SA sd in
                    let step := lit 0.1 in
                    (* if the next lower macro score do not exist the result
                       is NaN *)
                    let available_distance_eq1 :=
                      toNumber value - toNumber score_eq1_next_lower_macro in
                    let available_distance_eq2 :=
                      toNumber value - toNumber score_eq2_next_lower_macro in
                    let available_distance_eq3eq6 :=
                      toNumber value - toNumber score_eq3eq6_next_lower_macro in
                    let available_distance_eq4 :=
                      toNumber value - toNumber score_eq4_next_lower_macro in
                    let available_distance_eq5 :=
                      toNumber value - toNumber score_eq5_next_lower_macro in
                    (* multiply by step because distance is pure *)
                    let maxSeverity_eq1 :=
                      toNumber (option_map lit (nget (msd_eq1 maxSeverityData) eq1))
                      * step in
                    let maxSeverity_eq2 :=
                      toNumber (option_map lit (nget (msd_eq2 maxSeverityData) eq2))
                      * step in
                    let maxSeverity_eq3eq6 :=
                      toNumber (option_map lit (nget maxSeverity_eq3 eq6)) * step in
                    let maxSeverity_eq4 :=
                      toNumber (option_map lit (nget (msd_eq4 maxSeverityData) eq4))
                      * step in
                    let mean_distance :=
                      mean_distance
                        available_distance_eq1 available_distance_eq2
                        available_distance_eq3eq6 available_distance_eq4
                        available_distance_eq5
                        current_severity_distance_eq1 current_severity_distance_eq2
                        current_severity_distance_eq3eq6
                        current_severity_distance_eq4
                        maxSeverity_eq1 maxSeverity_eq2 maxSeverity_eq3eq6
                        maxSeverity_eq4 in
                    Ok (final_score (toNumber value) mean_distance)
                | None => Throw TypeError
                end
            | None => Throw TypeError
            end
        | _, _, _, _, _, _ => Throw TypeError
        end
    | _, _, _, _, _, _ => Throw TypeError
    end.

Definition calculateBaseScoreV4 (vectorString : string) : result error num :=
  match validateVectorV4 vectorString with
  | Invalid e => Throw (InvalidV4Vector e)
  | Valid _ =>
      let cvssSelected := parseVectorV4 vectorString in
      let macrov := macroVector cvssSelected in
      cvss_score cvssSelected (scores cvssLookup_globalV4) maxSeverityV4 macrov
  end.

Definition calculateBaseScore (cvssString : string) : result error num :=
  version <- detectCvssVersion cvssString ;;
  if String.eqb version "4.0" then calculateBaseScoreV4 cvssString
  else if String.eqb version "3.1" then
    r <- calculateBaseResult cvssString ;;
    Ok (score r)
  else Throw (UnsupportedCvssVersion version).

End V4.

(* ===================================================================== *)
(** * Properties *)

(** ** Strings and dictionaries *)

Lemma split_cut (sep : ascii) (s : string) :
  JS.split sep s =
  match cut sep s with
  | (hd, None) => [hd]
  | (hd, Some rest) => hd :: JS.split sep rest
  end.
Proof.
  induction s as [|c s IH]; simpl; [reflexivity|].
  destruct (Ascii.eqb c sep); [reflexivity|].
  rewrite IH. destruct (cut sep s) as [hd [rest|]]; reflexivity.
Qed.

Lemma get_set {A} (d : list (string * A)) (k k' : string) (v : A) :
  JS.get (JS.set d k v) k' = if String.eqb k k' then Some v else JS.get d k'.
Proof.
  induction d as [|[k0 v0] d IH]; simpl.
  - reflexivity.
  - destruct (String.eqb_spec k0 k) as [->|Hne]; simpl.
    + destruct (String.eqb_spec k k'); reflexivity.
    + rewrite IH. destruct (String.eqb_spec k0 k') as [->|]; [|reflexivity].
      destruct (String.eqb_spec k k'); [congruence|reflexivity].
Qed.

Lemma has_set {A} (d : list (string * A)) (k k' : string) (v : A) :
  JS.has (JS.set d k v) k' = String.eqb k k' || JS.has d k'.
Proof.
  unfold JS.has. rewrite get_set. destruct (String.eqb k k'); reflexivity.
Qed.

Lemma find_key_get {A} (d : list (string * A)) (k : string) :
  option_map snd (find (fun entry => String.eqb (fst entry) k) d) = JS.get d k.
Proof.
  induction d as [|[k0 v0] d IH]; simpl; [reflexivity|].
  destruct (String.eqb k0 k); [reflexivity|exact IH].
Qed.

(** ** The v4 validator *)

(** The loop stops with [RepeatedMetric] at a key that was already selected. *)
Lemma validate_metrics_repeated entries metric rest expectedIndex toSelect :
  JS.key_in (fst (split_metric metric)) toSelect = true ->
  validate_metrics entries (metric :: rest) expectedIndex toSelect
  = Invalid (RepeatedMetric (fst (split_metric metric))).
Proof.
  intros Hin. simpl. destruct (split_metric metric) as [key value].
  simpl in Hin. rewrite Hin. reflexivity.
Qed.

(** [advance] runs to the end of the table when the key is not ahead. *)
Lemma advance_absent key entries i :
  existsb (fun entry => String.eqb (fst entry) key) entries = false ->
  advance key entries i = i + length entries.
Proof.
  revert i. induction entries as [|e entries IH]; intros i Hex; simpl in *.
  - lia.
  - destruct (String.eqb (fst e) key); [discriminate|].
    rewrite IH by exact Hex. lia.
Qed.

Lemma advance_bounds key entries i :
  i <= advance key entries i <= i + length entries.
Proof.
  revert i. induction entries as [|e entries IH]; intros i; simpl.
  - lia.
  - destruct (String.eqb (fst e) key); [lia|].
    specialize (IH (S i)). lia.
Qed.

Lemma advance_found key entries i :
  advance key entries i < i + length entries ->
  existsb (fun entry => String.eqb (fst entry) key) entries = true.
Proof.
  revert i. induction entries as [|e entries IH]; intros i Hlt; simpl in *.
  - lia.
  - destruct (String.eqb (fst e) key); [reflexivity|].
    apply (IH (S i)). lia.
Qed.

(** The loop stops with [MetricOutOfSequence] at a key that is not selected
    yet and does not occur at or after the current position of the expected
    order: a known key that comes too late, or an unknown key. *)
Lemma validate_metrics_out_of_sequence entries metric rest expectedIndex toSelect :
  JS.key_in (fst (split_metric metric)) toSelect = false ->
  expectedIndex <= length entries ->
  existsb (fun entry => String.eqb (fst entry) (fst (split_metric metric)))
          (skipn expectedIndex entries) = false ->
  validate_metrics entries (metric :: rest) expectedIndex toSelect
  = Invalid (MetricOutOfSequence (fst (split_metric metric))).
Proof.
  intros Hin Hle Hex. simpl. destruct (split_metric metric) as [key value].
  simpl in *. rewrite Hin. rewrite (advance_absent _ _ _ Hex).
  rewrite length_skipn.
  replace (expectedIndex + (length entries - expectedIndex)) with (length entries) by lia.
  rewrite Nat.leb_refl. reflexivity.
Qed.

Lemma existsb_skipn {A} (f : A -> bool) (l : list A) (n : nat) :
  existsb f (skipn n l) = true -> existsb f l = true.
Proof.
  revert l. induction n as [|n IH]; intros l; simpl; [tauto|].
  destruct l as [|a l]; simpl; [tauto|].
  intros Hs. rewrite (IH _ Hs). apply orb_true_r.
Qed.

Lemma existsb_find_some {A} (f : A -> bool) (l : list A) :
  existsb f l = true -> find f l <> None.
Proof.
  induction l as [|a l IH]; simpl; [discriminate|].
  destruct (f a); [discriminate|exact IH].
Qed.

(** The branch that reports an unexpected metric is never taken: a key that
    does not interrupt the sequence is a key of the table. *)
Lemma validate_metrics_never_unexpected entries metrics expectedIndex toSelect key :
  expectedIndex <= length entries ->
  validate_metrics entries metrics expectedIndex toSelect
  <> Invalid (UnexpectedMetric key).
Proof.
  revert expectedIndex toSelect.
  induction metrics as [|metric rest IH]; intros i sel Hle; simpl.
  - discriminate.
  - destruct (split_metric metric) as [k value].
    destruct (JS.key_in k sel); [discriminate|].
    pose proof (advance_bounds k (skipn i entries) i) as Hb.
    rewrite length_skipn in Hb.
    destruct (Nat.leb_spec (length entries) (advance k (skipn i entries) i))
      as [Hge|Hlt]; [discriminate|].
    assert (Hex : existsb (fun entry => String.eqb (fst entry) k) entries = true).
    { apply (existsb_skipn _ _ i).
      apply (advance_found k _ i). rewrite length_skipn. lia. }
    apply existsb_find_some in Hex.
    destruct (find (fun entry => String.eqb (fst entry) k) entries) as [entry|];
      [|congruence].
    destruct value as [v|]; [|discriminate].
    destruct (JS.arr_includes (snd entry) v); [|discriminate].
    apply IH. lia.
Qed.

Lemma validateVectorV4_never_unexpected (vectorString key : string) :
  validateVectorV4 vectorString <> Invalid (UnexpectedMetric key).
Proof.
  unfold validateVectorV4.
  destruct (if JS.truthy vectorString then JS.split "/" vectorString else [])
    as [|prefix metrics]; [discriminate|].
  destruct (negb (String.eqb prefix "CVSS:4.0")); [discriminate|].
  pose proof (validate_metrics_never_unexpected expectedMetricOrder metrics 0 []
                key (Nat.le_0_l _)) as Hn.
  destruct (validate_metrics expectedMetricOrder metrics 0 []) as [sel|e].
  - destruct (Nat.ltb 0 _); discriminate.
  - congruence.
Qed.

(** Every segment of an accepted vector carries a key of the table and one
    of its values. *)
Definition metric_allowed (entries : list (string * list string))
  (metric : string) : Prop :=
  exists key v allowed,
    split_metric metric = (key, Some v)
    /\ JS.get entries key = Some allowed
    /\ JS.arr_includes allowed v = true.

Lemma validate_metrics_allowed entries metrics expectedIndex toSelect sel :
  validate_metrics entries metrics expectedIndex toSelect = Valid sel ->
  Forall (metric_allowed entries) metrics.
Proof.
  revert expectedIndex toSelect.
  induction metrics as [|metric rest IH]; intros i acc Hv; simpl in Hv.
  - constructor.
  - destruct (split_metric metric) as [k value] eqn:Hsm.
    destruct (JS.key_in k acc); [discriminate|].
    destruct (Nat.leb _ _); [discriminate|].
    pose proof (find_key_get entries k) as Hfg.
    destruct (find (fun entry => String.eqb (fst entry) k) entries) as [entry|];
      [|discriminate].
    destruct value as [v|]; [|discriminate].
    destruct (JS.arr_includes (snd entry) v) eqn:Hinc; [|discriminate].
    constructor; [|exact (IH _ _ Hv)].
    exists k, v, (snd entry). rewrite <- Hfg. auto.
Qed.

(** C2 (error kinds of the v4 validation).  A vector whose keys are out of
    the canonical order is reported as out of sequence and a duplicated key as
    a repeated metric, but a vector with an unknown key is reported as out of
    sequence too: the search through the expected order runs off the end of
    the table before the test for an unexpected metric is reached, so that
    no vector at all is reported as carrying an unexpected metric. *)
Theorem validateVectorV4_unknown_key_is_out_of_sequence :
  validateVectorV4 "CVSS:4.0/AC:L/AV:N" = Invalid (MetricOutOfSequence "AV")
  /\ validateVectorV4 "CVSS:4.0/AV:N/AV:N" = Invalid (RepeatedMetric "AV")
  /\ validateVectorV4
       "CVSS:4.0/AV:N/AC:L/AT:N/PR:N/UI:N/VC:H/VI:H/VA:H/SC:N/SI:N/SA:N/ZZ:N"
     = Invalid (MetricOutOfSequence "ZZ")
  /\ calculateBaseScoreV4 (num := Exact.num)
       "CVSS:4.0/AV:N/AC:L/AT:N/PR:N/UI:N/VC:H/VI:H/VA:H/SC:N/SI:N/SA:N/ZZ:N"
     = Throw (InvalidV4Vector (MetricOutOfSequence "ZZ"))
  /\ forall vectorString key,
       validateVectorV4 vectorString <> Invalid (UnexpectedMetric key).
Proof.
  split; [vm_compute; reflexivity|].
  split; [vm_compute; reflexivity|].
  split; [vm_compute; reflexivity|].
  split; [vm_compute; reflexivity|].
  exact validateVectorV4_never_unexpected.
Qed.

(** ** [validate] on v4 vectors *)


Lemma checkMandatoryMetrics_loop_has metricsMap metrics metric :
  checkMandatoryMetrics_loop metricsMap metrics = Ok tt ->
  In metric metrics -> JS.has metricsMap metric = true.
Proof.
  induction metrics as [|m0 rest IH]; intros Hc Hin; simpl in *; [tauto|].
  destruct (JS.has metricsMap m0) eqn:Hh; simpl in Hc; [|discriminate].
  destruct Hin as [<-|Hin]; [exact Hh|exact (IH Hc Hin)].
Qed.

Lemma bind_ok {E A B} (r : result E A) (k : A -> result E B) (b : B) :
  bind r k = Ok b -> exists a, r = Ok a /\ k a = Ok b.
Proof.
  destruct r as [a|e]; simpl; intros Hb; [exists a; auto|discriminate].
Qed.




(** ** The v3.x regression vectors *)

(** C4 (published regression values).  The base score of the two v3.x test
    vectors is 3.8 and 8.6, in exact arithmetic and in binary64. *)
Theorem calculateBaseScore_regression :
  calculateBaseScore (num := Exact.num)
    "CVSS:3.1/AV:N/AC:L/PR:H/UI:N/S:U/C:L/I:L/A:N" = Ok (lit 3.8)
  /\ calculateBaseScore (num := Exact.num)
       "CVSS:3.0/AV:N/AC:L/PR:N/UI:N/S:C/C:H/I:N/A:N" = Ok (lit 8.6)
  /\ calculateBaseScore (num := Float64.num)
       "CVSS:3.1/AV:N/AC:L/PR:H/UI:N/S:U/C:L/I:L/A:N" = Ok (lit 3.8)
  /\ calculateBaseScore (num := Float64.num)
       "CVSS:3.0/AV:N/AC:L/PR:N/UI:N/S:C/C:H/I:N/A:N" = Ok (lit 8.6).
Proof.
  split; [vm_compute; reflexivity|].
  split; [vm_compute; reflexivity|].
  split; vm_compute; reflexivity.
Qed.

(** ** Privileges Required *)

Section PrivilegesRequired.

Context {num : Type} `{JSNumber num}.

Lemma getMetricNumericValue_PR metricsMap value scopeValue :
  JS.get metricsMap BaseMetric.PRIVILEGES_REQUIRED = Some value ->
  JS.get metricsMap BaseMetric.SCOPE = Some scopeValue ->
  getMetricNumericValue BaseMetric.PRIVILEGES_REQUIRED metricsMap
  = getPrivilegesRequiredNumericValue value scopeValue.
Proof.
  intros Hv Hs. unfold getMetricNumericValue, getMetricValue.
  rewrite Hv, Hs. reflexivity.
Qed.

Lemma getMetricNumericValue_MPR metricsMap value scopeValue :
  JS.get metricsMap EnvironmentalMetric.MODIFIED_PRIVILEGES_REQUIRED = Some value ->
  JS.get metricsMap EnvironmentalMetric.MODIFIED_SCOPE = Some scopeValue ->
  getMetricNumericValue EnvironmentalMetric.MODIFIED_PRIVILEGES_REQUIRED metricsMap
  = getPrivilegesRequiredNumericValue value scopeValue.
Proof.
  intros Hv Hs. unfold getMetricNumericValue, getMetricValue.
  rewrite Hv, Hs. reflexivity.
Qed.

(** C8 (scope-dependent Privileges Required).  For a Scope value U, C or X,
    the weight of Privileges Required is 0.85 for N, 0.62 (Scope U) or 0.68
    for L, and 0.27 (Scope U) or 0.5 for H; [getMetricNumericValue] reads PR
    against S and MPR against MS. *)
Theorem privileges_required_weight (scopeValue : string) :
  In scopeValue ["U"; "C"; "X"] ->
  getPrivilegesRequiredNumericValue "N" scopeValue = Ok (lit 0.85)
  /\ getPrivilegesRequiredNumericValue "L" scopeValue
     = Ok (if String.eqb scopeValue "U" then lit 0.62 else lit 0.68)
  /\ getPrivilegesRequiredNumericValue "H" scopeValue
     = Ok (if String.eqb scopeValue "U" then lit 0.27 else lit 0.5)
  /\ (forall metricsMap value,
        JS.get metricsMap "PR" = Some value ->
        JS.get metricsMap "S" = Some scopeValue ->
        getMetricNumericValue "PR" metricsMap
        = getPrivilegesRequiredNumericValue value scopeValue)
  /\ (forall metricsMap value,
        JS.get metricsMap "MPR" = Some value ->
        JS.get metricsMap "MS" = Some scopeValue ->
        getMetricNumericValue "MPR" metricsMap
        = getPrivilegesRequiredNumericValue value scopeValue).
Proof.
  intros Hin.
  assert (Hs : scopeValue = "U" \/ scopeValue = "C" \/ scopeValue = "X")
    by (simpl in Hin; intuition auto).
  split; [|split; [|split; [|split]]].
  - destruct Hs as [-> | [-> | ->]]; reflexivity.
  - destruct Hs as [-> | [-> | ->]]; reflexivity.
  - destruct Hs as [-> | [-> | ->]]; reflexivity.
  - intros. apply getMetricNumericValue_PR; assumption.
  - intros. apply getMetricNumericValue_MPR; assumption.
Qed.

End PrivilegesRequired.

Lemma privileges_required_weight_witness :
  In "C" ["U"; "C"; "X"]
  /\ getPrivilegesRequiredNumericValue (num := Exact.num) "L" "C" = Ok (lit 0.68)
  /\ getMetricNumericValue (num := Exact.num) "MPR"
       [("MPR", "H"); ("MS", "C")] = Ok (lit 0.5).
Proof.
  assert (Hin : In "C" ["U"; "C"; "X"]) by (simpl; auto).
  pose proof (privileges_required_weight (num := Exact.num) "C" Hin)
    as (_ & HL & HH & _ & HM).
  split; [exact Hin|]. split; [exact HL|].
  rewrite (HM [("MPR", "H"); ("MS", "C")] "H" eq_refl eq_refl). exact HH.
Defined.

(** ** The v4 shortcut *)

Lemma valid_v4_prefix (vectorString : string) :
  valid (validateVectorV4 vectorString) = true ->
  hd EmptyString (JS.split "/" vectorString) = "CVSS:4.0".
Proof.
  unfold validateVectorV4. destruct (JS.truthy vectorString); [|discriminate].
  destruct (JS.split "/" vectorString) as [|prefix metrics]; [discriminate|].
  destruct (String.eqb_spec prefix "CVSS:4.0") as [->|]; [reflexivity|discriminate].
Qed.

Lemma detectCvssVersion_v4 (vectorString : string) :
  valid (validateVectorV4 vectorString) = true ->
  detectCvssVersion vectorString = Ok "4.0".
Proof.
  intros Hv. unfold detectCvssVersion. rewrite (valid_v4_prefix _ Hv). reflexivity.
Qed.

Lemma arr_includes_keys {A} (d : list (string * A)) (k : string) :
  JS.arr_includes (JS.keys d) k = JS.has d k.
Proof.
  unfold JS.has, JS.arr_includes, JS.keys.
  induction d as [|[k0 v] d IH]; simpl; [reflexivity|].
  rewrite (String.eqb_sym k k0).
  destruct (String.eqb k0 k); simpl; [reflexivity|exact IH].
Qed.

(** The effective value of a metric that has a modified counterpart: the
    modified value when it is selected and not X, the base value otherwise. *)
Lemma m_override cvssSelected metric :
  ~ In metric ["E"; "CR"; "IR"; "AR"] ->
  m cvssSelected metric
  = match JS.get cvssSelected ("M" ++ metric) with
    | Some modified_selected =>
        if JS.eqs modified_selected "X" then field cvssSelected metric
        else modified_selected
    | None => field cvssSelected metric
    end.
Proof.
  intros Hnot. unfold m.
  destruct (String.eqb_spec metric "E") as [->|_]; [exfalso; apply Hnot; simpl; auto|].
  destruct (String.eqb_spec metric "CR") as [->|_]; [exfalso; apply Hnot; simpl; auto|].
  destruct (String.eqb_spec metric "IR") as [->|_]; [exfalso; apply Hnot; simpl; auto|].
  destruct (String.eqb_spec metric "AR") as [->|_]; [exfalso; apply Hnot; simpl; auto|].
  cbn [andb].
  rewrite arr_includes_keys. unfold JS.has, field.
  destruct (JS.get cvssSelected ("M" ++ metric)) as [modified|]; simpl; [|reflexivity].
  destruct (JS.eqs modified "X"); reflexivity.
Qed.

Section Shortcut.

Context {num : Type} `{JSNumber num}.

Lemma cvss_score_shortcut cvssSelected lookup maxSeverityData macroVectorResult :
  (forall metric, In metric ["VC"; "VI"; "VA"; "SC"; "SI"; "SA"] ->
                  m cvssSelected metric = Some "N") ->
  cvss_score cvssSelected lookup maxSeverityData macroVectorResult = Ok (lit 0.0).
Proof.
  intros Hall. unfold cvss_score.
  replace (forallb _ _) with true; [reflexivity|].
  symmetry. apply forallb_forall. intros metric Hin.
  rewrite (Hall metric Hin). reflexivity.
Qed.

(** C1, as amended (the v4 shortcut).  For every valid CVSS:4.0 vector whose
    effective VC, VI, VA, SC, SI and SA (the modified value when one is
    selected and is not X, the base value otherwise) are all N, the score is
    0.0, whatever the other metrics are. *)
Theorem calculateBaseScoreV4_no_impact (vectorString : string) :
  valid (validateVectorV4 vectorString) = true ->
  (forall metric, In metric ["VC"; "VI"; "VA"; "SC"; "SI"; "SA"] ->
                  m (parseVectorV4 vectorString) metric = Some "N") ->
  calculateBaseScoreV4 vectorString = Ok (lit 0.0)
  /\ calculateBaseScore vectorString = Ok (lit 0.0).
Proof.
  intros Hvalid Hall.
  assert (H4 : calculateBaseScoreV4 vectorString = Ok (lit 0.0)).
  { unfold calculateBaseScoreV4.
    destruct (validateVectorV4 vectorString); [|discriminate].
    apply cvss_score_shortcut. exact Hall. }
  split; [exact H4|].
  unfold calculateBaseScore. rewrite (detectCvssVersion_v4 _ Hvalid).
  exact H4.
Qed.

End Shortcut.

Definition vector_no_impact : string :=
  "CVSS:4.0/AV:P/AC:H/AT:P/PR:H/UI:A/VC:N/VI:N/VA:N/SC:N/SI:N/SA:N/E:U/MVC:X/MSI:N".

Lemma all_six (P : string -> Prop) :
  P "VC" -> P "VI" -> P "VA" -> P "SC" -> P "SI" -> P "SA" ->
  forall metric, In metric ["VC"; "VI"; "VA"; "SC"; "SI"; "SA"] -> P metric.
Proof.
  intros H1 H2 H3 H4 H5 H6 metric Hin. simpl in Hin.
  destruct Hin as [<-|[<-|[<-|[<-|[<-|[<-|[]]]]]]]; assumption.
Qed.

Lemma calculateBaseScoreV4_no_impact_witness :
  valid (validateVectorV4 vector_no_impact) = true
  /\ calculateBaseScoreV4 (num := Exact.num) vector_no_impact = Ok (lit 0.0)
  /\ calculateBaseScore (num := Exact.num) vector_no_impact = Ok (lit 0.0).
Proof.
  split; [vm_compute; reflexivity|].
  apply (calculateBaseScoreV4_no_impact (num := Exact.num) vector_no_impact).
  - vm_compute; reflexivity.
  - apply all_six; vm_compute; reflexivity.
Defined.

Definition vector_MVC_H : string :=
  "CVSS:4.0/AV:N/AC:L/AT:N/PR:N/UI:N/VC:N/VI:N/VA:N/SC:N/SI:N/SA:N/MVC:H".

(** C1, as stated, fails: this valid vector has VC, VI, VA, SC, SI and SA all
    N, and its score is 8.7, because the modified metric MVC:H overrides VC
    before the shortcut is tested. *)
Lemma shortcut_overridden_counterexample :
  valid (validateVectorV4 vector_MVC_H) = true
  /\ (forall metric, In metric ["VC"; "VI"; "VA"; "SC"; "SI"; "SA"] ->
        field (parseVectorV4 vector_MVC_H) metric = Some "N")
  /\ macroVector (parseVectorV4 vector_MVC_H) = "001200"
  /\ calculateBaseScoreV4 (num := Exact.num) vector_MVC_H = Ok (lit 8.7)
  /\ calculateBaseScore (num := Exact.num) vector_MVC_H = Ok (lit 8.7)
  /\ calculateBaseScoreV4 (num := Float64.num) vector_MVC_H = Ok (lit 8.7)
  /\ calculateBaseScoreV4 (num := Exact.num) vector_MVC_H <> Ok (lit 0.0).
Proof.
  split; [vm_compute; reflexivity|].
  split; [apply all_six; vm_compute; reflexivity|].
  split; [vm_compute; reflexivity|].
  split; [vm_compute; reflexivity|].
  split; [vm_compute; reflexivity|].
  split; [vm_compute; reflexivity|].
  vm_compute. discriminate.
Qed.

(** ** Versions 3.0 and 3.1 *)

Definition with_version (versionStr : option string) (v : ValidationResult)
  : ValidationResult :=
  {| isTemporal := isTemporal v;
     isEnvironmental := isEnvironmental v;
     metricsMap := metricsMap v;
     versionStr := versionStr |}.

(** [validate] on a 3.0 vector and on the same vector tagged 3.1: the same
    outcome, up to the version string that is returned. *)
Lemma validate_v30_v31 (rest : string) :
  validate ("CVSS:3.0/" ++ rest)
  = match validate ("CVSS:3.1/" ++ rest) with
    | Ok v => Ok (with_version (Some "3.0") v)
    | Throw e => Throw e
    end.
Proof.
  unfold validate, parseMetricsAsMap.
  change (parseVector ("CVSS:3.0/" ++ rest)) with (Some rest).
  change (parseVector ("CVSS:3.1/" ++ rest)) with (Some rest).
  change (parseVersion ("CVSS:3.0/" ++ rest)) with (Some "3.0").
  change (parseVersion ("CVSS:3.1/" ++ rest)) with (Some "3.1").
  change (negb (JS.truthy ("CVSS:3.0/" ++ rest))
          || negb (JS.startsWith ("CVSS:3.0/" ++ rest) "CVSS:")) with false.
  change (negb (JS.truthy ("CVSS:3.1/" ++ rest))
          || negb (JS.startsWith ("CVSS:3.1/" ++ rest) "CVSS:")) with false.
  change (validateVersion (Some "3.0")) with (@Ok error unit tt).
  change (validateVersion (Some "3.1")) with (@Ok error unit tt).
  cbv beta iota zeta. cbn [bind].
  destruct (validateVector (Some rest)); cbn [bind]; [|reflexivity].
  destruct (if JS.truthy rest then tokenize (JS.split "/" rest) [] else Ok [])
    as [mm|]; cbn [bind]; [|reflexivity].
  destruct (checkMandatoryMetrics mm); cbn [bind]; [|reflexivity].
  destruct (checkUnknownMetrics mm _); cbn [bind]; [|reflexivity].
  destruct (checkMetricsValues mm _ _); cbn [bind]; reflexivity.
Qed.

Lemma detectCvssVersion_v30_v31 (rest : string) :
  detectCvssVersion ("CVSS:3.0/" ++ rest) = Ok "3.1"
  /\ detectCvssVersion ("CVSS:3.1/" ++ rest) = Ok "3.1".
Proof.
  unfold detectCvssVersion. rewrite !split_cut.
  change (cut "/" ("CVSS:3.0/" ++ rest)) with ("CVSS:3.0", Some rest).
  change (cut "/" ("CVSS:3.1/" ++ rest)) with ("CVSS:3.1", Some rest).
  split; reflexivity.
Qed.

Section Versions.

Context {num : Type} `{JSNumber num}.
Local Open Scope js_scope.

Lemma calculateBaseResult_v30_v31 (rest : string) :
  calculateBaseResult ("CVSS:3.0/" ++ rest)
  = calculateBaseResult ("CVSS:3.1/" ++ rest).
Proof.
  unfold calculateBaseResult. rewrite validate_v30_v31.
  destruct (validate ("CVSS:3.1/" ++ rest)) as [v|e]; reflexivity.
Qed.

End Versions.

(** ** The roundup operation, in exact arithmetic *)

Module ExactFacts.

Local Open Scope Q_scope.

(** The roundup operation in the words of the specification: multiply by
    100000 and round to the nearest integer; if that integer is divisible by
    10000 divide it by 100000, otherwise take floor(integer/10000)+1 divided
    by 10. *)
Definition roundup_spec (q : Q) : Q :=
  let intValue := Qfloor (q * 100000 + (1 # 2)) in
  if (intValue mod 10000 =? 0)%Z then inject_Z intValue / 100000
  else inject_Z (intValue / 10000 + 1) / 10.

Lemma Qtrunc_comp (x y : Q) : x == y -> Exact.Qtrunc x = Exact.Qtrunc y.
Proof.
  intros Hxy. unfold Exact.Qtrunc. rewrite Hxy.
  rewrite (Qfloor_comp _ _ Hxy), (Qceiling_comp _ _ Hxy). reflexivity.
Qed.

Lemma Qtrunc_Z (z : Z) : Exact.Qtrunc (inject_Z z) = z.
Proof.
  unfold Exact.Qtrunc. rewrite Qfloor_Z, Qceiling_Z.
  destruct (Qle_bool 0 (inject_Z z)); reflexivity.
Qed.

Lemma rem_10000_zero_iff (i : Z) :
  inject_Z i - 10000 * inject_Z (Exact.Qtrunc (inject_Z i / 10000)) == 0
  <-> (i mod 10000 = 0)%Z.
Proof.
  split.
  - intros Hr. set (t := Exact.Qtrunc (inject_Z i / 10000)) in *.
    assert (Hi : inject_Z i == inject_Z (10000 * t)).
    { rewrite inject_Z_mult. change (inject_Z 10000) with 10000.
      rewrite <- (Qplus_0_r (10000 * inject_Z t)), <- Hr. ring. }
    apply (proj1 (inject_Z_injective _ _)) in Hi. rewrite Hi, Z.mul_comm.
    apply Z.mod_mul. discriminate.
  - intros Hm.
    assert (Hi : i = (10000 * (i / 10000))%Z)
      by (apply Z.div_exact; [discriminate|exact Hm]).
    assert (Hq : inject_Z i / 10000 == inject_Z (i / 10000)).
    { rewrite Hi at 1. rewrite inject_Z_mult.
      change (inject_Z 10000) with 10000. field. }
    rewrite (Qtrunc_comp _ _ Hq), Qtrunc_Z.
    rewrite Hi at 1. rewrite inject_Z_mult.
    change (inject_Z 10000) with 10000. ring.
Qed.

Lemma roundUp_unfold (q : Q) :
  roundUp (num := Exact.num) (Some q) =
  let i := Qfloor (Qred (q * Qred 100000) + (1 # 2)) in
  if Qeq_bool
       (Qred (inject_Z i
              - Qred 10000 * inject_Z (Exact.Qtrunc (inject_Z i / Qred 10000))))
       (Qred 0)
  then Some (Qred (inject_Z i / Qred 100000))
  else Some (Qred (Qred (inject_Z (Qfloor (Qred (inject_Z i / Qred 10000)))
                         + Qred 1) / Qred 10)).
Proof. reflexivity. Qed.

(** The roundup of the source is the roundup of the specification. *)
Lemma roundUp_spec (q : Q) :
  roundUp (num := Exact.num) (Some q) = Some (Qred (roundup_spec q)).
Proof.
  rewrite roundUp_unfold. unfold roundup_spec. cbv zeta.
  change (Qred 100000) with 100000. change (Qred 10000) with 10000.
  change (Qred 10) with 10. change (Qred 1) with 1. change (Qred 0) with 0.
  assert (Hi : Qfloor (Qred (q * 100000) + (1 # 2)) = Qfloor (q * 100000 + (1 # 2))).
  { apply Qfloor_comp. rewrite Qred_correct. reflexivity. }
  rewrite Hi. set (i := Qfloor (q * 100000 + (1 # 2))).
  destruct (Z.eqb_spec (i mod 10000) 0) as [Hm|Hm].
  - rewrite Qeq_eq_bool; [reflexivity|].
    rewrite Qred_correct. apply rem_10000_zero_iff. exact Hm.
  - destruct (Qeq_bool _ 0) eqn:Hb.
    + exfalso. apply Hm. apply rem_10000_zero_iff.
      apply Qeq_bool_eq in Hb. rewrite Qred_correct in Hb. exact Hb.
    + f_equal. apply Qred_complete. rewrite Qred_correct.
      assert (Hf : Qfloor (Qred (inject_Z i / 10000)) = (i / 10000)%Z).
      { rewrite (Qfloor_comp _ _ (Qred_correct _)).
        symmetry. apply (Zdiv_Qdiv i 10000). }
      rewrite Hf, inject_Z_plus. reflexivity.
Qed.

End ExactFacts.

(** ** The next lower MacroVectors and the mean distance *)

Section MeanSpec.

Context {num : Type} `{JSNumber num}.
Local Open Scope js_scope.

(** The mean distance in the words of the specification: the arithmetic
    mean of the normalized distances over the classes with an available
    neighbor, 0 if none is available.  A class is given as the pair of its
    available distance (NaN when there is no neighbor) and its normalized
    distance. *)
Definition spec_mean_distance (classes : list (num * num)) : num :=
  let available := filter (fun c => negb (isNaN (fst c))) classes in
  match map snd available with
  | [] => lit 0
  | d :: ds => fold_left add ds d / of_nat (length available)
  end.

End MeanSpec.

Lemma mean_distance_spec_exact
  (a1 a2 a36 a4 a5 c1 c2 c36 c4 s1 s2 s36 s4 : Exact.num) :
  mean_distance a1 a2 a36 a4 a5 c1 c2 c36 c4 s1 s2 s36 s4
  = spec_mean_distance
      [ (a1, a1 * (c1 / s1)); (a2, a2 * (c2 / s2)); (a36, a36 * (c36 / s36));
        (a4, a4 * (c4 / s4)); (a5, a5 * lit 0) ]%js.
Proof.
  unfold mean_distance, spec_mean_distance.
  generalize (a1 * (c1 / s1))%js (a2 * (c2 / s2))%js (a36 * (c36 / s36))%js
             (a4 * (c4 / s4))%js (a5 * lit 0)%js.
  intros n1 n2 n36 n4 n5.
  destruct a1 as [a1|], a2 as [a2|], a36 as [a36|], a4 as [a4|], a5 as [a5|];
    cbn [isNaN Exact.exact_number negb filter map fst snd Datatypes.length
         fold_left Nat.eqb];
    destruct n1 as [n1|], n2 as [n2|], n36 as [n36|], n4 as [n4|], n5 as [n5|];
    try reflexivity;
    cbn [add div lit of_nat Exact.exact_number Exact.lift2 Exact.qdiv];
    repeat match goal with
           | |- context [Qeq_bool (Qred ?c) 0] =>
               change (Qeq_bool (Qred c) 0) with false
           end;
    cbv iota; f_equal; apply Qred_complete;
    rewrite ?Qred_correct; change (Qred 0) with 0%Q; unfold Qdiv; ring.
Qed.

Lemma map_eq_In {A B} (f g : A -> B) (l : list A) :
  map f l = map g l -> forall x, In x l -> f x = g x.
Proof.
  induction l as [|a l IH]; intros Hm x Hin; simpl in *; [tauto|].
  injection Hm as Ha Hl. destruct Hin as [<-|Hin]; [exact Ha|exact (IH Hl x Hin)].
Qed.

(** With no correction, every score of the global table is returned as it is. *)
Lemma final_score_table_value_exact (key : string) (q : Q) :
  In (key, q) cvssLookup_globalV4 ->
  final_score (num := Exact.num) (lit q) (lit 0) = lit q.
Proof.
  intros Hin.
  assert (Hall : map (fun kv => final_score (num := Exact.num) (lit (snd kv)) (lit 0))
                     cvssLookup_globalV4
                 = map (fun kv => lit (snd kv)) cvssLookup_globalV4)
    by (vm_compute; reflexivity).
  exact (map_eq_In _ _ _ Hall (key, q) Hin).
Qed.

Lemma final_score_table_value_float (key : string) (q : Q) :
  In (key, q) cvssLookup_globalV4 ->
  final_score (num := Float64.num) (lit q) (lit 0) = lit q.
Proof.
  intros Hin.
  assert (Hall : map (fun kv => final_score (num := Float64.num) (lit (snd kv)) (lit 0))
                     cvssLookup_globalV4
                 = map (fun kv => lit (snd kv)) cvssLookup_globalV4)
    by (vm_compute; reflexivity).
  exact (map_eq_In _ _ _ Hall (key, q) Hin).
Qed.

(** The six class digits of a key of the lookup table. *)
Definition digits (key : string) : option (nat * nat * nat * nat * nat * nat) :=
  match parseInt (char_at key 0), parseInt (char_at key 1),
        parseInt (char_at key 2), parseInt (char_at key 3),
        parseInt (char_at key 4), parseInt (char_at key 5) with
  | Some eq1, Some eq2, Some eq3, Some eq4, Some eq5, Some eq6 =>
      Some (eq1, eq2, eq3, eq4, eq5, eq6)
  | _, _, _, _, _, _ => None
  end.

(** ** Validated v3.x metric maps *)

(** [xs.includes(x)] as membership. *)
Lemma arr_includes_In (xs : list string) (x : string) :
  JS.arr_includes xs x = true <-> In x xs.
Proof.
  unfold JS.arr_includes. rewrite existsb_exists. split.
  - intros (y & Hin & Heq). apply String.eqb_eq in Heq. subst y. exact Hin.
  - intros Hin. exists x. split; [exact Hin|apply String.eqb_refl].
Qed.

Lemma get_In {A} (d : list (string * A)) (k : string) (v : A) :
  JS.get d k = Some v -> In (k, v) d.
Proof.
  induction d as [|[k0 v0] d IH]; simpl; [discriminate|].
  destruct (String.eqb_spec k0 k) as [->|_].
  - intros [= ->]. left. reflexivity.
  - intros Hg. right. exact (IH Hg).
Qed.

Definition allKnownMetrics : list string :=
  baseMetrics ++ temporalMetrics ++ environmentalMetrics.

Definition allKnownMetricsValues : list (string * list string) :=
  spread (spread baseMetricValues temporalMetricValues) environmentalMetricValues.

(** [value] is one of the values listed for [metric]. *)
Definition allowed_value (metric value : string) : bool :=
  match JS.get allKnownMetricsValues metric with
  | Some allowed => JS.arr_includes allowed value
  | None => false
  end.

(** Every known metric that is present carries one of its listed values. *)
Definition allowed_map (metricsMap : list (string * string)) : Prop :=
  forall metric value,
    In metric allKnownMetrics ->
    JS.get metricsMap metric = Some value ->
    allowed_value metric value = true.

Lemma checkMetricsValues_allowed metricsMap metrics metricsValues metric value :
  checkMetricsValues metricsMap metrics metricsValues = Ok tt ->
  In metric metrics ->
  JS.get metricsMap metric = Some value ->
  JS.truthy value = true ->
  exists allowed,
    JS.get metricsValues metric = Some allowed
    /\ JS.arr_includes allowed value = true.
Proof.
  intros Hc Hin Hget Htr.
  induction metrics as [|m0 rest IH]; simpl in Hin; [tauto|].
  simpl in Hc.
  destruct Hin as [->|Hin].
  - rewrite Hget, Htr in Hc. cbn [negb] in Hc.
    destruct (JS.get metricsValues metric) as [allowed|]; [|discriminate].
    destruct (JS.arr_includes allowed value) eqn:Hinc; [|discriminate].
    exists allowed. auto.
  - apply IH; [|exact Hin].
    destruct (JS.get metricsMap m0) as [userValue|]; [|exact Hc].
    destruct (negb (JS.truthy userValue)); [exact Hc|].
    destruct (JS.get metricsValues m0) as [allowed|]; [|discriminate].
    destruct (negb (JS.arr_includes allowed userValue)); [discriminate|exact Hc].
Qed.

(** What [validate] has checked when it returns. *)
Lemma validate_checked cvssStr v :
  validate cvssStr = Ok v ->
  checkMandatoryMetrics (metricsMap v) = Ok tt
  /\ checkMetricsValues (metricsMap v) allKnownMetrics allKnownMetricsValues = Ok tt
  /\ validateVersion (versionStr v) = Ok tt
  /\ isTemporal v
     = existsb (fun metric => JS.arr_includes temporalMetrics metric)
               (JS.keys (metricsMap v)).
Proof.
  unfold validate. intros Hv.
  destruct (negb (JS.truthy cvssStr) || negb (JS.startsWith cvssStr "CVSS:"));
    [discriminate|].
  apply bind_ok in Hv. destruct Hv as ([] & Hver & Hv).
  apply bind_ok in Hv. destruct Hv as (_ & _ & Hv).
  apply bind_ok in Hv. destruct Hv as (mm & _ & Hv).
  apply bind_ok in Hv. destruct Hv as ([] & Hm & Hv).
  apply bind_ok in Hv. destruct Hv as (_ & _ & Hv).
  apply bind_ok in Hv. destruct Hv as ([] & Hval & Hv).
  injection Hv as <-. cbn [metricsMap versionStr isTemporal]. auto.
Qed.

(** A syntactically valid v3.x vector: a 3.x prefix, accepted by [validate],
    and no metric with an empty value. *)
Definition wellFormedV3 (cvssStr : string) : bool :=
  match detectCvssVersion cvssStr with
  | Ok version => String.eqb version "3.1"
  | Throw _ => false
  end
  && match validate cvssStr with
     | Ok v => forallb (fun kv => JS.truthy (snd kv)) (metricsMap v)
     | Throw _ => false
     end.

Lemma wellFormedV3_inv cvssStr :
  wellFormedV3 cvssStr = true ->
  detectCvssVersion cvssStr = Ok "3.1"
  /\ exists v,
       validate cvssStr = Ok v
       /\ allowed_map (metricsMap v)
       /\ (forall metric, In metric baseMetrics ->
                          JS.has (metricsMap v) metric = true).
Proof.
  unfold wellFormedV3. intros Hw. apply andb_prop in Hw. destruct Hw as [Hd Hw].
  destruct (detectCvssVersion cvssStr) as [ver|]; [|discriminate].
  apply String.eqb_eq in Hd. subst ver.
  split; [reflexivity|].
  destruct (validate cvssStr) as [v|] eqn:Hv; [|discriminate].
  exists v. split; [reflexivity|].
  destruct (validate_checked _ _ Hv) as (Hm & Hval & _ & _).
  split.
  - intros metric value Hin Hget.
    assert (Htr : JS.truthy value = true).
    { rewrite forallb_forall in Hw. exact (Hw _ (get_In _ _ _ Hget)). }
    destruct (checkMetricsValues_allowed _ _ _ _ _ Hval Hin Hget Htr)
      as (allowed & Ha & Hinc).
    unfold allowed_value. rewrite Ha. exact Hinc.
  - intros metric Hin.
    exact (checkMandatoryMetrics_loop_has _ _ _ Hm Hin).
Qed.

(** ** Exact values and their ranges *)

Definition one_decimal (x : Exact.num) : Prop :=
  exists k : Z, (0 <= k <= 100)%Z /\ x = Some (Qred (inject_Z k / 10)).

Definition in_range (lo hi : Q) (x : Exact.num) : Prop :=
  exists q : Q, x = Some q /\ (lo <= q <= hi)%Q.

Definition in_rangeb (lo hi : Q) (r : result error Exact.num) : bool :=
  match r with
  | Ok (Some q) => Qle_bool lo q && Qle_bool q hi
  | _ => false
  end.

(** The weight that [getMetricNumericValue] reads for a metric other than
    PR and MPR. *)
Definition weight_of (metric value : string) : result error Exact.num :=
  match field (spread (spread baseMetricValueScores temporalMetricValueScores)
                      environmentalMetricValueScores) metric with
  | None => Throw (MissingMetricScore metric)
  | Some score => Ok (toNumber (JS.get score value))
  end.

Module RangeFacts.

Import ExactFacts.
Local Open Scope Q_scope.

Lemma roundup_spec_range (q : Q) :
  0 <= q <= 10 ->
  exists k : Z, (0 <= k <= 100)%Z /\ roundup_spec q == inject_Z k / 10.
Proof.
  intros [H0 H10]. unfold roundup_spec. cbv zeta.
  set (i := Qfloor (q * 100000 + (1 # 2))).
  assert (Hi0 : (0 <= i)%Z).
  { change 0%Z with (Qfloor 0). apply Qfloor_resp_le. lra. }
  assert (Hi1 : (i <= 1000000)%Z).
  { change 1000000%Z with (Qfloor (1000000 + (1 # 2))). apply Qfloor_resp_le. lra. }
  destruct (Z.eqb_spec (i mod 10000) 0) as [Hm|Hm].
  - exists (i / 10000)%Z. split.
    + split; [apply Z.div_pos; lia|]. apply Z.div_le_upper_bound; lia.
    + assert (Hi : i = (10000 * (i / 10000))%Z)
        by (apply Z.div_exact; [discriminate|exact Hm]).
      rewrite Hi at 1. rewrite inject_Z_mult.
      change (inject_Z 10000) with 10000. field.
  - exists (i / 10000 + 1)%Z. split; [|reflexivity].
    split; [pose proof (Z.div_pos i 10000); lia|].
    assert (i / 10000 <= 100)%Z by (apply Z.div_le_upper_bound; lia).
    assert (i / 10000 <> 100)%Z.
    { intros Hd. apply Hm.
      pose proof (Z.mul_div_le i 10000 ltac:(lia)).
      assert (Hi : (i = 1000000)%Z) by lia. rewrite Hi. reflexivity. }
    lia.
Qed.

Lemma roundUp_range (q : Q) :
  0 <= q <= 10 -> one_decimal (roundUp (num := Exact.num) (Some q)).
Proof.
  intros Hq. destruct (roundup_spec_range q Hq) as (k & Hk & Hr).
  exists k. split; [exact Hk|]. rewrite roundUp_spec. f_equal.
  apply Qred_complete. exact Hr.
Qed.

Lemma Qfloor_half (n : Z) : Qfloor (inject_Z n + (1 # 2)) = n.
Proof.
  assert (He : inject_Z n + (1 # 2) == (1 + n * 2) # 2).
  { unfold Qeq, Qplus, inject_Z; cbn [Qnum Qden]; lia. }
  rewrite (Qfloor_comp _ _ He). unfold Qfloor.
  rewrite Z.div_add by discriminate. reflexivity.
Qed.

Lemma roundup_spec_fixed (k : Z) :
  roundup_spec (inject_Z k / 10) == inject_Z k / 10.
Proof.
  unfold roundup_spec. cbv zeta.
  assert (Hi : Qfloor (inject_Z k / 10 * 100000 + (1 # 2)) = (k * 10000)%Z).
  { assert (He : inject_Z k / 10 * 100000 + (1 # 2)
                 == inject_Z (k * 10000) + (1 # 2)).
    { rewrite inject_Z_mult. change (inject_Z 10000) with 10000. field. }
    rewrite (Qfloor_comp _ _ He). apply Qfloor_half. }
  rewrite Hi, Z.mod_mul by discriminate. cbn [Z.eqb].
  rewrite inject_Z_mult. change (inject_Z 10000) with 10000. field.
Qed.

Lemma roundup_spec_comp (q q' : Q) : q == q' -> roundup_spec q = roundup_spec q'.
Proof.
  intros Hq. unfold roundup_spec.
  rewrite (Qfloor_comp (q * 100000 + (1 # 2)) (q' * 100000 + (1 # 2)))
    by (rewrite Hq; reflexivity).
  reflexivity.
Qed.

(** Roundup leaves a score with one decimal as it is. *)
Lemma roundUp_one_decimal (x : Exact.num) :
  one_decimal x -> roundUp x = x.
Proof.
  intros (k & _ & ->). rewrite roundUp_spec. f_equal. apply Qred_complete.
  rewrite (roundup_spec_comp _ _ (Qred_correct _)).
  apply roundup_spec_fixed.
Qed.

Lemma one_decimal_range (x : Exact.num) : one_decimal x -> in_range 0 10 x.
Proof.
  intros (k & [Hk0 Hk1] & ->). eexists. split; [reflexivity|].
  rewrite Qred_correct.
  assert (H0 : inject_Z 0 <= inject_Z k) by (rewrite <- Zle_Qle; exact Hk0).
  assert (H1 : inject_Z k <= inject_Z 100) by (rewrite <- Zle_Qle; exact Hk1).
  change (inject_Z 0) with 0 in H0. change (inject_Z 100) with 100 in H1.
  split.
  - apply Qle_shift_div_l; [reflexivity|]. lra.
  - apply Qle_shift_div_r; [reflexivity|]. lra.
Qed.

Lemma one_decimal_zero : one_decimal (lit 0).
Proof. exists 0%Z. split; [lia|reflexivity]. Qed.

Lemma in_rangeb_spec lo hi r :
  in_rangeb lo hi r = true -> exists x, r = Ok x /\ in_range lo hi x.
Proof.
  destruct r as [[q|]|]; simpl; try discriminate.
  intros Hb. apply andb_prop in Hb. destruct Hb as [Hl Hh].
  apply Qle_bool_imp_le in Hl, Hh.
  exists (Some q). split; [reflexivity|]. exists q. auto.
Qed.

Lemma mul_range (b : Q) (x y : Exact.num) :
  0 <= b -> in_range 0 b x -> in_range 0 1 y -> in_range 0 b (x * y)%js.
Proof.
  intros Hb (p & -> & Hp0 & Hp1) (q & -> & Hq0 & Hq1).
  eexists. split; [reflexivity|]. rewrite Qred_correct. split.
  - apply Qmult_le_0_compat; assumption.
  - apply Qle_trans with (b * 1); [|lra].
    apply Qmult_le_compat_nonneg; split; assumption.
Qed.

End RangeFacts.

(** ** Weights of validated metrics *)

Lemma allowed_value_In metric value :
  allowed_value metric value = true ->
  exists allowed,
    JS.get allKnownMetricsValues metric = Some allowed /\ In value allowed.
Proof.
  unfold allowed_value.
  destruct (JS.get allKnownMetricsValues metric) as [allowed|]; [|discriminate].
  intros Hinc. exists allowed. split; [reflexivity|].
  apply arr_includes_In. exact Hinc.
Qed.

Lemma getMetricNumericValue_weight metricsMap metric value :
  String.eqb metric BaseMetric.PRIVILEGES_REQUIRED = false ->
  String.eqb metric EnvironmentalMetric.MODIFIED_PRIVILEGES_REQUIRED = false ->
  JS.get metricsMap metric = Some value ->
  getMetricNumericValue (num := Exact.num) metric metricsMap
  = weight_of metric value.
Proof.
  intros Hpr Hmpr Hget. unfold getMetricNumericValue, getMetricValue, weight_of.
  rewrite Hget. cbn [bind]. rewrite Hpr, Hmpr. reflexivity.
Qed.

(** The weights of the listed values of [metric] all lie in [lo, hi]. *)
Definition weights_in (lo hi : Q) (metric valuesOf : string) : bool :=
  match JS.get allKnownMetricsValues valuesOf with
  | Some vals =>
      forallb (fun v => String.eqb v "X" || in_rangeb lo hi (weight_of metric v)) vals
  | None => false
  end.

Lemma weights_in_spec lo hi metric valuesOf value :
  weights_in lo hi metric valuesOf = true ->
  allowed_value valuesOf value = true ->
  value <> "X" ->
  exists x, weight_of metric value = Ok x /\ in_range lo hi x.
Proof.
  unfold weights_in. intros Hw Ha Hx.
  destruct (allowed_value_In _ _ Ha) as (allowed & Hget & Hin).
  rewrite Hget in Hw. rewrite forallb_forall in Hw.
  specialize (Hw _ Hin). apply orb_prop in Hw. destruct Hw as [Hw|Hw].
  - apply String.eqb_eq in Hw. contradiction.
  - apply RangeFacts.in_rangeb_spec. exact Hw.
Qed.

(** The same when X is a listed value with a weight of its own. *)
Definition weights_in_all (lo hi : Q) (metric : string) : bool :=
  match JS.get allKnownMetricsValues metric with
  | Some vals => forallb (fun v => in_rangeb lo hi (weight_of metric v)) vals
  | None => false
  end.

Lemma weights_in_all_spec lo hi metric value :
  weights_in_all lo hi metric = true ->
  allowed_value metric value = true ->
  exists x, weight_of metric value = Ok x /\ in_range lo hi x.
Proof.
  unfold weights_in_all. intros Hw Ha.
  destruct (allowed_value_In _ _ Ha) as (allowed & Hget & Hin).
  rewrite Hget in Hw. rewrite forallb_forall in Hw.
  apply RangeFacts.in_rangeb_spec. exact (Hw _ Hin).
Qed.

Lemma privileges_required_range value scopeValue :
  allowed_value "PR" value = true ->
  allowed_value "S" scopeValue = true ->
  exists x,
    getPrivilegesRequiredNumericValue (num := Exact.num) value scopeValue = Ok x
    /\ in_range 0 1 x.
Proof.
  intros Hv Hs.
  destruct (allowed_value_In _ _ Hv) as (av & Hgv & Hinv).
  destruct (allowed_value_In _ _ Hs) as (asc & Hgs & Hins).
  vm_compute in Hgv, Hgs. injection Hgv as <-. injection Hgs as <-.
  apply RangeFacts.in_rangeb_spec.
  assert (Hall : forallb (fun v => forallb (fun s =>
             in_rangeb 0 1 (getPrivilegesRequiredNumericValue (num := Exact.num) v s))
             ["U"; "C"]) ["N"; "L"; "H"] = true) by (vm_compute; reflexivity).
  rewrite forallb_forall in Hall. specialize (Hall _ Hinv).
  rewrite forallb_forall in Hall. exact (Hall _ Hins).
Qed.

(** ** The base score of a validated map *)

(** [calculateBaseResult] after the validation. *)
Definition base_result_of {num} `{JSNumber num}
  (metricsMap : list (string * string)) : result error ScoreResult :=
  iss <- calculateIss metricsMap ;;
  let impact := calculateImpact metricsMap iss in
  exploitability <- calculateExploitability metricsMap ;;
  let scopeUnchanged := JS.eqs (JS.get metricsMap BaseMetric.SCOPE) "U" in
  let score :=
    if (impact <=? lit 0)%js then lit 0
    else if scopeUnchanged
         then roundUp (Math_min (impact + exploitability) (lit 10))%js
         else roundUp (Math_min (lit 1.08 * (impact + exploitability)) (lit 10))%js in
  Ok {| score := score;
        sr_metricsMap := metricsMap;
        impact := if (impact <=? lit 0)%js then lit 0 else roundUp impact;
        exploitability :=
          if (impact <=? lit 0)%js then lit 0 else roundUp exploitability |}.

Lemma calculateBaseResult_of {num} `{JSNumber num} (cvssString : string) :
  calculateBaseResult cvssString
  = (v <- validate cvssString ;; base_result_of (metricsMap v)).
Proof. reflexivity. Qed.

(** The base metrics of the map are present with listed values. *)
Definition base_ok (metricsMap : list (string * string)) : Prop :=
  forall metric, In metric baseMetrics ->
    exists value, JS.get metricsMap metric = Some value
                  /\ allowed_value metric value = true.

Lemma allowed_not_X metric value :
  In metric baseMetrics -> allowed_value metric value = true -> value <> "X".
Proof.
  intros Hin Ha ->. revert Ha. simpl in Hin.
  repeat (destruct Hin as [<-|Hin]; [vm_compute; discriminate|]).
  destruct Hin.
Qed.

Lemma base_weight metricsMap metric :
  base_ok metricsMap ->
  In metric ["AV"; "AC"; "UI"; "C"; "I"; "A"] ->
  exists x, getMetricNumericValue (num := Exact.num) metric metricsMap = Ok x
            /\ in_range 0 1 x.
Proof.
  intros Hok Hin.
  assert (Hb : In metric baseMetrics).
  { simpl in Hin. unfold baseMetrics. simpl.
    repeat (destruct Hin as [<-|Hin]; [tauto|]). destruct Hin. }
  destruct (Hok metric Hb) as (value & Hget & Ha).
  assert (Hw : weights_in 0 1 metric metric = true).
  { simpl in Hin.
    repeat (destruct Hin as [<-|Hin]; [vm_compute; reflexivity|]). destruct Hin. }
  assert (Hpr : String.eqb metric "PR" = false /\ String.eqb metric "MPR" = false).
  { simpl in Hin.
    repeat (destruct Hin as [<-|Hin]; [split; reflexivity|]). destruct Hin. }
  rewrite (getMetricNumericValue_weight _ _ _ (proj1 Hpr) (proj2 Hpr) Hget).
  exact (weights_in_spec _ _ _ _ _ Hw Ha (allowed_not_X _ _ Hb Ha)).
Qed.

Lemma base_PR_weight metricsMap :
  base_ok metricsMap ->
  exists x, getMetricNumericValue (num := Exact.num) "PR" metricsMap = Ok x
            /\ in_range 0 1 x.
Proof.
  intros Hok.
  destruct (Hok "PR") as (value & Hget & Ha); [unfold baseMetrics; simpl; tauto|].
  destruct (Hok "S") as (scope & Hgs & Hs); [unfold baseMetrics; simpl; tauto|].
  rewrite (getMetricNumericValue_PR _ _ _ Hget Hgs).
  exact (privileges_required_range _ _ Ha Hs).
Qed.

Definition nonneg (x : Exact.num) : Prop :=
  exists q : Q, x = Some q /\ (0 <= q)%Q.

Lemma in_range_nonneg hi x : in_range 0 hi x -> nonneg x.
Proof. intros (q & -> & H0 & _). exists q. auto. Qed.

Lemma roundUp_min_range (x : Exact.num) :
  nonneg x -> one_decimal (roundUp (Math_min x (lit 10))).
Proof.
  intros (q & -> & Hq). unfold Math_min.
  cbn [isNaN Exact.exact_number orb lit lt Exact.cmp2].
  change (Qred 10) with 10%Q. unfold Exact.Qltb.
  destruct (Qle_bool q 10) eqn:Hle; cbn [negb].
  - apply RangeFacts.roundUp_range. split; [exact Hq|].
    apply Qle_bool_imp_le. exact Hle.
  - apply RangeFacts.roundUp_range. split; discriminate.
Qed.

Lemma nonneg_add (x y : Exact.num) : nonneg x -> nonneg y -> nonneg (x + y)%js.
Proof.
  intros (p & -> & Hp) (q & -> & Hq). eexists. split; [reflexivity|].
  rewrite Qred_correct. apply (Qplus_le_compat 0 p 0 q); assumption.
Qed.

Lemma nonneg_mul (x y : Exact.num) : nonneg x -> nonneg y -> nonneg (x * y)%js.
Proof.
  intros (p & -> & Hp) (q & -> & Hq). eexists. split; [reflexivity|].
  rewrite Qred_correct. apply Qmult_le_0_compat; assumption.
Qed.

Lemma nonneg_lit (q : Q) : (0 <= q)%Q -> nonneg (lit q).
Proof. intros Hq. eexists. split; [reflexivity|]. rewrite Qred_correct. exact Hq. Qed.

Lemma positive_of_not_le (p : Q) :
  (Some p <=? lit 0)%js = false -> nonneg (Some p).
Proof.
  cbn [le lit Exact.exact_number Exact.cmp2]. change (Qred 0) with 0%Q.
  intros Hle. exists p. split; [reflexivity|].
  destruct (Qlt_le_dec p 0) as [Hlt|Hge]; [|exact Hge].
  exfalso. apply Qlt_le_weak in Hlt. apply Qle_bool_iff in Hlt. congruence.
Qed.

Lemma calculateImpact_some metricsMap (q : Q) :
  exists p, calculateImpact (num := Exact.num) metricsMap (Some q) = Some p.
Proof.
  unfold calculateImpact. destruct (JS.eqs _ "U"); eexists; reflexivity.
Qed.

Lemma calculateModifiedImpact_some metricsMap (q : Q) versionStr :
  exists p,
    calculateModifiedImpact (num := Exact.num) metricsMap (Some q) versionStr
    = Some p.
Proof.
  unfold calculateModifiedImpact.
  destruct (JS.eqs (JS.get metricsMap _) "U"); [eexists; reflexivity|].
  destruct (JS.eqs versionStr "3.0"); eexists; reflexivity.
Qed.

Lemma in_range_some lo hi x : in_range lo hi x -> exists q, x = Some q.
Proof. intros (q & -> & _). exists q. reflexivity. Qed.

(** The score computed from the impact and the exploitability. *)
Lemma score_one_decimal (scopeUnchanged : bool) (p : Q) (e : Exact.num) :
  nonneg e ->
  one_decimal
    (if (Some p <=? lit 0)%js then lit 0
     else if scopeUnchanged
          then roundUp (Math_min (Some p + e) (lit 10))%js
          else roundUp (Math_min (lit 1.08 * (Some p + e)) (lit 10))%js).
Proof.
  intros He. destruct (Some p <=? lit 0)%js eqn:Hle.
  - exact RangeFacts.one_decimal_zero.
  - pose proof (nonneg_add _ _ (positive_of_not_le _ Hle) He) as Hsum.
    destruct scopeUnchanged; apply roundUp_min_range; [exact Hsum|].
    apply nonneg_mul; [apply nonneg_lit; discriminate|exact Hsum].
Qed.

Lemma exploitability_nonneg metricsMap :
  base_ok metricsMap ->
  exists e, calculateExploitability (num := Exact.num) metricsMap = Ok e
            /\ nonneg e.
Proof.
  intros Hok.
  destruct (base_weight _ "AV" Hok) as (av & Hav & Rav); [simpl; tauto|].
  destruct (base_weight _ "AC" Hok) as (ac & Hac & Rac); [simpl; tauto|].
  destruct (base_weight _ "UI" Hok) as (ui & Hui & Rui); [simpl; tauto|].
  destruct (base_PR_weight _ Hok) as (pr & Hpr & Rpr).
  unfold calculateExploitability.
  change BaseMetric.ATTACK_VECTOR with "AV".
  change BaseMetric.ATTACK_COMPLEXITY with "AC".
  change BaseMetric.PRIVILEGES_REQUIRED with "PR".
  change BaseMetric.USER_INTERACTION with "UI".
  rewrite Hav, Hac, Hpr, Hui. cbn [bind].
  eexists. split; [reflexivity|].
  repeat apply nonneg_mul; try (eapply in_range_nonneg; eassumption).
  apply nonneg_lit. discriminate.
Qed.

Lemma iss_some metricsMap :
  base_ok metricsMap ->
  exists q, calculateIss (num := Exact.num) metricsMap = Ok (Some q).
Proof.
  intros Hok.
  destruct (base_weight _ "C" Hok) as (c & Hc & Rc); [simpl; tauto|].
  destruct (base_weight _ "I" Hok) as (i & Hi & Ri); [simpl; tauto|].
  destruct (base_weight _ "A" Hok) as (a & Ha & Ra); [simpl; tauto|].
  destruct (in_range_some _ _ _ Rc) as (qc & ->).
  destruct (in_range_some _ _ _ Ri) as (qi & ->).
  destruct (in_range_some _ _ _ Ra) as (qa & ->).
  unfold calculateIss.
  change BaseMetric.CONFIDENTIALITY with "C".
  change BaseMetric.INTEGRITY with "I".
  change BaseMetric.AVAILABILITY with "A".
  rewrite Hc, Hi, Ha. cbn [bind]. eexists. reflexivity.
Qed.

(** The base score of a validated map has one decimal and lies in [0, 10]. *)
Lemma base_result_one_decimal metricsMap :
  base_ok metricsMap ->
  exists r, base_result_of (num := Exact.num) metricsMap = Ok r
            /\ one_decimal (score r).
Proof.
  intros Hok.
  destruct (iss_some _ Hok) as (iss & Hiss).
  destruct (exploitability_nonneg _ Hok) as (e & He & Re).
  destruct (calculateImpact_some metricsMap iss) as (p & Hp).
  unfold base_result_of. rewrite Hiss, He. cbn [bind]. rewrite Hp.
  eexists. split; [reflexivity|]. cbn [score].
  apply score_one_decimal. exact Re.
Qed.

Lemma wellFormedV3_base_ok cvssStr v :
  wellFormedV3 cvssStr = true -> validate cvssStr = Ok v ->
  base_ok (metricsMap v) /\ allowed_map (metricsMap v).
Proof.
  intros Hw Hv. destruct (wellFormedV3_inv _ Hw) as (_ & v' & Hv' & Hall & Hhas).
  rewrite Hv in Hv'. injection Hv' as <-. split; [|exact Hall].
  intros metric Hin. specialize (Hhas metric Hin). unfold JS.has in Hhas.
  destruct (JS.get (metricsMap v) metric) as [value|] eqn:Hget; [|discriminate].
  exists value. split; [reflexivity|].
  apply (Hall metric value); [|exact Hget].
  unfold allKnownMetrics. apply in_or_app. left. exact Hin.
Qed.

(** ** The defaults of the temporal and environmental metrics *)

Lemma get_default_step (metricsMap : list (string * string)) (metric k : string) :
  JS.get (if negb (JS.has metricsMap metric)
          then JS.set metricsMap metric "X" else metricsMap) k
  = match JS.get metricsMap k with
    | Some v => Some v
    | None => if String.eqb metric k then Some "X" else None
    end.
Proof.
  unfold JS.has. destruct (JS.get metricsMap metric) as [v|] eqn:Hm; cbn [negb].
  - destruct (JS.get metricsMap k) eqn:Hk; [reflexivity|].
    destruct (String.eqb_spec metric k) as [->|]; [congruence|reflexivity].
  - rewrite get_set. destruct (String.eqb_spec metric k) as [->|].
    + rewrite Hm. reflexivity.
    + destruct (JS.get metricsMap k); reflexivity.
Qed.

(** A temporal metric that is not selected gets the value X. *)
Lemma get_populateTemporalMetricDefaults metricsMap k :
  JS.get (populateTemporalMetricDefaults metricsMap) k
  = match JS.get metricsMap k with
    | Some v => Some v
    | None => if JS.arr_includes temporalMetrics k then Some "X" else None
    end.
Proof.
  unfold populateTemporalMetricDefaults, temporalMetrics. cbn [fold_left].
  rewrite !get_default_step.
  destruct (JS.get metricsMap k); [reflexivity|].
  unfold JS.arr_includes. cbn [existsb].
  rewrite (String.eqb_sym k TemporalMetric.EXPLOIT_CODE_MATURITY),
          (String.eqb_sym k TemporalMetric.REMEDIATION_LEVEL),
          (String.eqb_sym k TemporalMetric.REPORT_CONFIDENCE).
  destruct (String.eqb TemporalMetric.EXPLOIT_CODE_MATURITY k),
           (String.eqb TemporalMetric.REMEDIATION_LEVEL k),
           (String.eqb TemporalMetric.REPORT_CONFIDENCE k); reflexivity.
Qed.

(** The body of the loop of [populateEnvironmentalMetricDefaults]. *)
Definition environmental_default_step (metricsMap : list (string * string))
  (metric : string) : list (string * string) :=
  let metricsMap :=
    if negb (JS.has metricsMap metric) then JS.set metricsMap metric "X"
    else metricsMap in
  if JS.eqs (JS.get metricsMap metric) "X"
  then JS.set metricsMap metric
         (match JS.get modifiedMetricsMap metric with
          | Some baseMetric =>
              match JS.get metricsMap baseMetric with
              | Some v => v
              | None => "X"
              end
          | None => "X"
          end)
  else metricsMap.

(** The value of an environmental metric after the defaults: its own value
    when it is selected and not X, otherwise the value of the base metric it
    modifies, and X when there is none. *)
Definition environmental_value (metricsMap : list (string * string))
  (metric : string) : string :=
  let inherited :=
    match JS.get modifiedMetricsMap metric with
    | Some baseMetric =>
        match JS.get metricsMap baseMetric with
        | Some v => v
        | None => "X"
        end
    | None => "X"
    end in
  match JS.get metricsMap metric with
  | Some v => if String.eqb v "X" then inherited else v
  | None => inherited
  end.

Lemma get_environmental_default_step metricsMap metric k :
  (forall baseMetric, JS.get modifiedMetricsMap metric = Some baseMetric ->
                      String.eqb metric baseMetric = false) ->
  JS.get (environmental_default_step metricsMap metric) k
  = if String.eqb metric k then Some (environmental_value metricsMap metric)
    else JS.get metricsMap k.
Proof.
  intros Hbase. unfold environmental_default_step, environmental_value.
  cbv zeta. rewrite get_default_step, String.eqb_refl.
  assert (Hinh : forall b, JS.get modifiedMetricsMap metric = Some b ->
            JS.get (if negb (JS.has metricsMap metric)
                    then JS.set metricsMap metric "X" else metricsMap) b
            = JS.get metricsMap b).
  { intros b Hb. rewrite get_default_step, (Hbase b Hb).
    destruct (JS.get metricsMap b); reflexivity. }
  destruct (JS.get modifiedMetricsMap metric) as [b|] eqn:Hb.
  - rewrite (Hinh b eq_refl).
    destruct (JS.get metricsMap metric) as [v|] eqn:Hm; cbn [JS.eqs].
    + destruct (String.eqb v "X").
      * rewrite get_set. destruct (String.eqb metric k) eqn:Hk; [|].
        -- destruct (JS.get metricsMap b); reflexivity.
        -- rewrite get_default_step, Hk. destruct (JS.get metricsMap k); reflexivity.
      * rewrite get_default_step.
        destruct (String.eqb_spec metric k) as [<-|Hk].
        -- rewrite Hm. reflexivity.
        -- destruct (JS.get metricsMap k); reflexivity.
    + rewrite String.eqb_refl, get_set.
      destruct (String.eqb metric k) eqn:Hk.
      * destruct (JS.get metricsMap b); reflexivity.
      * rewrite get_default_step, Hk. destruct (JS.get metricsMap k); reflexivity.
  - destruct (JS.get metricsMap metric) as [v|] eqn:Hm; cbn [JS.eqs].
    + destruct (String.eqb v "X").
      * rewrite get_set. destruct (String.eqb metric k) eqn:Hk; [reflexivity|].
        rewrite get_default_step, Hk. destruct (JS.get metricsMap k); reflexivity.
      * rewrite get_default_step.
        destruct (String.eqb_spec metric k) as [<-|Hk].
        -- rewrite Hm. reflexivity.
        -- destruct (JS.get metricsMap k); reflexivity.
    + rewrite String.eqb_refl, get_set.
      destruct (String.eqb metric k) eqn:Hk; [reflexivity|].
      rewrite get_default_step, Hk. destruct (JS.get metricsMap k); reflexivity.
Qed.

Lemma arr_includes_cons (x k : string) (xs : list string) :
  JS.arr_includes (x :: xs) k = String.eqb x k || JS.arr_includes xs k.
Proof. unfold JS.arr_includes. cbn [existsb]. rewrite String.eqb_sym. reflexivity. Qed.

Lemma environmental_value_step metricsMap metric k :
  String.eqb metric k = false ->
  (forall b, JS.get modifiedMetricsMap metric = Some b -> String.eqb metric b = false) ->
  (forall b, JS.get modifiedMetricsMap k = Some b -> String.eqb metric b = false) ->
  environmental_value (environmental_default_step metricsMap metric) k
  = environmental_value metricsMap k.
Proof.
  intros Hk Hm Hb. unfold environmental_value.
  rewrite (get_environmental_default_step _ _ k Hm), Hk.
  destruct (JS.get modifiedMetricsMap k) as [b|]; [|reflexivity].
  rewrite (get_environmental_default_step _ _ b Hm), (Hb b eq_refl). reflexivity.
Qed.

Lemma get_fold_environmental_default_step metrics metricsMap k :
  NoDup metrics ->
  (forall metric b, In metric metrics -> JS.get modifiedMetricsMap metric = Some b ->
                    ~ In b metrics) ->
  JS.get (fold_left environmental_default_step metrics metricsMap) k
  = if JS.arr_includes metrics k then Some (environmental_value metricsMap k)
    else JS.get metricsMap k.
Proof.
  revert metricsMap.
  induction metrics as [|metric rest IH]; intros metricsMap Hnd Hbase;
    [reflexivity|].
  cbn [fold_left]. inversion Hnd as [|? ? Hnotin Hnd']; subst.
  assert (Hself : forall b, JS.get modifiedMetricsMap metric = Some b ->
                            String.eqb metric b = false).
  { intros b Hb. apply String.eqb_neq. intros <-.
    apply (Hbase metric metric); [left; reflexivity|exact Hb|left; reflexivity]. }
  rewrite IH; [|exact Hnd'|].
  2:{ intros m0 b Hin Hb Hinb.
      apply (Hbase m0 b); [right; exact Hin|exact Hb|right; exact Hinb]. }
  rewrite arr_includes_cons.
  destruct (JS.arr_includes rest k) eqn:Hin.
  - rewrite orb_true_r. f_equal.
    apply arr_includes_In in Hin.
    apply environmental_value_step; [|exact Hself|].
    + apply String.eqb_neq. intros <-. contradiction.
    + intros b Hb. apply String.eqb_neq. intros <-.
      apply (Hbase k metric); [right; exact Hin|exact Hb|left; reflexivity].
  - rewrite orb_false_r, get_environmental_default_step by exact Hself.
    destruct (String.eqb_spec metric k) as [->|]; reflexivity.
Qed.

Lemma In_environmentalMetrics_dec (b : string) :
  In b environmentalMetrics ->
  JS.arr_includes environmentalMetrics b = true.
Proof. apply arr_includes_In. Qed.

(** After the defaults an environmental metric has its
    [environmental_value]; the other metrics are left as they are. *)
Lemma get_populateEnvironmentalMetricDefaults metricsMap k :
  JS.get (populateEnvironmentalMetricDefaults metricsMap) k
  = if JS.arr_includes environmentalMetrics k
    then Some (environmental_value metricsMap k)
    else JS.get metricsMap k.
Proof.
  change (populateEnvironmentalMetricDefaults metricsMap)
    with (fold_left environmental_default_step environmentalMetrics metricsMap).
  apply get_fold_environmental_default_step.
  - unfold environmentalMetrics.
    repeat (constructor; [simpl; intros Hin;
                          repeat (destruct Hin as [Hin|Hin]; [discriminate Hin|]);
                          exact Hin|]).
    constructor.
  - intros metric b Hin Hb Hinb.
    apply In_environmentalMetrics_dec in Hinb.
    unfold environmentalMetrics in Hin. simpl in Hin.
    repeat (destruct Hin as [<-|Hin];
            [vm_compute in Hb; try discriminate Hb; injection Hb as <-;
             vm_compute in Hinb; discriminate Hinb|]).
    destruct Hin.
Qed.

(** ** Temporal and environmental scores of validated vectors *)

Lemma temporal_weight metricsMap metricsMap' metric :
  allowed_map metricsMap ->
  In metric temporalMetrics ->
  JS.get metricsMap' metric
  = JS.get (populateTemporalMetricDefaults metricsMap) metric ->
  exists x, getMetricNumericValue (num := Exact.num) metric metricsMap' = Ok x
            /\ in_range 0 1 x.
Proof.
  intros Hall Hin Hget. rewrite get_populateTemporalMetricDefaults in Hget.
  assert (Hinc : JS.arr_includes temporalMetrics metric = true)
    by (apply arr_includes_In; exact Hin).
  rewrite Hinc in Hget.
  assert (Hex : exists value, JS.get metricsMap' metric = Some value
                              /\ allowed_value metric value = true).
  { destruct (JS.get metricsMap metric) as [v|] eqn:Hm.
    - exists v. split; [exact Hget|]. apply (Hall metric v); [|exact Hm].
      unfold allKnownMetrics. apply in_or_app. right. apply in_or_app. left.
      exact Hin.
    - exists "X". split; [exact Hget|]. simpl in Hin.
      repeat (destruct Hin as [<-|Hin]; [reflexivity|]). destruct Hin. }
  destruct Hex as (value & Hv & Ha).
  assert (Hw : weights_in_all 0 1 metric = true
               /\ String.eqb metric "PR" = false
               /\ String.eqb metric "MPR" = false).
  { simpl in Hin.
    repeat (destruct Hin as [<-|Hin]; [repeat split; vm_compute; reflexivity|]).
    destruct Hin. }
  destruct Hw as (Hw & Hpr & Hmpr).
  rewrite (getMetricNumericValue_weight _ _ _ Hpr Hmpr Hv).
  exact (weights_in_all_spec _ _ _ _ Hw Ha).
Qed.

Lemma temporal_product_one_decimal (s rc e rl : Exact.num) :
  one_decimal s -> in_range 0 1 rc -> in_range 0 1 e -> in_range 0 1 rl ->
  one_decimal (roundUp (s * rc * e * rl)%js).
Proof.
  intros Hs Hrc He Hrl.
  assert (Hp : in_range 0 10 (s * rc * e * rl)%js).
  { repeat (apply RangeFacts.mul_range; [discriminate| |assumption]).
    apply RangeFacts.one_decimal_range. exact Hs. }
  destruct Hp as (q & -> & Hq). apply RangeFacts.roundUp_range. exact Hq.
Qed.

Lemma temporal_score_one_decimal cvssStr :
  wellFormedV3 cvssStr = true ->
  exists x, calculateTemporalScore (num := Exact.num) cvssStr = Ok x
            /\ one_decimal x.
Proof.
  intros Hw. destruct (wellFormedV3_inv _ Hw) as (_ & v & Hv & _ & _).
  destruct (wellFormedV3_base_ok _ _ Hw Hv) as (Hok & Hall).
  destruct (base_result_one_decimal _ Hok) as (r & Hr & Hs).
  destruct (temporal_weight (metricsMap v) _ "RC" Hall ltac:(simpl; tauto) eq_refl)
    as (rc & Hrc & Rrc).
  destruct (temporal_weight (metricsMap v) _ "E" Hall ltac:(simpl; tauto) eq_refl)
    as (e & He & Re).
  destruct (temporal_weight (metricsMap v) _ "RL" Hall ltac:(simpl; tauto) eq_refl)
    as (rl & Hrl & Rrl).
  unfold calculateTemporalScore, calculateTemporalResult.
  rewrite calculateBaseResult_of, Hv. cbn [bind]. rewrite Hr. cbn [bind].
  change TemporalMetric.REPORT_CONFIDENCE with "RC".
  change TemporalMetric.EXPLOIT_CODE_MATURITY with "E".
  change TemporalMetric.REMEDIATION_LEVEL with "RL".
  rewrite Hrc, He, Hrl. cbn [bind score].
  eexists. split; [reflexivity|].
  apply temporal_product_one_decimal; assumption.
Qed.

Lemma base_score_one_decimal cvssStr :
  wellFormedV3 cvssStr = true ->
  exists x, calculateBaseScore (num := Exact.num) cvssStr = Ok x
            /\ one_decimal x.
Proof.
  intros Hw. destruct (wellFormedV3_inv _ Hw) as (Hd & v & Hv & _ & _).
  destruct (wellFormedV3_base_ok _ _ Hw Hv) as (Hok & _).
  destruct (base_result_one_decimal _ Hok) as (r & Hr & Hs).
  unfold calculateBaseScore. rewrite Hd. cbn [bind].
  change (String.eqb "3.1" "4.0") with false.
  change (String.eqb "3.1" "3.1") with true. cbv iota.
  rewrite calculateBaseResult_of, Hv. cbn [bind]. rewrite Hr. cbn [bind].
  exists (score r). auto.
Qed.

Lemma mul_one (x : Exact.num) : one_decimal x -> (x * lit 1)%js = x.
Proof.
  intros (k & _ & ->). cbn [mul lit Exact.exact_number Exact.lift2]. f_equal.
  apply Qred_complete. rewrite !Qred_correct. ring.
Qed.

Lemma not_temporal_get v metric cvssStr :
  validate cvssStr = Ok v -> isTemporal v = false ->
  In metric temporalMetrics -> JS.get (metricsMap v) metric = None.
Proof.
  intros Hv Ht Hin. destruct (validate_checked _ _ Hv) as (_ & _ & _ & Heq).
  rewrite Heq in Ht.
  destruct (JS.get (metricsMap v) metric) as [value|] eqn:Hget; [|reflexivity].
  exfalso. apply get_In in Hget.
  assert (Hex : existsb (fun metric => JS.arr_includes temporalMetrics metric)
                        (JS.keys (metricsMap v)) = true).
  { apply existsb_exists. exists metric. split.
    - unfold JS.keys. apply in_map_iff. exists (metric, value). auto.
    - apply arr_includes_In. exact Hin. }
  congruence.
Qed.

(** C10 (no temporal metric, no temporal change).  For every well-formed
    v3.x vector that selects none of E, RL and RC, the temporal score is the
    base score: the three metrics default to X, of weight 1, and the roundup
    of a score with one decimal is that score. *)
Theorem temporal_score_without_temporal_metrics (cvssStr : string) :
  wellFormedV3 cvssStr = true ->
  (forall v, validate cvssStr = Ok v -> isTemporal v = false) ->
  exists x,
    calculateBaseScore (num := Exact.num) cvssStr = Ok x
    /\ calculateTemporalScore (num := Exact.num) cvssStr = Ok x.
Proof.
  intros Hw Hnt. destruct (wellFormedV3_inv _ Hw) as (Hd & v & Hv & _ & _).
  destruct (wellFormedV3_base_ok _ _ Hw Hv) as (Hok & Hall).
  destruct (base_result_one_decimal _ Hok) as (r & Hr & Hs).
  exists (score r). split.
  - unfold calculateBaseScore. rewrite Hd. cbn [bind].
    change (String.eqb "3.1" "4.0") with false.
    change (String.eqb "3.1" "3.1") with true. cbv iota.
    rewrite calculateBaseResult_of, Hv. cbn [bind]. rewrite Hr. reflexivity.
  - assert (Hx : forall metric, In metric temporalMetrics ->
               String.eqb metric "PR" = false -> String.eqb metric "MPR" = false ->
               weight_of metric "X" = Ok (lit 1) ->
               getMetricNumericValue (num := Exact.num) metric
                 (populateTemporalMetricDefaults (metricsMap v)) = Ok (lit 1)).
    { intros metric Hin Hpr Hmpr Hone.
      rewrite (getMetricNumericValue_weight _ metric "X" Hpr Hmpr); [exact Hone|].
      rewrite get_populateTemporalMetricDefaults.
      rewrite (not_temporal_get v metric cvssStr Hv (Hnt v Hv) Hin).
      rewrite (proj2 (arr_includes_In _ _) Hin). reflexivity. }
    unfold calculateTemporalScore, calculateTemporalResult.
    rewrite calculateBaseResult_of, Hv. cbn [bind]. rewrite Hr. cbn [bind].
    change TemporalMetric.REPORT_CONFIDENCE with "RC".
    change TemporalMetric.EXPLOIT_CODE_MATURITY with "E".
    change TemporalMetric.REMEDIATION_LEVEL with "RL".
    rewrite (Hx "RC"), (Hx "E"), (Hx "RL");
      try reflexivity; try (simpl; tauto).
    cbn [bind score]. f_equal.
    do 3 rewrite (mul_one (score r) Hs).
    apply RangeFacts.roundUp_one_decimal. exact Hs.
Qed.

Definition vector_v31_sample : string :=
  "CVSS:3.1/AV:N/AC:L/PR:H/UI:N/S:U/C:L/I:L/A:N/MAV:L".

Lemma temporal_score_without_temporal_metrics_witness :
  wellFormedV3 vector_v31_sample = true
  /\ exists x,
       calculateBaseScore (num := Exact.num) vector_v31_sample = Ok x
       /\ calculateTemporalScore (num := Exact.num) vector_v31_sample = Ok x.
Proof.
  split; [vm_compute; reflexivity|].
  apply (temporal_score_without_temporal_metrics vector_v31_sample).
  - vm_compute; reflexivity.
  - intros v Hv. vm_compute in Hv. injection Hv as <-. reflexivity.
Defined.

Lemma get_populateTemporal_other metricsMap k :
  JS.arr_includes temporalMetrics k = false ->
  JS.get (populateTemporalMetricDefaults metricsMap) k = JS.get metricsMap k.
Proof.
  intros Hk. rewrite get_populateTemporalMetricDefaults, Hk.
  destruct (JS.get metricsMap k); reflexivity.
Qed.

(** The value of a modified metric after the defaults is a listed value of
    the base metric it modifies. *)
Lemma environmental_value_allowed metricsMap k b :
  JS.get modifiedMetricsMap k = Some b ->
  JS.arr_includes temporalMetrics k = false ->
  JS.arr_includes temporalMetrics b = false ->
  In b baseMetrics -> In k allKnownMetrics ->
  (forall v, allowed_value k v = true -> v <> "X" -> allowed_value b v = true) ->
  base_ok metricsMap -> allowed_map metricsMap ->
  allowed_value b
    (environmental_value (populateTemporalMetricDefaults metricsMap) k) = true.
Proof.
  intros Hb Hkt Hbt Hbin Hkin Hsub Hok Hall.
  unfold environmental_value. rewrite Hb.
  rewrite (get_populateTemporal_other _ k Hkt), (get_populateTemporal_other _ b Hbt).
  destruct (Hok b Hbin) as (bv & Hgb & Hab). rewrite Hgb.
  destruct (JS.get metricsMap k) as [v|] eqn:Hgk; [|exact Hab].
  destruct (String.eqb_spec v "X") as [->|Hx]; [exact Hab|].
  apply Hsub; [|exact Hx]. exact (Hall k v Hkin Hgk).
Qed.

Lemma modified_values_of_base k b v :
  In (k, b) [ ("MAV", "AV"); ("MAC", "AC"); ("MPR", "PR"); ("MUI", "UI");
              ("MS", "S"); ("MC", "C"); ("MI", "I"); ("MA", "A") ] ->
  allowed_value k v = true -> v <> "X" -> allowed_value b v = true.
Proof.
  intros Hin Ha Hx. destruct (allowed_value_In _ _ Ha) as (allowed & Hget & Hv).
  simpl in Hin.
  repeat (destruct Hin as [[= <- <-]|Hin];
          [vm_compute in Hget; injection Hget as <-; simpl in Hv;
           repeat (destruct Hv as [<-|Hv]; [try reflexivity; congruence|]);
           destruct Hv|]).
  destruct Hin.
Qed.

Lemma modified_value_allowed metricsMap k b :
  In (k, b) [ ("MAV", "AV"); ("MAC", "AC"); ("MPR", "PR"); ("MUI", "UI");
              ("MS", "S"); ("MC", "C"); ("MI", "I"); ("MA", "A") ] ->
  base_ok metricsMap -> allowed_map metricsMap ->
  JS.get (populateEnvironmentalMetricDefaults
            (populateTemporalMetricDefaults metricsMap)) k
  = Some (environmental_value (populateTemporalMetricDefaults metricsMap) k)
  /\ allowed_value b
       (environmental_value (populateTemporalMetricDefaults metricsMap) k) = true.
Proof.
  intros Hin Hok Hall. split.
  - rewrite get_populateEnvironmentalMetricDefaults.
    simpl in Hin.
    repeat (destruct Hin as [[= <- <-]|Hin]; [reflexivity|]). destruct Hin.
  - apply environmental_value_allowed; try assumption;
      try (intros v; apply modified_values_of_base; exact Hin);
      simpl in Hin;
      repeat (destruct Hin as [[= <- <-]|Hin];
              [first [reflexivity | (unfold baseMetrics, allKnownMetrics; simpl; tauto)]|]);
      destruct Hin.
Qed.

Lemma requirement_value_allowed metricsMap k :
  In k ["CR"; "IR"; "AR"] -> allowed_map metricsMap ->
  exists value,
    JS.get (populateEnvironmentalMetricDefaults
              (populateTemporalMetricDefaults metricsMap)) k = Some value
    /\ allowed_value k value = true.
Proof.
  intros Hin Hall. rewrite get_populateEnvironmentalMetricDefaults.
  assert (Hfacts : JS.arr_includes environmentalMetrics k = true
                   /\ JS.get modifiedMetricsMap k = None
                   /\ JS.arr_includes temporalMetrics k = false
                   /\ allowed_value k "X" = true
                   /\ In k allKnownMetrics).
  { simpl in Hin.
    repeat (destruct Hin as [<-|Hin];
            [repeat split; try reflexivity;
             unfold allKnownMetrics; simpl; tauto|]).
    destruct Hin. }
  destruct Hfacts as (Hinc & Hmod & Hkt & HX & Hkin).
  rewrite Hinc. eexists. split; [reflexivity|].
  unfold environmental_value. rewrite Hmod, (get_populateTemporal_other _ k Hkt).
  destruct (JS.get metricsMap k) as [v|] eqn:Hg; [|exact HX].
  destruct (String.eqb v "X"); [exact HX|]. exact (Hall k v Hkin Hg).
Qed.

Section EnvironmentalScore.

Variable metricsMap : list (string * string).
Hypothesis Hok : base_ok metricsMap.
Hypothesis Hall : allowed_map metricsMap.

Let metricsMap2 : list (string * string) :=
  populateEnvironmentalMetricDefaults (populateTemporalMetricDefaults metricsMap).

Lemma modified_weight k b :
  In (k, b) [ ("MAV", "AV"); ("MAC", "AC"); ("MUI", "UI");
              ("MC", "C"); ("MI", "I"); ("MA", "A") ] ->
  exists x, getMetricNumericValue (num := Exact.num) k metricsMap2 = Ok x
            /\ in_range 0 1 x.
Proof.
  intros Hin.
  assert (Hin8 : In (k, b) [ ("MAV", "AV"); ("MAC", "AC"); ("MPR", "PR");
                             ("MUI", "UI"); ("MS", "S"); ("MC", "C");
                             ("MI", "I"); ("MA", "A") ]).
  { simpl in Hin. simpl. intuition auto. }
  destruct (modified_value_allowed metricsMap k b Hin8 Hok Hall) as (Hget & Ha).
  assert (Hfacts : String.eqb k "PR" = false /\ String.eqb k "MPR" = false
                   /\ weights_in 0 1 k b = true /\ In b baseMetrics).
  { simpl in Hin.
    repeat (destruct Hin as [[= <- <-]|Hin];
            [repeat split; try (vm_compute; reflexivity);
             unfold baseMetrics; simpl; tauto|]).
    destruct Hin. }
  destruct Hfacts as (Hpr & Hmpr & Hw & Hb).
  unfold metricsMap2. rewrite (getMetricNumericValue_weight _ _ _ Hpr Hmpr Hget).
  exact (weights_in_spec _ _ _ _ _ Hw Ha (allowed_not_X _ _ Hb Ha)).
Qed.

Lemma modified_PR_weight :
  exists x, getMetricNumericValue (num := Exact.num) "MPR" metricsMap2 = Ok x
            /\ in_range 0 1 x.
Proof.
  destruct (modified_value_allowed metricsMap "MPR" "PR" ltac:(simpl; tauto) Hok Hall)
    as (Hget & Ha).
  destruct (modified_value_allowed metricsMap "MS" "S" ltac:(simpl; tauto) Hok Hall)
    as (Hgs & Hs).
  unfold metricsMap2. rewrite (getMetricNumericValue_MPR _ _ _ Hget Hgs).
  exact (privileges_required_range _ _ Ha Hs).
Qed.

Lemma requirement_weight k :
  In k ["CR"; "IR"; "AR"] ->
  exists x, getMetricNumericValue (num := Exact.num) k metricsMap2 = Ok x
            /\ in_range 0 2 x.
Proof.
  intros Hin.
  destruct (requirement_value_allowed metricsMap k Hin Hall) as (value & Hget & Ha).
  assert (Hfacts : String.eqb k "PR" = false /\ String.eqb k "MPR" = false
                   /\ weights_in_all 0 2 k = true).
  { simpl in Hin.
    repeat (destruct Hin as [<-|Hin];
            [repeat split; vm_compute; reflexivity|]).
    destruct Hin. }
  destruct Hfacts as (Hpr & Hmpr & Hw).
  unfold metricsMap2. rewrite (getMetricNumericValue_weight _ _ _ Hpr Hmpr Hget).
  exact (weights_in_all_spec _ _ _ _ Hw Ha).
Qed.

Lemma temporal_weight_env metric :
  In metric temporalMetrics ->
  exists x, getMetricNumericValue (num := Exact.num) metric metricsMap2 = Ok x
            /\ in_range 0 1 x.
Proof.
  intros Hin. apply (temporal_weight metricsMap metricsMap2 metric Hall Hin).
  unfold metricsMap2. rewrite get_populateEnvironmentalMetricDefaults.
  simpl in Hin.
  repeat (destruct Hin as [<-|Hin]; [reflexivity|]). destruct Hin.
Qed.

Lemma miss_some :
  exists q, calculateMiss (num := Exact.num) metricsMap2 = Ok (Some q).
Proof.
  destruct (requirement_weight "CR" ltac:(simpl; tauto)) as (cr & Hcr & Rcr).
  destruct (requirement_weight "IR" ltac:(simpl; tauto)) as (ir & Hir & Rir).
  destruct (requirement_weight "AR" ltac:(simpl; tauto)) as (ar & Har & Rar).
  destruct (modified_weight "MC" "C" ltac:(simpl; tauto)) as (mc & Hmc & Rmc).
  destruct (modified_weight "MI" "I" ltac:(simpl; tauto)) as (mi & Hmi & Rmi).
  destruct (modified_weight "MA" "A" ltac:(simpl; tauto)) as (ma & Hma & Rma).
  destruct (in_range_some _ _ _ Rcr) as (qcr & ->).
  destruct (in_range_some _ _ _ Rir) as (qir & ->).
  destruct (in_range_some _ _ _ Rar) as (qar & ->).
  destruct (in_range_some _ _ _ Rmc) as (qmc & ->).
  destruct (in_range_some _ _ _ Rmi) as (qmi & ->).
  destruct (in_range_some _ _ _ Rma) as (qma & ->).
  unfold calculateMiss.
  change EnvironmentalMetric.CONFIDENTIALITY_REQUIREMENT with "CR".
  change EnvironmentalMetric.INTEGRITY_REQUIREMENT with "IR".
  change EnvironmentalMetric.AVAILABILITY_REQUIREMENT with "AR".
  change EnvironmentalMetric.MODIFIED_CONFIDENTIALITY with "MC".
  change EnvironmentalMetric.MODIFIED_INTEGRITY with "MI".
  change EnvironmentalMetric.MODIFIED_AVAILABILITY with "MA".
  rewrite Hcr, Hmc, Hir, Hmi, Har, Hma. cbn [bind].
  unfold Math_min.
  cbn [isNaN Exact.exact_number orb lit lt sub mul Exact.lift2 Exact.cmp2].
  match goal with |- context [if ?c then _ else _] => destruct c end;
    eexists; reflexivity.
Qed.

Lemma modified_exploitability_nonneg :
  exists e, calculateModifiedExploitability (num := Exact.num) metricsMap2 = Ok e
            /\ nonneg e.
Proof.
  destruct (modified_weight "MAV" "AV" ltac:(simpl; tauto)) as (av & Hav & Rav).
  destruct (modified_weight "MAC" "AC" ltac:(simpl; tauto)) as (ac & Hac & Rac).
  destruct (modified_weight "MUI" "UI" ltac:(simpl; tauto)) as (ui & Hui & Rui).
  destruct modified_PR_weight as (pr & Hpr & Rpr).
  unfold calculateModifiedExploitability.
  change EnvironmentalMetric.MODIFIED_ATTACK_VECTOR with "MAV".
  change EnvironmentalMetric.MODIFIED_ATTACK_COMPLEXITY with "MAC".
  change EnvironmentalMetric.MODIFIED_PRIVILEGES_REQUIRED with "MPR".
  change EnvironmentalMetric.MODIFIED_USER_INTERACTION with "MUI".
  rewrite Hav, Hac, Hpr, Hui. cbn [bind].
  eexists. split; [reflexivity|].
  repeat apply nonneg_mul; try (eapply in_range_nonneg; eassumption).
  apply nonneg_lit. discriminate.
Qed.

End EnvironmentalScore.

Lemma environmental_score_one_decimal cvssStr :
  wellFormedV3 cvssStr = true ->
  exists x, calculateEnvironmentalScore (num := Exact.num) cvssStr = Ok x
            /\ one_decimal x.
Proof.
  intros Hw. destruct (wellFormedV3_inv _ Hw) as (_ & v & Hv & _ & _).
  destruct (wellFormedV3_base_ok _ _ Hw Hv) as (Hok & Hall).
  destruct (miss_some _ Hok Hall) as (miss & Hmiss).
  destruct (modified_exploitability_nonneg _ Hok Hall) as (ex & Hex & Rex).
  destruct (temporal_weight_env _ Hall "E" ltac:(simpl; tauto)) as (e & He & Re).
  destruct (temporal_weight_env _ Hall "RL" ltac:(simpl; tauto)) as (rl & Hrl & Rrl).
  destruct (temporal_weight_env _ Hall "RC" ltac:(simpl; tauto)) as (rc & Hrc & Rrc).
  unfold calculateEnvironmentalScore, calculateEnvironmentalResult.
  rewrite Hv. cbn [bind]. rewrite Hmiss. cbn [bind]. rewrite Hex. cbn [bind].
  destruct (calculateModifiedImpact_some
              (populateEnvironmentalMetricDefaults
                 (populateTemporalMetricDefaults (metricsMap v)))
              miss (versionStr v)) as (p & Hp).
  rewrite Hp.
  change TemporalMetric.REPORT_CONFIDENCE with "RC".
  change TemporalMetric.EXPLOIT_CODE_MATURITY with "E".
  change TemporalMetric.REMEDIATION_LEVEL with "RL".
  destruct (le (num := Exact.num) (Some p) (lit 0)) eqn:Hle; cbn [bind score].
  - eexists. split; [reflexivity|]. exact RangeFacts.one_decimal_zero.
  - rewrite He, Hrl, Hrc. cbn [bind].
    pose proof (nonneg_add _ _ (positive_of_not_le _ Hle) Rex) as Hsum.
    destruct (JS.eqs _ "U"); cbn [bind score];
      (eexists; split; [reflexivity|]);
      apply temporal_product_one_decimal; try assumption;
      apply roundUp_min_range; [exact Hsum|].
    apply nonneg_mul; [apply nonneg_lit; discriminate|exact Hsum].
Qed.

(* ===================================================================== *)
(** ** Range and precision of the v4 score *)

(** ** The v4 score of a validated vector: range *)

Lemma round10_one_decimal (c : Q) :
  (0 <= c <= 10)%Q ->
  one_decimal (Math_round (Some c * lit 10) / lit 10)%js.
Proof.
  intros [H0 H10].
  cbn [lit mul div Math_round Exact.exact_number Exact.lift2 Exact.qround
       Exact.qdiv option_map].
  change (Qred 10) with 10%Q. change (Qeq_bool 10 0) with false. cbv iota.
  exists (Qfloor (Qred (c * 10) + (1 # 2))). split; [|reflexivity].
  rewrite (Qfloor_comp (Qred (c * 10) + (1 # 2)) (c * 10 + (1 # 2)))
    by (rewrite Qred_correct; reflexivity).
  split.
  - change 0%Z with (Qfloor 0). apply Qfloor_resp_le. lra.
  - change 100%Z with (Qfloor (100 + (1 # 2))). apply Qfloor_resp_le. lra.
Qed.

Lemma final_score_one_decimal (v d : Q) :
  one_decimal (final_score (num := Exact.num) (Some v) (Some d)).
Proof.
  unfold final_score. cbv zeta.
  change (@sub Exact.num _ (Some v) (Some d)) with (@Some Q (Qred (v - d))).
  set (w := Qred (v - d)).
  destruct (lt (num := Exact.num) (Some w) (lit 0)) eqn:Hlo.
  - change (lt (num := Exact.num) (lit 10) (lit 0.0)) with false. cbv iota.
    apply (round10_one_decimal (Qred 0.0)). split; discriminate.
  - destruct (lt (num := Exact.num) (lit 10) (Some w)) eqn:Hhi.
    + apply (round10_one_decimal (Qred 10.0)). split; discriminate.
    + apply round10_one_decimal.
      cbn [lt lit Exact.exact_number Exact.cmp2] in Hlo, Hhi.
      unfold Exact.Qltb in Hlo, Hhi.
      apply negb_false_iff in Hlo, Hhi.
      apply Qle_bool_imp_le in Hlo, Hhi.
      change (Qred 0) with 0%Q in Hlo. change (Qred 10) with 10%Q in Hhi.
      split; assumption.
Qed.

Lemma isNaN_some (q : Q) : isNaN (num := Exact.num) (Some q) = false.
Proof. reflexivity. Qed.

(** The mean distance is a number when the severity distances are numbers and
    the maximal severities are non-zero numbers. *)
Lemma mean_distance_some (a1 a2 a36 a4 a5 : Exact.num)
  (c1 c2 c36 c4 s1 s2 s36 s4 : Q) :
  Qeq_bool s1 0 = false -> Qeq_bool s2 0 = false ->
  Qeq_bool s36 0 = false -> Qeq_bool s4 0 = false ->
  exists d,
    mean_distance a1 a2 a36 a4 a5 (Some c1) (Some c2) (Some c36) (Some c4)
                  (Some s1) (Some s2) (Some s36) (Some s4) = Some d.
Proof.
  intros H1 H2 H3 H4. unfold mean_distance.
  cbn [div mul lit Exact.exact_number Exact.qdiv Exact.lift2].
  rewrite H1, H2, H3, H4.
  destruct a1 as [a1|], a2 as [a2|], a36 as [a36|], a4 as [a4|], a5 as [a5|];
    cbn [isNaN Exact.exact_number negb Nat.eqb Exact.lift2 add div of_nat lit
         Exact.qdiv];
    eexists; reflexivity.
Qed.

(** The rank table of each metric of the severity distance. *)
Definition level_pairs : list (list (string * Exact.num) * string) :=
  [ (AV_levels, "AV"); (PR_levels, "PR"); (UI_levels, "UI");
    (AC_levels, "AC"); (AT_levels, "AT");
    (VC_levels, "VC"); (VI_levels, "VI"); (VA_levels, "VA");
    (SC_levels, "SC"); (SI_levels, "SI"); (SA_levels, "SA");
    (CR_levels, "CR"); (IR_levels, "IR"); (AR_levels, "AR") ].

Definition is_number (x : Exact.num) : bool :=
  match x with Some _ => true | None => false end.

Definition distance_fields (d : severity_distances (num := Exact.num))
  : list Exact.num :=
  [ severity_distance_AV d; severity_distance_PR d; severity_distance_UI d;
    severity_distance_AC d; severity_distance_AT d; severity_distance_VC d;
    severity_distance_VI d; severity_distance_VA d; severity_distance_SC d;
    severity_distance_SI d; severity_distance_SA d; severity_distance_CR d;
    severity_distance_IR d; severity_distance_AR d ].

(** Every metric of a maximal vector has a rank. *)
Definition max_vector_ok (max_vector : string) : bool :=
  forallb (fun p => is_number (level (fst p)
                                 (Some (extractValueMetric (snd p) max_vector))))
          level_pairs.

(** The effective value of every metric of the severity distance has a rank. *)
Definition ranked (cvssSelected : list (string * option string)) : Prop :=
  forall p, In p level_pairs ->
            is_number (level (fst p) (m cvssSelected (snd p))) = true.

Lemma distance_fields_to cvssSelected max_vector :
  distance_fields (distances_to cvssSelected max_vector)
  = map (fun p => (level (fst p) (m cvssSelected (snd p))
                   - level (fst p) (Some (extractValueMetric (snd p) max_vector)))%js)
        level_pairs.
Proof. reflexivity. Qed.

Lemma distances_to_numbers cvssSelected max_vector :
  ranked cvssSelected -> max_vector_ok max_vector = true ->
  forallb is_number (distance_fields (distances_to cvssSelected max_vector)) = true.
Proof.
  intros Hr Hok. rewrite distance_fields_to, forallb_forall.
  intros x Hx. apply in_map_iff in Hx. destruct Hx as (p & <- & Hp).
  specialize (Hr p Hp). unfold max_vector_ok in Hok.
  rewrite forallb_forall in Hok. specialize (Hok p Hp).
  destruct (level (fst p) (m cvssSelected (snd p))); [|discriminate].
  destruct (level (fst p) (Some (extractValueMetric (snd p) max_vector)));
    [reflexivity|discriminate].
Qed.

Lemma select_max_numbers cvssSelected max_vectors current :
  ranked cvssSelected ->
  forallb max_vector_ok max_vectors = true ->
  forallb is_number (distance_fields current) = true ->
  forallb is_number
    (distance_fields (select_max cvssSelected max_vectors current)) = true.
Proof.
  intros Hr. revert current.
  induction max_vectors as [|mv rest IH]; intros current Hok Hc; simpl.
  - exact Hc.
  - simpl in Hok. apply andb_prop in Hok. destruct Hok as [Hmv Hrest].
    pose proof (distances_to_numbers _ _ Hr Hmv) as Hd.
    destruct (some_negative (distances_to cvssSelected mv)).
    + apply IH; assumption.
    + exact Hd.
Qed.

Definition nonzero (x : Exact.num) : bool :=
  match x with Some s => negb (Qeq_bool s 0) | None => false end.

(** What the score of a MacroVector needs from the tables. *)
Definition macro_checks (macroVectorResult : string) : bool :=
  match digits macroVectorResult with
  | Some (eq1, eq2, eq3, eq4, eq5, eq6) =>
      match JS.get (scores (num := Exact.num) cvssLookup_globalV4) macroVectorResult,
            getEQMaxes macroVectorResult 1, getEQMaxes macroVectorResult 2,
            getEQMaxes macroVectorResult 3, getEQMaxes macroVectorResult 4,
            getEQMaxes macroVectorResult 5,
            nget (msd_eq3eq6 maxSeverityV4) eq3,
            char_at macroVectorResult 5 with
      | Some (Some _), Some (Vectors eq1_maxes), Some (Vectors eq2_maxes),
        Some (ByEq6 by_eq6), Some (Vectors eq4_maxes), Some (Vectors eq5_maxes),
        Some maxSeverity_eq3, Some key6 =>
          match JS.get by_eq6 key6 with
          | Some eq3_eq6_maxes =>
              forallb max_vector_ok
                (compose_max_vectors eq1_maxes eq2_maxes eq3_eq6_maxes
                                     eq4_maxes eq5_maxes)
              && nonzero (toNumber (option_map lit (nget (msd_eq1 maxSeverityV4) eq1))
                          * lit 0.1)%js
              && nonzero (toNumber (option_map lit (nget (msd_eq2 maxSeverityV4) eq2))
                          * lit 0.1)%js
              && nonzero (toNumber (option_map lit (nget maxSeverity_eq3 eq6))
                          * lit 0.1)%js
              && nonzero (toNumber (option_map lit (nget (msd_eq4 maxSeverityV4) eq4))
                          * lit 0.1)%js
          | None => false
          end
      | _, _, _, _, _, _, _, _ => false
      end
  | None => false
  end.

Lemma digits_macro_checks (eq1 eq2 eq3 eq4 eq5 eq6 : nat) :
  In eq1 [0; 1; 2] -> In eq2 [0; 1] ->
  In (eq3, eq6) [(0, 0); (0, 1); (1, 0); (1, 1); (2, 1)] ->
  In eq4 [0; 1; 2] -> In eq5 [0; 1; 2] ->
  macro_checks (template eq1 eq2 eq3 eq4 eq5 eq6) = true.
Proof.
  intros H1 H2 H36 H4 H5.
  assert (Hall :
    forallb (fun e1 => forallb (fun e2 => forallb (fun e36 =>
      forallb (fun e4 => forallb (fun e5 =>
        macro_checks (template e1 e2 (fst e36) e4 e5 (snd e36)))
      [0; 1; 2]) [0; 1; 2]) [(0, 0); (0, 1); (1, 0); (1, 1); (2, 1)])
      [0; 1]) [0; 1; 2] = true) by (vm_compute; reflexivity).
  rewrite forallb_forall in Hall. specialize (Hall _ H1).
  rewrite forallb_forall in Hall. specialize (Hall _ H2).
  rewrite forallb_forall in Hall. specialize (Hall _ H36).
  rewrite forallb_forall in Hall. specialize (Hall _ H4).
  rewrite forallb_forall in Hall. exact (Hall _ H5).
Qed.

(** [macroVector] always returns one of the MacroVectors of the tables. *)
Lemma macroVector_macro_checks cvssSelected :
  macro_checks (macroVector cvssSelected) = true.
Proof.
  unfold macroVector. cbv zeta. apply digits_macro_checks.
  - destruct (JS.eqs (m cvssSelected "AV") "N"), (JS.eqs (m cvssSelected "PR") "N"),
             (JS.eqs (m cvssSelected "UI") "N"), (JS.eqs (m cvssSelected "AV") "P");
      simpl; tauto.
  - destruct (JS.eqs (m cvssSelected "AC") "L"), (JS.eqs (m cvssSelected "AT") "N");
      simpl; tauto.
  - destruct (JS.eqs (m cvssSelected "VC") "H"), (JS.eqs (m cvssSelected "VI") "H"),
             (JS.eqs (m cvssSelected "VA") "H"), (JS.eqs (m cvssSelected "CR") "H"),
             (JS.eqs (m cvssSelected "IR") "H"), (JS.eqs (m cvssSelected "AR") "H");
      simpl; tauto.
  - destruct (JS.eqs (m cvssSelected "MSI") "S"), (JS.eqs (m cvssSelected "MSA") "S"),
             (JS.eqs (m cvssSelected "SC") "H"), (JS.eqs (m cvssSelected "SI") "H"),
             (JS.eqs (m cvssSelected "SA") "H"); simpl; tauto.
  - destruct (JS.eqs (m cvssSelected "E") "A"), (JS.eqs (m cvssSelected "E") "P"),
             (JS.eqs (m cvssSelected "E") "U"); simpl; tauto.
Qed.

Lemma is_number_some (x : Exact.num) : is_number x = true -> exists q, x = Some q.
Proof. destruct x as [q|]; [exists q; reflexivity|discriminate]. Qed.

Lemma nonzero_some (x : Exact.num) :
  nonzero x = true -> exists s, x = Some s /\ Qeq_bool s 0 = false.
Proof.
  destruct x as [s|]; [|discriminate]. simpl. intros Hs.
  exists s. split; [reflexivity|]. apply negb_true_iff. exact Hs.
Qed.

Lemma cvss_score_one_decimal cvssSelected macroVectorResult :
  ranked cvssSelected ->
  macro_checks macroVectorResult = true ->
  exists x,
    cvss_score (num := Exact.num) cvssSelected (scores cvssLookup_globalV4)
               maxSeverityV4 macroVectorResult = Ok x
    /\ one_decimal x.
Proof.
  intros Hr Hm. unfold cvss_score.
  destruct (forallb _ ["VC"; "VI"; "VA"; "SC"; "SI"; "SA"]).
  { exists (lit 0.0). split; [reflexivity|]. exists 0%Z. split; [lia|reflexivity]. }
  unfold macro_checks, digits in Hm.
  destruct (parseInt (char_at macroVectorResult 0)) as [eq1|]; [|discriminate].
  destruct (parseInt (char_at macroVectorResult 1)) as [eq2|]; [|discriminate].
  destruct (parseInt (char_at macroVectorResult 2)) as [eq3|]; [|discriminate].
  destruct (parseInt (char_at macroVectorResult 3)) as [eq4|]; [|discriminate].
  destruct (parseInt (char_at macroVectorResult 4)) as [eq5|]; [|discriminate].
  destruct (parseInt (char_at macroVectorResult 5)) as [eq6|]; [|discriminate].
  destruct (JS.get (scores cvssLookup_globalV4) macroVectorResult)
    as [[v|]|]; try discriminate.
  destruct (getEQMaxes macroVectorResult 1) as [[l1|]|]; try discriminate.
  destruct (getEQMaxes macroVectorResult 2) as [[l2|]|]; try discriminate.
  destruct (getEQMaxes macroVectorResult 3) as [[|by6]|]; try discriminate.
  destruct (getEQMaxes macroVectorResult 4) as [[l4|]|]; try discriminate.
  destruct (getEQMaxes macroVectorResult 5) as [[l5|]|]; try discriminate.
  destruct (nget (msd_eq3eq6 maxSeverityV4) eq3) as [row|]; try discriminate.
  destruct (char_at macroVectorResult 5) as [key6|]; try discriminate.
  destruct (JS.get by6 key6) as [l36|]; try discriminate.
  apply andb_prop in Hm. destruct Hm as [Hm H4].
  apply andb_prop in Hm. destruct Hm as [Hm H36].
  apply andb_prop in Hm. destruct Hm as [Hm H2].
  apply andb_prop in Hm. destruct Hm as [Hmv H1].
  destruct (nonzero_some _ H1) as (s1 & -> & Hs1).
  destruct (nonzero_some _ H2) as (s2 & -> & Hs2).
  destruct (nonzero_some _ H36) as (s36 & -> & Hs36).
  destruct (nonzero_some _ H4) as (s4 & -> & Hs4).
  pose proof (select_max_numbers cvssSelected _ no_distance Hr Hmv eq_refl) as Hsd.
  set (sd := select_max cvssSelected _ no_distance) in *.
  unfold distance_fields in Hsd. cbn [forallb] in Hsd.
  repeat match type of Hsd with
         | (_ && _)%bool = true =>
             let Hx := fresh "Hx" in
             apply andb_prop in Hsd; destruct Hsd as [Hx Hsd];
             apply is_number_some in Hx; destruct Hx as (? & Hx); rewrite Hx
         end.
  cbn [add Exact.exact_number Exact.lift2 toNumber].
  match goal with
  | |- context [mean_distance ?a1 ?a2 ?a36 ?a4 ?a5 (Some ?c1) (Some ?c2)
                              (Some ?c36) (Some ?c4) _ _ _ _] =>
      destruct (mean_distance_some a1 a2 a36 a4 a5 c1 c2 c36 c4 s1 s2 s36 s4
                                   Hs1 Hs2 Hs36 Hs4) as (d & Hd)
  end.
  rewrite Hd. eexists. split; [reflexivity|]. apply final_score_one_decimal.
Qed.

(** ** The selected metrics of a validated v4 vector *)

(** Every selected metric is a metric of the expected order with one of its
    values. *)
Definition entries_ok (cvssSelected : list (string * option string)) : Prop :=
  forall k ov, JS.get cvssSelected k = Some ov ->
    exists v allowed,
      ov = Some v /\ JS.get expectedMetricOrder k = Some allowed
      /\ JS.arr_includes allowed v = true.

Definition selected_ok (cvssSelected : list (string * option string)) : Prop :=
  entries_ok cvssSelected
  /\ (forall k, In k mandatoryMetrics -> JS.has cvssSelected k = true)
  /\ (forall k, In k ["E"; "CR"; "IR"; "AR"] -> JS.has cvssSelected k = true).

(** The assignment [cvssSelected[key] = value] of [parseVectorV4]. *)
Definition select_metric (cvssSelected : list (string * option string))
  (metric : string) : list (string * option string) :=
  let '(key, value) := split_metric metric in JS.set cvssSelected key value.

Lemma fold_select_entries_ok metrics cvssSelected :
  Forall (metric_allowed expectedMetricOrder) metrics ->
  entries_ok cvssSelected ->
  entries_ok (fold_left select_metric metrics cvssSelected).
Proof.
  intros Hall. revert cvssSelected.
  induction Hall as [|metric rest Hm _ IH]; intros sel Hsel; [exact Hsel|].
  cbn [fold_left]. apply IH.
  destruct Hm as (key & v & allowed & Hsm & Hget & Hinc).
  unfold select_metric. rewrite Hsm.
  intros k ov Hk. rewrite get_set in Hk.
  destruct (String.eqb_spec key k) as [<-|_].
  - injection Hk as <-. exists v, allowed. auto.
  - exact (Hsel k ov Hk).
Qed.

Lemma fold_select_has metrics cvssSelected k :
  JS.has (fold_left select_metric metrics cvssSelected) k
  = JS.has cvssSelected k
    || existsb (fun metric => String.eqb (fst (split_metric metric)) k) metrics.
Proof.
  revert cvssSelected.
  induction metrics as [|metric rest IH]; intros sel; cbn [fold_left existsb].
  - rewrite orb_false_r. reflexivity.
  - rewrite IH. unfold select_metric.
    destruct (split_metric metric) as [key value]. cbn [fst].
    rewrite has_set. destruct (String.eqb key k), (JS.has sel k); reflexivity.
Qed.

Lemma validate_metrics_has entries metrics expectedIndex toSelect sel k :
  validate_metrics entries metrics expectedIndex toSelect = Valid sel ->
  JS.has sel k
  = JS.has toSelect k
    || existsb (fun metric => String.eqb (fst (split_metric metric)) k) metrics.
Proof.
  revert expectedIndex toSelect.
  induction metrics as [|metric rest IH]; intros i acc Hv; simpl in Hv.
  - injection Hv as <-. cbn [existsb]. rewrite orb_false_r. reflexivity.
  - cbn [existsb]. destruct (split_metric metric) as [key value]. cbn [fst].
    destruct (JS.key_in key acc); [discriminate|].
    destruct (Nat.leb _ _); [discriminate|].
    destruct (find _ entries) as [entry|]; [|discriminate].
    destruct value as [v|]; [|discriminate].
    destruct (JS.arr_includes (snd entry) v); [|discriminate].
    rewrite (IH _ _ Hv), has_set.
    destruct (String.eqb key k), (JS.has acc k); reflexivity.
Qed.

Lemma get_default_v4 (cvssSelected : list (string * option string)) key k :
  JS.arr_includes JS.objectPrototypeKeys key = false ->
  JS.get (if negb (JS.key_in key cvssSelected)
          then JS.set cvssSelected key (Some "X") else cvssSelected) k
  = match JS.get cvssSelected k with
    | Some v => Some v
    | None => if String.eqb key k then Some (Some "X") else None
    end.
Proof.
  intros Hp. unfold JS.key_in, JS.has. rewrite Hp, orb_false_r.
  destruct (JS.get cvssSelected key) as [v|] eqn:Hm; cbn [negb].
  - destruct (JS.get cvssSelected k) eqn:Hk; [reflexivity|].
    destruct (String.eqb_spec key k) as [->|]; [congruence|reflexivity].
  - rewrite get_set. destruct (String.eqb_spec key k) as [->|].
    + rewrite Hm. reflexivity.
    + destruct (JS.get cvssSelected k); reflexivity.
Qed.

Lemma parseVectorV4_fold vector :
  parseVectorV4 vector
  = let cvssSelected := fold_left select_metric (tl (JS.split "/" vector)) [] in
    let default key (cvssSelected : list (string * option string)) :=
      if negb (JS.key_in key cvssSelected)
      then JS.set cvssSelected key (Some "X") else cvssSelected in
    default "AR" (default "IR" (default "CR" (default "E" cvssSelected))).
Proof. reflexivity. Qed.

Lemma get_parseVectorV4 vector k :
  JS.get (parseVectorV4 vector) k
  = match JS.get (fold_left select_metric (tl (JS.split "/" vector)) []) k with
    | Some v => Some v
    | None => if JS.arr_includes ["E"; "CR"; "IR"; "AR"] k
              then Some (Some "X") else None
    end.
Proof.
  rewrite parseVectorV4_fold. cbv zeta beta.
  rewrite !get_default_v4 by reflexivity.
  destruct (JS.get (fold_left select_metric (tl (JS.split "/" vector)) []) k);
    [reflexivity|].
  unfold JS.arr_includes. cbn [existsb].
  rewrite (String.eqb_sym k "E"), (String.eqb_sym k "CR"),
          (String.eqb_sym k "IR"), (String.eqb_sym k "AR").
  destruct (String.eqb "E" k), (String.eqb "CR" k), (String.eqb "IR" k),
           (String.eqb "AR" k); reflexivity.
Qed.

Lemma validateVectorV4_inv vectorString :
  valid (validateVectorV4 vectorString) = true ->
  exists metrics toSelect,
    JS.split "/" vectorString = "CVSS:4.0" :: metrics
    /\ validate_metrics expectedMetricOrder metrics 0 [] = Valid toSelect
    /\ (forall k, In k mandatoryMetrics -> JS.key_in k toSelect = true).
Proof.
  unfold validateVectorV4. destruct (JS.truthy vectorString); [|discriminate].
  destruct (JS.split "/" vectorString) as [|prefix metrics]; [discriminate|].
  destruct (String.eqb_spec prefix "CVSS:4.0") as [->|]; [|discriminate].
  cbn [negb].
  destruct (validate_metrics expectedMetricOrder metrics 0 []) as [sel|] eqn:Hv;
    [|discriminate].
  destruct (filter _ mandatoryMetrics) as [|x l] eqn:Hf; [|discriminate].
  intros _. exists metrics, sel. split; [reflexivity|]. split; [exact Hv|].
  intros k Hin.
  destruct (JS.key_in k sel) eqn:Hk; [reflexivity|].
  assert (Hx : In k (filter (fun metric => negb (JS.key_in metric sel))
                            mandatoryMetrics)).
  { apply filter_In. split; [exact Hin|]. rewrite Hk. reflexivity. }
  rewrite Hf in Hx. destruct Hx.
Qed.

(** The selected metrics of an accepted vector. *)
Lemma parseVectorV4_selected_ok vectorString :
  valid (validateVectorV4 vectorString) = true ->
  selected_ok (parseVectorV4 vectorString).
Proof.
  intros Hvalid.
  destruct (validateVectorV4_inv _ Hvalid) as (metrics & toSelect & Hs & Hv & Hm).
  pose proof (validate_metrics_allowed _ _ _ _ _ Hv) as Hall.
  assert (Hent : entries_ok (fold_left select_metric metrics [])).
  { apply fold_select_entries_ok; [exact Hall|]. intros k ov Hk. discriminate. }
  assert (Hget : forall k,
     JS.get (parseVectorV4 vectorString) k
     = match JS.get (fold_left select_metric metrics []) k with
       | Some v => Some v
       | None => if JS.arr_includes ["E"; "CR"; "IR"; "AR"] k
                 then Some (Some "X") else None
       end).
  { intros k. rewrite get_parseVectorV4, Hs. reflexivity. }
  split; [|split].
  - intros k ov Hk. rewrite Hget in Hk.
    destruct (JS.get (fold_left select_metric metrics []) k) as [v|] eqn:Hg.
    + injection Hk as <-. exact (Hent k v Hg).
    + destruct (JS.arr_includes ["E"; "CR"; "IR"; "AR"] k) eqn:Hinc; [|discriminate].
      injection Hk as <-. apply arr_includes_In in Hinc. simpl in Hinc.
      destruct Hinc as [<-|[<-|[<-|[<-|[]]]]];
        eexists; eexists; (split; [reflexivity|]); split; reflexivity.
  - intros k Hin. unfold JS.has. rewrite Hget.
    assert (Hh : JS.has (fold_left select_metric metrics []) k = true).
    { rewrite fold_select_has. cbn [JS.has JS.get orb].
      specialize (Hm k Hin). unfold JS.key_in in Hm.
      rewrite (validate_metrics_has _ _ _ _ _ k Hv) in Hm.
      cbn [JS.has JS.get orb] in Hm.
      assert (Hp : JS.arr_includes JS.objectPrototypeKeys k = false).
      { unfold mandatoryMetrics in Hin. simpl in Hin.
        repeat (destruct Hin as [<-|Hin]; [reflexivity|]). destruct Hin. }
      rewrite Hp, orb_false_r in Hm. exact Hm. }
    unfold JS.has in Hh.
    destruct (JS.get (fold_left select_metric metrics []) k); [reflexivity|discriminate].
  - intros k Hin. unfold JS.has. rewrite Hget.
    destruct (JS.get (fold_left select_metric metrics []) k); [reflexivity|].
    rewrite (proj2 (arr_includes_In _ _) Hin). reflexivity.
Qed.

Lemma level_is_number (levels : list (string * Exact.num)) (v : string) :
  forallb (fun kv => is_number (snd kv)) levels = true ->
  JS.has levels v = true ->
  is_number (level levels (Some v)) = true.
Proof.
  intros Hall Hhas. unfold level, JS.has in *.
  destruct (JS.get levels v) as [x|] eqn:Hg; [|discriminate].
  rewrite forallb_forall in Hall. exact (Hall _ (get_In _ _ _ Hg)).
Qed.

(** The effective value of a mandatory metric has a rank when all the values
    of the metric and of its modified counterpart have one. *)
Lemma ranked_base cvssSelected (levels : list (string * Exact.num)) metric :
  selected_ok cvssSelected ->
  In metric mandatoryMetrics ->
  ~ In metric ["E"; "CR"; "IR"; "AR"] ->
  forallb (fun kv => is_number (snd kv)) levels = true ->
  match JS.get expectedMetricOrder metric with
  | Some allowed => forallb (JS.has levels) allowed
  | None => false
  end = true ->
  match JS.get expectedMetricOrder ("M" ++ metric) with
  | Some allowed => forallb (fun v => String.eqb v "X" || JS.has levels v) allowed
  | None => true
  end = true ->
  is_number (level levels (m cvssSelected metric)) = true.
Proof.
  intros (Hent & Hman & _) Hin Hnot Hnum Hbase Hmod.
  rewrite (m_override _ _ Hnot).
  assert (Hsel : is_number (level levels (field cvssSelected metric)) = true).
  { specialize (Hman metric Hin). unfold JS.has in Hman. unfold field.
    destruct (JS.get cvssSelected metric) as [ov|] eqn:Hg; [|discriminate].
    destruct (Hent _ _ Hg) as (v & allowed & -> & Ha & Hinc).
    rewrite Ha in Hbase. rewrite forallb_forall in Hbase.
    apply level_is_number; [exact Hnum|].
    apply Hbase. apply arr_includes_In. exact Hinc. }
  destruct (JS.get cvssSelected ("M" ++ metric)) as [ov|] eqn:Hg; [|exact Hsel].
  destruct (Hent _ _ Hg) as (v & allowed & -> & Ha & Hinc).
  rewrite Ha in Hmod. rewrite forallb_forall in Hmod.
  apply arr_includes_In in Hinc. specialize (Hmod v Hinc).
  cbn [JS.eqs]. destruct (String.eqb v "X"); [exact Hsel|].
  cbn [orb] in Hmod. apply level_is_number; assumption.
Qed.

Lemma ranked_requirement cvssSelected (levels : list (string * Exact.num)) metric :
  selected_ok cvssSelected ->
  In metric ["CR"; "IR"; "AR"] ->
  forallb (fun kv => is_number (snd kv)) levels = true ->
  forallb (JS.has levels) ["H"; "M"; "L"] = true ->
  is_number (level levels (m cvssSelected metric)) = true.
Proof.
  intros (Hent & _ & Hdef) Hin Hnum Hlev.
  assert (Hfacts : String.eqb metric "E" = false
                   /\ JS.get expectedMetricOrder ("M" ++ metric) = None
                   /\ JS.get expectedMetricOrder metric = Some ["X"; "H"; "M"; "L"]
                   /\ (String.eqb metric "CR" || String.eqb metric "IR"
                       || String.eqb metric "AR" = true)
                   /\ In metric ["E"; "CR"; "IR"; "AR"]).
  { simpl in Hin.
    destruct Hin as [<-|[<-|[<-|[]]]]; repeat split; try reflexivity;
      simpl; tauto. }
  destruct Hfacts as (HE & Hnone & Hvals & Hany & Hin4).
  assert (Hmod : JS.get cvssSelected ("M" ++ metric) = None).
  { destruct (JS.get cvssSelected ("M" ++ metric)) as [ov|] eqn:Hg; [|reflexivity].
    destruct (Hent _ _ Hg) as (v & allowed & _ & Ha & _). congruence. }
  specialize (Hdef metric Hin4). unfold JS.has in Hdef.
  destruct (JS.get cvssSelected metric) as [ov|] eqn:Hg; [|discriminate].
  destruct (Hent _ _ Hg) as (v & allowed & -> & Ha & Hinc).
  rewrite Hvals in Ha. injection Ha as <-.
  assert (HH : is_number (level levels (Some "H")) = true).
  { rewrite forallb_forall in Hlev.
    apply level_is_number; [exact Hnum|]. apply Hlev. simpl. tauto. }
  unfold m. rewrite HE. cbn [andb]. unfold field. rewrite Hg.
  rewrite arr_includes_keys. unfold JS.has. rewrite Hmod. cbn [andb JS.eqs].
  apply arr_includes_In in Hinc. simpl in Hinc.
  destruct Hinc as [<-|Hinc].
  - change (String.eqb "X" "X") with true. rewrite !andb_true_r.
    destruct (String.eqb metric "CR"); [exact HH|].
    destruct (String.eqb metric "IR"); [exact HH|].
    destruct (String.eqb metric "AR"); [exact HH|discriminate].
  - assert (Hx : String.eqb v "X" = false /\ JS.has levels v = true).
    { rewrite forallb_forall in Hlev.
      destruct Hinc as [<-|[<-|[<-|[]]]]; (split; [reflexivity|]);
        apply Hlev; simpl; tauto. }
    destruct Hx as (Hx & Hh). rewrite Hx, !andb_false_r.
    apply level_is_number; assumption.
Qed.

Lemma selected_ok_ranked cvssSelected :
  selected_ok cvssSelected -> ranked cvssSelected.
Proof.
  intros Hok p Hp. unfold level_pairs in Hp. simpl in Hp.
  do 11 (destruct Hp as [<-|Hp];
         [apply (ranked_base _ _ _ Hok);
          [unfold mandatoryMetrics; simpl; tauto
          |simpl; intros Hx; intuition discriminate
          |vm_compute; reflexivity|vm_compute; reflexivity
          |vm_compute; reflexivity]|]).
  do 3 (destruct Hp as [<-|Hp];
        [apply (ranked_requirement _ _ _ Hok);
         [simpl; tauto|vm_compute; reflexivity|vm_compute; reflexivity]|]).
  destruct Hp.
Qed.

Lemma v4_score_one_decimal vectorString :
  valid (validateVectorV4 vectorString) = true ->
  exists x, calculateBaseScore (num := Exact.num) vectorString = Ok x
            /\ one_decimal x.
Proof.
  intros Hvalid.
  pose proof (selected_ok_ranked _ (parseVectorV4_selected_ok _ Hvalid)) as Hr.
  destruct (cvss_score_one_decimal _ _ Hr
              (macroVector_macro_checks (parseVectorV4 vectorString)))
    as (x & Hx & Hd).
  exists x. split; [|exact Hd].
  unfold calculateBaseScore. rewrite (detectCvssVersion_v4 _ Hvalid).
  cbn [bind]. change (String.eqb "4.0" "4.0") with true. cbv iota.
  unfold calculateBaseScoreV4.
  destruct (validateVectorV4 vectorString); [exact Hx|discriminate].
Qed.

Definition vector_v4_full : string :=
  "CVSS:4.0/AV:A/AC:H/AT:P/PR:L/UI:P/VC:L/VI:H/VA:N/SC:L/SI:N/SA:H/E:P/CR:M/MSI:S".


(* ===================================================================== *)
(** * Further properties of the validator and of the v3.x engine *)

(** ** What [validate] guarantees *)

Lemma checkUnknownMetrics_loop_known userMetrics known metric :
  checkUnknownMetrics_loop userMetrics known = Ok tt ->
  In metric userMetrics -> In metric known.
Proof.
  induction userMetrics as [|u rest IH]; simpl; [tauto|].
  destruct (JS.arr_includes known u) eqn:Hinc; cbn [negb]; [|discriminate].
  intros Hc [<-|Hin].
  - apply arr_includes_In. exact Hinc.
  - exact (IH Hc Hin).
Qed.

Lemma has_In_keys {A} (d : list (string * A)) (k : string) :
  JS.has d k = true <-> In k (JS.keys d).
Proof.
  unfold JS.has, JS.keys. induction d as [|[k0 v0] d IH]; simpl.
  - split; [discriminate|tauto].
  - destruct (String.eqb_spec k0 k) as [->|Hne].
    + split; auto.
    + rewrite IH. split; [auto|]. intros [Heq|Hin]; [contradiction|exact Hin].
Qed.

Lemma existsb_keys_has (metrics : list string) (d : list (string * string)) :
  existsb (fun metric => JS.arr_includes metrics metric) (JS.keys d) = true
  <-> exists metric, In metric metrics /\ JS.has d metric = true.
Proof.
  rewrite existsb_exists. split.
  - intros (k & Hk & Hinc). exists k. split.
    + apply arr_includes_In. exact Hinc.
    + apply has_In_keys. exact Hk.
  - intros (k & Hin & Hhas). exists k. split.
    + apply has_In_keys. exact Hhas.
    + apply arr_includes_In. exact Hin.
Qed.

Lemma truthy_nonempty (s : string) : s <> "" -> JS.truthy s = true.
Proof. destruct s; [congruence|reflexivity]. Qed.

(** X1 (what [validate] guarantees).  When [validate] returns, the string
    starts with CVSS:, the version is 3.0, 3.1 or 4.0, the eight base metrics
    are present, every key is a known v3.x metric, every value that is not
    the empty string is one of the values listed for its metric, and the two
    flags say whether a temporal, respectively an environmental, metric is
    present. *)
Theorem validate_postconditions (cvssStr : string) (v : ValidationResult) :
  validate cvssStr = Ok v ->
  JS.startsWith cvssStr "CVSS:" = true
  /\ In (versionStr v) [Some "3.0"; Some "3.1"; Some "4.0"]
  /\ (forall metric, In metric baseMetrics ->
                     JS.has (metricsMap v) metric = true)
  /\ (forall metric, JS.has (metricsMap v) metric = true ->
                     In metric allKnownMetrics)
  /\ (forall metric value,
        JS.get (metricsMap v) metric = Some value -> value <> "" ->
        allowed_value metric value = true)
  /\ (isTemporal v = true
      <-> exists metric, In metric temporalMetrics
                         /\ JS.has (metricsMap v) metric = true)
  /\ (isEnvironmental v = true
      <-> exists metric, In metric environmentalMetrics
                         /\ JS.has (metricsMap v) metric = true).
Proof.
  unfold validate. intros Hv.
  destruct (JS.startsWith cvssStr "CVSS:") eqn:Hstart;
    [|rewrite orb_true_r in Hv; discriminate].
  destruct (negb (JS.truthy cvssStr) || negb true); [discriminate|].
  apply bind_ok in Hv. destruct Hv as ([] & Hver & Hv).
  apply bind_ok in Hv. destruct Hv as (_ & _ & Hv).
  apply bind_ok in Hv. destruct Hv as (mm & _ & Hv).
  apply bind_ok in Hv. destruct Hv as ([] & Hm & Hv).
  apply bind_ok in Hv. destruct Hv as ([] & Hu & Hv).
  apply bind_ok in Hv. destruct Hv as ([] & Hval & Hv).
  injection Hv as <-. cbn [metricsMap versionStr isTemporal isEnvironmental].
  assert (Hknown : forall metric, JS.has mm metric = true ->
                                  In metric allKnownMetrics).
  { intros metric Hhas.
    apply (checkUnknownMetrics_loop_known (JS.keys mm)); [exact Hu|].
    apply has_In_keys. exact Hhas. }
  split; [reflexivity|]. split; [|split; [|split; [|split; [|split]]]].
  - unfold validateVersion in Hver.
    destruct (parseVersion cvssStr) as [ver|]; [|discriminate].
    destruct (negb (JS.truthy ver)); [discriminate|].
    destruct (String.eqb_spec ver "3.0") as [H30|_]; [subst ver; simpl; tauto|].
    destruct (String.eqb_spec ver "3.1") as [H31|_]; [subst ver; simpl; tauto|].
    destruct (String.eqb_spec ver "4.0") as [H40|_]; [subst ver; simpl; tauto|].
    discriminate.
  - intros metric Hin. exact (checkMandatoryMetrics_loop_has _ _ _ Hm Hin).
  - exact Hknown.
  - intros metric value Hget Hne.
    assert (Hin : In metric allKnownMetrics).
    { apply Hknown. unfold JS.has. rewrite Hget. reflexivity. }
    destruct (checkMetricsValues_allowed _ _ _ _ _ Hval Hin Hget
                (truthy_nonempty _ Hne)) as (allowed & Ha & Hinc).
    unfold allowed_value.
    change allKnownMetricsValues
      with (spread (spread baseMetricValues temporalMetricValues)
                   environmentalMetricValues).
    rewrite Ha. exact Hinc.
  - exact (existsb_keys_has temporalMetrics mm).
  - exact (existsb_keys_has environmentalMetrics mm).
Qed.

Definition vector_v31_temporal : string :=
  "CVSS:3.1/AV:N/AC:L/PR:N/UI:R/S:C/C:L/I:L/A:N/E:F/RL:O".

Lemma validate_postconditions_witness :
  exists v,
    validate vector_v31_temporal = Ok v
    /\ isTemporal v = true
    /\ In (versionStr v) [Some "3.0"; Some "3.1"; Some "4.0"].
Proof.
  destruct (validate vector_v31_temporal) as [v|e] eqn:Hv.
  - exists v. split; [reflexivity|].
    destruct (validate_postconditions vector_v31_temporal v Hv)
      as (_ & Hver & _ & _ & _ & Ht & _).
    split; [|exact Hver].
    apply Ht. exists "E". split; [simpl; tauto|].
    vm_compute in Hv. injection Hv as <-. reflexivity.
  - vm_compute in Hv. discriminate.
Defined.

(** ** Metrics with an empty value *)

Lemma weight_of_total metric value :
  In metric ["AV"; "AC"; "UI"; "C"; "I"; "A"] ->
  String.eqb metric "PR" = false /\ String.eqb metric "MPR" = false
  /\ (exists x, weight_of metric value = Ok x)
  /\ weight_of metric "" = Ok NaN.
Proof.
  intros Hin. simpl in Hin.
  repeat (destruct Hin as [<-|Hin];
          [repeat split; try reflexivity; eexists; reflexivity|]).
  destruct Hin.
Qed.

Lemma validated_value cvssStr v metric :
  validate cvssStr = Ok v -> In metric baseMetrics ->
  exists value,
    JS.get (metricsMap v) metric = Some value
    /\ (value <> "" -> allowed_value metric value = true).
Proof.
  intros Hv Hin. destruct (validate_checked _ _ Hv) as (Hm & Hval & _ & _).
  pose proof (checkMandatoryMetrics_loop_has _ _ _ Hm Hin) as Hhas.
  unfold JS.has in Hhas.
  destruct (JS.get (metricsMap v) metric) as [value|] eqn:Hget; [|discriminate].
  exists value. split; [reflexivity|]. intros Hne.
  assert (Hk : In metric allKnownMetrics)
    by (unfold allKnownMetrics; apply in_or_app; left; exact Hin).
  destruct (checkMetricsValues_allowed _ _ _ _ _ Hval Hk Hget
              (truthy_nonempty _ Hne)) as (allowed & Ha & Hinc).
  unfold allowed_value. rewrite Ha. exact Hinc.
Qed.

Lemma roundUp_NaN_sum (scopeUnchanged : bool) (e : Exact.num) :
  (if (NaN <=? lit 0)%js then lit 0
   else if scopeUnchanged
        then roundUp (Math_min (NaN + e) (lit 10))%js
        else roundUp (Math_min (lit 1.08 * (NaN + e)) (lit 10))%js)
  = (NaN : Exact.num).
Proof. destruct scopeUnchanged; reflexivity. Qed.

(** X2 (a metric with an empty value).  [checkMetricsValues] skips a metric
    whose value is the empty string, so [validate] accepts it; when the
    metric is C, I or A (and PR and S, which are looked at by a [switch],
    have values), the impact subscore is NaN, the test [impact <= 0] is
    false and the base score that is returned is NaN, with no exception. *)
Theorem empty_impact_value_scores_NaN (cvssStr : string) (v : ValidationResult)
  (metric : string) :
  detectCvssVersion cvssStr = Ok "3.1" ->
  validate cvssStr = Ok v ->
  In metric ["C"; "I"; "A"] ->
  JS.get (metricsMap v) metric = Some "" ->
  JS.get (metricsMap v) "S" <> Some "" ->
  JS.get (metricsMap v) "PR" <> Some "" ->
  calculateBaseScore (num := Exact.num) cvssStr = Ok NaN.
Proof.
  intros Hd Hv Hin Hempty HS HPR.
  assert (Hw : forall k, In k ["AV"; "AC"; "UI"; "C"; "I"; "A"] ->
                 exists x,
                   getMetricNumericValue (num := Exact.num) k (metricsMap v) = Ok x
                   /\ (k = metric -> x = NaN)).
  { intros k Hk.
    assert (Hb : In k baseMetrics).
    { simpl in Hk. unfold baseMetrics. simpl.
      repeat (destruct Hk as [<-|Hk]; [tauto|]). destruct Hk. }
    destruct (validated_value _ _ _ Hv Hb) as (value & Hget & _).
    destruct (weight_of_total k value Hk) as (Hpr & Hmpr & (x & Hx) & Hnan).
    rewrite (getMetricNumericValue_weight _ _ _ Hpr Hmpr Hget).
    exists x. split; [exact Hx|]. intros ->.
    rewrite Hempty in Hget. injection Hget as <-. congruence. }
  assert (Hpr : exists x,
             getMetricNumericValue (num := Exact.num) "PR" (metricsMap v) = Ok x).
  { destruct (validated_value _ _ "PR" Hv) as (pv & Hgp & Hap);
      [unfold baseMetrics; simpl; tauto|].
    destruct (validated_value _ _ "S" Hv) as (sv & Hgs & Has);
      [unfold baseMetrics; simpl; tauto|].
    rewrite (getMetricNumericValue_PR _ _ _ Hgp Hgs).
    destruct (privileges_required_range pv sv) as (x & Hx & _).
    - apply Hap. intros ->. contradiction.
    - apply Has. intros ->. contradiction.
    - exists x. exact Hx. }
  destruct (Hw "AV") as (av & Hav & _); [simpl; tauto|].
  destruct (Hw "AC") as (ac & Hac & _); [simpl; tauto|].
  destruct (Hw "UI") as (ui & Hui & _); [simpl; tauto|].
  destruct (Hw "C") as (c & Hc & Nc); [simpl; tauto|].
  destruct (Hw "I") as (i & Hi & Ni); [simpl; tauto|].
  destruct (Hw "A") as (a & Ha & Na); [simpl; tauto|].
  destruct Hpr as (pr & Hpr).
  assert (Hiss : calculateIss (num := Exact.num) (metricsMap v) = Ok NaN).
  { unfold calculateIss.
    change BaseMetric.CONFIDENTIALITY with "C".
    change BaseMetric.INTEGRITY with "I".
    change BaseMetric.AVAILABILITY with "A".
    rewrite Hc, Hi, Ha. cbn [bind]. f_equal.
    simpl in Hin. destruct Hin as [<-|[<-|[<-|[]]]].
    - rewrite (Nc eq_refl). destruct i, a; reflexivity.
    - rewrite (Ni eq_refl). destruct c, a; reflexivity.
    - rewrite (Na eq_refl). destruct c, i; reflexivity. }
  unfold calculateBaseScore. rewrite Hd. cbn [bind].
  change (String.eqb "3.1" "4.0") with false.
  change (String.eqb "3.1" "3.1") with true. cbv iota.
  rewrite calculateBaseResult_of, Hv. cbn [bind].
  unfold base_result_of. rewrite Hiss. cbn [bind].
  unfold calculateExploitability.
  change BaseMetric.ATTACK_VECTOR with "AV".
  change BaseMetric.ATTACK_COMPLEXITY with "AC".
  change BaseMetric.PRIVILEGES_REQUIRED with "PR".
  change BaseMetric.USER_INTERACTION with "UI".
  rewrite Hav, Hac, Hpr, Hui. cbn [bind score]. f_equal.
  assert (Himp : calculateImpact (num := Exact.num) (metricsMap v) NaN = NaN).
  { unfold calculateImpact. destruct (JS.eqs _ "U"); reflexivity. }
  rewrite Himp. apply roundUp_NaN_sum.
Qed.

Definition vector_v31_empty_A : string :=
  "CVSS:3.1/AV:N/AC:L/PR:N/UI:N/S:U/C:H/I:H/A:".

Lemma empty_impact_value_scores_NaN_witness :
  calculateBaseScore (num := Exact.num) vector_v31_empty_A = Ok NaN.
Proof.
  destruct (validate vector_v31_empty_A) as [v|e] eqn:Hv.
  - apply (empty_impact_value_scores_NaN vector_v31_empty_A v "A");
      [reflexivity|exact Hv|simpl; tauto| | |];
      vm_compute in Hv; injection Hv as <-; vm_compute; congruence.
  - vm_compute in Hv. discriminate.
Defined.

(** ** The temporal score against the base score *)

Module OrderFacts.

Import ExactFacts.
Local Open Scope Q_scope.

(** The number of tenths that the roundup of the specification returns. *)
Definition tenths (i : Z) : Z :=
  if (i mod 10000 =? 0)%Z then (i / 10000)%Z else (i / 10000 + 1)%Z.

Lemma roundup_spec_tenths (q : Q) :
  roundup_spec q == inject_Z (tenths (Qfloor (q * 100000 + (1 # 2)))) / 10.
Proof.
  unfold roundup_spec, tenths. cbv zeta.
  set (i := Qfloor (q * 100000 + (1 # 2))).
  destruct (Z.eqb_spec (i mod 10000) 0) as [Hm|Hm]; [|reflexivity].
  assert (Hi : i = (10000 * (i / 10000))%Z)
    by (apply Z.div_exact; [discriminate|exact Hm]).
  rewrite Hi at 1. rewrite inject_Z_mult.
  change (inject_Z 10000) with 10000. field.
Qed.

Lemma tenths_mono (i j : Z) : (i <= j)%Z -> (tenths i <= tenths j)%Z.
Proof.
  intros Hij. unfold tenths.
  destruct (Z.eqb_spec (i mod 10000) 0); destruct (Z.eqb_spec (j mod 10000) 0);
    Z.to_euclidean_division_equations; lia.
Qed.

Lemma roundup_spec_mono (p q : Q) : p <= q -> roundup_spec p <= roundup_spec q.
Proof.
  intros Hpq. rewrite !roundup_spec_tenths.
  apply Qmult_le_compat_r; [|discriminate].
  rewrite <- Zle_Qle. apply tenths_mono. apply Qfloor_resp_le. lra.
Qed.

End OrderFacts.

(** X3 (temporal metrics never raise the score).  For every well-formed
    v3.x vector the temporal score is at most the base score: the weights of
    E, RL and RC are at most 1, the roundup is monotone and it leaves the base
    score, which has one decimal, as it is. *)
Theorem temporal_score_le_base_score (cvssStr : string) :
  wellFormedV3 cvssStr = true ->
  exists b t : Q,
    calculateBaseScore (num := Exact.num) cvssStr = Ok (Some b)
    /\ calculateTemporalScore (num := Exact.num) cvssStr = Ok (Some t)
    /\ (0 <= t <= b)%Q.
Proof.
  intros Hw. destruct (wellFormedV3_inv _ Hw) as (Hd & v & Hv & _ & _).
  destruct (wellFormedV3_base_ok _ _ Hw Hv) as (Hok & Hall).
  destruct (base_result_one_decimal _ Hok) as (r & Hr & Hs).
  destruct (temporal_weight (metricsMap v) _ "RC" Hall ltac:(simpl; tauto) eq_refl)
    as (rc & Hrc & Rrc).
  destruct (temporal_weight (metricsMap v) _ "E" Hall ltac:(simpl; tauto) eq_refl)
    as (e & He & Re).
  destruct (temporal_weight (metricsMap v) _ "RL" Hall ltac:(simpl; tauto) eq_refl)
    as (rl & Hrl & Rrl).
  pose proof (RangeFacts.one_decimal_range _ Hs) as (b & Hb & Hb0 & Hb10).
  assert (Hp : in_range 0 b (score r * rc * e * rl)%js).
  { repeat (apply RangeFacts.mul_range; [exact Hb0| |assumption]).
    exists b. split; [exact Hb|]. split; [exact Hb0|apply Qle_refl]. }
  destruct Hp as (p & Hp & Hp0 & Hpb).
  exists b, (Qred (ExactFacts.roundup_spec p)). split; [|split].
  - unfold calculateBaseScore. rewrite Hd. cbn [bind].
    change (String.eqb "3.1" "4.0") with false.
    change (String.eqb "3.1" "3.1") with true. cbv iota.
    rewrite calculateBaseResult_of, Hv. cbn [bind]. rewrite Hr. cbn [bind].
    rewrite Hb. reflexivity.
  - unfold calculateTemporalScore, calculateTemporalResult.
    rewrite calculateBaseResult_of, Hv. cbn [bind]. rewrite Hr. cbn [bind].
    change TemporalMetric.REPORT_CONFIDENCE with "RC".
    change TemporalMetric.EXPLOIT_CODE_MATURITY with "E".
    change TemporalMetric.REMEDIATION_LEVEL with "RL".
    rewrite Hrc, He, Hrl. cbn [bind score]. rewrite Hp.
    rewrite ExactFacts.roundUp_spec. reflexivity.
  - rewrite Qred_correct.
    assert (Hfix : (ExactFacts.roundup_spec b == b)%Q).
    { destruct Hs as (k & _ & Hk).
      assert (Hbk : b = Qred (inject_Z k / 10)) by congruence. rewrite Hbk.
      rewrite (RangeFacts.roundup_spec_comp _ _ (Qred_correct _)).
      rewrite Qred_correct. apply RangeFacts.roundup_spec_fixed. }
    split.
    + assert (H0 : (ExactFacts.roundup_spec 0 == 0)%Q) by reflexivity.
      rewrite <- H0. apply OrderFacts.roundup_spec_mono. exact Hp0.
    + rewrite <- Hfix. apply OrderFacts.roundup_spec_mono. exact Hpb.
Qed.

Lemma temporal_score_le_base_score_witness :
  exists b t : Q,
    calculateBaseScore (num := Exact.num) vector_v31_temporal = Ok (Some b)
    /\ calculateTemporalScore (num := Exact.num) vector_v31_temporal = Ok (Some t)
    /\ (0 <= t <= b)%Q.
Proof.
  apply (temporal_score_le_base_score vector_v31_temporal).
  vm_compute. reflexivity.
Defined.

(** ** A base score of zero *)

(** The impact subscore for the listed values of C, I and A and for both
    scopes: it is at most zero when the three values are N, and at least 1
    otherwise. *)
Definition impact_of (scopeUnchanged : bool) (c i a : Exact.num) : Exact.num :=
  let iss := (lit 1 - (lit 1 - c) * (lit 1 - i) * (lit 1 - a))%js in
  if scopeUnchanged then (lit 6.42 * iss)%js
  else (lit 7.52 * (iss - lit 0.029) - lit 3.25 * Math_pow (iss - lit 0.02) 15)%js.

Definition impact_check (scopeUnchanged : bool) (vc vi va : string) : bool :=
  match weight_of "C" vc, weight_of "I" vi, weight_of "A" va with
  | Ok c, Ok i, Ok a =>
      let impact := impact_of scopeUnchanged c i a in
      if String.eqb vc "N" && String.eqb vi "N" && String.eqb va "N"
      then (impact <=? lit 0)%js
      else (lit 1 <=? impact)%js
  | _, _, _ => false
  end.

Lemma impact_check_all (scopeUnchanged : bool) (vc vi va : string) :
  allowed_value "C" vc = true -> allowed_value "I" vi = true ->
  allowed_value "A" va = true ->
  impact_check scopeUnchanged vc vi va = true.
Proof.
  intros Hc Hi Ha.
  destruct (allowed_value_In _ _ Hc) as (lc & Hgc & Hinc).
  destruct (allowed_value_In _ _ Hi) as (li & Hgi & Hini).
  destruct (allowed_value_In _ _ Ha) as (la & Hga & Hina).
  vm_compute in Hgc, Hgi, Hga.
  injection Hgc as <-. injection Hgi as <-. injection Hga as <-.
  assert (Hall : forallb (fun s => forallb (fun c => forallb (fun i => forallb
                   (fun a => impact_check s c i a)
                   ["N"; "L"; "H"]) ["N"; "L"; "H"]) ["N"; "L"; "H"])
                   [true; false] = true) by (vm_compute; reflexivity).
  rewrite forallb_forall in Hall.
  specialize (Hall scopeUnchanged ltac:(destruct scopeUnchanged; simpl; tauto)).
  rewrite forallb_forall in Hall. specialize (Hall _ Hinc).
  rewrite forallb_forall in Hall. specialize (Hall _ Hini).
  rewrite forallb_forall in Hall. exact (Hall _ Hina).
Qed.

Lemma roundUp_min_ge_one (x : Q) :
  (1 <= x)%Q ->
  exists s : Q,
    roundUp (num := Exact.num) (Math_min (Some x) (lit 10)) = Some s
    /\ (1 <= s)%Q.
Proof.
  intros Hx. unfold Math_min.
  cbn [isNaN Exact.exact_number orb lit lt Exact.cmp2].
  change (Qred 10) with 10%Q. unfold Exact.Qltb.
  assert (H1 : (ExactFacts.roundup_spec 1 == 1)%Q) by reflexivity.
  destruct (Qle_bool x 10) eqn:Hle; cbn [negb];
    rewrite ExactFacts.roundUp_spec; eexists; (split; [reflexivity|]);
    rewrite Qred_correct, <- H1; apply OrderFacts.roundup_spec_mono;
    [exact Hx|discriminate].
Qed.

Lemma eqb_N (value : string) : String.eqb value "N" = true <-> value = "N".
Proof. apply String.eqb_eq. Qed.

(** X4 (when the base score is zero).  For every well-formed v3.x vector
    the base score is 0 exactly when C, I and A are all N; in every other
    case it is at least 1. *)
Theorem base_score_zero_iff_no_impact (cvssStr : string) (v : ValidationResult) :
  wellFormedV3 cvssStr = true ->
  validate cvssStr = Ok v ->
  exists s : Q,
    calculateBaseScore (num := Exact.num) cvssStr = Ok (Some s)
    /\ ((JS.get (metricsMap v) "C" = Some "N"
         /\ JS.get (metricsMap v) "I" = Some "N"
         /\ JS.get (metricsMap v) "A" = Some "N") -> s = 0%Q)
    /\ (~ (JS.get (metricsMap v) "C" = Some "N"
           /\ JS.get (metricsMap v) "I" = Some "N"
           /\ JS.get (metricsMap v) "A" = Some "N") -> (1 <= s)%Q).
Proof.
  intros Hw Hv. destruct (wellFormedV3_inv _ Hw) as (Hd & _).
  destruct (wellFormedV3_base_ok _ _ Hw Hv) as (Hok & _).
  destruct (Hok "C") as (vc & Hgc & Hac); [unfold baseMetrics; simpl; tauto|].
  destruct (Hok "I") as (vi & Hgi & Hai); [unfold baseMetrics; simpl; tauto|].
  destruct (Hok "A") as (va & Hga & Haa); [unfold baseMetrics; simpl; tauto|].
  destruct (exploitability_nonneg _ Hok) as (e & He & (qe & -> & Hqe)).
  pose proof (impact_check_all (JS.eqs (JS.get (metricsMap v) "S") "U")
                vc vi va Hac Hai Haa) as Hchk.
  unfold impact_check in Hchk.
  destruct (weight_of "C" vc) as [c|] eqn:Hc; [|discriminate].
  destruct (weight_of "I" vi) as [i|] eqn:Hi; [|discriminate].
  destruct (weight_of "A" va) as [a|] eqn:Ha; [|discriminate].
  cbv zeta in Hchk.
  assert (Hscore : calculateBaseScore (num := Exact.num) cvssStr
                   = Ok (let impact :=
                           impact_of (JS.eqs (JS.get (metricsMap v) "S") "U") c i a in
                         if (impact <=? lit 0)%js then lit 0
                         else if JS.eqs (JS.get (metricsMap v) "S") "U"
                              then roundUp (Math_min (impact + Some qe) (lit 10))%js
                              else roundUp (Math_min (lit 1.08 * (impact + Some qe))
                                                     (lit 10))%js)).
  { unfold calculateBaseScore. rewrite Hd. cbn [bind].
    change (String.eqb "3.1" "4.0") with false.
    change (String.eqb "3.1" "3.1") with true. cbv iota.
    rewrite calculateBaseResult_of, Hv. cbn [bind].
    unfold base_result_of, calculateIss.
    change BaseMetric.CONFIDENTIALITY with "C".
    change BaseMetric.INTEGRITY with "I".
    change BaseMetric.AVAILABILITY with "A".
    rewrite (getMetricNumericValue_weight _ "C" vc eq_refl eq_refl Hgc), Hc.
    rewrite (getMetricNumericValue_weight _ "I" vi eq_refl eq_refl Hgi), Hi.
    rewrite (getMetricNumericValue_weight _ "A" va eq_refl eq_refl Hga), Ha.
    cbn [bind]. rewrite He. cbn [bind score]. reflexivity. }
  rewrite Hscore. cbv zeta.
  set (impact := impact_of (JS.eqs (JS.get (metricsMap v) "S") "U") c i a) in *.
  destruct (String.eqb vc "N" && String.eqb vi "N" && String.eqb va "N") eqn:HN.
  - rewrite Hchk. exists 0%Q. split; [reflexivity|]. split; [reflexivity|].
    intros Hnot. exfalso. apply Hnot.
    apply andb_prop in HN. destruct HN as [HN Hva].
    apply andb_prop in HN. destruct HN as [Hvc Hvi].
    apply eqb_N in Hvc, Hvi, Hva. subst vc vi va. auto.
  - assert (Hnot : ~ (JS.get (metricsMap v) "C" = Some "N"
                      /\ JS.get (metricsMap v) "I" = Some "N"
                      /\ JS.get (metricsMap v) "A" = Some "N")).
    { intros (H1 & H2 & H3). rewrite Hgc in H1. rewrite Hgi in H2.
      rewrite Hga in H3. injection H1 as ->. injection H2 as ->.
      injection H3 as ->. discriminate. }
    destruct impact as [p|]; [|discriminate].
    cbn [le lit Exact.exact_number Exact.cmp2] in Hchk.
    change (Qred 1) with 1%Q in Hchk. apply Qle_bool_imp_le in Hchk.
    assert (Hle : le (num := Exact.num) (Some p) (lit 0) = false).
    { cbn [le lit Exact.exact_number Exact.cmp2]. change (Qred 0) with 0%Q.
      destruct (Qle_bool p 0) eqn:Hb; [|reflexivity].
      apply Qle_bool_imp_le in Hb. lra. }
    rewrite Hle.
    assert (Hsum : exists x, add (num := Exact.num) (Some p) (Some qe) = Some x /\ (1 <= x)%Q).
    { eexists. split; [reflexivity|]. rewrite Qred_correct. lra. }
    destruct Hsum as (x & Hx & Hx1). rewrite Hx.
    destruct (JS.eqs (JS.get (metricsMap v) "S") "U").
    + destruct (roundUp_min_ge_one x Hx1) as (s & Hs & Hs1).
      exists s. split; [exact (f_equal Ok Hs)|]. split; [tauto|auto].
    + assert (Hy : exists y, mul (num := Exact.num) (lit 1.08) (Some x) = Some y /\ (1 <= y)%Q).
      { eexists. split; [reflexivity|]. rewrite !Qred_correct. lra. }
      destruct Hy as (y & Hy & Hy1). rewrite Hy.
      destruct (roundUp_min_ge_one y Hy1) as (s & Hs & Hs1).
      exists s. split; [exact (f_equal Ok Hs)|]. split; [tauto|auto].
Qed.

Definition vector_v31_no_impact : string :=
  "CVSS:3.1/AV:N/AC:L/PR:N/UI:N/S:C/C:N/I:N/A:N/E:H".

Lemma base_score_zero_iff_no_impact_witness :
  calculateBaseScore (num := Exact.num) vector_v31_no_impact = Ok (Some 0%Q)
  /\ exists s : Q,
       calculateBaseScore (num := Exact.num) vector_v31_temporal = Ok (Some s)
       /\ (1 <= s)%Q.
Proof.
  split.
  - destruct (validate vector_v31_no_impact) as [v|e] eqn:Hv.
    + destruct (base_score_zero_iff_no_impact vector_v31_no_impact v)
        as (s & Hs & Hz & _); [vm_compute; reflexivity|exact Hv|].
      rewrite Hs. rewrite Hz; [reflexivity|].
      vm_compute in Hv. injection Hv as <-. repeat split.
    + vm_compute in Hv. discriminate.
  - destruct (validate vector_v31_temporal) as [v|e] eqn:Hv.
    + destruct (base_score_zero_iff_no_impact vector_v31_temporal v)
        as (s & Hs & _ & Hp); [vm_compute; reflexivity|exact Hv|].
      exists s. split; [exact Hs|]. apply Hp.
      vm_compute in Hv. injection Hv as <-. intros (H & _). discriminate.
    + vm_compute in Hv. discriminate.
Defined.

(** ** The version tag at the temporal and environmental entry points *)

Lemma validate_v40_v31 (rest : string) :
  validate ("CVSS:4.0/" ++ rest)
  = match validate ("CVSS:3.1/" ++ rest) with
    | Ok v => Ok (with_version (Some "4.0") v)
    | Throw e => Throw e
    end.
Proof.
  unfold validate, parseMetricsAsMap.
  change (parseVector ("CVSS:4.0/" ++ rest)) with (Some rest).
  change (parseVector ("CVSS:3.1/" ++ rest)) with (Some rest).
  change (parseVersion ("CVSS:4.0/" ++ rest)) with (Some "4.0").
  change (parseVersion ("CVSS:3.1/" ++ rest)) with (Some "3.1").
  change (negb (JS.truthy ("CVSS:4.0/" ++ rest))
          || negb (JS.startsWith ("CVSS:4.0/" ++ rest) "CVSS:")) with false.
  change (negb (JS.truthy ("CVSS:3.1/" ++ rest))
          || negb (JS.startsWith ("CVSS:3.1/" ++ rest) "CVSS:")) with false.
  change (validateVersion (Some "4.0")) with (@Ok error unit tt).
  change (validateVersion (Some "3.1")) with (@Ok error unit tt).
  cbv beta iota zeta. cbn [bind].
  destruct (validateVector (Some rest)); cbn [bind]; [|reflexivity].
  destruct (if JS.truthy rest then tokenize (JS.split "/" rest) [] else Ok [])
    as [mm|]; cbn [bind]; [|reflexivity].
  destruct (checkMandatoryMetrics mm); cbn [bind]; [|reflexivity].
  destruct (checkUnknownMetrics mm _); cbn [bind]; [|reflexivity].
  destruct (checkMetricsValues mm _ _); cbn [bind]; reflexivity.
Qed.

Section VersionTag.

Context {num : Type} `{JSNumber num}.

(** X5 (the 4.0 tag at the v3.x entry points).  Only [calculateBaseScore]
    looks at the version to choose the engine.  [calculateTemporalScore] and
    [calculateEnvironmentalScore] go through [validate], which lets the tag
    4.0 through, and apply the v3.1 equations: on a string tagged CVSS:4.0
    they return what they return on the same metrics tagged CVSS:3.1 (a
    score when these are v3.x metrics), while [calculateBaseScore] hands the
    string to the v4 engine. *)
Theorem v4_tag_scored_as_v31 (rest : string) :
  calculateTemporalScore ("CVSS:4.0/" ++ rest)
  = calculateTemporalScore ("CVSS:3.1/" ++ rest)
  /\ calculateEnvironmentalScore ("CVSS:4.0/" ++ rest)
     = calculateEnvironmentalScore ("CVSS:3.1/" ++ rest)
  /\ calculateBaseScore ("CVSS:4.0/" ++ rest)
     = calculateBaseScoreV4 ("CVSS:4.0/" ++ rest).
Proof.
  split; [|split].
  - unfold calculateTemporalScore, calculateTemporalResult, calculateBaseResult.
    rewrite validate_v40_v31.
    destruct (validate ("CVSS:3.1/" ++ rest)) as [v|e]; reflexivity.
  - unfold calculateEnvironmentalScore, calculateEnvironmentalResult.
    rewrite validate_v40_v31.
    destruct (validate ("CVSS:3.1/" ++ rest)) as [v|e] eqn:Hv; [|reflexivity].
    cbn [bind with_version metricsMap versionStr].
    unfold calculateModifiedImpact.
    assert (Hv31 : versionStr v = Some "3.1").
    { unfold validate in Hv.
      change (parseVersion ("CVSS:3.1/" ++ rest)) with (Some "3.1") in Hv.
      destruct (negb (JS.truthy ("CVSS:3.1/" ++ rest)) || _); [discriminate|].
      cbv zeta in Hv.
      repeat (apply bind_ok in Hv; destruct Hv as (? & _ & Hv)).
      injection Hv as <-. reflexivity. }
    rewrite Hv31.
    change (JS.eqs (Some "4.0") "3.0") with false.
    change (JS.eqs (Some "3.1") "3.0") with false.
    reflexivity.
  - unfold calculateBaseScore, detectCvssVersion. rewrite split_cut.
    change (cut "/" ("CVSS:4.0/" ++ rest)) with ("CVSS:4.0", Some rest).
    reflexivity.
Qed.

End VersionTag.

Definition rest_v3_metrics : string := "AV:N/AC:L/PR:N/UI:N/S:U/C:H/I:H/A:H".

Lemma v4_tag_scored_as_v31_witness :
  calculateTemporalScore (num := Exact.num) ("CVSS:4.0/" ++ rest_v3_metrics)
  = Ok (lit 9.8)
  /\ calculateEnvironmentalScore (num := Float64.num)
       ("CVSS:4.0/" ++ rest_v3_metrics) = Ok (lit 9.8)
  /\ throws (calculateBaseScore (num := Exact.num)
               ("CVSS:4.0/" ++ rest_v3_metrics)).
Proof.
  split; [|split].
  - rewrite (proj1 (v4_tag_scored_as_v31 (num := Exact.num) rest_v3_metrics)).
    vm_compute. reflexivity.
  - rewrite (proj1 (proj2 (v4_tag_scored_as_v31 (num := Float64.num)
                             rest_v3_metrics))).
    vm_compute. reflexivity.
  - rewrite (proj2 (proj2 (v4_tag_scored_as_v31 (num := Exact.num)
                             rest_v3_metrics))).
    eexists. vm_compute. reflexivity.
Defined.

(** ** The environmental score without environmental metrics *)

Lemma validate_isEnvironmental cvssStr v :
  validate cvssStr = Ok v ->
  isEnvironmental v
  = existsb (fun metric => JS.arr_includes environmentalMetrics metric)
            (JS.keys (metricsMap v)).
Proof.
  unfold validate. intros Hv.
  destruct (negb (JS.truthy cvssStr) || negb (JS.startsWith cvssStr "CVSS:"));
    [discriminate|].
  cbv zeta in Hv.
  repeat (apply bind_ok in Hv; destruct Hv as (? & _ & Hv)).
  injection Hv as <-. reflexivity.
Qed.

Lemma not_environmental_get v metric cvssStr :
  validate cvssStr = Ok v -> isEnvironmental v = false ->
  In metric environmentalMetrics -> JS.get (metricsMap v) metric = None.
Proof.
  intros Hv Ht Hin. rewrite (validate_isEnvironmental _ _ Hv) in Ht.
  destruct (JS.get (metricsMap v) metric) as [value|] eqn:Hget; [|reflexivity].
  exfalso.
  assert (Hex : existsb (fun metric => JS.arr_includes environmentalMetrics metric)
                        (JS.keys (metricsMap v)) = true).
  { apply existsb_keys_has. exists metric. split; [exact Hin|].
    unfold JS.has. rewrite Hget. reflexivity. }
  congruence.
Qed.

Lemma mul_one_sub (x y : Exact.num) : ((x - y) * lit 1)%js = (x - y)%js.
Proof.
  destruct x as [p|], y as [q|]; try reflexivity.
  cbn [mul sub lit Exact.exact_number Exact.lift2]. f_equal.
  apply Qred_complete. rewrite !Qred_correct. ring.
Qed.

Lemma roundUp_product_order (x a b c : Exact.num) :
  roundUp (x * a * b * c)%js = roundUp (x * c * a * b)%js.
Proof.
  destruct x as [x|], a as [a|], b as [b|], c as [c|]; try reflexivity.
  cbn [mul Exact.exact_number Exact.lift2].
  rewrite !ExactFacts.roundUp_spec. f_equal. f_equal.
  apply RangeFacts.roundup_spec_comp. rewrite !Qred_correct. ring.
Qed.

Lemma roundUp_zero_product (a b c : Q) :
  roundUp (num := Exact.num) (lit 0 * Some a * Some b * Some c)%js = lit 0.
Proof.
  cbn [mul lit Exact.exact_number Exact.lift2].
  rewrite ExactFacts.roundUp_spec.
  assert (Hz : (Qred (Qred (Qred (Qred 0 * a) * b) * c) == 0)%Q).
  { rewrite !Qred_correct. change (Qred 0) with 0%Q. ring. }
  rewrite (RangeFacts.roundup_spec_comp _ _ Hz). reflexivity.
Qed.

(** With the requirements at their default, MISS is ISS: the bound 0.915 is
    not reached. *)
Lemma miss_is_iss (vc vi va : string) (c i a : Exact.num) :
  allowed_value "C" vc = true -> allowed_value "I" vi = true ->
  allowed_value "A" va = true ->
  weight_of "C" vc = Ok c -> weight_of "I" vi = Ok i -> weight_of "A" va = Ok a ->
  Math_min (lit 1 - (lit 1 - lit 1 * c) * (lit 1 - lit 1 * i)
                    * (lit 1 - lit 1 * a))%js (lit 0.915)
  = (lit 1 - (lit 1 - c) * (lit 1 - i) * (lit 1 - a))%js.
Proof.
  intros Hc Hi Ha.
  destruct (allowed_value_In _ _ Hc) as (lc & Hgc & Hinc).
  destruct (allowed_value_In _ _ Hi) as (li & Hgi & Hini).
  destruct (allowed_value_In _ _ Ha) as (la & Hga & Hina).
  vm_compute in Hgc, Hgi, Hga.
  injection Hgc as <-. injection Hgi as <-. injection Hga as <-.
  simpl in Hinc, Hini, Hina.
  destruct Hinc as [<-|[<-|[<-|[]]]]; destruct Hini as [<-|[<-|[<-|[]]]];
    destruct Hina as [<-|[<-|[<-|[]]]];
    intros [= <-] [= <-] [= <-]; vm_compute; reflexivity.
Qed.

Lemma modified_weight_of (k b value : string) :
  In (k, b) [ ("MAV", "AV"); ("MAC", "AC"); ("MUI", "UI");
              ("MC", "C"); ("MI", "I"); ("MA", "A") ] ->
  weight_of k value = weight_of b value
  /\ String.eqb k "PR" = false /\ String.eqb k "MPR" = false
  /\ String.eqb b "PR" = false /\ String.eqb b "MPR" = false
  /\ In b baseMetrics
  /\ In (k, b) [ ("MAV", "AV"); ("MAC", "AC"); ("MPR", "PR"); ("MUI", "UI");
                 ("MS", "S"); ("MC", "C"); ("MI", "I"); ("MA", "A") ].
Proof.
  intros Hin. simpl in Hin.
  repeat (destruct Hin as [[= <- <-]|Hin];
          [repeat split; try reflexivity; unfold baseMetrics; simpl; tauto|]).
  destruct Hin.
Qed.

Section NoEnvironmentalMetric.

Variable metricsMap : list (string * string).
Hypothesis Hok : base_ok metricsMap.
Hypothesis Hall : allowed_map metricsMap.
Hypothesis Hnone :
  forall metric, In metric environmentalMetrics -> JS.get metricsMap metric = None.

Let metricsMap2 : list (string * string) :=
  populateEnvironmentalMetricDefaults (populateTemporalMetricDefaults metricsMap).

Lemma modified_inherits k b :
  In (k, b) [ ("MAV", "AV"); ("MAC", "AC"); ("MPR", "PR"); ("MUI", "UI");
              ("MS", "S"); ("MC", "C"); ("MI", "I"); ("MA", "A") ] ->
  JS.get metricsMap2 k = JS.get metricsMap b.
Proof.
  intros Hin.
  destruct (modified_value_allowed metricsMap k b Hin Hok Hall) as (Hget & _).
  unfold metricsMap2. rewrite Hget. unfold environmental_value.
  assert (Hfacts : JS.get modifiedMetricsMap k = Some b
                   /\ JS.arr_includes temporalMetrics k = false
                   /\ JS.arr_includes temporalMetrics b = false
                   /\ In k environmentalMetrics /\ In b baseMetrics).
  { simpl in Hin.
    repeat (destruct Hin as [[= <- <-]|Hin];
            [repeat split; try reflexivity;
             unfold environmentalMetrics, baseMetrics; simpl; tauto|]).
    destruct Hin. }
  destruct Hfacts as (Hb & Hkt & Hbt & Hke & Hbb).
  rewrite Hb, (get_populateTemporal_other _ k Hkt),
    (get_populateTemporal_other _ b Hbt), (Hnone k Hke).
  destruct (Hok b Hbb) as (bv & Hgb & _). rewrite Hgb. reflexivity.
Qed.

Lemma requirement_default k :
  In k ["CR"; "IR"; "AR"] ->
  getMetricNumericValue (num := Exact.num) k metricsMap2 = Ok (lit 1).
Proof.
  intros Hin.
  assert (Hfacts : JS.arr_includes environmentalMetrics k = true
                   /\ JS.get modifiedMetricsMap k = None
                   /\ JS.arr_includes temporalMetrics k = false
                   /\ In k environmentalMetrics
                   /\ String.eqb k "PR" = false /\ String.eqb k "MPR" = false
                   /\ weight_of k "X" = Ok (lit 1)).
  { simpl in Hin.
    repeat (destruct Hin as [<-|Hin];
            [repeat split; try reflexivity;
             unfold environmentalMetrics; simpl; tauto|]).
    destruct Hin. }
  destruct Hfacts as (Hinc & Hmod & Hkt & Hke & Hpr & Hmpr & Hone).
  rewrite (getMetricNumericValue_weight _ k "X" Hpr Hmpr); [exact Hone|].
  unfold metricsMap2. rewrite get_populateEnvironmentalMetricDefaults, Hinc.
  unfold environmental_value.
  rewrite Hmod, (get_populateTemporal_other _ k Hkt), (Hnone k Hke). reflexivity.
Qed.

Lemma modified_weight_inherits k b :
  In (k, b) [ ("MAV", "AV"); ("MAC", "AC"); ("MUI", "UI");
              ("MC", "C"); ("MI", "I"); ("MA", "A") ] ->
  getMetricNumericValue (num := Exact.num) k metricsMap2
  = getMetricNumericValue (num := Exact.num) b metricsMap.
Proof.
  intros Hin.
  destruct (modified_weight_of k b "" Hin)
    as (_ & Hkpr & Hkmpr & Hbpr & Hbmpr & Hbb & Hin8).
  destruct (Hok b Hbb) as (bv & Hgb & _).
  rewrite (getMetricNumericValue_weight _ b bv Hbpr Hbmpr Hgb).
  rewrite (getMetricNumericValue_weight _ k bv Hkpr Hkmpr).
  - exact (proj1 (modified_weight_of k b bv Hin)).
  - rewrite (modified_inherits k b Hin8). exact Hgb.
Qed.

Lemma modified_PR_inherits :
  getMetricNumericValue (num := Exact.num) "MPR" metricsMap2
  = getMetricNumericValue (num := Exact.num) "PR" metricsMap.
Proof.
  destruct (Hok "PR") as (pv & Hgp & _); [unfold baseMetrics; simpl; tauto|].
  destruct (Hok "S") as (sv & Hgs & _); [unfold baseMetrics; simpl; tauto|].
  rewrite (getMetricNumericValue_PR _ _ _ Hgp Hgs).
  apply getMetricNumericValue_MPR.
  - exact (eq_trans (modified_inherits "MPR" "PR" ltac:(simpl; tauto)) Hgp).
  - exact (eq_trans (modified_inherits "MS" "S" ltac:(simpl; tauto)) Hgs).
Qed.

Lemma modified_exploitability_inherits :
  calculateModifiedExploitability (num := Exact.num) metricsMap2
  = calculateExploitability (num := Exact.num) metricsMap.
Proof.
  unfold calculateModifiedExploitability, calculateExploitability.
  change EnvironmentalMetric.MODIFIED_ATTACK_VECTOR with "MAV".
  change EnvironmentalMetric.MODIFIED_ATTACK_COMPLEXITY with "MAC".
  change EnvironmentalMetric.MODIFIED_PRIVILEGES_REQUIRED with "MPR".
  change EnvironmentalMetric.MODIFIED_USER_INTERACTION with "MUI".
  rewrite (modified_weight_inherits "MAV" "AV") by (simpl; tauto).
  rewrite (modified_weight_inherits "MAC" "AC") by (simpl; tauto).
  rewrite (modified_weight_inherits "MUI" "UI") by (simpl; tauto).
  rewrite modified_PR_inherits. reflexivity.
Qed.

Lemma miss_inherits :
  calculateMiss (num := Exact.num) metricsMap2
  = calculateIss (num := Exact.num) metricsMap.
Proof.
  unfold calculateMiss, calculateIss.
  change EnvironmentalMetric.CONFIDENTIALITY_REQUIREMENT with "CR".
  change EnvironmentalMetric.INTEGRITY_REQUIREMENT with "IR".
  change EnvironmentalMetric.AVAILABILITY_REQUIREMENT with "AR".
  change EnvironmentalMetric.MODIFIED_CONFIDENTIALITY with "MC".
  change EnvironmentalMetric.MODIFIED_INTEGRITY with "MI".
  change EnvironmentalMetric.MODIFIED_AVAILABILITY with "MA".
  change BaseMetric.CONFIDENTIALITY with "C".
  change BaseMetric.INTEGRITY with "I".
  change BaseMetric.AVAILABILITY with "A".
  rewrite (requirement_default "CR"), (requirement_default "IR"),
    (requirement_default "AR") by (simpl; tauto).
  rewrite (modified_weight_inherits "MC" "C") by (simpl; tauto).
  rewrite (modified_weight_inherits "MI" "I") by (simpl; tauto).
  rewrite (modified_weight_inherits "MA" "A") by (simpl; tauto).
  destruct (Hok "C") as (vc & Hgc & Hac); [unfold baseMetrics; simpl; tauto|].
  destruct (Hok "I") as (vi & Hgi & Hai); [unfold baseMetrics; simpl; tauto|].
  destruct (Hok "A") as (va & Hga & Haa); [unfold baseMetrics; simpl; tauto|].
  rewrite (getMetricNumericValue_weight _ "C" vc eq_refl eq_refl Hgc).
  rewrite (getMetricNumericValue_weight _ "I" vi eq_refl eq_refl Hgi).
  rewrite (getMetricNumericValue_weight _ "A" va eq_refl eq_refl Hga).
  destruct (weight_of "C" vc) as [c|] eqn:Hc; [|reflexivity].
  destruct (weight_of "I" vi) as [i|] eqn:Hi; [|reflexivity].
  destruct (weight_of "A" va) as [a|] eqn:Ha; [|reflexivity].
  cbn [bind]. f_equal.
  exact (miss_is_iss vc vi va c i a Hac Hai Haa Hc Hi Ha).
Qed.

Lemma temporal_weight_same metric :
  In metric temporalMetrics ->
  getMetricNumericValue (num := Exact.num) metric metricsMap2
  = getMetricNumericValue (num := Exact.num) metric
      (populateTemporalMetricDefaults metricsMap).
Proof.
  intros Hin.
  assert (Hfacts : JS.arr_includes environmentalMetrics metric = false
                   /\ String.eqb metric "PR" = false
                   /\ String.eqb metric "MPR" = false).
  { simpl in Hin.
    repeat (destruct Hin as [<-|Hin]; [repeat split; reflexivity|]).
    destruct Hin. }
  destruct Hfacts as (Hne & Hpr & Hmpr).
  assert (Hget : JS.get metricsMap2 metric
                 = JS.get (populateTemporalMetricDefaults metricsMap) metric).
  { unfold metricsMap2. rewrite get_populateEnvironmentalMetricDefaults, Hne.
    reflexivity. }
  unfold getMetricNumericValue, getMetricValue. rewrite Hget.
  destruct (JS.get (populateTemporalMetricDefaults metricsMap) metric);
    cbn [bind]; [|reflexivity].
  change BaseMetric.PRIVILEGES_REQUIRED with "PR".
  change EnvironmentalMetric.MODIFIED_PRIVILEGES_REQUIRED with "MPR".
  rewrite Hpr, Hmpr. reflexivity.
Qed.

End NoEnvironmentalMetric.

(** With no environmental metric, for a vector tagged 3.0 or with an
    unchanged Scope, the environmental score of exact arithmetic is the
    temporal score: the modified metrics take the base values, the
    requirements have weight 1, MISS is ISS and the two impact formulas
    coincide. *)
Lemma environmental_score_inherits_exact
  (cvssStr : string) (v : ValidationResult) :
  wellFormedV3 cvssStr = true ->
  validate cvssStr = Ok v ->
  isEnvironmental v = false ->
  versionStr v = Some "3.0" \/ JS.get (metricsMap v) "S" = Some "U" ->
  calculateEnvironmentalScore (num := Exact.num) cvssStr
  = calculateTemporalScore (num := Exact.num) cvssStr.
Proof.
  intros Hw Hv Hne Hcase.
  destruct (wellFormedV3_base_ok _ _ Hw Hv) as (Hok & Hall).
  pose proof (fun metric => not_environmental_get v metric cvssStr Hv Hne) as Hnone.
  destruct (iss_some _ Hok) as (iss & Hiss).
  destruct (exploitability_nonneg _ Hok) as (ex & Hex & _).
  destruct (temporal_weight (metricsMap v) _ "RC" Hall ltac:(simpl; tauto) eq_refl)
    as (rc & Hrc & Rrc).
  destruct (temporal_weight (metricsMap v) _ "E" Hall ltac:(simpl; tauto) eq_refl)
    as (e & He & Re).
  destruct (temporal_weight (metricsMap v) _ "RL" Hall ltac:(simpl; tauto) eq_refl)
    as (rl & Hrl & Rrl).
  destruct (in_range_some _ _ _ Rrc) as (qrc & ->).
  destruct (in_range_some _ _ _ Re) as (qe & ->).
  destruct (in_range_some _ _ _ Rrl) as (qrl & ->).
  unfold calculateEnvironmentalScore, calculateEnvironmentalResult,
    calculateTemporalScore, calculateTemporalResult.
  rewrite calculateBaseResult_of, Hv. cbn [bind].
  unfold base_result_of.
  rewrite (miss_inherits _ Hok Hall Hnone), Hiss. cbn [bind].
  rewrite (modified_exploitability_inherits _ Hok Hall Hnone), Hex. cbn [bind].
  change TemporalMetric.REPORT_CONFIDENCE with "RC".
  change TemporalMetric.EXPLOIT_CODE_MATURITY with "E".
  change TemporalMetric.REMEDIATION_LEVEL with "RL".
  rewrite (temporal_weight_same _ "E"), (temporal_weight_same _ "RL"),
    (temporal_weight_same _ "RC") by (simpl; tauto).
  rewrite Hrc, He, Hrl. cbn [bind score].
  assert (Himp : calculateModifiedImpact (num := Exact.num)
                   (populateEnvironmentalMetricDefaults
                      (populateTemporalMetricDefaults (metricsMap v)))
                   (Some iss) (versionStr v)
                 = calculateImpact (num := Exact.num) (metricsMap v) (Some iss)).
  { unfold calculateModifiedImpact, calculateImpact.
    change EnvironmentalMetric.MODIFIED_SCOPE with "MS".
    change BaseMetric.SCOPE with "S".
    rewrite (modified_inherits _ Hok Hall Hnone "MS" "S") by (simpl; tauto).
    destruct Hcase as [H30|HU].
    - rewrite H30. change (JS.eqs (Some "3.0") "3.0") with true. cbv iota.
      destruct (JS.eqs (JS.get (metricsMap v) "S") "U"); [reflexivity|].
      destruct (Hok "C") as (vc & Hgc & _); [unfold baseMetrics; simpl; tauto|].
      destruct (Hok "I") as (vi & Hgi & _); [unfold baseMetrics; simpl; tauto|].
      destruct (Hok "A") as (va & Hga & _); [unfold baseMetrics; simpl; tauto|].
      unfold calculateIss in Hiss.
      change BaseMetric.CONFIDENTIALITY with "C" in Hiss.
      change BaseMetric.INTEGRITY with "I" in Hiss.
      change BaseMetric.AVAILABILITY with "A" in Hiss.
      destruct (getMetricNumericValue "C" (metricsMap v)) as [c|];
        [|discriminate].
      destruct (getMetricNumericValue "I" (metricsMap v)) as [i|];
        [|discriminate].
      destruct (getMetricNumericValue "A" (metricsMap v)) as [a|];
        [|discriminate].
      cbn [bind] in Hiss.
      assert (Hi : Some iss = (lit 1 - (lit 1 - c) * (lit 1 - i) * (lit 1 - a))%js)
        by congruence.
      rewrite Hi, mul_one_sub. reflexivity.
    - rewrite HU. reflexivity. }
  rewrite Himp.
  change (JS.get
            (populateEnvironmentalMetricDefaults
               (populateTemporalMetricDefaults (metricsMap v)))
            EnvironmentalMetric.MODIFIED_SCOPE)
    with (JS.get
            (populateEnvironmentalMetricDefaults
               (populateTemporalMetricDefaults (metricsMap v))) "MS").
  rewrite (modified_inherits _ Hok Hall Hnone "MS" "S") by (simpl; tauto).
  change BaseMetric.SCOPE with "S".
  destruct (le (num := Exact.num)
               (calculateImpact (num := Exact.num) (metricsMap v) (Some iss))
               (lit 0));
    cbn [bind score].
  - symmetry. exact (f_equal Ok (roundUp_zero_product qrc qe qrl)).
  - destruct (JS.eqs (JS.get (metricsMap v) "S") "U"); cbn [bind score];
      f_equal; apply roundUp_product_order.
Qed.

Definition vector_v30_scope_changed : string :=
  "CVSS:3.0/AV:N/AC:L/PR:N/UI:R/S:C/C:H/I:H/A:H/E:P/RC:R".


(** The hypothesis on the version and the Scope cannot be dropped: for a 3.1
    vector with a changed Scope the two impact formulas differ. *)
Lemma environmental_score_differs_when_scope_changed :
  calculateTemporalScore (num := Exact.num)
    "CVSS:3.1/AV:N/AC:L/PR:N/UI:R/S:C/C:H/I:H/A:H" = Ok (lit 9.6)
  /\ calculateEnvironmentalScore (num := Exact.num)
       "CVSS:3.1/AV:N/AC:L/PR:N/UI:R/S:C/C:H/I:H/A:H" = Ok (lit 9.7)
  /\ calculateTemporalScore (num := Float64.num)
       "CVSS:3.1/AV:N/AC:L/PR:N/UI:R/S:C/C:H/I:H/A:H" = Ok (lit 9.6)
  /\ calculateEnvironmentalScore (num := Float64.num)
       "CVSS:3.1/AV:N/AC:L/PR:N/UI:R/S:C/C:H/I:H/A:H" = Ok (lit 9.7).
Proof. repeat split; vm_compute; reflexivity. Qed.

(* ===================================================================== *)
(** * Further properties of the v4 engine *)

(** ** The MacroVector and the lookup table *)

Lemma digits_in_table (eq1 eq2 eq3 eq4 eq5 eq6 : nat) :
  In eq1 [0; 1; 2] -> In eq2 [0; 1] ->
  In (eq3, eq6) [(0, 0); (0, 1); (1, 0); (1, 1); (2, 1)] ->
  In eq4 [0; 1; 2] -> In eq5 [0; 1; 2] ->
  JS.has cvssLookup_globalV4 (template eq1 eq2 eq3 eq4 eq5 eq6) = true
  /\ digits (template eq1 eq2 eq3 eq4 eq5 eq6)
     = Some (eq1, eq2, eq3, eq4, eq5, eq6).
Proof.
  intros H1 H2 H36 H4 H5.
  assert (Hall :
    forallb (fun e1 => forallb (fun e2 => forallb (fun e36 =>
      forallb (fun e4 => forallb (fun e5 =>
        JS.has cvssLookup_globalV4 (template e1 e2 (fst e36) e4 e5 (snd e36))
        && match digits (template e1 e2 (fst e36) e4 e5 (snd e36)) with
           | Some (d1, d2, d3, d4, d5, d6) =>
               Nat.eqb d1 e1 && Nat.eqb d2 e2 && Nat.eqb d3 (fst e36)
               && Nat.eqb d4 e4 && Nat.eqb d5 e5 && Nat.eqb d6 (snd e36)
           | None => false
           end)
      [0; 1; 2]) [0; 1; 2]) [(0, 0); (0, 1); (1, 0); (1, 1); (2, 1)])
      [0; 1]) [0; 1; 2] = true) by (vm_compute; reflexivity).
  rewrite forallb_forall in Hall. specialize (Hall _ H1).
  rewrite forallb_forall in Hall. specialize (Hall _ H2).
  rewrite forallb_forall in Hall. specialize (Hall _ H36).
  rewrite forallb_forall in Hall. specialize (Hall _ H4).
  rewrite forallb_forall in Hall. specialize (Hall _ H5).
  cbn [fst snd] in Hall. apply andb_prop in Hall. destruct Hall as [Hhas Hd].
  split; [exact Hhas|].
  destruct (digits (template eq1 eq2 eq3 eq4 eq5 eq6))
    as [[[[[[d1 d2] d3] d4] d5] d6]|]; [|discriminate].
  repeat (apply andb_prop in Hd; destruct Hd as [Hd ?]).
  repeat match goal with
         | Hx : Nat.eqb _ _ = true |- _ => apply Nat.eqb_eq in Hx; subst
         end.
  reflexivity.
Qed.

(** The class digits that [macroVector] computes. *)
Lemma macroVector_digits cvssSelected :
  exists eq1 eq2 eq3 eq4 eq5 eq6,
    macroVector cvssSelected = template eq1 eq2 eq3 eq4 eq5 eq6
    /\ In eq1 [0; 1; 2] /\ In eq2 [0; 1]
    /\ In (eq3, eq6) [(0, 0); (0, 1); (1, 0); (1, 1); (2, 1)]
    /\ In eq4 [0; 1; 2] /\ In eq5 [0; 1; 2].
Proof.
  unfold macroVector. cbv zeta.
  do 6 eexists. split; [reflexivity|]. split; [|split; [|split; [|split]]].
  - destruct (JS.eqs (m cvssSelected "AV") "N"), (JS.eqs (m cvssSelected "PR") "N"),
             (JS.eqs (m cvssSelected "UI") "N"), (JS.eqs (m cvssSelected "AV") "P");
      simpl; tauto.
  - destruct (JS.eqs (m cvssSelected "AC") "L"), (JS.eqs (m cvssSelected "AT") "N");
      simpl; tauto.
  - destruct (JS.eqs (m cvssSelected "VC") "H"), (JS.eqs (m cvssSelected "VI") "H"),
             (JS.eqs (m cvssSelected "VA") "H"), (JS.eqs (m cvssSelected "CR") "H"),
             (JS.eqs (m cvssSelected "IR") "H"), (JS.eqs (m cvssSelected "AR") "H");
      simpl; tauto.
  - destruct (JS.eqs (m cvssSelected "MSI") "S"), (JS.eqs (m cvssSelected "MSA") "S"),
             (JS.eqs (m cvssSelected "SC") "H"), (JS.eqs (m cvssSelected "SI") "H"),
             (JS.eqs (m cvssSelected "SA") "H"); simpl; tauto.
  - destruct (JS.eqs (m cvssSelected "E") "A"), (JS.eqs (m cvssSelected "E") "P"),
             (JS.eqs (m cvssSelected "E") "U"); simpl; tauto.
Qed.

(** X7 (the MacroVector is a key of the lookup table).  For every record of
    selected metrics, validated or not, [macroVector] returns six digits, the
    first, third, fourth and fifth among 0, 1, 2 and the second and sixth
    among 0, 1, never with EQ3 = 2 and EQ6 = 0; the string is one of the 270
    keys of [cvssLookup_globalV4], so that the lookup of the score of the
    MacroVector is never undefined. *)
Theorem macroVector_in_lookup_table
  (cvssSelected : list (string * option string)) :
  exists eq1 eq2 eq3 eq4 eq5 eq6 value,
    macroVector cvssSelected = template eq1 eq2 eq3 eq4 eq5 eq6
    /\ eq1 <= 2 /\ eq2 <= 1 /\ eq3 <= 2 /\ eq4 <= 2 /\ eq5 <= 2 /\ eq6 <= 1
    /\ ~ (eq3 = 2 /\ eq6 = 0)
    /\ digits (macroVector cvssSelected) = Some (eq1, eq2, eq3, eq4, eq5, eq6)
    /\ JS.get cvssLookup_globalV4 (macroVector cvssSelected) = Some value.
Proof.
  destruct (macroVector_digits cvssSelected)
    as (eq1 & eq2 & eq3 & eq4 & eq5 & eq6 & Hm & H1 & H2 & H36 & H4 & H5).
  destruct (digits_in_table _ _ _ _ _ _ H1 H2 H36 H4 H5) as (Hhas & Hd).
  rewrite <- Hm in Hhas, Hd. unfold JS.has in Hhas.
  destruct (JS.get cvssLookup_globalV4 (macroVector cvssSelected)) as [value|];
    [|discriminate].
  exists eq1, eq2, eq3, eq4, eq5, eq6, value.
  assert (H36' : eq3 <= 2 /\ eq6 <= 1 /\ ~ (eq3 = 2 /\ eq6 = 0)).
  { simpl in H36.
    repeat (destruct H36 as [[= <- <-]|H36]; [lia|]). destruct H36. }
  simpl in H1, H2, H4, H5.
  split; [exact Hm|]. split; [lia|]. split; [lia|]. split; [lia|].
  split; [lia|]. split; [lia|]. split; [lia|]. split; [tauto|].
  split; [exact Hd|reflexivity].
Qed.

(** ** Next lower MacroVectors *)

Section NextLower.

Context {num : Type} `{JSNumber num}.

(** The five scores [score_eq1_next_lower_macro], ..., of [cvss_score]. *)
Definition next_lower_scores (lookup : list (string * num))
  (eq1 eq2 eq3 eq4 eq5 eq6 : nat) : list (option num) :=
  [ JS.get lookup (template (eq1 + 1) eq2 eq3 eq4 eq5 eq6);
    JS.get lookup (template eq1 (eq2 + 1) eq3 eq4 eq5 eq6);
    score_eq3eq6_next_lower_macro lookup eq1 eq2 eq3 eq4 eq5 eq6;
    JS.get lookup (template eq1 eq2 eq3 (eq4 + 1) eq5 eq6);
    JS.get lookup (template eq1 eq2 eq3 eq4 (eq5 + 1) eq6) ].

End NextLower.

(** A score of the table, with one decimal. *)
Definition table_score (x : option Exact.num) : option Z :=
  match x with
  | Some (Some q) =>
      let k := Qfloor (q * 10) in
      if Qeq_bool q (inject_Z k / 10) && Z.leb 0 k && Z.leb k 100
      then Some k else None
  | _ => None
  end.

(** No next lower MacroVector has a higher score. *)
Definition table_entry_ok (kv : string * Q) : bool :=
  match digits (fst kv),
        table_score (JS.get (scores (num := Exact.num) cvssLookup_globalV4) (fst kv)) with
  | Some (eq1, eq2, eq3, eq4, eq5, eq6), Some k =>
      forallb (fun o => match o with
                        | Some x => match table_score (Some x) with
                                    | Some k' => Z.leb k' k
                                    | None => false
                                    end
                        | None => true
                        end)
              (next_lower_scores (scores (num := Exact.num) cvssLookup_globalV4)
                                 eq1 eq2 eq3 eq4 eq5 eq6)
  | _, _ => false
  end.

Lemma table_entries_ok : forallb table_entry_ok cvssLookup_globalV4 = true.
Proof. vm_compute. reflexivity. Qed.

Lemma table_score_spec (x : option Exact.num) (k : Z) :
  table_score x = Some k ->
  exists q, x = Some (Some q) /\ (q == inject_Z k / 10)%Q /\ (0 <= k <= 100)%Z.
Proof.
  destruct x as [[q|]|]; try discriminate. unfold table_score. cbv zeta.
  destruct (Qeq_bool q (inject_Z (Qfloor (q * 10)) / 10)) eqn:Hq; [|discriminate].
  destruct (Z.leb_spec 0 (Qfloor (q * 10))); [|discriminate].
  destruct (Z.leb_spec (Qfloor (q * 10)) 100); [|discriminate].
  cbn [andb]. intros Heq.
  assert (Hk : k = Qfloor (q * 10)) by congruence. subst k.
  exists q. split; [reflexivity|].
  split; [apply Qeq_bool_eq; exact Hq|lia].
Qed.

Lemma scores_get {num} `{JSNumber num} (l : list (string * Q)) (key : string) :
  JS.get (scores l) key = option_map lit (JS.get l key).
Proof.
  induction l as [|[k q] l IH]; [reflexivity|]. simpl.
  destruct (String.eqb k key); [reflexivity|exact IH].
Qed.

(** X8 (the lookup table is monotone).  Every score of
    [cvssLookup_globalV4] is a multiple of 0.1 between 0 and 10, and none of
    the next lower MacroVectors that [cvss_score] looks up for a key of the
    table (one more in EQ1, EQ2, EQ4 or EQ5, and the neighbor chosen for the
    pair EQ3, EQ6) has a score above the score of the key. *)
Theorem lookup_table_monotone (key : string) (value : Q)
  (eq1 eq2 eq3 eq4 eq5 eq6 : nat) :
  JS.get cvssLookup_globalV4 key = Some value ->
  digits key = Some (eq1, eq2, eq3, eq4, eq5, eq6) ->
  (exists k : Z, (0 <= k <= 100)%Z /\ (value == inject_Z k / 10)%Q)
  /\ forall lower : Q,
       In (Some (Some lower))
          (next_lower_scores (scores (num := Exact.num) cvssLookup_globalV4)
                             eq1 eq2 eq3 eq4 eq5 eq6) ->
       (lower <= value)%Q.
Proof.
  intros Hget Hd.
  pose proof table_entries_ok as Hall. rewrite forallb_forall in Hall.
  specialize (Hall _ (get_In _ _ _ Hget)). unfold table_entry_ok in Hall.
  cbn [fst] in Hall. rewrite Hd in Hall.
  destruct (table_score (JS.get (scores cvssLookup_globalV4) key)) as [k|] eqn:Hk;
    [|discriminate].
  destruct (table_score_spec _ _ Hk) as (q & Hq & Hqk & Hrange).
  rewrite scores_get, Hget in Hq. cbn [option_map] in Hq.
  assert (Hv : (value == inject_Z k / 10)%Q).
  { assert (Hqv : q = Qred value)
      by (cbn [lit Exact.exact_number] in Hq; congruence).
    rewrite <- Hqk, Hqv. symmetry. apply Qred_correct. }
  split; [exists k; auto|].
  intros lower Hin. rewrite forallb_forall in Hall.
  specialize (Hall _ Hin). cbv beta iota in Hall.
  match type of Hall with
  | context [table_score ?t] => destruct (table_score t) as [k'|] eqn:Hk'
  end; [|discriminate Hall].
  destruct (table_score_spec _ _ Hk') as (q' & Hq' & Hqk' & _).
  assert (Hl : lower = q') by congruence. apply Z.leb_le in Hall.
  rewrite Hv, Hl, Hqk'. apply Qmult_le_compat_r; [|discriminate].
  rewrite <- Zle_Qle. exact Hall.
Qed.

Lemma lookup_table_monotone_witness :
  exists lower : Q,
    JS.get (scores (num := Exact.num) cvssLookup_globalV4) (template 1 0 0 0 0 0)
    = Some (Some lower)
    /\ (lower <= 10)%Q.
Proof.
  eexists. split; [vm_compute; reflexivity|].
  apply (lookup_table_monotone "000000" 10%Q 0 0 0 0 0 0);
    [reflexivity|reflexivity|].
  left. vm_compute. reflexivity.
Defined.

(** X9 (the neighbor of the state EQ3 = 1, EQ6 = 1).  In this state the
    key that is looked up has both digits incremented; no key of the table
    has EQ6 = 2, so the lookup is undefined for every MacroVector of the
    state and the pair EQ3, EQ6 never contributes to the mean distance,
    although the MacroVector with EQ3 = 2 and EQ6 = 1, which the comment in
    the source names as the neighbor, is in the table. *)
Theorem eq3eq6_state_11_has_no_neighbor (eq1 eq2 eq4 eq5 : nat) :
  In eq1 [0; 1; 2] -> In eq2 [0; 1] -> In eq4 [0; 1; 2] -> In eq5 [0; 1; 2] ->
  JS.has cvssLookup_globalV4 (template eq1 eq2 1 eq4 eq5 1) = true
  /\ score_eq3eq6_next_lower_macro (scores (num := Exact.num) cvssLookup_globalV4)
       eq1 eq2 1 eq4 eq5 1 = None
  /\ score_eq3eq6_next_lower_macro (scores (num := Float64.num) cvssLookup_globalV4)
       eq1 eq2 1 eq4 eq5 1 = None
  /\ JS.has cvssLookup_globalV4 (template eq1 eq2 2 eq4 eq5 1) = true.
Proof.
  intros H1 H2 H4 H5.
  assert (Hall :
    forallb (fun e1 => forallb (fun e2 => forallb (fun e4 => forallb (fun e5 =>
      JS.has cvssLookup_globalV4 (template e1 e2 1 e4 e5 1)
      && negb (JS.has cvssLookup_globalV4 (template e1 e2 2 e4 e5 2))
      && JS.has cvssLookup_globalV4 (template e1 e2 2 e4 e5 1))
      [0; 1; 2]) [0; 1; 2]) [0; 1]) [0; 1; 2] = true) by (vm_compute; reflexivity).
  rewrite forallb_forall in Hall. specialize (Hall _ H1).
  rewrite forallb_forall in Hall. specialize (Hall _ H2).
  rewrite forallb_forall in Hall. specialize (Hall _ H4).
  rewrite forallb_forall in Hall. specialize (Hall _ H5).
  apply andb_prop in Hall. destruct Hall as [Hall H21].
  apply andb_prop in Hall. destruct Hall as [H11 H22].
  apply negb_true_iff in H22.
  assert (Hnone : JS.get cvssLookup_globalV4 (template eq1 eq2 2 eq4 eq5 2) = None).
  { unfold JS.has in H22.
    destruct (JS.get cvssLookup_globalV4 (template eq1 eq2 2 eq4 eq5 2));
      [discriminate|reflexivity]. }
  split; [exact H11|]. split; [|split; [|exact H21]].
  - cbv beta iota zeta delta [score_eq3eq6_next_lower_macro
                              eq3eq6_next_lower_macros Nat.eqb andb Nat.add].
    rewrite scores_get, Hnone. reflexivity.
  - cbv beta iota zeta delta [score_eq3eq6_next_lower_macro
                              eq3eq6_next_lower_macros Nat.eqb andb Nat.add].
    rewrite scores_get, Hnone. reflexivity.
Qed.

Lemma eq3eq6_state_11_has_no_neighbor_witness :
  score_eq3eq6_next_lower_macro (scores (num := Exact.num) cvssLookup_globalV4)
    0 1 1 2 0 1 = None
  /\ JS.has cvssLookup_globalV4 (template 0 1 2 2 0 1) = true.
Proof.
  destruct (eq3eq6_state_11_has_no_neighbor 0 1 2 0) as (_ & Hn & _ & Hin);
    [simpl; tauto..|].
  split; [exact Hn|exact Hin].
Defined.

(** ** The effective values of a validated vector *)

(** The values that a metric can have once the defaults and the modified
    metrics are taken into account. *)
Definition effective_values : list (string * list string) :=
  [ ("AV", ["N"; "A"; "L"; "P"]); ("PR", ["N"; "L"; "H"]);
    ("UI", ["N"; "P"; "A"]); ("AC", ["L"; "H"]); ("AT", ["N"; "P"]);
    ("VC", ["H"; "L"; "N"]); ("VI", ["H"; "L"; "N"]); ("VA", ["H"; "L"; "N"]);
    ("SC", ["H"; "L"; "N"]); ("SI", ["S"; "H"; "L"; "N"]);
    ("SA", ["S"; "H"; "L"; "N"]);
    ("CR", ["H"; "M"; "L"]); ("IR", ["H"; "M"; "L"]); ("AR", ["H"; "M"; "L"]);
    ("E", ["A"; "P"; "U"]) ].

Lemma level_value (levels : list (string * Exact.num)) (x : option string) :
  is_number (level levels x) = true ->
  exists v, x = Some v /\ In v (JS.keys levels).
Proof.
  unfold level. destruct x as [v|]; [|discriminate].
  destruct (JS.get levels v) as [n|] eqn:Hg; [|discriminate].
  intros _. exists v. split; [reflexivity|].
  apply has_In_keys. unfold JS.has. rewrite Hg. reflexivity.
Qed.

Lemma selected_E cvssSelected :
  selected_ok cvssSelected ->
  exists v, m cvssSelected "E" = Some v /\ In v ["A"; "P"; "U"].
Proof.
  intros (Hent & _ & Hdef).
  specialize (Hdef "E" ltac:(simpl; tauto)). unfold JS.has in Hdef.
  destruct (JS.get cvssSelected "E") as [ov|] eqn:Hg; [|discriminate].
  destruct (Hent _ _ Hg) as (v & allowed & -> & Ha & Hinc).
  vm_compute in Ha. injection Ha as <-.
  assert (Hmod : JS.get cvssSelected "ME" = None).
  { destruct (JS.get cvssSelected "ME") as [ov|] eqn:Hme; [|reflexivity].
    destruct (Hent _ _ Hme) as (? & ? & _ & Hx & _). vm_compute in Hx.
    discriminate. }
  unfold m. change (String.eqb "E" "E") with true.
  change (String.eqb "E" "CR") with false. change (String.eqb "E" "IR") with false.
  change (String.eqb "E" "AR") with false. cbn [andb].
  unfold field. rewrite Hg. rewrite arr_includes_keys. unfold JS.has.
  change ("M" ++ "E")%string with "ME". rewrite Hmod. cbn [andb JS.eqs].
  apply arr_includes_In in Hinc. simpl in Hinc.
  destruct Hinc as [<-|[<-|[<-|[<-|[]]]]]; eexists; (split; [reflexivity|]);
    simpl; tauto.
Qed.

Lemma selected_effective cvssSelected metric values :
  selected_ok cvssSelected ->
  In (metric, values) effective_values ->
  exists v, m cvssSelected metric = Some v /\ In v values.
Proof.
  intros Hok Hin.
  pose proof (selected_ok_ranked _ Hok) as Hr.
  unfold effective_values in Hin. simpl in Hin.
  do 14 (destruct Hin as [[= <- <-]|Hin];
         [match goal with
          | |- exists v, m _ ?X = _ /\ _ =>
              let p := eval cbv in
                (find (fun p => String.eqb (snd p) X) level_pairs) in
              match p with
              | Some ?q => exact (level_value _ _ (Hr q ltac:(simpl; tauto)))
              end
          end|]).
  destruct Hin as [[= <- <-]|[]]. exact (selected_E _ Hok).
Qed.

(** X10 (no metric is left undefined).  For every vector that
    [validateVectorV4] accepts, the record that [parseVectorV4] returns holds
    only metrics of the expected order with listed values, the eleven
    mandatory metrics and E, CR, IR and AR (X by default); and the effective
    value [m] of each of the fifteen metrics of the score is defined and is
    never X: E counts as A and CR, IR, AR as H when they are X or absent, a
    modified metric that is not X replaces its base metric. *)
Theorem effective_values_defined (vectorString : string) :
  valid (validateVectorV4 vectorString) = true ->
  (forall k ov,
     JS.get (parseVectorV4 vectorString) k = Some ov ->
     exists v allowed,
       ov = Some v /\ JS.get expectedMetricOrder k = Some allowed /\ In v allowed)
  /\ (forall k, In k (mandatoryMetrics ++ ["E"; "CR"; "IR"; "AR"]) ->
                JS.has (parseVectorV4 vectorString) k = true)
  /\ (forall metric values,
        In (metric, values) effective_values ->
        exists v, m (parseVectorV4 vectorString) metric = Some v
                  /\ In v values /\ v <> "X").
Proof.
  intros Hvalid. pose proof (parseVectorV4_selected_ok _ Hvalid) as Hok.
  split; [|split].
  - intros k ov Hk. destruct Hok as (Hent & _).
    destruct (Hent k ov Hk) as (v & allowed & Hov & Ha & Hinc).
    exists v, allowed. split; [exact Hov|]. split; [exact Ha|].
    apply arr_includes_In. exact Hinc.
  - intros k Hin. destruct Hok as (_ & Hman & Hdef).
    apply in_app_or in Hin. destruct Hin as [Hin|Hin]; auto.
  - intros metric values Hin.
    destruct (selected_effective _ _ _ Hok Hin) as (v & Hm & Hv).
    exists v. split; [exact Hm|]. split; [exact Hv|].
    intros ->. unfold effective_values in Hin. simpl in Hin.
    repeat (destruct Hin as [[= <- <-]|Hin];
            [simpl in Hv; intuition discriminate|]).
    destruct Hin.
Qed.

Lemma effective_values_defined_witness :
  exists v, m (parseVectorV4 vector_v4_full) "SI" = Some v
            /\ In v ["S"; "H"; "L"; "N"] /\ v <> "X".
Proof.
  apply (effective_values_defined vector_v4_full).
  - vm_compute. reflexivity.
  - unfold effective_values. simpl. tauto.
Defined.

(** ** The qualitative rating *)

Definition qual_band (k : Z) : string :=
  if (k =? 0)%Z then "None"
  else if (k <? 40)%Z then "Low"
  else if (k <? 70)%Z then "Medium"
  else if (k <? 90)%Z then "High"
  else "Critical".

Lemma calculateQualScore_tenths (k : Z) :
  (0 <= k <= 100)%Z ->
  calculateQualScore (num := Exact.num) (Some (Qred (inject_Z k / 10)))
  = qual_band k.
Proof.
  intros Hk.
  assert (Hall : forallb (fun n =>
                   String.eqb
                     (calculateQualScore (num := Exact.num)
                        (Some (Qred (inject_Z (Z.of_nat n) / 10))))
                     (qual_band (Z.of_nat n)))
                   (seq 0 101) = true) by (vm_compute; reflexivity).
  rewrite forallb_forall in Hall.
  specialize (Hall (Z.to_nat k) ltac:(apply in_seq; lia)).
  rewrite Z2Nat.id in Hall by lia. apply String.eqb_eq. exact Hall.
Qed.


(** ** What [validateVectorV4] accepts *)

(** The position of a key in the expected order; the length of the table
    when the key is not one of its keys. *)
Definition position (key : string) : nat := advance key expectedMetricOrder 0.

(** A segment [KEY:VALUE] with a key of the table and one of its values. *)
Definition entry_allowed (kv : string * option string) : Prop :=
  exists allowed v,
    JS.get expectedMetricOrder (fst kv) = Some allowed
    /\ snd kv = Some v /\ In v allowed.

(** Positions that grow strictly, all above [prev] when there is one. *)
Fixpoint increasing_from (prev : option nat) (positions : list nat) : Prop :=
  match positions with
  | [] => True
  | p :: rest =>
      match prev with Some q => q < p | None => True end
      /\ increasing_from (Some p) rest
  end.

(** The vectors in canonical form: every segment carries a metric of the
    table with one of its values, the metrics come in the order of the table
    without repetition, and the mandatory metrics are there. *)
Definition canonical (segments : list string) : Prop :=
  Forall entry_allowed (map split_metric segments)
  /\ increasing_from None (map (fun s => position (fst (split_metric s))) segments)
  /\ forall k, In k mandatoryMetrics ->
               In k (map (fun s => fst (split_metric s)) segments).

Lemma advance_table (key : string) (i : nat) :
  i <= length expectedMetricOrder ->
  advance key (skipn i expectedMetricOrder) i
  = if Nat.leb i (position key) then position key
    else length expectedMetricOrder.
Proof.
  intros Hi.
  destruct (existsb (fun entry => String.eqb (fst entry) key) expectedMetricOrder)
    eqn:Hex.
  - apply existsb_exists in Hex. destruct Hex as (entry & Hin & Heq).
    apply String.eqb_eq in Heq. subst key.
    assert (Hall : forallb (fun entry => forallb (fun i =>
               Nat.eqb (advance (fst entry) (skipn i expectedMetricOrder) i)
                       (if Nat.leb i (position (fst entry))
                        then position (fst entry)
                        else length expectedMetricOrder))
               (seq 0 (S (length expectedMetricOrder))))
               expectedMetricOrder = true) by (vm_compute; reflexivity).
    rewrite forallb_forall in Hall. specialize (Hall _ Hin).
    rewrite forallb_forall in Hall.
    specialize (Hall i ltac:(apply in_seq; lia)).
    apply Nat.eqb_eq. exact Hall.
  - assert (Hp : position key = length expectedMetricOrder)
      by (unfold position; rewrite (advance_absent _ _ _ Hex); reflexivity).
    rewrite Hp. rewrite (proj2 (Nat.leb_le _ _) Hi).
    rewrite advance_absent.
    + rewrite length_skipn. lia.
    + destruct (existsb _ (skipn i expectedMetricOrder)) eqn:Hs; [|reflexivity].
      apply existsb_skipn in Hs. congruence.
Qed.

Lemma position_table (key : string) :
  position key < length expectedMetricOrder
  <-> JS.has expectedMetricOrder key = true.
Proof.
  unfold JS.has. rewrite <- find_key_get. split.
  - intros Hlt. unfold position in Hlt.
    pose proof (existsb_find_some _ _ (advance_found key _ 0 Hlt)) as Hf.
    destruct (find _ expectedMetricOrder); [reflexivity|congruence].
  - intros Hf.
    destruct (find (fun entry => String.eqb (fst entry) key) expectedMetricOrder)
      as [entry|] eqn:He; [|discriminate].
    apply find_some in He. destruct He as (Hin & Heq).
    apply String.eqb_eq in Heq. subst key.
    assert (Hall : forallb (fun entry => Nat.ltb (position (fst entry))
                                           (length expectedMetricOrder))
                           expectedMetricOrder = true) by (vm_compute; reflexivity).
    rewrite forallb_forall in Hall. apply Nat.ltb_lt. exact (Hall _ Hin).
Qed.

Lemma position_injective (k1 k2 : string) :
  position k1 < length expectedMetricOrder ->
  position k1 = position k2 -> k1 = k2.
Proof.
  intros H1 Heq.
  assert (H2 : position k2 < length expectedMetricOrder) by lia.
  apply position_table in H1, H2.
  apply has_In_keys in H1, H2.
  assert (Hall : forallb (fun a => forallb (fun b =>
             implb (Nat.eqb (position a) (position b)) (String.eqb a b))
             (JS.keys expectedMetricOrder)) (JS.keys expectedMetricOrder) = true)
    by (vm_compute; reflexivity).
  rewrite forallb_forall in Hall. specialize (Hall _ H1).
  rewrite forallb_forall in Hall. specialize (Hall _ H2).
  rewrite Heq, Nat.eqb_refl in Hall. apply String.eqb_eq. exact Hall.
Qed.

Lemma table_key_not_inherited (key : string) :
  JS.has expectedMetricOrder key = true ->
  JS.arr_includes JS.objectPrototypeKeys key = false.
Proof.
  intros Hh. apply has_In_keys in Hh.
  assert (Hall : forallb (fun k => negb (JS.arr_includes JS.objectPrototypeKeys k))
                         (JS.keys expectedMetricOrder) = true)
    by (vm_compute; reflexivity).
  rewrite forallb_forall in Hall. apply negb_true_iff. exact (Hall _ Hh).
Qed.

(** What the loop knows of the metrics selected so far: [prev] is the
    position of the last one. *)
Definition selected_upto (prev : option nat) (expectedIndex : nat)
  (toSelect : list (string * string)) : Prop :=
  (forall k, JS.has toSelect k = true -> position k <= expectedIndex)
  /\ match prev with
     | None => expectedIndex = 0 /\ forall k, JS.has toSelect k = false
     | Some q =>
         expectedIndex = q /\ q < length expectedMetricOrder
         /\ exists k, JS.has toSelect k = true /\ position k = q
     end.

Lemma validate_metrics_canonical metrics prev expectedIndex toSelect :
  selected_upto prev expectedIndex toSelect ->
  valid (validate_metrics expectedMetricOrder metrics expectedIndex toSelect) = true
  <-> Forall entry_allowed (map split_metric metrics)
      /\ increasing_from prev
           (map (fun s => position (fst (split_metric s))) metrics).
Proof.
  revert prev expectedIndex toSelect.
  induction metrics as [|metric rest IH]; intros prev i acc Hinv.
  - simpl. split; [intros _; split; [constructor|exact I]|reflexivity].
  - cbn [map increasing_from validate_metrics].
    destruct (split_metric metric) as [key value] eqn:Hsm. cbn [fst].
    destruct Hinv as (Hle & Hprev).
    assert (Hi : i <= length expectedMetricOrder).
    { destruct prev as [q|]; [destruct Hprev as (-> & Hq & _); lia|].
      destruct Hprev as (-> & _). lia. }
    pose proof (find_key_get expectedMetricOrder key) as Hfg.
    assert (Hnext : forall v,
               i <= position key -> position key < length expectedMetricOrder ->
               selected_upto (Some (position key)) (position key)
                             (JS.set acc key v)).
    { intros v Hip Hpn. split.
      - intros k Hk. rewrite has_set in Hk.
        destruct (String.eqb_spec key k) as [->|_]; [lia|].
        specialize (Hle k Hk). lia.
      - split; [reflexivity|]. split; [exact Hpn|].
        exists key. rewrite has_set, String.eqb_refl. auto. }
    split.
    + intros Hv.
      destruct (JS.key_in key acc) eqn:Hin; [discriminate|].
      rewrite (advance_table key i Hi) in Hv.
      destruct (Nat.leb_spec i (position key)) as [Hip|Hip];
        [|rewrite Nat.leb_refl in Hv; discriminate].
      destruct (Nat.leb_spec (length expectedMetricOrder) (position key))
        as [Hge|Hpn]; [discriminate|].
      destruct (find (fun entry => String.eqb (fst entry) key) expectedMetricOrder)
        as [entry|]; [|discriminate].
      cbn [option_map] in Hfg.
      destruct value as [v|]; [|discriminate].
      destruct (JS.arr_includes (snd entry) v) eqn:Hinc; [|discriminate].
      apply (IH (Some (position key)) _ _ (Hnext v Hip Hpn)) in Hv.
      destruct Hv as (Hall & Hinc').
      split; [constructor; [|exact Hall]|split; [|exact Hinc']].
      * exists (snd entry), v. cbn [fst snd]. split; [congruence|].
        split; [reflexivity|]. apply arr_includes_In. exact Hinc.
      * destruct prev as [q|]; [|exact I].
        destruct Hprev as (-> & Hq & k' & Hk' & Hpk').
        destruct (Nat.eq_dec q (position key)) as [Heq|Hne]; [|lia].
        exfalso. rewrite <- Hpk' in Heq.
        assert (Hkk : k' = key)
          by (apply position_injective; [rewrite Hpk'; exact Hq|exact Heq]).
        subst k'. unfold JS.key_in in Hin. rewrite Hk' in Hin. discriminate.
    + intros (Hall & Hq & Hinc).
      inversion Hall as [|x l Hentry Hrest]; subst.
      destruct Hentry as (allowed & v & Hget & Hval & Hv).
      cbn [fst snd] in Hget, Hval. subst value.
      assert (Hhas : JS.has expectedMetricOrder key = true)
        by (unfold JS.has; rewrite Hget; reflexivity).
      pose proof (proj2 (position_table key) Hhas) as Hpn.
      assert (Hip : i <= position key).
      { destruct prev as [q|]; [destruct Hprev as (-> & _); lia|].
        destruct Hprev as (-> & _). lia. }
      assert (Hin : JS.key_in key acc = false).
      { unfold JS.key_in. rewrite (table_key_not_inherited _ Hhas), orb_false_r.
        destruct (JS.has acc key) eqn:Hk; [|reflexivity]. exfalso.
        destruct prev as [q|].
        - destruct Hprev as (-> & _). specialize (Hle _ Hk). lia.
        - destruct Hprev as (_ & Hnone). rewrite Hnone in Hk. discriminate. }
      rewrite Hin, (advance_table key i Hi).
      rewrite (proj2 (Nat.leb_le _ _) Hip).
      destruct (Nat.leb_spec (length expectedMetricOrder) (position key));
        [lia|].
      destruct (find (fun entry => String.eqb (fst entry) key) expectedMetricOrder)
        as [entry|]; cbn [option_map] in Hfg; [|congruence].
      assert (Hs : snd entry = allowed) by congruence. rewrite Hs.
      rewrite (proj2 (arr_includes_In _ _) Hv).
      apply (IH (Some (position key)) _ _ (Hnext v Hip Hpn)).
      split; assumption.
Qed.

Lemma mandatory_selected metrics toSelect :
  validate_metrics expectedMetricOrder metrics 0 [] = Valid toSelect ->
  filter (fun metric => negb (JS.key_in metric toSelect)) mandatoryMetrics = []
  <-> forall k, In k mandatoryMetrics ->
                In k (map (fun s => fst (split_metric s)) metrics).
Proof.
  intros Hv.
  assert (Hkey : forall k, In k mandatoryMetrics ->
             JS.key_in k toSelect = true
             <-> In k (map (fun s => fst (split_metric s)) metrics)).
  { intros k Hk. unfold JS.key_in.
    assert (Hp : JS.arr_includes JS.objectPrototypeKeys k = false).
    { unfold mandatoryMetrics in Hk. simpl in Hk.
      repeat (destruct Hk as [<-|Hk]; [reflexivity|]). destruct Hk. }
    rewrite Hp, orb_false_r, (validate_metrics_has _ _ _ _ _ k Hv).
    cbn [JS.has JS.get orb]. rewrite existsb_exists. split.
    - intros (s & Hs & Heq). apply String.eqb_eq in Heq. subst k.
      apply in_map_iff. exists s. auto.
    - intros Hin. apply in_map_iff in Hin. destruct Hin as (s & <- & Hs).
      exists s. split; [exact Hs|apply String.eqb_refl]. }
  split.
  - intros Hf k Hk. apply (Hkey k Hk).
    destruct (JS.key_in k toSelect) eqn:Hin; [reflexivity|].
    assert (Hx : In k (filter (fun metric => negb (JS.key_in metric toSelect))
                              mandatoryMetrics)).
    { apply filter_In. split; [exact Hk|]. rewrite Hin. reflexivity. }
    rewrite Hf in Hx. destruct Hx.
  - intros Hall.
    destruct (filter _ mandatoryMetrics) as [|x l] eqn:Hf; [reflexivity|].
    assert (Hx : In x (x :: l)) by (left; reflexivity).
    rewrite <- Hf in Hx. apply filter_In in Hx. destruct Hx as (Hk & Hneg).
    rewrite (proj2 (Hkey x Hk) (Hall x Hk)) in Hneg. discriminate.
Qed.

(** X12 (the vectors that the v4 validator accepts).  [validateVectorV4]
    accepts a string exactly when it is CVSS:4.0 followed by segments in
    canonical form: every segment is KEY:VALUE (what follows a second colon
    is not looked at) with KEY a metric of [expectedMetricOrder] and VALUE
    one of its values, the metrics come in the order of the table, each at
    most once, and the eleven mandatory metrics are present. *)
Theorem validateVectorV4_accepts_canonical (vectorString : string) :
  valid (validateVectorV4 vectorString) = true
  <-> exists segments,
        JS.split "/" vectorString = "CVSS:4.0" :: segments
        /\ canonical segments.
Proof.
  assert (Hstart : selected_upto None 0 []).
  { split; [intros k Hk; discriminate|]. split; reflexivity. }
  unfold validateVectorV4, canonical. split.
  - destruct (JS.truthy vectorString); [|discriminate].
    destruct (JS.split "/" vectorString) as [|prefix metrics]; [discriminate|].
    destruct (String.eqb_spec prefix "CVSS:4.0") as [->|]; [|discriminate].
    cbn [negb].
    destruct (validate_metrics expectedMetricOrder metrics 0 []) as [sel|] eqn:Hv;
      [|discriminate].
    destruct (filter _ mandatoryMetrics) as [|x l] eqn:Hf; [|discriminate].
    intros _. exists metrics. split; [reflexivity|].
    assert (Hvalid : valid (validate_metrics expectedMetricOrder metrics 0 [])
                     = true) by (rewrite Hv; reflexivity).
    apply (validate_metrics_canonical metrics None 0 [] Hstart) in Hvalid.
    destruct Hvalid as (Hall & Hinc). split; [exact Hall|]. split; [exact Hinc|].
    apply (mandatory_selected metrics sel Hv). exact Hf.
  - intros (segments & Hs & Hall & Hinc & Hman).
    assert (Htr : JS.truthy vectorString = true).
    { destruct vectorString; [discriminate Hs|reflexivity]. }
    rewrite Htr, Hs. cbn [negb String.eqb Ascii.eqb Bool.eqb].
    change (String.eqb "CVSS:4.0" "CVSS:4.0") with true. cbn [negb].
    pose proof (proj2 (validate_metrics_canonical segments None 0 [] Hstart)
                      (conj Hall Hinc)) as Hvalid.
    destruct (validate_metrics expectedMetricOrder segments 0 []) as [sel|] eqn:Hv;
      [|discriminate].
    rewrite (proj2 (mandatory_selected segments sel Hv) Hman). reflexivity.
Qed.

Lemma validateVectorV4_accepts_canonical_witness :
  valid (validateVectorV4 vector_v4_full) = true
  /\ exists segments,
       JS.split "/" vector_v4_full = "CVSS:4.0" :: segments
       /\ canonical segments.
Proof.
  split; [vm_compute; reflexivity|].
  apply (proj1 (validateVectorV4_accepts_canonical vector_v4_full)).
  vm_compute. reflexivity.
Defined.

(** X13 (a metric named like an inherited property).  The loop of
    [validateVectorV4] tests [key in toSelect] on an object literal, and the
    [in] operator also sees the properties inherited from
    [Object.prototype]: a vector whose first segment has such a key
    ([constructor], [toString], [__proto__], ...) is rejected as carrying a
    repeated metric, although no metric was read before it. *)
Theorem inherited_property_reported_as_repeated
  (vectorString segment : string) (rest : list string) :
  JS.split "/" vectorString = "CVSS:4.0" :: segment :: rest ->
  In (fst (split_metric segment)) JS.objectPrototypeKeys ->
  validateVectorV4 vectorString
  = Invalid (RepeatedMetric (fst (split_metric segment))).
Proof.
  intros Hs Hin. unfold validateVectorV4.
  assert (Htr : JS.truthy vectorString = true).
  { destruct vectorString; [discriminate Hs|reflexivity]. }
  rewrite Htr, Hs. change (String.eqb "CVSS:4.0" "CVSS:4.0") with true.
  cbn [negb]. rewrite validate_metrics_repeated; [reflexivity|].
  unfold JS.key_in. rewrite (proj2 (arr_includes_In _ _) Hin).
  apply orb_true_r.
Qed.

Lemma inherited_property_reported_as_repeated_witness :
  validateVectorV4 "CVSS:4.0/toString:N/AV:N"
  = Invalid (RepeatedMetric "toString").
Proof.
  apply (inherited_property_reported_as_repeated
           "CVSS:4.0/toString:N/AV:N" "toString:N" ["AV:N"]).
  - reflexivity.
  - vm_compute. tauto.
Defined.

(** ** The defaults of the environmental metrics *)

Lemma modified_metric_is_environmental k b :
  JS.get modifiedMetricsMap k = Some b ->
  JS.arr_includes environmentalMetrics k = true
  /\ JS.arr_includes environmentalMetrics b = false.
Proof.
  intros Hb. apply get_In in Hb. unfold modifiedMetricsMap in Hb. simpl in Hb.
  repeat (destruct Hb as [[= <- <-]|Hb]; [split; reflexivity|]).
  destruct Hb.
Qed.

(** X14 (what [populateEnvironmentalMetricDefaults] returns).  After the
    call every environmental metric is present and the other metrics are
    untouched; an environmental metric with a value other than X keeps it; a
    modified metric that is absent or X takes the value of the base metric it
    modifies (X when that one is absent); CR, IR and AR that are absent
    become X; and a second call changes nothing. *)
Theorem populateEnvironmentalMetricDefaults_contract
  (metricsMap : list (string * string)) (k : string) :
  (In k environmentalMetrics ->
   JS.has (populateEnvironmentalMetricDefaults metricsMap) k = true)
  /\ (~ In k environmentalMetrics ->
      JS.get (populateEnvironmentalMetricDefaults metricsMap) k
      = JS.get metricsMap k)
  /\ (forall v, In k environmentalMetrics ->
        JS.get metricsMap k = Some v -> v <> "X" ->
        JS.get (populateEnvironmentalMetricDefaults metricsMap) k = Some v)
  /\ (forall b, JS.get modifiedMetricsMap k = Some b ->
        JS.get metricsMap k = None \/ JS.get metricsMap k = Some "X" ->
        JS.get (populateEnvironmentalMetricDefaults metricsMap) k
        = Some match JS.get metricsMap b with Some v => v | None => "X" end)
  /\ (In k ["CR"; "IR"; "AR"] -> JS.get metricsMap k = None ->
      JS.get (populateEnvironmentalMetricDefaults metricsMap) k = Some "X")
  /\ JS.get (populateEnvironmentalMetricDefaults
               (populateEnvironmentalMetricDefaults metricsMap)) k
     = JS.get (populateEnvironmentalMetricDefaults metricsMap) k.
Proof.
  split; [|split; [|split; [|split; [|split]]]].
  - intros Hin. unfold JS.has.
    rewrite get_populateEnvironmentalMetricDefaults.
    rewrite (proj2 (arr_includes_In _ _) Hin). reflexivity.
  - intros Hnot. rewrite get_populateEnvironmentalMetricDefaults.
    destruct (JS.arr_includes environmentalMetrics k) eqn:Hinc; [|reflexivity].
    apply arr_includes_In in Hinc. contradiction.
  - intros v Hin Hget Hx. rewrite get_populateEnvironmentalMetricDefaults.
    rewrite (proj2 (arr_includes_In _ _) Hin). unfold environmental_value.
    rewrite Hget. destruct (String.eqb_spec v "X"); [contradiction|reflexivity].
  - intros b Hb Hget. rewrite get_populateEnvironmentalMetricDefaults.
    rewrite (proj1 (modified_metric_is_environmental _ _ Hb)).
    unfold environmental_value. rewrite Hb.
    destruct Hget as [-> | ->]; reflexivity.
  - intros Hin Hget. rewrite get_populateEnvironmentalMetricDefaults.
    unfold environmental_value. rewrite Hget.
    simpl in Hin. destruct Hin as [<-|[<-|[<-|[]]]]; reflexivity.
  - rewrite !get_populateEnvironmentalMetricDefaults.
    destruct (JS.arr_includes environmentalMetrics k) eqn:Hinc; [|reflexivity].
    f_equal. unfold environmental_value at 1.
    rewrite (get_populateEnvironmentalMetricDefaults metricsMap k), Hinc.
    destruct (JS.get modifiedMetricsMap k) as [b|] eqn:Hb.
    + rewrite (get_populateEnvironmentalMetricDefaults metricsMap b).
      rewrite (proj2 (modified_metric_is_environmental _ _ Hb)).
      unfold environmental_value. rewrite Hb.
      destruct (JS.get metricsMap k) as [v|].
      * destruct (String.eqb v "X") eqn:Hvx.
        -- destruct (JS.get metricsMap b) as [bv|];
             [destruct (String.eqb bv "X")|]; reflexivity.
        -- rewrite Hvx. reflexivity.
      * destruct (JS.get metricsMap b) as [bv|];
          [destruct (String.eqb bv "X")|]; reflexivity.
    + unfold environmental_value. rewrite Hb.
      destruct (JS.get metricsMap k) as [v|]; [|reflexivity].
      destruct (String.eqb v "X") eqn:Hvx; [reflexivity|].
      rewrite Hvx. reflexivity.
Qed.

Lemma populateEnvironmentalMetricDefaults_contract_witness :
  JS.get (populateEnvironmentalMetricDefaults
            [("AV", "N"); ("MAV", "X"); ("MAC", "H")]) "MAV" = Some "N"
  /\ JS.get (populateEnvironmentalMetricDefaults
               [("AV", "N"); ("MAV", "X"); ("MAC", "H")]) "MAC" = Some "H".
Proof.
  pose proof (populateEnvironmentalMetricDefaults_contract
                [("AV", "N"); ("MAV", "X"); ("MAC", "H")] "MAV")
    as (_ & _ & _ & H4 & _).
  pose proof (populateEnvironmentalMetricDefaults_contract
                [("AV", "N"); ("MAV", "X"); ("MAC", "H")] "MAC")
    as (_ & _ & H3 & _).
  split.
  - apply (H4 "AV"); [reflexivity|right; reflexivity].
  - apply (H3 "H"); [vm_compute; tauto|reflexivity|discriminate].
Defined.

(* ===================================================================== *)
(** * The v4 score between the MacroVector and its next lower MacroVectors *)

(** ** Exact arithmetic on numbers that are not NaN *)

Module NumFacts.

Local Open Scope Q_scope.

Lemma add_some (p q : Q) :
  exists r, add (num := Exact.num) (Some p) (Some q) = Some r /\ r == p + q.
Proof. eexists. split; [reflexivity|apply Qred_correct]. Qed.

Lemma sub_some (p q : Q) :
  exists r, sub (num := Exact.num) (Some p) (Some q) = Some r /\ r == p - q.
Proof. eexists. split; [reflexivity|apply Qred_correct]. Qed.

Lemma mul_some (p q : Q) :
  exists r, mul (num := Exact.num) (Some p) (Some q) = Some r /\ r == p * q.
Proof. eexists. split; [reflexivity|apply Qred_correct]. Qed.

Lemma div_some (p q : Q) :
  ~ q == 0 ->
  exists r, div (num := Exact.num) (Some p) (Some q) = Some r /\ r == p / q.
Proof.
  intros Hq. cbn [div Exact.exact_number Exact.qdiv].
  destruct (Qeq_bool q 0) eqn:Hb; [apply Qeq_bool_eq in Hb; contradiction|].
  eexists. split; [reflexivity|apply Qred_correct].
Qed.

(** The proportional distance of one class: between 0 and the available
    distance. *)
Lemma normalized_bounds (t c s D : Q) :
  0 <= t <= D -> 0 <= c <= s -> 0 < s ->
  exists r,
    mul (num := Exact.num) (Some t) (div (num := Exact.num) (Some c) (Some s))
    = Some r
    /\ 0 <= r <= D.
Proof.
  intros [Ht0 HtD] [Hc0 Hcs] Hs.
  destruct (div_some c s) as (pc & Hpc & Epc); [lra|].
  rewrite Hpc. destruct (mul_some t pc) as (r & Hr & Er).
  exists r. split; [exact Hr|]. rewrite Er, Epc.
  assert (H0 : 0 <= c / s) by (apply Qle_shift_div_l; lra).
  assert (H1 : c / s <= 1) by (apply Qle_shift_div_r; lra).
  split; [apply Qmult_le_0_compat; assumption|].
  apply Qle_trans with (t * 1); [|lra].
  apply Qmult_le_compat_nonneg; split; lra.
Qed.

Lemma lit_some (q : Q) :
  exists r, lit (num := Exact.num) q = Some r /\ r == q.
Proof. eexists. split; [reflexivity|apply Qred_correct]. Qed.

Lemma exists_min (x : Q) (l : list Q) :
  exists low, In low (x :: l) /\ forall y, In y (x :: l) -> low <= y.
Proof.
  revert x. induction l as [|a l IH]; intros x.
  - exists x. split; [left; reflexivity|].
    intros y [<-|[]]. apply Qle_refl.
  - destruct (IH a) as (low & Hin & Hmin).
    destruct (Qlt_le_dec x low) as [Hlt|Hle].
    + exists x. split; [left; reflexivity|].
      intros y [<-|Hy]; [apply Qle_refl|].
      apply Qle_trans with low; [lra|exact (Hmin y Hy)].
    + exists low. split; [right; exact Hin|].
      intros y [<-|Hy]; [exact Hle|exact (Hmin y Hy)].
Qed.

End NumFacts.

(** The available distance of a class and the bound on the distances. *)
Definition within (D : Q) (a : Exact.num) : Prop :=
  forall t, a = Some t -> (0 <= t <= D)%Q.

Definition proportion (c s : Q) : Prop := (0 <= c <= s)%Q /\ (0 < s)%Q.

(** The mean distance is a number between 0 and the largest available
    distance, when the severity distance of each class is between 0 and the
    depth of the class. *)
Lemma mean_distance_bounds (a1 a2 a36 a4 a5 : Exact.num)
  (c1 c2 c36 c4 s1 s2 s36 s4 D : Q) :
  (0 <= D)%Q ->
  within D a1 -> within D a2 -> within D a36 -> within D a4 -> within D a5 ->
  proportion c1 s1 -> proportion c2 s2 -> proportion c36 s36 ->
  proportion c4 s4 ->
  exists d,
    mean_distance a1 a2 a36 a4 a5 (Some c1) (Some c2) (Some c36) (Some c4)
                  (Some s1) (Some s2) (Some s36) (Some s4) = Some d
    /\ (0 <= d <= D)%Q.
Proof.
  intros HD W1 W2 W36 W4 W5 (P1 & S1) (P2 & S2) (P36 & S36) (P4 & S4).
  assert (N : forall (a : Exact.num) c s, within D a -> (0 <= c <= s)%Q -> (0 < s)%Q ->
              match a with
              | Some t => exists r, mul (num := Exact.num) a
                                        (div (num := Exact.num) (Some c) (Some s))
                                    = Some r /\ (0 <= r <= D)%Q
              | None => True
              end).
  { intros [t|] c s W P S; [|exact I].
    exact (NumFacts.normalized_bounds t c s D (W t eq_refl) P S). }
  assert (N5 : match a5 with
                | Some t => exists r, mul (num := Exact.num) a5 (lit 0) = Some r
                                      /\ (0 <= r <= D)%Q
                | None => True
                end).
  { destruct a5 as [t|]; [|exact I].
    destruct (NumFacts.mul_some t 0) as (r & Hr & Er).
    exists r. split; [exact Hr|]. rewrite Er. lra. }
  pose proof (N a1 c1 s1 W1 P1 S1) as N1.
  pose proof (N a2 c2 s2 W2 P2 S2) as N2.
  pose proof (N a36 c36 s36 W36 P36 S36) as N36.
  pose proof (N a4 c4 s4 W4 P4 S4) as N4.
  unfold mean_distance.
  destruct a1 as [t1|]; [destruct N1 as (r1 & -> & R1)|];
  (destruct a2 as [t2|]; [destruct N2 as (r2 & -> & R2)|]);
  (destruct a36 as [t36|]; [destruct N36 as (r36 & -> & R36)|]);
  (destruct a4 as [t4|]; [destruct N4 as (r4 & -> & R4)|]);
  (destruct a5 as [t5|]; [destruct N5 as (r5 & -> & R5)|]);
  cbn [isNaN Exact.exact_number negb Nat.eqb];
  try (exists 0%Q; split; [reflexivity|lra]);
  unfold of_nat; cbn [Z.of_nat Pos.of_succ_nat Pos.succ inject_Z];
  repeat match goal with
         | |- context [@lit Exact.num _ ?q] =>
             let r := fresh "z" in
             let E := fresh "E" in
             destruct (NumFacts.lit_some q) as (r & -> & E)
         end;
  repeat match goal with
         | |- context [@add Exact.num _ (Some ?p) (Some ?q)] =>
             let r := fresh "r" in
             let E := fresh "E" in
             destruct (NumFacts.add_some p q) as (r & -> & E)
         end;
  unfold inject_Z in *;
  match goal with
  | |- context [@div Exact.num _ (Some ?p) (Some ?q)] =>
      let r := fresh "r" in
      let E := fresh "E" in
      destruct (NumFacts.div_some p q) as (r & -> & E); [lra|];
      exists r; split; [reflexivity|]; rewrite E;
      match goal with Hz : (q == _)%Q |- _ => rewrite Hz end;
      split; [apply Qle_shift_div_l; lra|apply Qle_shift_div_r; lra]
  end.
Qed.

(** The last step: a difference between two scores of the table is rounded
    to a score between them. *)
Lemma final_score_bounds (v d low : Q) (kv kl : Z) :
  (v == inject_Z kv / 10)%Q -> (low == inject_Z kl / 10)%Q ->
  (0 <= kl)%Z -> (kv <= 100)%Z ->
  (low <= v - d <= v)%Q ->
  exists x,
    final_score (num := Exact.num) (Some v) (Some d) = Some x
    /\ (low <= x <= v)%Q.
Proof.
  intros Hv Hlow Hkl Hkv [Hlo Hhi].
  assert (Hkl0 : (0 <= inject_Z kl)%Q)
    by (change 0%Q with (inject_Z 0); rewrite <- Zle_Qle; exact Hkl).
  assert (Hkv100 : (inject_Z kv <= 100)%Q)
    by (change 100%Q with (inject_Z 100); rewrite <- Zle_Qle; exact Hkv).
  assert (Hlow0 : (0 <= low)%Q).
  { rewrite Hlow. apply Qle_shift_div_l; [reflexivity|]. lra. }
  assert (Hv10 : (v <= 10)%Q).
  { rewrite Hv. apply Qle_shift_div_r; [reflexivity|]. lra. }
  unfold final_score. cbv zeta.
  change (@sub Exact.num _ (Some v) (Some d)) with (@Some Q (Qred (v - d))).
  set (w := Qred (v - d)).
  assert (Hw : (w == v - d)%Q) by apply Qred_correct.
  assert (Hlt0 : lt (num := Exact.num) (Some w) (lit 0) = false).
  { cbn [lt lit Exact.exact_number Exact.cmp2]. unfold Exact.Qltb.
    change (Qred 0) with 0%Q. apply negb_false_iff. apply Qle_bool_iff. lra. }
  rewrite Hlt0.
  assert (Hgt10 : lt (num := Exact.num) (lit 10) (Some w) = false).
  { cbn [lt lit Exact.exact_number Exact.cmp2]. unfold Exact.Qltb.
    change (Qred 10) with 10%Q. apply negb_false_iff. apply Qle_bool_iff. lra. }
  rewrite Hgt10.
  cbn [lit mul div Math_round Exact.exact_number Exact.lift2 Exact.qround
       Exact.qdiv option_map].
  change (Qred 10) with 10%Q. change (Qeq_bool 10 0) with false. cbv iota.
  eexists. split; [reflexivity|]. rewrite Qred_correct.
  set (F := Qfloor (Qred (w * 10) + (1 # 2))).
  assert (HF : F = Qfloor (w * 10 + (1 # 2))).
  { apply Qfloor_comp. rewrite Qred_correct. reflexivity. }
  assert (Hl : (kl <= F)%Z).
  { rewrite HF, <- (RangeFacts.Qfloor_half kl). apply Qfloor_resp_le.
    assert (Hx : (inject_Z kl == low * 10)%Q) by (rewrite Hlow; field).
    rewrite Hx. lra. }
  assert (Hu : (F <= kv)%Z).
  { rewrite HF, <- (RangeFacts.Qfloor_half kv). apply Qfloor_resp_le.
    assert (Hx : (inject_Z kv == v * 10)%Q) by (rewrite Hv; field).
    rewrite Hx. lra. }
  rewrite Zle_Qle in Hl, Hu. split.
  - rewrite Hlow. apply Qmult_le_compat_r; [exact Hl|discriminate].
  - rewrite Hv. apply Qmult_le_compat_r; [exact Hu|discriminate].
Qed.

(** ** The classes of a MacroVector *)

(** The class digits, as [macroVector] computes them from the effective
    values. *)
Definition eq1_of (av pr ui : option string) : nat :=
  if JS.eqs av "N" && JS.eqs pr "N" && JS.eqs ui "N" then 0
  else if (JS.eqs av "N" || JS.eqs pr "N" || JS.eqs ui "N")
          && negb (JS.eqs av "N" && JS.eqs pr "N" && JS.eqs ui "N")
          && negb (JS.eqs av "P") then 1
  else if JS.eqs av "P" || negb (JS.eqs av "N" || JS.eqs pr "N" || JS.eqs ui "N")
       then 2
  else 0.

Definition eq2_of (ac at_ : option string) : nat :=
  if JS.eqs ac "L" && JS.eqs at_ "N" then 0
  else if negb (JS.eqs ac "L" && JS.eqs at_ "N") then 1
  else 0.

Definition eq3_of (vc vi va : option string) : nat :=
  if JS.eqs vc "H" && JS.eqs vi "H" then 0
  else if negb (JS.eqs vc "H" && JS.eqs vi "H")
          && (JS.eqs vc "H" || JS.eqs vi "H" || JS.eqs va "H") then 1
  else if negb (JS.eqs vc "H" || JS.eqs vi "H" || JS.eqs va "H") then 2
  else 0.

Definition eq4_of (msi_S msa_S : bool) (sc si sa : option string) : nat :=
  if msi_S || msa_S then 0
  else if negb (msi_S || msa_S)
          && (JS.eqs sc "H" || JS.eqs si "H" || JS.eqs sa "H") then 1
  else if negb (msi_S || msa_S)
          && negb (JS.eqs sc "H" || JS.eqs si "H" || JS.eqs sa "H") then 2
  else 0.

Definition eq5_of (e : option string) : nat :=
  if JS.eqs e "A" then 0
  else if JS.eqs e "P" then 1
  else if JS.eqs e "U" then 2
  else 0.

Definition eq6_of (cr ir ar vc vi va : option string) : nat :=
  if (JS.eqs cr "H" && JS.eqs vc "H") || (JS.eqs ir "H" && JS.eqs vi "H")
     || (JS.eqs ar "H" && JS.eqs va "H") then 0
  else if negb ((JS.eqs cr "H" && JS.eqs vc "H") || (JS.eqs ir "H" && JS.eqs vi "H")
                || (JS.eqs ar "H" && JS.eqs va "H")) then 1
  else 0.

Lemma macroVector_classes cvssSelected :
  macroVector cvssSelected
  = template
      (eq1_of (m cvssSelected "AV") (m cvssSelected "PR") (m cvssSelected "UI"))
      (eq2_of (m cvssSelected "AC") (m cvssSelected "AT"))
      (eq3_of (m cvssSelected "VC") (m cvssSelected "VI") (m cvssSelected "VA"))
      (eq4_of (JS.eqs (m cvssSelected "MSI") "S") (JS.eqs (m cvssSelected "MSA") "S")
              (m cvssSelected "SC") (m cvssSelected "SI") (m cvssSelected "SA"))
      (eq5_of (m cvssSelected "E"))
      (eq6_of (m cvssSelected "CR") (m cvssSelected "IR") (m cvssSelected "AR")
              (m cvssSelected "VC") (m cvssSelected "VI") (m cvssSelected "VA")).
Proof. reflexivity. Qed.

(** The highest severity vectors of a class, as [cvss_score] reads them
    from [maxComposed] through [getEQMaxes]. *)
Definition vectors_of (e : option eqmaxes) : list string :=
  match e with Some (Vectors l) => l | _ => [] end.

Definition maxes1 (eq1 : nat) : list string :=
  vectors_of (getEQMaxes (template eq1 0 0 0 0 0) 1).
Definition maxes2 (eq2 : nat) : list string :=
  vectors_of (getEQMaxes (template 0 eq2 0 0 0 0) 2).
Definition maxes36 (eq3 eq6 : nat) : list string :=
  match getEQMaxes (template 0 0 eq3 0 0 eq6) 3 with
  | Some (ByEq6 by_eq6) =>
      match JS.get by_eq6 (show eq6) with Some l => l | None => [] end
  | _ => []
  end.
Definition maxes4 (eq4 : nat) : list string :=
  vectors_of (getEQMaxes (template 0 0 0 eq4 0 0) 4).
Definition maxes5 (eq5 : nat) : list string :=
  vectors_of (getEQMaxes (template 0 0 0 0 eq5 0) 5).

Fixpoint strings_eqb (l l' : list string) : bool :=
  match l, l' with
  | [], [] => true
  | a :: l, b :: l' => String.eqb a b && strings_eqb l l'
  | _, _ => false
  end.

Lemma strings_eqb_eq (l l' : list string) : strings_eqb l l' = true -> l = l'.
Proof.
  revert l'. induction l as [|a l IH]; intros [|b l']; simpl; try discriminate.
  - reflexivity.
  - intros Hb. apply andb_prop in Hb. destruct Hb as [Hab Hl].
    apply String.eqb_eq in Hab. rewrite Hab, (IH _ Hl). reflexivity.
Qed.

(** What [cvss_score] reads from the tables for a MacroVector. *)
Definition macro_structure (eq1 eq2 eq3 eq4 eq5 eq6 : nat) : bool :=
  let macro := template eq1 eq2 eq3 eq4 eq5 eq6 in
  match getEQMaxes macro 1, getEQMaxes macro 2, getEQMaxes macro 3,
        getEQMaxes macro 4, getEQMaxes macro 5,
        nget (msd_eq3eq6 maxSeverityV4) eq3, char_at macro 5 with
  | Some (Vectors l1), Some (Vectors l2), Some (ByEq6 by_eq6),
    Some (Vectors l4), Some (Vectors l5), Some row, Some key6 =>
      match JS.get by_eq6 key6 with
      | Some l36 =>
          strings_eqb l1 (maxes1 eq1) && strings_eqb l2 (maxes2 eq2)
          && strings_eqb l36 (maxes36 eq3 eq6)
          && strings_eqb l4 (maxes4 eq4) && strings_eqb l5 (maxes5 eq5)
      | None => false
      end
  | _, _, _, _, _, _, _ => false
  end.

Lemma macro_structure_all (eq1 eq2 eq3 eq4 eq5 eq6 : nat) :
  In eq1 [0; 1; 2] -> In eq2 [0; 1] ->
  In (eq3, eq6) [(0, 0); (0, 1); (1, 0); (1, 1); (2, 1)] ->
  In eq4 [0; 1; 2] -> In eq5 [0; 1; 2] ->
  macro_structure eq1 eq2 eq3 eq4 eq5 eq6 = true.
Proof.
  intros H1 H2 H36 H4 H5.
  assert (Hall :
    forallb (fun e1 => forallb (fun e2 => forallb (fun e36 =>
      forallb (fun e4 => forallb (fun e5 =>
        macro_structure e1 e2 (fst e36) e4 e5 (snd e36))
      [0; 1; 2]) [0; 1; 2]) [(0, 0); (0, 1); (1, 0); (1, 1); (2, 1)])
      [0; 1]) [0; 1; 2] = true) by (vm_compute; reflexivity).
  rewrite forallb_forall in Hall. specialize (Hall _ H1).
  rewrite forallb_forall in Hall. specialize (Hall _ H2).
  rewrite forallb_forall in Hall. specialize (Hall _ H36).
  rewrite forallb_forall in Hall. specialize (Hall _ H4).
  rewrite forallb_forall in Hall. exact (Hall _ H5).
Qed.

(** ** Severity distances, class by class *)

Section ClassDistances.

Context {num : Type} `{JSNumber num}.

(** The depth of a class: [maxSeverityData[..][eq] * step]. *)
Definition depth_of (row : list (nat * Q)) (eq : nat) : num :=
  (toNumber (option_map lit (nget row eq)) * lit 0.1)%js.

Definition depth36 (eq3 eq6 : nat) : num :=
  match nget (msd_eq3eq6 maxSeverityV4) eq3 with
  | Some row => depth_of row eq6
  | None => NaN
  end.

(** The distance of one metric to a highest severity vector (or to the part
    of it that holds the metric). *)
Definition metric_distance (levels : list (string * num))
  (value : option string) (metric part : string) : num :=
  (level levels value - level levels (Some (extractValueMetric metric part)))%js.

Definition not_negative (x : num) : bool := negb (x <? lit 0)%js.

Definition distances1 (av pr ui : option string) (part : string)
  : list num :=
  [ metric_distance AV_levels av "AV" part;
    metric_distance PR_levels pr "PR" part;
    metric_distance UI_levels ui "UI" part ].

Definition sum1 (av pr ui : option string) (part : string) : num :=
  (metric_distance AV_levels av "AV" part
   + metric_distance PR_levels pr "PR" part
   + metric_distance UI_levels ui "UI" part)%js.

Definition distances2 (ac at_ : option string) (part : string)
  : list num :=
  [ metric_distance AC_levels ac "AC" part;
    metric_distance AT_levels at_ "AT" part ].

Definition sum2 (ac at_ : option string) (part : string) : num :=
  (metric_distance AC_levels ac "AC" part
   + metric_distance AT_levels at_ "AT" part)%js.

Definition distances36 (vc vi va cr ir ar : option string) (part : string)
  : list num :=
  [ metric_distance VC_levels vc "VC" part;
    metric_distance VI_levels vi "VI" part;
    metric_distance VA_levels va "VA" part;
    metric_distance CR_levels cr "CR" part;
    metric_distance IR_levels ir "IR" part;
    metric_distance AR_levels ar "AR" part ].

Definition sum36 (vc vi va cr ir ar : option string) (part : string)
  : num :=
  (metric_distance VC_levels vc "VC" part
   + metric_distance VI_levels vi "VI" part
   + metric_distance VA_levels va "VA" part
   + metric_distance CR_levels cr "CR" part
   + metric_distance IR_levels ir "IR" part
   + metric_distance AR_levels ar "AR" part)%js.

Definition distances4 (sc si sa : option string) (part : string)
  : list num :=
  [ metric_distance SC_levels sc "SC" part;
    metric_distance SI_levels si "SI" part;
    metric_distance SA_levels sa "SA" part ].

Definition sum4 (sc si sa : option string) (part : string) : num :=
  (metric_distance SC_levels sc "SC" part
   + metric_distance SI_levels si "SI" part
   + metric_distance SA_levels sa "SA" part)%js.

(** The score as a function of what [cvss_score] reads from the tables
    (the score of the MacroVector, the scores of the next lower
    MacroVectors, the depths) and of the severity distances of the classes. *)
Definition score_from (value next1 next2 next36 next4 next5 : num)
  (depth_eq1 depth_eq2 depth_eq3eq6 depth_eq4 : num)
  (current_eq1 current_eq2 current_eq3eq6 current_eq4 : num) : num :=
  final_score value
    (mean_distance (value - next1) (value - next2) (value - next36)
                   (value - next4) (value - next5)
                   current_eq1 current_eq2 current_eq3eq6 current_eq4
                   depth_eq1 depth_eq2 depth_eq3eq6 depth_eq4)%js.

End ClassDistances.

(** The sum of the distances of a class lies between 0 and the depth. *)
Definition below_depth (sum depth : Exact.num) : bool :=
  (lit 0 <=? sum)%js && (sum <? depth)%js.

(** A class is in order for given effective values when one of its highest
    severity vectors is at no negative distance, and when the distance to
    every such vector is below the depth of the class. *)
Definition class_ok (maxes : list string) (distances : string -> list Exact.num)
  (sum : string -> Exact.num) (depth : Exact.num) : bool :=
  existsb (fun part => forallb not_negative (distances part)) maxes
  && forallb (fun part => implb (forallb not_negative (distances part))
                                (below_depth (sum part) depth)) maxes.

Definition class1_ok (av pr ui : string) : bool :=
  let eq1 := eq1_of (Some av) (Some pr) (Some ui) in
  class_ok (maxes1 eq1) (distances1 (Some av) (Some pr) (Some ui))
           (sum1 (Some av) (Some pr) (Some ui))
           (depth_of (msd_eq1 maxSeverityV4) eq1).

Definition class2_ok (ac at_ : string) : bool :=
  let eq2 := eq2_of (Some ac) (Some at_) in
  class_ok (maxes2 eq2) (distances2 (Some ac) (Some at_))
           (sum2 (Some ac) (Some at_))
           (depth_of (msd_eq2 maxSeverityV4) eq2).

Definition class36_ok (vc vi va cr ir ar : string) : bool :=
  let eq3 := eq3_of (Some vc) (Some vi) (Some va) in
  let eq6 := eq6_of (Some cr) (Some ir) (Some ar) (Some vc) (Some vi) (Some va) in
  class_ok (maxes36 eq3 eq6)
           (distances36 (Some vc) (Some vi) (Some va) (Some cr) (Some ir) (Some ar))
           (sum36 (Some vc) (Some vi) (Some va) (Some cr) (Some ir) (Some ar))
           (depth36 eq3 eq6).

Definition class4_ok (sc si sa : string) : bool :=
  let eq4 := eq4_of (JS.eqs (Some si) "S") (JS.eqs (Some sa) "S")
                    (Some sc) (Some si) (Some sa) in
  class_ok (maxes4 eq4) (distances4 (Some sc) (Some si) (Some sa))
           (sum4 (Some sc) (Some si) (Some sa))
           (depth_of (msd_eq4 maxSeverityV4) eq4).

Definition values_of (metric : string) : list string :=
  match JS.get effective_values metric with Some l => l | None => [] end.

Lemma class1_ok_all :
  forallb (fun av => forallb (fun pr => forallb (fun ui => class1_ok av pr ui)
    (values_of "UI")) (values_of "PR")) (values_of "AV") = true.
Proof. vm_compute. reflexivity. Qed.

Lemma class2_ok_all :
  forallb (fun ac => forallb (fun at_ => class2_ok ac at_)
    (values_of "AT")) (values_of "AC") = true.
Proof. vm_compute. reflexivity. Qed.

Lemma class36_ok_all :
  forallb (fun vc => forallb (fun vi => forallb (fun va =>
  forallb (fun cr => forallb (fun ir => forallb (fun ar =>
    class36_ok vc vi va cr ir ar)
    (values_of "AR")) (values_of "IR")) (values_of "CR"))
    (values_of "VA")) (values_of "VI")) (values_of "VC") = true.
Proof. vm_compute. reflexivity. Qed.

Lemma class4_ok_all :
  forallb (fun sc => forallb (fun si => forallb (fun sa => class4_ok sc si sa)
    (values_of "SA")) (values_of "SI")) (values_of "SC") = true.
Proof. vm_compute. reflexivity. Qed.

(** The parts of the highest severity vectors, class by class. *)
Definition parts1 : list string := flat_map maxes1 [0; 1; 2].
Definition parts2 : list string := flat_map maxes2 [0; 1].
Definition parts36 : list string :=
  flat_map (fun e => maxes36 (fst e) (snd e))
           [(0, 0); (0, 1); (1, 0); (1, 1); (2, 1)].
Definition parts4 : list string := flat_map maxes4 [0; 1; 2].
Definition parts5 : list string := flat_map maxes5 [0; 1; 2].

(** [extractValueMetric] on a composed vector finds the value in the part
    of the class of the metric. *)
Definition composed_ok (a b c d e : string) : bool :=
  let max_vector := (a ++ b ++ c ++ d ++ e)%string in
  forallb (fun metric => String.eqb (extractValueMetric metric max_vector)
                                    (extractValueMetric metric a))
          ["AV"; "PR"; "UI"]
  && forallb (fun metric => String.eqb (extractValueMetric metric max_vector)
                                       (extractValueMetric metric b))
             ["AC"; "AT"]
  && forallb (fun metric => String.eqb (extractValueMetric metric max_vector)
                                       (extractValueMetric metric c))
             ["VC"; "VI"; "VA"; "CR"; "IR"; "AR"]
  && forallb (fun metric => String.eqb (extractValueMetric metric max_vector)
                                       (extractValueMetric metric d))
             ["SC"; "SI"; "SA"].

Lemma composed_ok_all :
  forallb (fun a => forallb (fun b => forallb (fun c => forallb (fun d =>
  forallb (fun e => composed_ok a b c d e)
    parts5) parts4) parts36) parts2) parts1 = true.
Proof. vm_compute. reflexivity. Qed.

Lemma composed_ok_In (a b c d e : string) :
  In a parts1 -> In b parts2 -> In c parts36 -> In d parts4 -> In e parts5 ->
  composed_ok a b c d e = true.
Proof.
  intros Ha Hb Hc Hd He. pose proof composed_ok_all as Hall.
  rewrite forallb_forall in Hall. specialize (Hall _ Ha).
  rewrite forallb_forall in Hall. specialize (Hall _ Hb).
  rewrite forallb_forall in Hall. specialize (Hall _ Hc).
  rewrite forallb_forall in Hall. specialize (Hall _ Hd).
  rewrite forallb_forall in Hall. exact (Hall _ He).
Qed.

Lemma in_compose_max_vectors (l1 l2 l36 l4 l5 : list string) (max_vector : string) :
  In max_vector (compose_max_vectors l1 l2 l36 l4 l5) <->
  exists a b c d e,
    In a l1 /\ In b l2 /\ In c l36 /\ In d l4 /\ In e l5
    /\ max_vector = (a ++ b ++ c ++ d ++ e)%string.
Proof.
  unfold compose_max_vectors. split.
  - intros Hin.
    apply in_flat_map in Hin. destruct Hin as (a & Ha & Hin).
    apply in_flat_map in Hin. destruct Hin as (b & Hb & Hin).
    apply in_flat_map in Hin. destruct Hin as (c & Hc & Hin).
    apply in_flat_map in Hin. destruct Hin as (d & Hd & Hin).
    apply in_map_iff in Hin. destruct Hin as (e & He & Hin).
    exists a, b, c, d, e. repeat (split; [assumption|]). symmetry. exact He.
  - intros (a & b & c & d & e & Ha & Hb & Hc & Hd & He & ->).
    apply in_flat_map. exists a. split; [exact Ha|].
    apply in_flat_map. exists b. split; [exact Hb|].
    apply in_flat_map. exists c. split; [exact Hc|].
    apply in_flat_map. exists d. split; [exact Hd|].
    apply in_map_iff. exists e. split; [reflexivity|exact He].
Qed.

Lemma existsb_negb_forallb {A} (f : A -> bool) (l : list A) :
  existsb f l = negb (forallb (fun x => negb (f x)) l).
Proof.
  induction l as [|x l IH]; simpl; [reflexivity|].
  rewrite IH. destruct (f x); reflexivity.
Qed.

Section Selection.

Context {num : Type} `{JSNumber num}.

(** The distances to a composed vector are the distances to its parts. *)
Lemma distances_to_composed cvssSelected (a b c d e : string) :
  composed_ok a b c d e = true ->
  let v metric := m cvssSelected metric in
  distances_to cvssSelected (a ++ b ++ c ++ d ++ e)
  = {| severity_distance_AV := metric_distance AV_levels (v "AV") "AV" a;
       severity_distance_PR := metric_distance PR_levels (v "PR") "PR" a;
       severity_distance_UI := metric_distance UI_levels (v "UI") "UI" a;
       severity_distance_AC := metric_distance AC_levels (v "AC") "AC" b;
       severity_distance_AT := metric_distance AT_levels (v "AT") "AT" b;
       severity_distance_VC := metric_distance VC_levels (v "VC") "VC" c;
       severity_distance_VI := metric_distance VI_levels (v "VI") "VI" c;
       severity_distance_VA := metric_distance VA_levels (v "VA") "VA" c;
       severity_distance_SC := metric_distance SC_levels (v "SC") "SC" d;
       severity_distance_SI := metric_distance SI_levels (v "SI") "SI" d;
       severity_distance_SA := metric_distance SA_levels (v "SA") "SA" d;
       severity_distance_CR := metric_distance CR_levels (v "CR") "CR" c;
       severity_distance_IR := metric_distance IR_levels (v "IR") "IR" c;
       severity_distance_AR := metric_distance AR_levels (v "AR") "AR" c |}.
Proof.
  intros Hc v. unfold composed_ok in Hc. cbv zeta in Hc. cbn [forallb] in Hc.
  rewrite ?andb_true_iff in Hc.
  repeat match goal with
         | Hx : _ /\ _ |- _ => destruct Hx
         | Hx : String.eqb _ _ = true |- _ => apply String.eqb_eq in Hx
         | Hx : true = true |- _ => clear Hx
         end.
  unfold distances_to, metric_distance, v.
  repeat match goal with
         | Hx : extractValueMetric _ _ = _ |- _ => rewrite Hx; clear Hx
         end.
  reflexivity.
Qed.

(** The loop stops at the first highest severity vector that is at no
    negative distance. *)
Lemma select_max_first cvssSelected (max_vectors : list string)
  (current : severity_distances) :
  (exists max_vector, In max_vector max_vectors
     /\ some_negative (distances_to cvssSelected max_vector)
        = false) ->
  exists max_vector,
    In max_vector max_vectors
    /\ some_negative (distances_to cvssSelected max_vector) = false
    /\ select_max cvssSelected max_vectors current
       = distances_to cvssSelected max_vector.
Proof.
  revert current. induction max_vectors as [|mv rest IH]; intros current.
  - intros (x & [] & _).
  - intros (x & Hin & Hx). simpl.
    destruct (some_negative (distances_to cvssSelected mv)) eqn:Hneg.
    + destruct Hin as [->|Hin]; [congruence|].
      destruct (IH (distances_to cvssSelected mv)
                   (ex_intro _ x (conj Hin Hx))) as (y & Hy & Hny & Hsel).
      exists y. split; [right; exact Hy|]. split; assumption.
    + exists mv. split; [left; reflexivity|]. split; [exact Hneg|reflexivity].
Qed.

Definition severity_fields (d : severity_distances) : list num :=
  [ severity_distance_AV d; severity_distance_PR d; severity_distance_UI d;
    severity_distance_AC d; severity_distance_AT d; severity_distance_VC d;
    severity_distance_VI d; severity_distance_VA d; severity_distance_SC d;
    severity_distance_SI d; severity_distance_SA d; severity_distance_CR d;
    severity_distance_IR d; severity_distance_AR d ].

Lemma some_negative_fields (d : severity_distances) :
  some_negative d = negb (forallb not_negative (severity_fields d)).
Proof. apply existsb_negb_forallb. Qed.

End Selection.

Lemma class_ok_spec (maxes : list string) (distances : string -> list Exact.num)
  (sum : string -> Exact.num) (depth : Exact.num) :
  class_ok maxes distances sum depth = true ->
  (exists part, In part maxes /\ forallb not_negative (distances part) = true)
  /\ (forall part, In part maxes ->
        forallb not_negative (distances part) = true ->
        below_depth (sum part) depth = true).
Proof.
  unfold class_ok. intros Hc. apply andb_prop in Hc. destruct Hc as [Hex Hall].
  split.
  - apply existsb_exists in Hex. exact Hex.
  - intros part Hin Hnn. rewrite forallb_forall in Hall.
    specialize (Hall _ Hin). rewrite Hnn in Hall. exact Hall.
Qed.

Lemma below_depth_proportion (sum depth : Exact.num) :
  below_depth sum depth = true ->
  exists c s, sum = Some c /\ depth = Some s /\ proportion c s.
Proof.
  unfold below_depth. intros Hb. apply andb_prop in Hb. destruct Hb as [H0 Hlt].
  destruct sum as [c|]; [|discriminate Hlt].
  destruct depth as [s|]; [|discriminate Hlt].
  exists c, s. split; [reflexivity|]. split; [reflexivity|].
  cbn in H0, Hlt. unfold Exact.Qltb in Hlt.
  apply Qle_bool_iff in H0. apply negb_true_iff in Hlt.
  assert (Hcs : ~ (s <= c)%Q).
  { intros Hle. apply Qle_bool_iff in Hle. congruence. }
  apply Qnot_le_lt in Hcs.
  assert (H0' : (0 <= c)%Q) by exact H0.
  unfold proportion. split; [split; [exact H0'|apply Qlt_le_weak; exact Hcs]|].
  eapply Qle_lt_trans; eassumption.
Qed.

Lemma modified_subsequent_S cvssSelected (metric : string) :
  selected_ok cvssSelected ->
  In metric ["SI"; "SA"] ->
  JS.eqs (m cvssSelected ("M" ++ metric)) "S" = JS.eqs (m cvssSelected metric) "S".
Proof.
  intros (Hent & _ & _) Hin.
  assert (Hnone : forall k, JS.get expectedMetricOrder k = None ->
                            JS.get cvssSelected k = None).
  { intros k Hk. destruct (JS.get cvssSelected k) as [ov|] eqn:Hg; [|reflexivity].
    destruct (Hent _ _ Hg) as (? & ? & _ & Hx & _). congruence. }
  assert (Hbase : forall k, In k ["SI"; "SA"] ->
                            JS.eqs (field cvssSelected k) "S" = false).
  { intros k Hk. unfold field.
    destruct (JS.get cvssSelected k) as [ov|] eqn:Hg; [|reflexivity].
    destruct (Hent _ _ Hg) as (v & allowed & -> & Ha & Hinc).
    apply arr_includes_In in Hinc.
    simpl in Hk. destruct Hk as [<-|[<-|[]]]; vm_compute in Ha;
      injection Ha as <-; simpl in Hinc;
      repeat (destruct Hinc as [<-|Hinc]; [reflexivity|]); destruct Hinc. }
  assert (Hmod : forall k, In k ["MSI"; "MSA"] ->
            forall ov, JS.get cvssSelected k = Some ov ->
            exists v, ov = Some v /\ In v ["X"; "S"; "H"; "L"; "N"]).
  { intros k Hk ov Hg. destruct (Hent _ _ Hg) as (v & allowed & -> & Ha & Hinc).
    apply arr_includes_In in Hinc. exists v. split; [reflexivity|].
    simpl in Hk. destruct Hk as [<-|[<-|[]]]; vm_compute in Ha;
      injection Ha as <-; simpl in Hinc; simpl; tauto. }
  simpl in Hin. destruct Hin as [<-|[<-|[]]].
  - specialize (Hbase "SI" ltac:(simpl; tauto)).
    specialize (Hmod "MSI" ltac:(simpl; tauto)).
    pose proof (Hnone "MMSI" eq_refl) as Hmm.
    unfold m. cbn [String.eqb Ascii.eqb Bool.eqb andb append].
    rewrite !arr_includes_keys. unfold JS.has. rewrite Hmm. cbn [andb].
    unfold field at 1 2 3.
    destruct (JS.get cvssSelected "MSI") as [ov|].
    + destruct (Hmod ov eq_refl) as (v & -> & Hv). simpl in Hv.
      destruct Hv as [<-|[<-|[<-|[<-|[<-|[]]]]]]; cbn [JS.eqs String.eqb Ascii.eqb Bool.eqb andb negb];
        try reflexivity.
      symmetry. exact Hbase.
    + cbn [andb JS.eqs]. symmetry. exact Hbase.
  - specialize (Hbase "SA" ltac:(simpl; tauto)).
    specialize (Hmod "MSA" ltac:(simpl; tauto)).
    pose proof (Hnone "MMSA" eq_refl) as Hmm.
    unfold m. cbn [String.eqb Ascii.eqb Bool.eqb andb append].
    rewrite !arr_includes_keys. unfold JS.has. rewrite Hmm. cbn [andb].
    unfold field at 1 2 3.
    destruct (JS.get cvssSelected "MSA") as [ov|].
    + destruct (Hmod ov eq_refl) as (v & -> & Hv). simpl in Hv.
      destruct Hv as [<-|[<-|[<-|[<-|[<-|[]]]]]]; cbn [JS.eqs String.eqb Ascii.eqb Bool.eqb andb negb];
        try reflexivity.
      symmetry. exact Hbase.
    + cbn [andb JS.eqs]. symmetry. exact Hbase.
Qed.

Lemma eq1_of_digit (av pr ui : option string) : In (eq1_of av pr ui) [0; 1; 2].
Proof.
  unfold eq1_of.
  destruct (JS.eqs av "N"), (JS.eqs pr "N"), (JS.eqs ui "N"), (JS.eqs av "P");
    simpl; tauto.
Qed.

Lemma eq2_of_digit (ac at_ : option string) : In (eq2_of ac at_) [0; 1].
Proof.
  unfold eq2_of. destruct (JS.eqs ac "L"), (JS.eqs at_ "N"); simpl; tauto.
Qed.

Lemma eq3_eq6_of_digits (vc vi va cr ir ar : option string) :
  In (eq3_of vc vi va, eq6_of cr ir ar vc vi va)
     [(0, 0); (0, 1); (1, 0); (1, 1); (2, 1)].
Proof.
  unfold eq3_of, eq6_of.
  destruct (JS.eqs vc "H"), (JS.eqs vi "H"), (JS.eqs va "H"), (JS.eqs cr "H"),
           (JS.eqs ir "H"), (JS.eqs ar "H"); simpl; tauto.
Qed.

Lemma eq4_of_digit (msi_S msa_S : bool) (sc si sa : option string) :
  In (eq4_of msi_S msa_S sc si sa) [0; 1; 2].
Proof.
  unfold eq4_of.
  destruct msi_S, msa_S, (JS.eqs sc "H"), (JS.eqs si "H"), (JS.eqs sa "H");
    simpl; tauto.
Qed.

Lemma eq5_of_digit (e : option string) : In (eq5_of e) [0; 1; 2].
Proof.
  unfold eq5_of. destruct (JS.eqs e "A"), (JS.eqs e "P"), (JS.eqs e "U");
    simpl; tauto.
Qed.

Lemma maxes5_nonempty (eq5 : nat) :
  In eq5 [0; 1; 2] -> exists e, In e (maxes5 eq5).
Proof.
  simpl. intros [<-|[<-|[<-|[]]]]; eexists; vm_compute; left; reflexivity.
Qed.

Section ScoreByClass.

Context {num : Type} `{JSNumber num}.

(** Outside the shortcut, the score of a MacroVector in terms of its
    classes. *)
Lemma cvss_score_classes cvssSelected (eq1 eq2 eq3 eq4 eq5 eq6 : nat) :
  In eq1 [0; 1; 2] -> In eq2 [0; 1] ->
  In (eq3, eq6) [(0, 0); (0, 1); (1, 0); (1, 1); (2, 1)] ->
  In eq4 [0; 1; 2] -> In eq5 [0; 1; 2] ->
  forallb (fun metric => JS.eqs (m cvssSelected metric) "N")
          ["VC"; "VI"; "VA"; "SC"; "SI"; "SA"] = false ->
  let lookup := scores cvssLookup_globalV4 in
  let sd :=
    select_max cvssSelected
      (compose_max_vectors (maxes1 eq1) (maxes2 eq2) (maxes36 eq3 eq6)
                           (maxes4 eq4) (maxes5 eq5)) no_distance in
  cvss_score cvssSelected lookup maxSeverityV4
             (template eq1 eq2 eq3 eq4 eq5 eq6)
  = Ok (score_from
          (toNumber (JS.get lookup (template eq1 eq2 eq3 eq4 eq5 eq6)))
          (toNumber (JS.get lookup (template (eq1 + 1) eq2 eq3 eq4 eq5 eq6)))
          (toNumber (JS.get lookup (template eq1 (eq2 + 1) eq3 eq4 eq5 eq6)))
          (toNumber (score_eq3eq6_next_lower_macro lookup eq1 eq2 eq3 eq4 eq5 eq6))
          (toNumber (JS.get lookup (template eq1 eq2 eq3 (eq4 + 1) eq5 eq6)))
          (toNumber (JS.get lookup (template eq1 eq2 eq3 eq4 (eq5 + 1) eq6)))
          (depth_of (msd_eq1 maxSeverityV4) eq1)
          (depth_of (msd_eq2 maxSeverityV4) eq2)
          (depth36 eq3 eq6)
          (depth_of (msd_eq4 maxSeverityV4) eq4)
          (severity_distance_AV sd + severity_distance_PR sd
           + severity_distance_UI sd)
          (severity_distance_AC sd + severity_distance_AT sd)
          (severity_distance_VC sd + severity_distance_VI sd
           + severity_distance_VA sd + severity_distance_CR sd
           + severity_distance_IR sd + severity_distance_AR sd)
          (severity_distance_SC sd + severity_distance_SI sd
           + severity_distance_SA sd))%js.
Proof.
  intros H1 H2 H36 H4 H5 Hshort lookup sd.
  destruct (digits_in_table _ _ _ _ _ _ H1 H2 H36 H4 H5) as (_ & Hd).
  pose proof (macro_structure_all _ _ _ _ _ _ H1 H2 H36 H4 H5) as Hs.
  unfold cvss_score. rewrite Hshort.
  unfold macro_structure in Hs. cbv zeta in Hs. unfold digits in Hd.
  subst sd. unfold score_from, depth36, depth_of.
  set (macro := template eq1 eq2 eq3 eq4 eq5 eq6) in *.
  destruct (parseInt (char_at macro 0)) as [d1|]; [|discriminate].
  destruct (parseInt (char_at macro 1)) as [d2|]; [|discriminate].
  destruct (parseInt (char_at macro 2)) as [d3|]; [|discriminate].
  destruct (parseInt (char_at macro 3)) as [d4|]; [|discriminate].
  destruct (parseInt (char_at macro 4)) as [d5|]; [|discriminate].
  destruct (parseInt (char_at macro 5)) as [d6|]; [|discriminate].
  assert (d1 = eq1 /\ d2 = eq2 /\ d3 = eq3 /\ d4 = eq4 /\ d5 = eq5 /\ d6 = eq6)
    as (-> & -> & -> & -> & -> & ->)
    by (repeat split; congruence).
  destruct (getEQMaxes macro 1) as [[l1|]|]; try discriminate.
  destruct (getEQMaxes macro 2) as [[l2|]|]; try discriminate.
  destruct (getEQMaxes macro 3) as [[|by6]|]; try discriminate.
  destruct (getEQMaxes macro 4) as [[l4|]|]; try discriminate.
  destruct (getEQMaxes macro 5) as [[l5|]|]; try discriminate.
  destruct (nget (msd_eq3eq6 maxSeverityV4) eq3) as [row|]; try discriminate.
  destruct (char_at macro 5) as [key6|]; try discriminate.
  destruct (JS.get by6 key6) as [l36|]; try discriminate.
  rewrite !andb_true_iff in Hs. destruct Hs as ((((E1 & E2) & E36) & E4) & E5).
  apply strings_eqb_eq in E1, E2, E36, E4, E5. subst l1 l2 l36 l4 l5.
  reflexivity.
Qed.

End ScoreByClass.

(** ** The score of the MacroVector and of its neighbors *)

(** The scores of the next lower MacroVectors that exist. *)
Definition existing (l : list (option Exact.num)) : list Q :=
  flat_map (fun o => match o with Some (Some q) => [q] | _ => [] end) l.

Lemma in_existing (l : list (option Exact.num)) (q : Q) :
  In q (existing l) <-> In (Some (Some q)) l.
Proof.
  unfold existing. rewrite in_flat_map. split.
  - intros ([[x|]|] & Hin & Hq); simpl in Hq; try tauto.
    destruct Hq as [->|[]]. exact Hin.
  - intros Hin. exists (Some (Some q)). split; [exact Hin|left; reflexivity].
Qed.

Lemma table_neighbors (eq1 eq2 eq3 eq4 eq5 eq6 : nat) :
  In eq1 [0; 1; 2] -> In eq2 [0; 1] ->
  In (eq3, eq6) [(0, 0); (0, 1); (1, 0); (1, 1); (2, 1)] ->
  In eq4 [0; 1; 2] -> In eq5 [0; 1; 2] ->
  exists v k,
    JS.get (scores (num := Exact.num) cvssLookup_globalV4)
           (template eq1 eq2 eq3 eq4 eq5 eq6) = Some (Some v)
    /\ (v == inject_Z k / 10)%Q /\ (0 <= k <= 100)%Z
    /\ forall o,
         In o (next_lower_scores (scores (num := Exact.num) cvssLookup_globalV4)
                                 eq1 eq2 eq3 eq4 eq5 eq6) ->
         match o with
         | Some x => exists q k', x = Some q /\ (q == inject_Z k' / 10)%Q
                                  /\ (0 <= k' <= k)%Z
         | None => True
         end.
Proof.
  intros H1 H2 H36 H4 H5.
  destruct (digits_in_table _ _ _ _ _ _ H1 H2 H36 H4 H5) as (Hhas & Hd).
  unfold JS.has in Hhas.
  destruct (JS.get cvssLookup_globalV4 (template eq1 eq2 eq3 eq4 eq5 eq6))
    as [q0|] eqn:Hg; [|discriminate].
  apply get_In in Hg. pose proof table_entries_ok as Hall.
  rewrite forallb_forall in Hall. specialize (Hall _ Hg).
  unfold table_entry_ok in Hall. cbn [fst] in Hall. rewrite Hd in Hall.
  match type of Hall with
  | context [table_score ?t] => destruct (table_score t) as [k|] eqn:Hk
  end; [|discriminate].
  destruct (table_score_spec _ _ Hk) as (v & Hv & Hvk & Hkr).
  exists v, k. split; [exact Hv|]. split; [exact Hvk|]. split; [exact Hkr|].
  intros o Ho. rewrite forallb_forall in Hall. specialize (Hall _ Ho).
  destruct o as [x|]; [|exact I].
  destruct (table_score (Some x)) as [k'|] eqn:Hk'; [|discriminate].
  destruct (table_score_spec _ _ Hk') as (q & Hq & Hqk & Hkr').
  exists q, k'. split; [congruence|]. split; [exact Hqk|].
  apply Z.leb_le in Hall. lia.
Qed.

Lemma tenths_le (k k' : Z) :
  (k' <= k)%Z -> (inject_Z k' / 10 <= inject_Z k / 10)%Q.
Proof.
  intros Hk. rewrite Zle_Qle in Hk. unfold Qdiv.
  apply Qmult_le_compat_r; [exact Hk|]. discriminate.
Qed.

(** The available distance to a next lower MacroVector is NaN or lies
    between 0 and the distance to the lowest of them. *)
Lemma available_within (v low : Q) (k : Z) (o : option Exact.num) :
  (v == inject_Z k / 10)%Q ->
  match o with
  | Some x => exists q k', x = Some q /\ (q == inject_Z k' / 10)%Q
                           /\ (0 <= k' <= k)%Z
  | None => True
  end ->
  (forall q, o = Some (Some q) -> (low <= q)%Q) ->
  within (v - low) (sub (num := Exact.num) (Some v) (toNumber o)).
Proof.
  intros Hv Ho Hlow t Ht. destruct o as [x|]; [|discriminate Ht].
  destruct Ho as (q & k' & -> & Hq & Hk).
  specialize (Hlow q eq_refl).
  cbn [toNumber sub Exact.exact_number Exact.lift2] in Ht.
  assert (Et : t = Qred (v - q)) by congruence.
  assert (Hqt : (t == v - q)%Q) by (rewrite Et; apply Qred_correct).
  assert (Hqv : (q <= v)%Q) by (rewrite Hq, Hv; apply tenths_le; lia).
  split; lra.
Qed.

(** ** Binary64 against exact arithmetic *)

Definition num_eqb (x y : Exact.num) : bool :=
  match x, y with
  | Some p, Some q => Z.eqb (Qnum p) (Qnum q) && Pos.eqb (Qden p) (Qden q)
  | None, None => true
  | _, _ => false
  end.

Lemma num_eqb_eq (x y : Exact.num) : num_eqb x y = true -> x = y.
Proof.
  destruct x as [[a b]|], y as [[c d]|]; simpl; try discriminate; [|reflexivity].
  intros Hxy. apply andb_prop in Hxy. destruct Hxy as [Hn Hd].
  apply Z.eqb_eq in Hn. apply Pos.eqb_eq in Hd. subst. reflexivity.
Qed.

(** A number in both models: exact and binary64. *)
Definition both_eqb (x y : Exact.num * Float64.num) : bool :=
  num_eqb (fst x) (fst y) && PrimFloat.Leibniz.eqb (snd x) (snd y).

Lemma both_eqb_eq (x y : Exact.num * Float64.num) : both_eqb x y = true -> x = y.
Proof.
  destruct x as [a f], y as [b g]. unfold both_eqb. cbn [fst snd].
  intros Hxy. apply andb_prop in Hxy. destruct Hxy as [Ha Hf].
  apply num_eqb_eq in Ha. apply FloatAxioms.Leibniz.eqb_spec in Hf.
  subst. reflexivity.
Qed.

(** The severity distances of a class, in both models, to the highest
    severity vectors that are at no negative distance. *)
Definition class_sums (maxes : list string)
  (distances : string -> list Exact.num)
  (exact_sum : string -> Exact.num) (binary64_sum : string -> Float64.num)
  : list (Exact.num * Float64.num) :=
  flat_map (fun part => if forallb not_negative (distances part)
                        then [(exact_sum part, binary64_sum part)] else [])
           maxes.

Definition distinct (l : list (Exact.num * Float64.num))
  : list (Exact.num * Float64.num) :=
  fold_right (fun x acc => if existsb (both_eqb x) acc then acc else x :: acc)
             [] l.

Definition class1_sums (eq1 : nat) : list (Exact.num * Float64.num) :=
  distinct
    (flat_map (fun av => flat_map (fun pr => flat_map (fun ui =>
       if Nat.eqb (eq1_of (Some av) (Some pr) (Some ui)) eq1
       then class_sums (maxes1 eq1)
              (distances1 (Some av) (Some pr) (Some ui))
              (sum1 (Some av) (Some pr) (Some ui))
              (sum1 (Some av) (Some pr) (Some ui))
       else [])
       (values_of "UI")) (values_of "PR")) (values_of "AV")).

Definition class2_sums (eq2 : nat) : list (Exact.num * Float64.num) :=
  distinct
    (flat_map (fun ac => flat_map (fun at_ =>
       if Nat.eqb (eq2_of (Some ac) (Some at_)) eq2
       then class_sums (maxes2 eq2)
              (distances2 (Some ac) (Some at_))
              (sum2 (Some ac) (Some at_)) (sum2 (Some ac) (Some at_))
       else [])
       (values_of "AT")) (values_of "AC")).

Definition class36_sums (eq3 eq6 : nat) : list (Exact.num * Float64.num) :=
  distinct
    (flat_map (fun vc => flat_map (fun vi => flat_map (fun va =>
     flat_map (fun cr => flat_map (fun ir => flat_map (fun ar =>
       if Nat.eqb (eq3_of (Some vc) (Some vi) (Some va)) eq3
          && Nat.eqb (eq6_of (Some cr) (Some ir) (Some ar)
                             (Some vc) (Some vi) (Some va)) eq6
       then class_sums (maxes36 eq3 eq6)
              (distances36 (Some vc) (Some vi) (Some va)
                           (Some cr) (Some ir) (Some ar))
              (sum36 (Some vc) (Some vi) (Some va) (Some cr) (Some ir) (Some ar))
              (sum36 (Some vc) (Some vi) (Some va) (Some cr) (Some ir) (Some ar))
       else [])
       (values_of "AR")) (values_of "IR")) (values_of "CR"))
       (values_of "VA")) (values_of "VI")) (values_of "VC")).

Definition class4_sums (eq4 : nat) : list (Exact.num * Float64.num) :=
  distinct
    (flat_map (fun sc => flat_map (fun si => flat_map (fun sa =>
       if Nat.eqb (eq4_of (JS.eqs (Some si) "S") (JS.eqs (Some sa) "S")
                          (Some sc) (Some si) (Some sa)) eq4
       then class_sums (maxes4 eq4)
              (distances4 (Some sc) (Some si) (Some sa))
              (sum4 (Some sc) (Some si) (Some sa))
              (sum4 (Some sc) (Some si) (Some sa))
       else [])
       (values_of "SA")) (values_of "SI")) (values_of "SC")).

(** The distinct distances of each class, by class digit. *)
Definition sums1 : list (nat * list (Exact.num * Float64.num)) :=
  Eval vm_compute in map (fun eq1 => (eq1, class1_sums eq1)) [0; 1; 2].
Definition sums2 : list (nat * list (Exact.num * Float64.num)) :=
  Eval vm_compute in map (fun eq2 => (eq2, class2_sums eq2)) [0; 1].
Definition sums36 : list (nat * list (nat * list (Exact.num * Float64.num))) :=
  Eval vm_compute in
    map (fun eq3 => (eq3, map (fun eq6 => (eq6, class36_sums eq3 eq6)) [0; 1]))
        [0; 1; 2].
Definition sums4 : list (nat * list (Exact.num * Float64.num)) :=
  Eval vm_compute in map (fun eq4 => (eq4, class4_sums eq4)) [0; 1; 2].

Definition sums_of {A} (table : list (nat * list A)) (eq : nat) : list A :=
  match nget table eq with Some l => l | None => [] end.

(** In a class, binary64 and exact arithmetic skip the same highest severity
    vectors, and the distances to the others are among the listed ones. *)
Definition class_agrees (maxes : list string)
  (distances : string -> list Exact.num)
  (binary64_distances : string -> list Float64.num)
  (exact_sum : string -> Exact.num) (binary64_sum : string -> Float64.num)
  (sums : list (Exact.num * Float64.num)) : bool :=
  forallb (fun part =>
             Bool.eqb (forallb not_negative (binary64_distances part))
                      (forallb not_negative (distances part))
             && implb (forallb not_negative (distances part))
                      (existsb (both_eqb (exact_sum part, binary64_sum part)) sums))
          maxes.

Definition class1_agrees (av pr ui : string) : bool :=
  let eq1 := eq1_of (Some av) (Some pr) (Some ui) in
  class_agrees (maxes1 eq1)
    (distances1 (Some av) (Some pr) (Some ui))
    (distances1 (Some av) (Some pr) (Some ui))
    (sum1 (Some av) (Some pr) (Some ui)) (sum1 (Some av) (Some pr) (Some ui))
    (sums_of sums1 eq1).

Definition class2_agrees (ac at_ : string) : bool :=
  let eq2 := eq2_of (Some ac) (Some at_) in
  class_agrees (maxes2 eq2)
    (distances2 (Some ac) (Some at_)) (distances2 (Some ac) (Some at_))
    (sum2 (Some ac) (Some at_)) (sum2 (Some ac) (Some at_))
    (sums_of sums2 eq2).

Definition class36_agrees (vc vi va cr ir ar : string) : bool :=
  let eq3 := eq3_of (Some vc) (Some vi) (Some va) in
  let eq6 := eq6_of (Some cr) (Some ir) (Some ar) (Some vc) (Some vi) (Some va) in
  class_agrees (maxes36 eq3 eq6)
    (distances36 (Some vc) (Some vi) (Some va) (Some cr) (Some ir) (Some ar))
    (distances36 (Some vc) (Some vi) (Some va) (Some cr) (Some ir) (Some ar))
    (sum36 (Some vc) (Some vi) (Some va) (Some cr) (Some ir) (Some ar))
    (sum36 (Some vc) (Some vi) (Some va) (Some cr) (Some ir) (Some ar))
    (sums_of (sums_of sums36 eq3) eq6).

Definition class4_agrees (sc si sa : string) : bool :=
  let eq4 := eq4_of (JS.eqs (Some si) "S") (JS.eqs (Some sa) "S")
                    (Some sc) (Some si) (Some sa) in
  class_agrees (maxes4 eq4)
    (distances4 (Some sc) (Some si) (Some sa))
    (distances4 (Some sc) (Some si) (Some sa))
    (sum4 (Some sc) (Some si) (Some sa)) (sum4 (Some sc) (Some si) (Some sa))
    (sums_of sums4 eq4).

Lemma class1_agrees_all :
  forallb (fun av => forallb (fun pr => forallb (fun ui => class1_agrees av pr ui)
    (values_of "UI")) (values_of "PR")) (values_of "AV") = true.
Proof. vm_compute. reflexivity. Qed.

Lemma class2_agrees_all :
  forallb (fun ac => forallb (fun at_ => class2_agrees ac at_)
    (values_of "AT")) (values_of "AC") = true.
Proof. vm_compute. reflexivity. Qed.

Lemma class36_agrees_all :
  forallb (fun vc => forallb (fun vi => forallb (fun va =>
  forallb (fun cr => forallb (fun ir => forallb (fun ar =>
    class36_agrees vc vi va cr ir ar)
    (values_of "AR")) (values_of "IR")) (values_of "CR"))
    (values_of "VA")) (values_of "VI")) (values_of "VC") = true.
Proof. vm_compute. reflexivity. Qed.

Lemma class4_agrees_all :
  forallb (fun sc => forallb (fun si => forallb (fun sa => class4_agrees sc si sa)
    (values_of "SA")) (values_of "SI")) (values_of "SC") = true.
Proof. vm_compute. reflexivity. Qed.

Lemma class_agrees_spec (maxes : list string)
  (distances : string -> list Exact.num)
  (binary64_distances : string -> list Float64.num)
  (exact_sum : string -> Exact.num) (binary64_sum : string -> Float64.num)
  (sums : list (Exact.num * Float64.num)) :
  class_agrees maxes distances binary64_distances exact_sum binary64_sum sums
  = true ->
  forall part, In part maxes ->
    forallb not_negative (binary64_distances part)
    = forallb not_negative (distances part)
    /\ (forallb not_negative (distances part) = true ->
        In (exact_sum part, binary64_sum part) sums).
Proof.
  unfold class_agrees. intros Hc part Hin. rewrite forallb_forall in Hc.
  specialize (Hc _ Hin). apply andb_prop in Hc. destruct Hc as [Heq Himp].
  split; [apply eqb_prop; exact Heq|].
  intros Hq. rewrite Hq in Himp. cbn [implb] in Himp.
  apply existsb_exists in Himp. destruct Himp as (x & Hx & Hb).
  apply both_eqb_eq in Hb. rewrite Hb. exact Hx.
Qed.

(** The binary64 score is the double nearest to the exact score or to the
    exact score minus 0.1. *)
Definition related (exact : Exact.num) (binary64 : Float64.num) : bool :=
  match exact with
  | Some q =>
      let k := Qfloor (q * 10) in
      num_eqb exact (lit (inject_Z k / 10)) && Z.leb 0 k && Z.leb k 100
      && (PrimFloat.Leibniz.eqb binary64 (lit (inject_Z k / 10))
          || (Z.leb 1 k
              && PrimFloat.Leibniz.eqb binary64 (lit (inject_Z (k - 1) / 10))))
  | None => false
  end.

Lemma related_spec (exact : Exact.num) (binary64 : Float64.num) :
  related exact binary64 = true ->
  exists k, (0 <= k <= 100)%Z
    /\ exact = lit (inject_Z k / 10)
    /\ (binary64 = lit (inject_Z k / 10)
        \/ (1 <= k)%Z /\ binary64 = lit (inject_Z (k - 1) / 10)).
Proof.
  unfold related. destruct exact as [q|]; [|discriminate]. cbv zeta.
  set (k := Qfloor (q * 10)). intros Hr.
  rewrite !andb_true_iff in Hr. destruct Hr as (((He & H0) & H100) & Hb).
  apply num_eqb_eq in He. apply Z.leb_le in H0, H100.
  exists k. split; [lia|]. split; [exact He|].
  apply orb_prop in Hb. destruct Hb as [Hb|Hb].
  - left. apply FloatAxioms.Leibniz.eqb_spec. exact Hb.
  - right. apply andb_prop in Hb. destruct Hb as [H1 Hb]. apply Z.leb_le in H1.
    split; [exact H1|]. apply FloatAxioms.Leibniz.eqb_spec. exact Hb.
Qed.

(** The scores of a MacroVector in both models, for every distance of its
    classes. *)
Definition macro_related (eq1 eq2 eq3 eq4 eq5 eq6 : nat) : bool :=
  let exact_lookup := scores (num := Exact.num) cvssLookup_globalV4 in
  let lookup := scores (num := Float64.num) cvssLookup_globalV4 in
  let macro := template eq1 eq2 eq3 eq4 eq5 eq6 in
  let next1 := template (eq1 + 1) eq2 eq3 eq4 eq5 eq6 in
  let next2 := template eq1 (eq2 + 1) eq3 eq4 eq5 eq6 in
  let next4 := template eq1 eq2 eq3 (eq4 + 1) eq5 eq6 in
  let next5 := template eq1 eq2 eq3 eq4 (eq5 + 1) eq6 in
  let exact_score :=
    score_from (toNumber (JS.get exact_lookup macro))
               (toNumber (JS.get exact_lookup next1))
               (toNumber (JS.get exact_lookup next2))
               (toNumber (score_eq3eq6_next_lower_macro exact_lookup
                            eq1 eq2 eq3 eq4 eq5 eq6))
               (toNumber (JS.get exact_lookup next4))
               (toNumber (JS.get exact_lookup next5))
               (depth_of (msd_eq1 maxSeverityV4) eq1)
               (depth_of (msd_eq2 maxSeverityV4) eq2)
               (depth36 eq3 eq6)
               (depth_of (msd_eq4 maxSeverityV4) eq4) in
  let score :=
    score_from (toNumber (JS.get lookup macro))
               (toNumber (JS.get lookup next1))
               (toNumber (JS.get lookup next2))
               (toNumber (score_eq3eq6_next_lower_macro lookup
                            eq1 eq2 eq3 eq4 eq5 eq6))
               (toNumber (JS.get lookup next4))
               (toNumber (JS.get lookup next5))
               (depth_of (msd_eq1 maxSeverityV4) eq1)
               (depth_of (msd_eq2 maxSeverityV4) eq2)
               (depth36 eq3 eq6)
               (depth_of (msd_eq4 maxSeverityV4) eq4) in
  forallb (fun c1 => forallb (fun c2 => forallb (fun c36 => forallb (fun c4 =>
    related (exact_score (fst c1) (fst c2) (fst c36) (fst c4))
            (score (snd c1) (snd c2) (snd c36) (snd c4)))
    (sums_of sums4 eq4)) (sums_of (sums_of sums36 eq3) eq6))
    (sums_of sums2 eq2)) (sums_of sums1 eq1).

Lemma macro_related_all (eq1 eq2 eq3 eq4 eq5 eq6 : nat) :
  In eq1 [0; 1; 2] -> In eq2 [0; 1] ->
  In (eq3, eq6) [(0, 0); (0, 1); (1, 0); (1, 1); (2, 1)] ->
  In eq4 [0; 1; 2] -> In eq5 [0; 1; 2] ->
  macro_related eq1 eq2 eq3 eq4 eq5 eq6 = true.
Proof.
  intros H1 H2 H36 H4 H5.
  assert (Hall :
    forallb (fun e1 => forallb (fun e2 => forallb (fun e36 =>
      forallb (fun e4 => forallb (fun e5 =>
        macro_related e1 e2 (fst e36) e4 e5 (snd e36))
      [0; 1; 2]) [0; 1; 2]) [(0, 0); (0, 1); (1, 0); (1, 1); (2, 1)])
      [0; 1]) [0; 1; 2] = true) by (vm_compute; reflexivity).
  rewrite forallb_forall in Hall. specialize (Hall _ H1).
  rewrite forallb_forall in Hall. specialize (Hall _ H2).
  rewrite forallb_forall in Hall. specialize (Hall _ H36).
  rewrite forallb_forall in Hall. specialize (Hall _ H4).
  rewrite forallb_forall in Hall. exact (Hall _ H5).
Qed.

(* ===================================================================== *)
(** * The next lower MacroVectors and the mean distance in the score *)

(** The EQ3/EQ6 digits of the keys that [cvss_score] looks up, by state:
    00 --> 01 and 10, 01 --> 11, 10 --> 11, 21 --> 32, and from 11 the key
    with both digits incremented, 22. *)
Definition code_eq3eq6_neighbors (eq3 eq6 : nat) : list (nat * nat) :=
  match eq3, eq6 with
  | 0, 0 => [(0, 1); (1, 0)]
  | 0, 1 => [(1, 1)]
  | 1, 0 => [(1, 1)]
  | _, _ => [(eq3 + 1, eq6 + 1)]
  end.

(** The neighbors as the comments of the source give them: 11 --> 21, the
    other states as above. *)
Definition intended_eq3eq6_neighbors (eq3 eq6 : nat) : list (nat * nat) :=
  match eq3, eq6 with
  | 0, 0 => [(0, 1); (1, 0)]
  | 0, 1 => [(1, 1)]
  | 1, 0 => [(1, 1)]
  | 1, 1 => [(2, 1)]
  | _, _ => [(eq3 + 1, eq6 + 1)]
  end.

Section NextLowerSpec.

Context {num : Type} `{JSNumber num}.

Local Open Scope js_scope.

(** The higher of two scores; a score that is not there does not count. *)
Definition higher (x y : option num) : option num :=
  match x, y with
  | Some l, Some r => Some (if l >? r then l else r)
  | Some l, None => Some l
  | None, _ => y
  end.

(** The score of the neighbor that is used: every candidate is looked up
    and the highest score is kept; none when no candidate is in the
    table. *)
Definition best_neighbor (lookup : list (string * num)) (keys : list string)
  : option num :=
  fold_left (fun best key => higher best (JS.get lookup key)) keys None.

(** A class in the mean: its available distance, NaN when the neighbor is
    not there, and its normalized distance. *)
Definition class_distance (value : num) (neighbor : option num)
  (proportion : num) : num * num :=
  (value - toNumber neighbor, (value - toNumber neighbor) * proportion).

(** The score in the words of the specification, for given neighbors of the
    pair EQ3/EQ6: the score of the MacroVector minus the mean of the
    normalized distances of the classes whose neighbor exists, kept in
    [0, 10] and rounded to one decimal.  The severity distances are those
    of [select_max]. *)
Definition spec_next_lower_score (neighbors36 : nat -> nat -> list (nat * nat))
  (lookup : list (string * num))
  (cvssSelected : list (string * option string))
  (eq1 eq2 eq3 eq4 eq5 eq6 : nat) : num :=
  let value := toNumber (JS.get lookup (template eq1 eq2 eq3 eq4 eq5 eq6)) in
  let sd :=
    select_max cvssSelected
      (compose_max_vectors (maxes1 eq1) (maxes2 eq2) (maxes36 eq3 eq6)
                           (maxes4 eq4) (maxes5 eq5)) no_distance in
  final_score value
    (spec_mean_distance
       [ class_distance value
           (JS.get lookup (template (eq1 + 1)%nat eq2 eq3 eq4 eq5 eq6))
           ((severity_distance_AV sd + severity_distance_PR sd
             + severity_distance_UI sd)
            / depth_of (msd_eq1 maxSeverityV4) eq1);
         class_distance value
           (JS.get lookup (template eq1 (eq2 + 1)%nat eq3 eq4 eq5 eq6))
           ((severity_distance_AC sd + severity_distance_AT sd)
            / depth_of (msd_eq2 maxSeverityV4) eq2);
         class_distance value
           (best_neighbor lookup
              (map (fun p => template eq1 eq2 (fst p) eq4 eq5 (snd p))
                   (neighbors36 eq3 eq6)))
           ((severity_distance_VC sd + severity_distance_VI sd
             + severity_distance_VA sd + severity_distance_CR sd
             + severity_distance_IR sd + severity_distance_AR sd)
            / depth36 eq3 eq6);
         class_distance value
           (JS.get lookup (template eq1 eq2 eq3 (eq4 + 1)%nat eq5 eq6))
           ((severity_distance_SC sd + severity_distance_SI sd
             + severity_distance_SA sd)
            / depth_of (msd_eq4 maxSeverityV4) eq4);
         class_distance value
           (JS.get lookup (template eq1 eq2 eq3 eq4 (eq5 + 1)%nat eq6))
           (lit 0) ]).

(** The neighbor of the pair EQ3/EQ6 that [cvss_score] uses is the best of
    the candidates of its state. *)
Lemma code_neighbor_score (eq1 eq2 eq3 eq4 eq5 eq6 : nat) :
  In eq1 [0; 1; 2] -> In eq2 [0; 1] ->
  In (eq3, eq6) [(0, 0); (0, 1); (1, 0); (1, 1); (2, 1)] ->
  In eq4 [0; 1; 2] -> In eq5 [0; 1; 2] ->
  score_eq3eq6_next_lower_macro (scores cvssLookup_globalV4)
                                eq1 eq2 eq3 eq4 eq5 eq6
  = best_neighbor (scores cvssLookup_globalV4)
      (map (fun p => template eq1 eq2 (fst p) eq4 eq5 (snd p))
           (code_eq3eq6_neighbors eq3 eq6)).
Proof.
  intros H1 H2 H36 H4 H5.
  simpl in H36.
  destruct H36 as [[= <- <-]|[[= <- <-]|[[= <- <-]|[[= <- <-]|[[= <- <-]|[]]]]]];
    try reflexivity.
  assert (Hboth :
    forallb (fun e1 => forallb (fun e2 => forallb (fun e4 => forallb (fun e5 =>
      JS.has cvssLookup_globalV4 (template e1 e2 0 e4 e5 1)
      && JS.has cvssLookup_globalV4 (template e1 e2 1 e4 e5 0))
      [0; 1; 2]) [0; 1; 2]) [0; 1]) [0; 1; 2] = true) by (vm_compute; reflexivity).
  rewrite forallb_forall in Hboth. specialize (Hboth _ H1).
  rewrite forallb_forall in Hboth. specialize (Hboth _ H2).
  rewrite forallb_forall in Hboth. specialize (Hboth _ H4).
  rewrite forallb_forall in Hboth. specialize (Hboth _ H5).
  apply andb_prop in Hboth. destruct Hboth as [Hl Hr]. unfold JS.has in Hl, Hr.
  unfold score_eq3eq6_next_lower_macro, eq3eq6_next_lower_macros, best_neighbor,
    code_eq3eq6_neighbors.
  cbn [Nat.eqb andb Nat.add map fst snd fold_left higher].
  rewrite !scores_get.
  destruct (JS.get cvssLookup_globalV4 (template eq1 eq2 0 eq4 eq5 1)) as [l|];
    [|discriminate].
  destruct (JS.get cvssLookup_globalV4 (template eq1 eq2 1 eq4 eq5 0)) as [r|];
    [|discriminate].
  cbn [option_map toNumber higher]. destruct (lit r <? lit l); reflexivity.
Qed.

(** The score of [cvss_score] is the score of the specification with the
    neighbors of the code, as soon as the mean distance of the code is the
    mean of the specification. *)
Lemma cvss_score_of_spec_mean cvssSelected (eq1 eq2 eq3 eq4 eq5 eq6 : nat) :
  In eq1 [0; 1; 2] -> In eq2 [0; 1] ->
  In (eq3, eq6) [(0, 0); (0, 1); (1, 0); (1, 1); (2, 1)] ->
  In eq4 [0; 1; 2] -> In eq5 [0; 1; 2] ->
  forallb (fun metric => JS.eqs (m cvssSelected metric) "N")
          ["VC"; "VI"; "VA"; "SC"; "SI"; "SA"] = false ->
  let lookup := scores cvssLookup_globalV4 in
  let value := toNumber (JS.get lookup (template eq1 eq2 eq3 eq4 eq5 eq6)) in
  let sd :=
    select_max cvssSelected
      (compose_max_vectors (maxes1 eq1) (maxes2 eq2) (maxes36 eq3 eq6)
                           (maxes4 eq4) (maxes5 eq5)) no_distance in
  let a1 := value - toNumber (JS.get lookup (template (eq1 + 1)%nat eq2 eq3 eq4 eq5 eq6)) in
  let a2 := value - toNumber (JS.get lookup (template eq1 (eq2 + 1)%nat eq3 eq4 eq5 eq6)) in
  let a36 :=
    value - toNumber (score_eq3eq6_next_lower_macro lookup eq1 eq2 eq3 eq4 eq5 eq6) in
  let a4 := value - toNumber (JS.get lookup (template eq1 eq2 eq3 (eq4 + 1)%nat eq5 eq6)) in
  let a5 := value - toNumber (JS.get lookup (template eq1 eq2 eq3 eq4 (eq5 + 1)%nat eq6)) in
  let c1 := severity_distance_AV sd + severity_distance_PR sd
            + severity_distance_UI sd in
  let c2 := severity_distance_AC sd + severity_distance_AT sd in
  let c36 := severity_distance_VC sd + severity_distance_VI sd
             + severity_distance_VA sd + severity_distance_CR sd
             + severity_distance_IR sd + severity_distance_AR sd in
  let c4 := severity_distance_SC sd + severity_distance_SI sd
            + severity_distance_SA sd in
  let s1 := depth_of (msd_eq1 maxSeverityV4) eq1 in
  let s2 := depth_of (msd_eq2 maxSeverityV4) eq2 in
  let s36 := depth36 eq3 eq6 in
  let s4 := depth_of (msd_eq4 maxSeverityV4) eq4 in
  mean_distance a1 a2 a36 a4 a5 c1 c2 c36 c4 s1 s2 s36 s4
  = spec_mean_distance
      [ (a1, a1 * (c1 / s1)); (a2, a2 * (c2 / s2)); (a36, a36 * (c36 / s36));
        (a4, a4 * (c4 / s4)); (a5, a5 * lit 0) ] ->
  cvss_score cvssSelected lookup maxSeverityV4
             (template eq1 eq2 eq3 eq4 eq5 eq6)
  = Ok (spec_next_lower_score code_eq3eq6_neighbors lookup cvssSelected
                              eq1 eq2 eq3 eq4 eq5 eq6).
Proof.
  intros H1 H2 H36 H4 H5 Hshort. cbv zeta. intros Hmean.
  rewrite (cvss_score_classes cvssSelected _ _ _ _ _ _ H1 H2 H36 H4 H5 Hshort).
  cbv zeta. unfold score_from, spec_next_lower_score, class_distance.
  cbv zeta. rewrite Hmean.
  rewrite (code_neighbor_score _ _ _ _ _ _ H1 H2 H36 H4 H5). reflexivity.
Qed.

End NextLowerSpec.

(** In exact arithmetic the mean distance of the code is the mean of the
    specification, whatever the distances. *)
Lemma cvss_score_spec_exact cvssSelected (eq1 eq2 eq3 eq4 eq5 eq6 : nat) :
  In eq1 [0; 1; 2] -> In eq2 [0; 1] ->
  In (eq3, eq6) [(0, 0); (0, 1); (1, 0); (1, 1); (2, 1)] ->
  In eq4 [0; 1; 2] -> In eq5 [0; 1; 2] ->
  forallb (fun metric => JS.eqs (m cvssSelected metric) "N")
          ["VC"; "VI"; "VA"; "SC"; "SI"; "SA"] = false ->
  cvss_score (num := Exact.num) cvssSelected (scores cvssLookup_globalV4)
             maxSeverityV4 (template eq1 eq2 eq3 eq4 eq5 eq6)
  = Ok (spec_next_lower_score code_eq3eq6_neighbors
          (scores cvssLookup_globalV4) cvssSelected eq1 eq2 eq3 eq4 eq5 eq6).
Proof.
  intros H1 H2 H36 H4 H5 Hshort.
  apply (cvss_score_of_spec_mean cvssSelected _ _ _ _ _ _ H1 H2 H36 H4 H5 Hshort).
  apply mean_distance_spec_exact.
Qed.

(** In binary64 the two means are the same double for every MacroVector and
    every severity distance of its classes. *)
Definition macro_mean_agrees (eq1 eq2 eq3 eq4 eq5 eq6 : nat) : bool :=
  let lookup := scores (num := Float64.num) cvssLookup_globalV4 in
  let value := toNumber (JS.get lookup (template eq1 eq2 eq3 eq4 eq5 eq6)) in
  let a1 :=
    (value - toNumber (JS.get lookup (template (eq1 + 1)%nat eq2 eq3 eq4 eq5 eq6)))%js in
  let a2 :=
    (value - toNumber (JS.get lookup (template eq1 (eq2 + 1)%nat eq3 eq4 eq5 eq6)))%js in
  let a36 :=
    (value - toNumber (score_eq3eq6_next_lower_macro lookup
                         eq1 eq2 eq3 eq4 eq5 eq6))%js in
  let a4 :=
    (value - toNumber (JS.get lookup (template eq1 eq2 eq3 (eq4 + 1)%nat eq5 eq6)))%js in
  let a5 :=
    (value - toNumber (JS.get lookup (template eq1 eq2 eq3 eq4 (eq5 + 1)%nat eq6)))%js in
  let s1 := depth_of (msd_eq1 maxSeverityV4) eq1 in
  let s2 := depth_of (msd_eq2 maxSeverityV4) eq2 in
  let s36 := depth36 eq3 eq6 in
  let s4 := depth_of (msd_eq4 maxSeverityV4) eq4 in
  forallb (fun c1 => forallb (fun c2 => forallb (fun c36 => forallb (fun c4 =>
    PrimFloat.Leibniz.eqb
      (mean_distance a1 a2 a36 a4 a5 (snd c1) (snd c2) (snd c36) (snd c4)
                     s1 s2 s36 s4)
      (spec_mean_distance
         [ (a1, a1 * (snd c1 / s1)); (a2, a2 * (snd c2 / s2));
           (a36, a36 * (snd c36 / s36)); (a4, a4 * (snd c4 / s4));
           (a5, a5 * lit 0) ]%js))
    (sums_of sums4 eq4)) (sums_of (sums_of sums36 eq3) eq6))
    (sums_of sums2 eq2)) (sums_of sums1 eq1).

Lemma macro_mean_agrees_all (eq1 eq2 eq3 eq4 eq5 eq6 : nat) :
  In eq1 [0; 1; 2] -> In eq2 [0; 1] ->
  In (eq3, eq6) [(0, 0); (0, 1); (1, 0); (1, 1); (2, 1)] ->
  In eq4 [0; 1; 2] -> In eq5 [0; 1; 2] ->
  macro_mean_agrees eq1 eq2 eq3 eq4 eq5 eq6 = true.
Proof.
  intros H1 H2 H36 H4 H5.
  assert (Hall :
    forallb (fun e1 => forallb (fun e2 => forallb (fun e36 =>
      forallb (fun e4 => forallb (fun e5 =>
        macro_mean_agrees e1 e2 (fst e36) e4 e5 (snd e36))
      [0; 1; 2]) [0; 1; 2]) [(0, 0); (0, 1); (1, 0); (1, 1); (2, 1)])
      [0; 1]) [0; 1; 2] = true) by (vm_compute; reflexivity).
  rewrite forallb_forall in Hall. specialize (Hall _ H1).
  rewrite forallb_forall in Hall. specialize (Hall _ H2).
  rewrite forallb_forall in Hall. specialize (Hall _ H36).
  rewrite forallb_forall in Hall. specialize (Hall _ H4).
  rewrite forallb_forall in Hall. exact (Hall _ H5).
Qed.

(** ** The binary64 score between the MacroVector and its neighbors *)

(** The real number that a double stands for. *)
Definition exact_value (x : Float64.num) : Exact.num :=
  match Prim2SF x with
  | S754_zero _ => Some 0%Q
  | S754_finite s m e => Some (Qred (inject_Z (Float64.signed s m) * 2 ^ e))%Q
  | _ => None
  end.

(** The number of tenths nearest to a double. *)
Definition tenths64 (x : Float64.num) : Z :=
  match Prim2SF x with
  | S754_finite s m e =>
      if (0 <=? e)%Z then (10 * Float64.signed s m * 2 ^ e)%Z
      else Z.shiftr (20 * Float64.signed s m + Z.shiftl 1 (- e)) (1 - e)
  | _ => 0%Z
  end.

(** The scores of the MacroVector and of its next lower MacroVectors that
    are in the table. *)
Definition lows_of (eq1 eq2 eq3 eq4 eq5 eq6 : nat) : list Q :=
  let exact_lookup := scores (num := Exact.num) cvssLookup_globalV4 in
  existing (JS.get exact_lookup (template eq1 eq2 eq3 eq4 eq5 eq6)
            :: next_lower_scores exact_lookup eq1 eq2 eq3 eq4 eq5 eq6).

(** A double that is the nearest to j/10, between one of the scores [lows]
    and the score [value]. *)
Definition bounded64 (lows : list Q) (value : option Exact.num)
  (score : Float64.num) : bool :=
  let j := tenths64 score in
  PrimFloat.Leibniz.eqb score (lit (inject_Z j / 10))
  && existsb (fun low => Qle_bool low (inject_Z j / 10)) lows
  && match value with
     | Some (Some v) => Qle_bool (inject_Z j / 10) v
     | _ => false
     end.

Lemma bounded64_spec (lows : list Q) (value : option Exact.num)
  (score : Float64.num) :
  bounded64 lows value score = true ->
  exists j low v,
    score = lit (inject_Z j / 10) /\ value = Some (Some v)
    /\ In low lows /\ (low <= inject_Z j / 10 <= v)%Q.
Proof.
  unfold bounded64. cbv zeta. intros Hb.
  rewrite !andb_true_iff in Hb. destruct Hb as ((Hs & Hl) & Hv).
  apply FloatAxioms.Leibniz.eqb_spec in Hs.
  apply existsb_exists in Hl. destruct Hl as (low & Ilow & Hlow).
  apply Qle_bool_imp_le in Hlow.
  destruct value as [[v|]|]; try discriminate. apply Qle_bool_imp_le in Hv.
  exists (tenths64 score), low, v. auto.
Qed.

Definition macro_bounded (eq1 eq2 eq3 eq4 eq5 eq6 : nat) : bool :=
  let exact_lookup := scores (num := Exact.num) cvssLookup_globalV4 in
  let lookup := scores (num := Float64.num) cvssLookup_globalV4 in
  let macro := template eq1 eq2 eq3 eq4 eq5 eq6 in
  let lows := lows_of eq1 eq2 eq3 eq4 eq5 eq6 in
  let value := JS.get exact_lookup macro in
  let score :=
    score_from (toNumber (JS.get lookup macro))
               (toNumber (JS.get lookup (template (eq1 + 1) eq2 eq3 eq4 eq5 eq6)))
               (toNumber (JS.get lookup (template eq1 (eq2 + 1) eq3 eq4 eq5 eq6)))
               (toNumber (score_eq3eq6_next_lower_macro lookup
                            eq1 eq2 eq3 eq4 eq5 eq6))
               (toNumber (JS.get lookup (template eq1 eq2 eq3 (eq4 + 1) eq5 eq6)))
               (toNumber (JS.get lookup (template eq1 eq2 eq3 eq4 (eq5 + 1) eq6)))
               (depth_of (msd_eq1 maxSeverityV4) eq1)
               (depth_of (msd_eq2 maxSeverityV4) eq2)
               (depth36 eq3 eq6)
               (depth_of (msd_eq4 maxSeverityV4) eq4) in
  forallb (fun c1 => forallb (fun c2 => forallb (fun c36 => forallb (fun c4 =>
    bounded64 lows value (score (snd c1) (snd c2) (snd c36) (snd c4)))
    (sums_of sums4 eq4)) (sums_of (sums_of sums36 eq3) eq6))
    (sums_of sums2 eq2)) (sums_of sums1 eq1).

Lemma macro_bounded_all (eq1 eq2 eq3 eq4 eq5 eq6 : nat) :
  In eq1 [0; 1; 2] -> In eq2 [0; 1] ->
  In (eq3, eq6) [(0, 0); (0, 1); (1, 0); (1, 1); (2, 1)] ->
  In eq4 [0; 1; 2] -> In eq5 [0; 1; 2] ->
  macro_bounded eq1 eq2 eq3 eq4 eq5 eq6 = true.
Proof.
  intros H1 H2 H36 H4 H5.
  assert (Hall :
    forallb (fun e1 => forallb (fun e2 => forallb (fun e36 =>
      forallb (fun e4 => forallb (fun e5 =>
        macro_bounded e1 e2 (fst e36) e4 e5 (snd e36))
      [0; 1; 2]) [0; 1; 2]) [(0, 0); (0, 1); (1, 0); (1, 1); (2, 1)])
      [0; 1]) [0; 1; 2] = true) by (vm_compute; reflexivity).
  rewrite forallb_forall in Hall. specialize (Hall _ H1).
  rewrite forallb_forall in Hall. specialize (Hall _ H2).
  rewrite forallb_forall in Hall. specialize (Hall _ H36).
  rewrite forallb_forall in Hall. specialize (Hall _ H4).
  rewrite forallb_forall in Hall. exact (Hall _ H5).
Qed.

Lemma effective_value cvssSelected (metric : string) :
  selected_ok cvssSelected ->
  In metric (JS.keys effective_values) ->
  exists v, m cvssSelected metric = Some v /\ In v (values_of metric).
Proof.
  intros Hok Hin. unfold effective_values in Hin. simpl in Hin.
  repeat (destruct Hin as [<-|Hin];
          [apply (selected_effective _ _ _ Hok); unfold values_of; simpl; tauto|]).
  destruct Hin.
Qed.

Lemma find_ext_in {A} (f g : A -> bool) (l : list A) :
  (forall x, In x l -> f x = g x) -> find f l = find g l.
Proof.
  induction l as [|a l IH]; intros Hfg; simpl; [reflexivity|].
  rewrite (Hfg a (or_introl eq_refl)).
  destruct (g a); [reflexivity|]. apply IH. intros x Hx. apply Hfg. right. exact Hx.
Qed.

Section Selected.

Context {num : Type} `{JSNumber num}.

Lemma fields_by_class (x1 x2 x3 x4 x5 x6 x7 x8 x9 x10 x11 x12 x13 x14 : num) :
  forallb not_negative [x1; x2; x3; x4; x5; x6; x7; x8; x9; x10; x11; x12; x13; x14]
  = forallb not_negative [x1; x2; x3] && forallb not_negative [x4; x5]
    && forallb not_negative [x6; x7; x8; x12; x13; x14]
    && forallb not_negative [x9; x10; x11].
Proof.
  apply eq_true_iff_eq. cbn [forallb]. rewrite !andb_true_iff. tauto.
Qed.

(** The loop of [cvss_score] returns the distances to the first highest
    severity vector that is at no negative distance. *)
Lemma select_max_find cvssSelected (max_vectors : list string)
  (current : severity_distances) (max_vector : string) :
  find (fun x => negb (some_negative (distances_to cvssSelected x))) max_vectors
  = Some max_vector ->
  select_max cvssSelected max_vectors current
  = distances_to cvssSelected max_vector.
Proof.
  revert current. induction max_vectors as [|mv rest IH]; intros current; simpl.
  - discriminate.
  - destruct (some_negative (distances_to cvssSelected mv)); simpl.
    + apply IH.
    + intros [= <-]. reflexivity.
Qed.

End Selected.

(** ** The score of a validated vector, class by class *)

Section ValidatedVector.

Variable cvssSelected : list (string * option string).
Variables av pr ui ac at_ vc vi va sc si sa cr ir ar : string.

Hypothesis Hok : selected_ok cvssSelected.
Hypothesis Hav : m cvssSelected "AV" = Some av.
Hypothesis Hpr : m cvssSelected "PR" = Some pr.
Hypothesis Hui : m cvssSelected "UI" = Some ui.
Hypothesis Hac : m cvssSelected "AC" = Some ac.
Hypothesis Hat : m cvssSelected "AT" = Some at_.
Hypothesis Hvc : m cvssSelected "VC" = Some vc.
Hypothesis Hvi : m cvssSelected "VI" = Some vi.
Hypothesis Hva : m cvssSelected "VA" = Some va.
Hypothesis Hsc : m cvssSelected "SC" = Some sc.
Hypothesis Hsi : m cvssSelected "SI" = Some si.
Hypothesis Hsa : m cvssSelected "SA" = Some sa.
Hypothesis Hcr : m cvssSelected "CR" = Some cr.
Hypothesis Hir : m cvssSelected "IR" = Some ir.
Hypothesis Har : m cvssSelected "AR" = Some ar.
Hypothesis Iav : In av (values_of "AV").
Hypothesis Ipr : In pr (values_of "PR").
Hypothesis Iui : In ui (values_of "UI").
Hypothesis Iac : In ac (values_of "AC").
Hypothesis Iat : In at_ (values_of "AT").
Hypothesis Ivc : In vc (values_of "VC").
Hypothesis Ivi : In vi (values_of "VI").
Hypothesis Iva : In va (values_of "VA").
Hypothesis Isc : In sc (values_of "SC").
Hypothesis Isi : In si (values_of "SI").
Hypothesis Isa : In sa (values_of "SA").
Hypothesis Icr : In cr (values_of "CR").
Hypothesis Iir : In ir (values_of "IR").
Hypothesis Iar : In ar (values_of "AR").

Local Abbreviation eq1 := (eq1_of (Some av) (Some pr) (Some ui)).
Local Abbreviation eq2 := (eq2_of (Some ac) (Some at_)).
Local Abbreviation eq3 := (eq3_of (Some vc) (Some vi) (Some va)).
Local Abbreviation eq4 :=
  (eq4_of (JS.eqs (Some si) "S") (JS.eqs (Some sa) "S")
          (Some sc) (Some si) (Some sa)).
Local Abbreviation eq5 := (eq5_of (m cvssSelected "E")).
Local Abbreviation eq6 :=
  (eq6_of (Some cr) (Some ir) (Some ar) (Some vc) (Some vi) (Some va)).
Local Abbreviation max_vectors :=
  (compose_max_vectors (maxes1 eq1) (maxes2 eq2) (maxes36 eq3 eq6)
                       (maxes4 eq4) (maxes5 eq5)).
Local Abbreviation qualifies1 a :=
  (forallb not_negative (distances1 (Some av) (Some pr) (Some ui) a)).
Local Abbreviation qualifies2 b :=
  (forallb not_negative (distances2 (Some ac) (Some at_) b)).
Local Abbreviation qualifies36 c :=
  (forallb not_negative
     (distances36 (Some vc) (Some vi) (Some va) (Some cr) (Some ir) (Some ar) c)).
Local Abbreviation qualifies4 d :=
  (forallb not_negative (distances4 (Some sc) (Some si) (Some sa) d)).

Lemma macroVector_selected :
  macroVector cvssSelected = template eq1 eq2 eq3 eq4 eq5 eq6.
Proof.
  pose proof (modified_subsequent_S _ "SI" Hok ltac:(simpl; tauto)) as HSI.
  pose proof (modified_subsequent_S _ "SA" Hok ltac:(simpl; tauto)) as HSA.
  change ("M" ++ "SI")%string with "MSI" in HSI.
  change ("M" ++ "SA")%string with "MSA" in HSA.
  rewrite macroVector_classes, HSI, HSA.
  rewrite Hav, Hpr, Hui, Hac, Hat, Hvc, Hvi, Hva, Hsc, Hsi, Hsa, Hcr, Hir, Har.
  reflexivity.
Qed.

Lemma selected_digits :
  In eq1 [0; 1; 2] /\ In eq2 [0; 1]
  /\ In (eq3, eq6) [(0, 0); (0, 1); (1, 0); (1, 1); (2, 1)]
  /\ In eq4 [0; 1; 2] /\ In eq5 [0; 1; 2].
Proof.
  split; [apply eq1_of_digit|]. split; [apply eq2_of_digit|].
  split; [apply eq3_eq6_of_digits|]. split; [apply eq4_of_digit|].
  apply eq5_of_digit.
Qed.

Lemma selected_parts (a b c d e : string) :
  In a (maxes1 eq1) -> In b (maxes2 eq2) -> In c (maxes36 eq3 eq6) ->
  In d (maxes4 eq4) -> In e (maxes5 eq5) ->
  composed_ok a b c d e = true.
Proof.
  destruct selected_digits as (H1 & H2 & H36 & H4 & H5).
  intros Ha Hb Hc Hd He. apply composed_ok_In.
  - apply in_flat_map. exists eq1. split; assumption.
  - apply in_flat_map. exists eq2. split; assumption.
  - apply in_flat_map. exists (eq3, eq6). split; assumption.
  - apply in_flat_map. exists eq4. split; assumption.
  - apply in_flat_map. exists eq5. split; assumption.
Qed.

Section AnyNumber.

Context {num : Type} `{JSNumber num}.

(** The distances of the vector to a composed highest severity vector. *)
Lemma selected_distances_to (a b c d e : string) :
  In a (maxes1 eq1) -> In b (maxes2 eq2) -> In c (maxes36 eq3 eq6) ->
  In d (maxes4 eq4) -> In e (maxes5 eq5) ->
  distances_to cvssSelected (a ++ b ++ c ++ d ++ e)
  = {| severity_distance_AV := metric_distance AV_levels (Some av) "AV" a;
       severity_distance_PR := metric_distance PR_levels (Some pr) "PR" a;
       severity_distance_UI := metric_distance UI_levels (Some ui) "UI" a;
       severity_distance_AC := metric_distance AC_levels (Some ac) "AC" b;
       severity_distance_AT := metric_distance AT_levels (Some at_) "AT" b;
       severity_distance_VC := metric_distance VC_levels (Some vc) "VC" c;
       severity_distance_VI := metric_distance VI_levels (Some vi) "VI" c;
       severity_distance_VA := metric_distance VA_levels (Some va) "VA" c;
       severity_distance_SC := metric_distance SC_levels (Some sc) "SC" d;
       severity_distance_SI := metric_distance SI_levels (Some si) "SI" d;
       severity_distance_SA := metric_distance SA_levels (Some sa) "SA" d;
       severity_distance_CR := metric_distance CR_levels (Some cr) "CR" c;
       severity_distance_IR := metric_distance IR_levels (Some ir) "IR" c;
       severity_distance_AR := metric_distance AR_levels (Some ar) "AR" c |}.
Proof.
  intros Ha Hb Hc Hd He.
  rewrite (distances_to_composed cvssSelected a b c d e
             (selected_parts _ _ _ _ _ Ha Hb Hc Hd He)).
  cbv zeta.
  rewrite Hav, Hpr, Hui, Hac, Hat, Hvc, Hvi, Hva, Hsc, Hsi, Hsa, Hcr, Hir, Har.
  reflexivity.
Qed.

(** A composed vector is skipped when one of its parts is at a negative
    distance in its class. *)
Lemma selected_some_negative (a b c d e : string) :
  In a (maxes1 eq1) -> In b (maxes2 eq2) -> In c (maxes36 eq3 eq6) ->
  In d (maxes4 eq4) -> In e (maxes5 eq5) ->
  negb (some_negative (distances_to cvssSelected (a ++ b ++ c ++ d ++ e)))
  = qualifies1 a && qualifies2 b && qualifies36 c && qualifies4 d.
Proof.
  intros Ha Hb Hc Hd He.
  rewrite (selected_distances_to a b c d e Ha Hb Hc Hd He), some_negative_fields.
  rewrite negb_involutive. unfold severity_fields.
  cbn [severity_distance_AV severity_distance_PR severity_distance_UI
       severity_distance_AC severity_distance_AT severity_distance_VC
       severity_distance_VI severity_distance_VA severity_distance_SC
       severity_distance_SI severity_distance_SA severity_distance_CR
       severity_distance_IR severity_distance_AR].
  apply fields_by_class.
Qed.

(** The score in terms of the classes, when the loop stops at a composed
    vector. *)
Lemma selected_score (a b c d e : string) :
  forallb (fun metric => JS.eqs (m cvssSelected metric) "N")
          ["VC"; "VI"; "VA"; "SC"; "SI"; "SA"] = false ->
  In a (maxes1 eq1) -> In b (maxes2 eq2) -> In c (maxes36 eq3 eq6) ->
  In d (maxes4 eq4) -> In e (maxes5 eq5) ->
  find (fun x => negb (some_negative (distances_to cvssSelected x))) max_vectors
  = Some (a ++ b ++ c ++ d ++ e)%string ->
  let lookup := scores cvssLookup_globalV4 in
  cvss_score cvssSelected lookup maxSeverityV4 (macroVector cvssSelected)
  = Ok (score_from
          (toNumber (JS.get lookup (template eq1 eq2 eq3 eq4 eq5 eq6)))
          (toNumber (JS.get lookup (template (eq1 + 1) eq2 eq3 eq4 eq5 eq6)))
          (toNumber (JS.get lookup (template eq1 (eq2 + 1) eq3 eq4 eq5 eq6)))
          (toNumber (score_eq3eq6_next_lower_macro lookup eq1 eq2 eq3 eq4 eq5 eq6))
          (toNumber (JS.get lookup (template eq1 eq2 eq3 (eq4 + 1) eq5 eq6)))
          (toNumber (JS.get lookup (template eq1 eq2 eq3 eq4 (eq5 + 1) eq6)))
          (depth_of (msd_eq1 maxSeverityV4) eq1)
          (depth_of (msd_eq2 maxSeverityV4) eq2)
          (depth36 eq3 eq6)
          (depth_of (msd_eq4 maxSeverityV4) eq4)
          (sum1 (Some av) (Some pr) (Some ui) a)
          (sum2 (Some ac) (Some at_) b)
          (sum36 (Some vc) (Some vi) (Some va) (Some cr) (Some ir) (Some ar) c)
          (sum4 (Some sc) (Some si) (Some sa) d)).
Proof.
  intros Hshort Ha Hb Hc Hd He Hfind. cbv zeta.
  destruct selected_digits as (H1 & H2 & H36 & H4 & H5).
  rewrite macroVector_selected.
  rewrite (cvss_score_classes cvssSelected _ _ _ _ _ _ H1 H2 H36 H4 H5 Hshort).
  cbv zeta. rewrite (select_max_find _ _ _ _ Hfind).
  rewrite (selected_distances_to a b c d e Ha Hb Hc Hd He).
  reflexivity.
Qed.

End AnyNumber.

(** In exact arithmetic the loop finds a highest severity vector, at a
    distance below the depth in every class. *)
Lemma selected_max_vector :
  exists a b c d e,
    (In a (maxes1 eq1) /\ In b (maxes2 eq2) /\ In c (maxes36 eq3 eq6)
     /\ In d (maxes4 eq4) /\ In e (maxes5 eq5))
    /\ find (fun x => negb (some_negative
                          (distances_to (num := Exact.num) cvssSelected x)))
            max_vectors
       = Some (a ++ b ++ c ++ d ++ e)%string
    /\ (forallb (not_negative (num := Exact.num))
                (distances1 (Some av) (Some pr) (Some ui) a) = true
        /\ forallb (not_negative (num := Exact.num))
                   (distances2 (Some ac) (Some at_) b) = true
        /\ forallb (not_negative (num := Exact.num))
                   (distances36 (Some vc) (Some vi) (Some va)
                                (Some cr) (Some ir) (Some ar) c) = true
        /\ forallb (not_negative (num := Exact.num))
                   (distances4 (Some sc) (Some si) (Some sa) d) = true)
    /\ below_depth (sum1 (Some av) (Some pr) (Some ui) a)
                   (depth_of (msd_eq1 maxSeverityV4) eq1) = true
    /\ below_depth (sum2 (Some ac) (Some at_) b)
                   (depth_of (msd_eq2 maxSeverityV4) eq2) = true
    /\ below_depth (sum36 (Some vc) (Some vi) (Some va)
                          (Some cr) (Some ir) (Some ar) c)
                   (depth36 eq3 eq6) = true
    /\ below_depth (sum4 (Some sc) (Some si) (Some sa) d)
                   (depth_of (msd_eq4 maxSeverityV4) eq4) = true.
Proof.
  destruct selected_digits as (H1 & H2 & H36 & H4 & H5).
  assert (C1 : class1_ok av pr ui = true).
  { pose proof class1_ok_all as Hall.
    rewrite forallb_forall in Hall. specialize (Hall _ Iav).
    rewrite forallb_forall in Hall. specialize (Hall _ Ipr).
    rewrite forallb_forall in Hall. exact (Hall _ Iui). }
  assert (C2 : class2_ok ac at_ = true).
  { pose proof class2_ok_all as Hall.
    rewrite forallb_forall in Hall. specialize (Hall _ Iac).
    rewrite forallb_forall in Hall. exact (Hall _ Iat). }
  assert (C36 : class36_ok vc vi va cr ir ar = true).
  { pose proof class36_ok_all as Hall.
    rewrite forallb_forall in Hall. specialize (Hall _ Ivc).
    rewrite forallb_forall in Hall. specialize (Hall _ Ivi).
    rewrite forallb_forall in Hall. specialize (Hall _ Iva).
    rewrite forallb_forall in Hall. specialize (Hall _ Icr).
    rewrite forallb_forall in Hall. specialize (Hall _ Iir).
    rewrite forallb_forall in Hall. exact (Hall _ Iar). }
  assert (C4 : class4_ok sc si sa = true).
  { pose proof class4_ok_all as Hall.
    rewrite forallb_forall in Hall. specialize (Hall _ Isc).
    rewrite forallb_forall in Hall. specialize (Hall _ Isi).
    rewrite forallb_forall in Hall. exact (Hall _ Isa). }
  unfold class1_ok in C1. unfold class2_ok in C2. unfold class36_ok in C36.
  unfold class4_ok in C4. cbv zeta in C1, C2, C36, C4.
  apply class_ok_spec in C1, C2, C36, C4.
  destruct C1 as ((a0 & Ia0 & Na0) & B1). destruct C2 as ((b0 & Ib0 & Nb0) & B2).
  destruct C36 as ((c0 & Ic0 & Nc0) & B36). destruct C4 as ((d0 & Id0 & Nd0) & B4).
  destruct (maxes5_nonempty _ H5) as (e0 & Ie0).
  destruct (find (fun x => negb (some_negative
                       (distances_to (num := Exact.num) cvssSelected x)))
                 max_vectors) as [mv|] eqn:Hfind.
  - destruct (find_some _ _ Hfind) as (Imv & Nmv).
    apply in_compose_max_vectors in Imv.
    destruct Imv as (a & b & c & d & e & Ia & Ib & Ic & Id & Ie & ->).
    rewrite (selected_some_negative a b c d e Ia Ib Ic Id Ie) in Nmv.
    rewrite !andb_true_iff in Nmv. destruct Nmv as (((Na & Nb) & Nc) & Nd).
    exists a, b, c, d, e. split; [tauto|]. split; [reflexivity|].
    split; [tauto|].
    split; [exact (B1 _ Ia Na)|]. split; [exact (B2 _ Ib Nb)|].
    split; [exact (B36 _ Ic Nc)|exact (B4 _ Id Nd)].
  - exfalso.
    pose proof (find_none _ _ Hfind (a0 ++ b0 ++ c0 ++ d0 ++ e0)%string) as Hn.
    cbv beta in Hn.
    rewrite (selected_some_negative a0 b0 c0 d0 e0 Ia0 Ib0 Ic0 Id0 Ie0) in Hn.
    rewrite Na0, Nb0, Nc0, Nd0 in Hn.
    assert (Hin : In (a0 ++ b0 ++ c0 ++ d0 ++ e0)%string max_vectors).
    { apply in_compose_max_vectors. exists a0, b0, c0, d0, e0. tauto. }
    specialize (Hn Hin). discriminate Hn.
Qed.

(** Outside the shortcut the score lies between the lowest score of the
    next lower MacroVectors and the score of the MacroVector. *)
Lemma cvss_score_between :
  forallb (fun metric => JS.eqs (m cvssSelected metric) "N")
          ["VC"; "VI"; "VA"; "SC"; "SI"; "SA"] = false ->
  exists v k score low,
    JS.get (scores (num := Exact.num) cvssLookup_globalV4)
           (macroVector cvssSelected) = Some (Some v)
    /\ (v == inject_Z k / 10)%Q /\ (0 <= k <= 100)%Z
    /\ cvss_score (num := Exact.num) cvssSelected (scores cvssLookup_globalV4)
                  maxSeverityV4 (macroVector cvssSelected) = Ok (Some score)
    /\ In low (v :: existing (next_lower_scores
                                (scores (num := Exact.num) cvssLookup_globalV4)
                                eq1 eq2 eq3 eq4 eq5 eq6))
    /\ (low <= score <= v)%Q.
Proof.
  intros Hshort.
  destruct selected_digits as (H1 & H2 & H36 & H4 & H5).
  destruct selected_max_vector
    as (a & b & c & d & e & (Ia & Ib & Ic & Id & Ie) & Hfind & _
        & B1 & B2 & B36 & B4).
  destruct (below_depth_proportion _ _ B1) as (c1 & s1 & Ec1 & Es1 & Pr1).
  destruct (below_depth_proportion _ _ B2) as (c2 & s2 & Ec2 & Es2 & Pr2).
  destruct (below_depth_proportion _ _ B36) as (c36 & s36 & Ec36 & Es36 & Pr36).
  destruct (below_depth_proportion _ _ B4) as (c4 & s4 & Ec4 & Es4 & Pr4).
  (* the table *)
  destruct (table_neighbors _ _ _ _ _ _ H1 H2 H36 H4 H5)
    as (v & k & Hv & Hvk & Hk & Hnb).
  destruct (NumFacts.exists_min v
              (existing (next_lower_scores
                           (scores (num := Exact.num) cvssLookup_globalV4)
                           eq1 eq2 eq3 eq4 eq5 eq6))) as (low & Ilow & Hmin).
  assert (Hlowv : (low <= v)%Q) by (apply Hmin; left; reflexivity).
  assert (Hlowk : exists kl, (low == inject_Z kl / 10)%Q /\ (0 <= kl)%Z).
  { destruct Ilow as [<-|Ilow]; [exists k; split; [exact Hvk|lia]|].
    apply in_existing in Ilow. specialize (Hnb _ Ilow).
    destruct Hnb as (q & k' & Hq & Hqk & Hk').
    exists k'. split; [|lia]. congruence. }
  destruct Hlowk as (kl & Hlowk & Hkl).
  assert (W : forall o,
            In o (next_lower_scores
                    (scores (num := Exact.num) cvssLookup_globalV4)
                    eq1 eq2 eq3 eq4 eq5 eq6) ->
            within (v - low) (sub (num := Exact.num) (Some v) (toNumber o))).
  { intros o Ho. apply (available_within v low k o Hvk (Hnb o Ho)).
    intros q ->. apply Hmin. right. apply in_existing. exact Ho. }
  exists v, k.
  rewrite (selected_score a b c d e Hshort Ia Ib Ic Id Ie Hfind).
  cbv zeta. rewrite macroVector_selected, Hv. unfold score_from.
  rewrite Ec1, Ec2, Ec36, Ec4, Es1, Es2, Es36, Es4.
  cbn [toNumber].
  assert (HD : (0 <= v - low)%Q) by lra.
  set (lookup := scores (num := Exact.num) cvssLookup_globalV4) in *.
  pose proof (W (JS.get lookup (template (eq1 + 1) eq2 eq3 eq4 eq5 eq6))
                (or_introl eq_refl)) as W1.
  pose proof (W (JS.get lookup (template eq1 (eq2 + 1) eq3 eq4 eq5 eq6))
                (or_intror (or_introl eq_refl))) as W2.
  pose proof (W (score_eq3eq6_next_lower_macro lookup eq1 eq2 eq3 eq4 eq5 eq6)
                (or_intror (or_intror (or_introl eq_refl)))) as W36.
  pose proof (W (JS.get lookup (template eq1 eq2 eq3 (eq4 + 1) eq5 eq6))
                (or_intror (or_intror (or_intror (or_introl eq_refl))))) as W4.
  pose proof (W (JS.get lookup (template eq1 eq2 eq3 eq4 (eq5 + 1) eq6))
                (or_intror (or_intror (or_intror (or_intror (or_introl eq_refl))))))
    as W5.
  destruct (mean_distance_bounds _ _ _ _ _ c1 c2 c36 c4 s1 s2 s36 s4
              (v - low) HD W1 W2 W36 W4 W5 Pr1 Pr2 Pr36 Pr4)
    as (dist & Hdist' & Hdb).
  rewrite Hdist'.
  destruct (final_score_bounds v dist low k kl Hvk Hlowk Hkl ltac:(lia)
              ltac:(split; lra)) as (x & Hx & Hxb).
  exists x, low. rewrite Hx.
  split; [reflexivity|]. split; [exact Hvk|]. split; [exact Hk|].
  split; [reflexivity|]. split; [exact Ilow|exact Hxb].
Qed.

(** Binary64 and exact arithmetic skip the same highest severity vectors. *)
Lemma selected_find_binary64 :
  find (fun x => negb (some_negative
                         (distances_to (num := Float64.num) cvssSelected x)))
       max_vectors
  = find (fun x => negb (some_negative
                           (distances_to (num := Exact.num) cvssSelected x)))
         max_vectors.
Proof.
  apply find_ext_in. intros x Hx. apply in_compose_max_vectors in Hx.
  destruct Hx as (a & b & c & d & e & Ia & Ib & Ic & Id & Ie & ->).
  rewrite !(selected_some_negative a b c d e Ia Ib Ic Id Ie).
  assert (C1 : class1_agrees av pr ui = true).
  { pose proof class1_agrees_all as Hall.
    rewrite forallb_forall in Hall. specialize (Hall _ Iav).
    rewrite forallb_forall in Hall. specialize (Hall _ Ipr).
    rewrite forallb_forall in Hall. exact (Hall _ Iui). }
  assert (C2 : class2_agrees ac at_ = true).
  { pose proof class2_agrees_all as Hall.
    rewrite forallb_forall in Hall. specialize (Hall _ Iac).
    rewrite forallb_forall in Hall. exact (Hall _ Iat). }
  assert (C36 : class36_agrees vc vi va cr ir ar = true).
  { pose proof class36_agrees_all as Hall.
    rewrite forallb_forall in Hall. specialize (Hall _ Ivc).
    rewrite forallb_forall in Hall. specialize (Hall _ Ivi).
    rewrite forallb_forall in Hall. specialize (Hall _ Iva).
    rewrite forallb_forall in Hall. specialize (Hall _ Icr).
    rewrite forallb_forall in Hall. specialize (Hall _ Iir).
    rewrite forallb_forall in Hall. exact (Hall _ Iar). }
  assert (C4 : class4_agrees sc si sa = true).
  { pose proof class4_agrees_all as Hall.
    rewrite forallb_forall in Hall. specialize (Hall _ Isc).
    rewrite forallb_forall in Hall. specialize (Hall _ Isi).
    rewrite forallb_forall in Hall. exact (Hall _ Isa). }
  rewrite (proj1 (class_agrees_spec _ _ _ _ _ _ C1 a Ia)).
  rewrite (proj1 (class_agrees_spec _ _ _ _ _ _ C2 b Ib)).
  rewrite (proj1 (class_agrees_spec _ _ _ _ _ _ C36 c Ic)).
  rewrite (proj1 (class_agrees_spec _ _ _ _ _ _ C4 d Id)).
  reflexivity.
Qed.

(** Outside the shortcut the binary64 score is the double nearest to the
    exact score or to the exact score minus 0.1. *)
Lemma cvss_score_binary64 :
  forallb (fun metric => JS.eqs (m cvssSelected metric) "N")
          ["VC"; "VI"; "VA"; "SC"; "SI"; "SA"] = false ->
  exists k,
    (0 <= k <= 100)%Z
    /\ cvss_score (num := Exact.num) cvssSelected (scores cvssLookup_globalV4)
                  maxSeverityV4 (macroVector cvssSelected)
       = Ok (lit (inject_Z k / 10))
    /\ (cvss_score (num := Float64.num) cvssSelected (scores cvssLookup_globalV4)
                   maxSeverityV4 (macroVector cvssSelected)
        = Ok (lit (inject_Z k / 10))
        \/ (1 <= k)%Z
           /\ cvss_score (num := Float64.num) cvssSelected
                         (scores cvssLookup_globalV4)
                         maxSeverityV4 (macroVector cvssSelected)
              = Ok (lit (inject_Z (k - 1) / 10))).
Proof.
  intros Hshort.
  destruct selected_digits as (H1 & H2 & H36 & H4 & H5).
  destruct selected_max_vector
    as (a & b & c & d & e & (Ia & Ib & Ic & Id & Ie) & Hfind
        & (Na & Nb & Nc & Nd) & _).
  pose proof selected_find_binary64 as Hfind64. rewrite Hfind in Hfind64.
  rewrite (selected_score (num := Exact.num) a b c d e Hshort Ia Ib Ic Id Ie Hfind).
  rewrite (selected_score (num := Float64.num) a b c d e Hshort Ia Ib Ic Id Ie
                          Hfind64).
  cbv zeta.
  assert (S1 : In (sum1 (Some av) (Some pr) (Some ui) a,
                   sum1 (Some av) (Some pr) (Some ui) a) (sums_of sums1 eq1)).
  { assert (C1 : class1_agrees av pr ui = true).
    { pose proof class1_agrees_all as Hall.
      rewrite forallb_forall in Hall. specialize (Hall _ Iav).
      rewrite forallb_forall in Hall. specialize (Hall _ Ipr).
      rewrite forallb_forall in Hall. exact (Hall _ Iui). }
    exact (proj2 (class_agrees_spec _ _ _ _ _ _ C1 a Ia) Na). }
  assert (S2 : In (sum2 (Some ac) (Some at_) b, sum2 (Some ac) (Some at_) b)
                  (sums_of sums2 eq2)).
  { assert (C2 : class2_agrees ac at_ = true).
    { pose proof class2_agrees_all as Hall.
      rewrite forallb_forall in Hall. specialize (Hall _ Iac).
      rewrite forallb_forall in Hall. exact (Hall _ Iat). }
    exact (proj2 (class_agrees_spec _ _ _ _ _ _ C2 b Ib) Nb). }
  assert (S36 : In (sum36 (Some vc) (Some vi) (Some va)
                          (Some cr) (Some ir) (Some ar) c,
                    sum36 (Some vc) (Some vi) (Some va)
                          (Some cr) (Some ir) (Some ar) c)
                   (sums_of (sums_of sums36 eq3) eq6)).
  { assert (C36 : class36_agrees vc vi va cr ir ar = true).
    { pose proof class36_agrees_all as Hall.
      rewrite forallb_forall in Hall. specialize (Hall _ Ivc).
      rewrite forallb_forall in Hall. specialize (Hall _ Ivi).
      rewrite forallb_forall in Hall. specialize (Hall _ Iva).
      rewrite forallb_forall in Hall. specialize (Hall _ Icr).
      rewrite forallb_forall in Hall. specialize (Hall _ Iir).
      rewrite forallb_forall in Hall. exact (Hall _ Iar). }
    exact (proj2 (class_agrees_spec _ _ _ _ _ _ C36 c Ic) Nc). }
  assert (S4 : In (sum4 (Some sc) (Some si) (Some sa) d,
                   sum4 (Some sc) (Some si) (Some sa) d) (sums_of sums4 eq4)).
  { assert (C4 : class4_agrees sc si sa = true).
    { pose proof class4_agrees_all as Hall.
      rewrite forallb_forall in Hall. specialize (Hall _ Isc).
      rewrite forallb_forall in Hall. specialize (Hall _ Isi).
      rewrite forallb_forall in Hall. exact (Hall _ Isa). }
    exact (proj2 (class_agrees_spec _ _ _ _ _ _ C4 d Id) Nd). }
  pose proof (macro_related_all _ _ _ _ _ _ H1 H2 H36 H4 H5) as Hrel.
  unfold macro_related in Hrel. cbv zeta in Hrel.
  rewrite forallb_forall in Hrel. specialize (Hrel _ S1).
  rewrite forallb_forall in Hrel. specialize (Hrel _ S2).
  rewrite forallb_forall in Hrel. specialize (Hrel _ S36).
  rewrite forallb_forall in Hrel. specialize (Hrel _ S4).
  cbn [fst snd] in Hrel.
  destruct (related_spec _ _ Hrel) as (k & Hk & He & Hb).
  exists k. split; [exact Hk|]. split; [exact (f_equal Ok He)|].
  destruct Hb as [Hb|[H1k Hb]].
  - left. exact (f_equal Ok Hb).
  - right. split; [exact H1k|exact (f_equal Ok Hb)].
Qed.

(** The distances of the classes to the vector that the loop finds are
    among the listed ones. *)
Lemma selected_sums_listed (a b c d : string) :
  In a (maxes1 eq1) -> In b (maxes2 eq2) -> In c (maxes36 eq3 eq6) ->
  In d (maxes4 eq4) ->
  forallb (not_negative (num := Exact.num))
          (distances1 (Some av) (Some pr) (Some ui) a) = true ->
  forallb (not_negative (num := Exact.num))
          (distances2 (Some ac) (Some at_) b) = true ->
  forallb (not_negative (num := Exact.num))
          (distances36 (Some vc) (Some vi) (Some va)
                       (Some cr) (Some ir) (Some ar) c) = true ->
  forallb (not_negative (num := Exact.num))
          (distances4 (Some sc) (Some si) (Some sa) d) = true ->
  In (sum1 (Some av) (Some pr) (Some ui) a, sum1 (Some av) (Some pr) (Some ui) a)
     (sums_of sums1 eq1)
  /\ In (sum2 (Some ac) (Some at_) b, sum2 (Some ac) (Some at_) b)
        (sums_of sums2 eq2)
  /\ In (sum36 (Some vc) (Some vi) (Some va) (Some cr) (Some ir) (Some ar) c,
         sum36 (Some vc) (Some vi) (Some va) (Some cr) (Some ir) (Some ar) c)
        (sums_of (sums_of sums36 eq3) eq6)
  /\ In (sum4 (Some sc) (Some si) (Some sa) d, sum4 (Some sc) (Some si) (Some sa) d)
        (sums_of sums4 eq4).
Proof.
  intros Ia Ib Ic Id Na Nb Nc Nd.
  assert (C1 : class1_agrees av pr ui = true).
  { pose proof class1_agrees_all as Hall.
    rewrite forallb_forall in Hall. specialize (Hall _ Iav).
    rewrite forallb_forall in Hall. specialize (Hall _ Ipr).
    rewrite forallb_forall in Hall. exact (Hall _ Iui). }
  assert (C2 : class2_agrees ac at_ = true).
  { pose proof class2_agrees_all as Hall.
    rewrite forallb_forall in Hall. specialize (Hall _ Iac).
    rewrite forallb_forall in Hall. exact (Hall _ Iat). }
  assert (C36 : class36_agrees vc vi va cr ir ar = true).
  { pose proof class36_agrees_all as Hall.
    rewrite forallb_forall in Hall. specialize (Hall _ Ivc).
    rewrite forallb_forall in Hall. specialize (Hall _ Ivi).
    rewrite forallb_forall in Hall. specialize (Hall _ Iva).
    rewrite forallb_forall in Hall. specialize (Hall _ Icr).
    rewrite forallb_forall in Hall. specialize (Hall _ Iir).
    rewrite forallb_forall in Hall. exact (Hall _ Iar). }
  assert (C4 : class4_agrees sc si sa = true).
  { pose proof class4_agrees_all as Hall.
    rewrite forallb_forall in Hall. specialize (Hall _ Isc).
    rewrite forallb_forall in Hall. specialize (Hall _ Isi).
    rewrite forallb_forall in Hall. exact (Hall _ Isa). }
  split; [exact (proj2 (class_agrees_spec _ _ _ _ _ _ C1 a Ia) Na)|].
  split; [exact (proj2 (class_agrees_spec _ _ _ _ _ _ C2 b Ib) Nb)|].
  split; [exact (proj2 (class_agrees_spec _ _ _ _ _ _ C36 c Ic) Nc)|].
  exact (proj2 (class_agrees_spec _ _ _ _ _ _ C4 d Id) Nd).
Qed.

(** Outside the shortcut the binary64 score is the score of the
    specification with the neighbors of the code. *)
Lemma cvss_score_spec_binary64 :
  forallb (fun metric => JS.eqs (m cvssSelected metric) "N")
          ["VC"; "VI"; "VA"; "SC"; "SI"; "SA"] = false ->
  cvss_score (num := Float64.num) cvssSelected (scores cvssLookup_globalV4)
             maxSeverityV4 (macroVector cvssSelected)
  = Ok (spec_next_lower_score code_eq3eq6_neighbors
          (scores cvssLookup_globalV4) cvssSelected eq1 eq2 eq3 eq4 eq5 eq6).
Proof.
  intros Hshort.
  destruct selected_digits as (H1 & H2 & H36 & H4 & H5).
  destruct selected_max_vector
    as (a & b & c & d & e & (Ia & Ib & Ic & Id & Ie) & Hfind
        & (Na & Nb & Nc & Nd) & _).
  pose proof selected_find_binary64 as Hfind64. rewrite Hfind in Hfind64.
  destruct (selected_sums_listed a b c d Ia Ib Ic Id Na Nb Nc Nd)
    as (S1 & S2 & S36 & S4).
  rewrite macroVector_selected.
  apply (cvss_score_of_spec_mean cvssSelected _ _ _ _ _ _ H1 H2 H36 H4 H5 Hshort).
  rewrite (select_max_find _ _ _ _ Hfind64).
  rewrite (selected_distances_to a b c d e Ia Ib Ic Id Ie).
  cbn [severity_distance_AV severity_distance_PR severity_distance_UI
       severity_distance_AC severity_distance_AT severity_distance_VC
       severity_distance_VI severity_distance_VA severity_distance_SC
       severity_distance_SI severity_distance_SA severity_distance_CR
       severity_distance_IR severity_distance_AR].
  pose proof (macro_mean_agrees_all _ _ _ _ _ _ H1 H2 H36 H4 H5) as Hmean.
  unfold macro_mean_agrees in Hmean. cbv zeta in Hmean.
  rewrite forallb_forall in Hmean. specialize (Hmean _ S1).
  rewrite forallb_forall in Hmean. specialize (Hmean _ S2).
  rewrite forallb_forall in Hmean. specialize (Hmean _ S36).
  rewrite forallb_forall in Hmean. specialize (Hmean _ S4).
  cbn [fst snd] in Hmean.
  apply FloatAxioms.Leibniz.eqb_spec in Hmean. exact Hmean.
Qed.

(** Outside the shortcut the binary64 score is the double nearest to j/10,
    between the lowest score of the next lower MacroVectors and the score of
    the MacroVector. *)
Lemma cvss_score_bounded_binary64 :
  forallb (fun metric => JS.eqs (m cvssSelected metric) "N")
          ["VC"; "VI"; "VA"; "SC"; "SI"; "SA"] = false ->
  exists j low v,
    cvss_score (num := Float64.num) cvssSelected (scores cvssLookup_globalV4)
               maxSeverityV4 (macroVector cvssSelected)
    = Ok (lit (inject_Z j / 10))
    /\ JS.get (scores (num := Exact.num) cvssLookup_globalV4)
              (macroVector cvssSelected) = Some (Some v)
    /\ In low (lows_of eq1 eq2 eq3 eq4 eq5 eq6)
    /\ (low <= inject_Z j / 10 <= v)%Q.
Proof.
  intros Hshort.
  destruct selected_digits as (H1 & H2 & H36 & H4 & H5).
  destruct selected_max_vector
    as (a & b & c & d & e & (Ia & Ib & Ic & Id & Ie) & Hfind
        & (Na & Nb & Nc & Nd) & _).
  pose proof selected_find_binary64 as Hfind64. rewrite Hfind in Hfind64.
  destruct (selected_sums_listed a b c d Ia Ib Ic Id Na Nb Nc Nd)
    as (S1 & S2 & S36 & S4).
  rewrite (selected_score (num := Float64.num) a b c d e Hshort Ia Ib Ic Id Ie
                          Hfind64).
  cbv zeta. rewrite macroVector_selected.
  pose proof (macro_bounded_all _ _ _ _ _ _ H1 H2 H36 H4 H5) as Hb.
  unfold macro_bounded in Hb. cbv zeta in Hb.
  rewrite forallb_forall in Hb. specialize (Hb _ S1).
  rewrite forallb_forall in Hb. specialize (Hb _ S2).
  rewrite forallb_forall in Hb. specialize (Hb _ S36).
  rewrite forallb_forall in Hb. specialize (Hb _ S4).
  cbn [fst snd] in Hb.
  destruct (bounded64_spec _ _ _ Hb) as (j & low & v & Hs & Hv & Ilow & Hjv).
  exists j, low, v. split; [exact (f_equal Ok Hs)|].
  split; [exact Hv|]. split; [exact Ilow|exact Hjv].
Qed.

End ValidatedVector.

Ltac effective_values Hok :=
  destruct (effective_value _ "AV" Hok ltac:(simpl; tauto)) as (?av & ?Hav & ?Iav);
  destruct (effective_value _ "PR" Hok ltac:(simpl; tauto)) as (?pr & ?Hpr & ?Ipr);
  destruct (effective_value _ "UI" Hok ltac:(simpl; tauto)) as (?ui & ?Hui & ?Iui);
  destruct (effective_value _ "AC" Hok ltac:(simpl; tauto)) as (?ac & ?Hac & ?Iac);
  destruct (effective_value _ "AT" Hok ltac:(simpl; tauto)) as (?at_ & ?Hat & ?Iat);
  destruct (effective_value _ "VC" Hok ltac:(simpl; tauto)) as (?vc & ?Hvc & ?Ivc);
  destruct (effective_value _ "VI" Hok ltac:(simpl; tauto)) as (?vi & ?Hvi & ?Ivi);
  destruct (effective_value _ "VA" Hok ltac:(simpl; tauto)) as (?va & ?Hva & ?Iva);
  destruct (effective_value _ "SC" Hok ltac:(simpl; tauto)) as (?sc & ?Hsc & ?Isc);
  destruct (effective_value _ "SI" Hok ltac:(simpl; tauto)) as (?si & ?Hsi & ?Isi);
  destruct (effective_value _ "SA" Hok ltac:(simpl; tauto)) as (?sa & ?Hsa & ?Isa);
  destruct (effective_value _ "CR" Hok ltac:(simpl; tauto)) as (?cr & ?Hcr & ?Icr);
  destruct (effective_value _ "IR" Hok ltac:(simpl; tauto)) as (?ir & ?Hir & ?Iir);
  destruct (effective_value _ "AR" Hok ltac:(simpl; tauto)) as (?ar & ?Har & ?Iar).

Lemma validated_digits cvssSelected :
  exists eq1 eq2 eq3 eq4 eq5 eq6,
    macroVector cvssSelected = template eq1 eq2 eq3 eq4 eq5 eq6
    /\ digits (macroVector cvssSelected) = Some (eq1, eq2, eq3, eq4, eq5, eq6)
    /\ (In eq1 [0; 1; 2] /\ In eq2 [0; 1]
        /\ In (eq3, eq6) [(0, 0); (0, 1); (1, 0); (1, 1); (2, 1)]
        /\ In eq4 [0; 1; 2] /\ In eq5 [0; 1; 2]).
Proof.
  destruct (macroVector_digits cvssSelected)
    as (eq1 & eq2 & eq3 & eq4 & eq5 & eq6 & Hm & H1 & H2 & H36 & H4 & H5).
  destruct (digits_in_table _ _ _ _ _ _ H1 H2 H36 H4 H5) as (_ & Hd).
  exists eq1, eq2, eq3, eq4, eq5, eq6.
  split; [exact Hm|]. split; [rewrite Hm; exact Hd|]. tauto.
Qed.

Lemma validated_between cvssSelected :
  selected_ok cvssSelected ->
  forallb (fun metric => JS.eqs (m cvssSelected metric) "N")
          ["VC"; "VI"; "VA"; "SC"; "SI"; "SA"] = false ->
  exists eq1 eq2 eq3 eq4 eq5 eq6 v score low,
    digits (macroVector cvssSelected) = Some (eq1, eq2, eq3, eq4, eq5, eq6)
    /\ JS.get (scores (num := Exact.num) cvssLookup_globalV4)
              (macroVector cvssSelected) = Some (Some v)
    /\ cvss_score (num := Exact.num) cvssSelected (scores cvssLookup_globalV4)
                  maxSeverityV4 (macroVector cvssSelected) = Ok (Some score)
    /\ In low (v :: existing (next_lower_scores
                                (scores (num := Exact.num) cvssLookup_globalV4)
                                eq1 eq2 eq3 eq4 eq5 eq6))
    /\ (low <= score <= v)%Q.
Proof.
  intros Hok Hshort. effective_values Hok.
  destruct (cvss_score_between cvssSelected av pr ui ac at_ vc vi va sc si sa
              cr ir ar Hok Hav Hpr Hui Hac Hat Hvc Hvi Hva Hsc Hsi Hsa Hcr Hir Har
              Iav Ipr Iui Iac Iat Ivc Ivi Iva Isc Isi Isa Icr Iir Iar Hshort)
    as (v & k & score & low & Hv & _ & _ & Hs & Ilow & Hb).
  pose proof (macroVector_selected cvssSelected av pr ui ac at_ vc vi va sc si sa
                cr ir ar Hok Hav Hpr Hui Hac Hat Hvc Hvi Hva Hsc Hsi Hsa
                Hcr Hir Har) as Hm.
  destruct (selected_digits cvssSelected av pr ui ac at_ vc vi va sc si sa cr ir ar)
    as (H1 & H2 & H36 & H4 & H5).
  destruct (digits_in_table _ _ _ _ _ _ H1 H2 H36 H4 H5) as (_ & Hd).
  rewrite <- Hm in Hd.
  do 6 eexists. exists v, score, low.
  split; [exact Hd|]. split; [exact Hv|]. split; [exact Hs|].
  split; [exact Ilow|exact Hb].
Qed.


Lemma validated_binary64 cvssSelected :
  selected_ok cvssSelected ->
  forallb (fun metric => JS.eqs (m cvssSelected metric) "N")
          ["VC"; "VI"; "VA"; "SC"; "SI"; "SA"] = false ->
  exists k,
    (0 <= k <= 100)%Z
    /\ cvss_score (num := Exact.num) cvssSelected (scores cvssLookup_globalV4)
                  maxSeverityV4 (macroVector cvssSelected)
       = Ok (lit (inject_Z k / 10))
    /\ (cvss_score (num := Float64.num) cvssSelected (scores cvssLookup_globalV4)
                   maxSeverityV4 (macroVector cvssSelected)
        = Ok (lit (inject_Z k / 10))
        \/ (1 <= k)%Z
           /\ cvss_score (num := Float64.num) cvssSelected
                         (scores cvssLookup_globalV4)
                         maxSeverityV4 (macroVector cvssSelected)
              = Ok (lit (inject_Z (k - 1) / 10))).
Proof.
  intros Hok Hshort. effective_values Hok.
  exact (cvss_score_binary64 cvssSelected av pr ui ac at_ vc vi va sc si sa
           cr ir ar Hok Hav Hpr Hui Hac Hat Hvc Hvi Hva Hsc Hsi Hsa Hcr Hir Har
           Iav Ipr Iui Iac Iat Ivc Ivi Iva Isc Isi Isa Icr Iir Iar Hshort).
Qed.

Lemma calculateBaseScore_v4 {num} `{JSNumber num} (vectorString : string) :
  valid (validateVectorV4 vectorString) = true ->
  calculateBaseScore vectorString
  = cvss_score (parseVectorV4 vectorString) (scores cvssLookup_globalV4)
               maxSeverityV4 (macroVector (parseVectorV4 vectorString)).
Proof.
  intros Hvalid. unfold calculateBaseScore.
  rewrite (detectCvssVersion_v4 _ Hvalid).
  cbn [bind]. change (String.eqb "4.0" "4.0") with true. cbv iota.
  unfold calculateBaseScoreV4.
  destruct (validateVectorV4 vectorString); [reflexivity|discriminate].
Qed.

Lemma validated_bounded_binary64 cvssSelected :
  selected_ok cvssSelected ->
  forallb (fun metric => JS.eqs (m cvssSelected metric) "N")
          ["VC"; "VI"; "VA"; "SC"; "SI"; "SA"] = false ->
  exists eq1 eq2 eq3 eq4 eq5 eq6 j low v,
    digits (macroVector cvssSelected) = Some (eq1, eq2, eq3, eq4, eq5, eq6)
    /\ cvss_score (num := Float64.num) cvssSelected (scores cvssLookup_globalV4)
                  maxSeverityV4 (macroVector cvssSelected)
       = Ok (lit (inject_Z j / 10))
    /\ JS.get (scores (num := Exact.num) cvssLookup_globalV4)
              (macroVector cvssSelected) = Some (Some v)
    /\ In low (lows_of eq1 eq2 eq3 eq4 eq5 eq6)
    /\ (low <= inject_Z j / 10 <= v)%Q.
Proof.
  intros Hok Hshort. effective_values Hok.
  destruct (cvss_score_bounded_binary64 cvssSelected av pr ui ac at_ vc vi va
              sc si sa cr ir ar Hok Hav Hpr Hui Hac Hat Hvc Hvi Hva Hsc Hsi Hsa
              Hcr Hir Har Iav Ipr Iui Iac Iat Ivc Ivi Iva Isc Isi Isa
              Icr Iir Iar Hshort)
    as (j & low & v & Hs & Hv & Ilow & Hjv).
  pose proof (macroVector_selected cvssSelected av pr ui ac at_ vc vi va sc si sa
                cr ir ar Hok Hav Hpr Hui Hac Hat Hvc Hvi Hva Hsc Hsi Hsa
                Hcr Hir Har) as Hm.
  destruct (selected_digits cvssSelected av pr ui ac at_ vc vi va sc si sa cr ir ar)
    as (H1 & H2 & H36 & H4 & H5).
  destruct (digits_in_table _ _ _ _ _ _ H1 H2 H36 H4 H5) as (_ & Hd).
  rewrite <- Hm in Hd.
  do 6 eexists. exists j, low, v.
  split; [exact Hd|]. split; [exact Hs|]. split; [exact Hv|].
  split; [exact Ilow|exact Hjv].
Qed.

(** X15 (the score stays between two MacroVectors).  For every vector that
    [validateVectorV4] accepts, the score that [calculateBaseScore] returns
    in binary64 is the double nearest to j/10 for an integer j, and j/10 is
    at most the score that [cvssLookup_globalV4] gives to the MacroVector of
    the vector.  When VC, VI, VA, SC, SI and SA are all N the score is 0.
    Otherwise j/10 is at least the lowest of the scores of the MacroVector
    and of its next lower MacroVectors that exist: the mean proportional
    distance never takes the score below the neighbors of the MacroVector.
    The same bounds hold of the score of exact arithmetic. *)
Theorem v4_score_between_macrovectors (vectorString : string) :
  valid (validateVectorV4 vectorString) = true ->
  exists eq1 eq2 eq3 eq4 eq5 eq6 value score j,
    digits (macroVector (parseVectorV4 vectorString))
    = Some (eq1, eq2, eq3, eq4, eq5, eq6)
    /\ JS.get (scores (num := Exact.num) cvssLookup_globalV4)
              (macroVector (parseVectorV4 vectorString)) = Some (Some value)
    /\ calculateBaseScore (num := Float64.num) vectorString
       = Ok (lit (inject_Z j / 10))
    /\ calculateBaseScore (num := Exact.num) vectorString = Ok (Some score)
    /\ (inject_Z j / 10 <= value)%Q
    /\ (score <= value)%Q
    /\ (forallb (fun metric => JS.eqs (m (parseVectorV4 vectorString) metric) "N")
                ["VC"; "VI"; "VA"; "SC"; "SI"; "SA"] = true ->
        j = 0%Z /\ score = 0%Q)
    /\ (forallb (fun metric => JS.eqs (m (parseVectorV4 vectorString) metric) "N")
                ["VC"; "VI"; "VA"; "SC"; "SI"; "SA"] = false ->
        (exists low,
           (low = value
            \/ In (Some (Some low))
                  (next_lower_scores (scores (num := Exact.num) cvssLookup_globalV4)
                                     eq1 eq2 eq3 eq4 eq5 eq6))
           /\ (low <= inject_Z j / 10)%Q)
        /\ (exists low,
              (low = value
               \/ In (Some (Some low))
                     (next_lower_scores
                        (scores (num := Exact.num) cvssLookup_globalV4)
                        eq1 eq2 eq3 eq4 eq5 eq6))
              /\ (low <= score)%Q)).
Proof.
  intros Hvalid.
  pose proof (parseVectorV4_selected_ok _ Hvalid) as Hok.
  rewrite !(calculateBaseScore_v4 _ Hvalid).
  set (cvssSelected := parseVectorV4 vectorString) in *.
  destruct (forallb (fun metric => JS.eqs (m cvssSelected metric) "N")
                    ["VC"; "VI"; "VA"; "SC"; "SI"; "SA"]) eqn:Hshort.
  - destruct (validated_digits cvssSelected)
      as (eq1 & eq2 & eq3 & eq4 & eq5 & eq6 & Hm & Hd & H1 & H2 & H36 & H4 & H5).
    destruct (table_neighbors _ _ _ _ _ _ H1 H2 H36 H4 H5)
      as (v & k & Hv & Hvk & Hk & _).
    rewrite <- Hm in Hv.
    assert (H0 : (0 <= v)%Q).
    { rewrite Hvk. apply Qle_shift_div_l; [reflexivity|].
      rewrite Qmult_0_l. change 0%Q with (inject_Z 0). rewrite <- Zle_Qle. lia. }
    exists eq1, eq2, eq3, eq4, eq5, eq6, v, 0%Q, 0%Z.
    split; [exact Hd|]. split; [exact Hv|].
    split; [unfold cvss_score; rewrite Hshort; reflexivity|].
    split; [unfold cvss_score; rewrite Hshort; reflexivity|].
    split; [apply Qle_trans with 0%Q; [discriminate|exact H0]|].
    split; [exact H0|].
    split; [split; reflexivity|discriminate].
  - destruct (validated_between _ Hok Hshort)
      as (eq1 & eq2 & eq3 & eq4 & eq5 & eq6 & v & score & low
          & Hd & Hv & Hs & Ilow & Hb).
    destruct (validated_bounded_binary64 _ Hok Hshort)
      as (d1 & d2 & d3 & d4 & d5 & d6 & j & low64 & v64
          & Hd64 & Hs64 & Hv64 & Ilow64 & Hb64).
    assert (Heq : (d1, d2, d3, d4, d5, d6) = (eq1, eq2, eq3, eq4, eq5, eq6))
      by congruence.
    injection Heq as -> -> -> -> -> ->.
    assert (Hvv : v64 = v) by congruence. subst v64.
    exists eq1, eq2, eq3, eq4, eq5, eq6, v, score, j.
    split; [exact Hd|]. split; [exact Hv|]. split; [exact Hs64|].
    split; [exact Hs|]. split; [tauto|]. split; [tauto|].
    split; [discriminate|]. intros _. split.
    + exists low64. split; [|tauto].
      unfold lows_of in Ilow64. apply in_existing in Ilow64.
      destruct Ilow64 as [Hvalue|Ilow64]; [|right; exact Ilow64].
      left. rewrite <- Hd in Hd64.
      destruct (validated_digits cvssSelected)
        as (e1 & e2 & e3 & e4 & e5 & e6 & Hm & Hdm & _).
      assert (Hee : (e1, e2, e3, e4, e5, e6) = (eq1, eq2, eq3, eq4, eq5, eq6))
        by congruence.
      injection Hee as -> -> -> -> -> ->.
      rewrite <- Hm in Hvalue. congruence.
    + exists low. split; [|tauto].
      destruct Ilow as [<-|Ilow]; [left; reflexivity|].
      right. apply in_existing. exact Ilow.
Qed.

Definition vector_v4_low_impact : string :=
  "CVSS:4.0/AV:A/AC:L/AT:P/PR:L/UI:N/VC:L/VI:N/VA:H/SC:N/SI:L/SA:N/E:P/IR:M".

Lemma v4_score_between_macrovectors_witness :
  valid (validateVectorV4 vector_v4_low_impact) = true
  /\ exists eq1 eq2 eq3 eq4 eq5 eq6 value score j,
       digits (macroVector (parseVectorV4 vector_v4_low_impact))
       = Some (eq1, eq2, eq3, eq4, eq5, eq6)
       /\ JS.get (scores (num := Exact.num) cvssLookup_globalV4)
                 (macroVector (parseVectorV4 vector_v4_low_impact))
          = Some (Some value)
       /\ calculateBaseScore (num := Float64.num) vector_v4_low_impact
          = Ok (lit (inject_Z j / 10))
       /\ calculateBaseScore (num := Exact.num) vector_v4_low_impact
          = Ok (Some score)
       /\ (inject_Z j / 10 <= value)%Q
       /\ (score <= value)%Q
       /\ (forallb (fun metric =>
                      JS.eqs (m (parseVectorV4 vector_v4_low_impact) metric) "N")
                   ["VC"; "VI"; "VA"; "SC"; "SI"; "SA"] = true ->
           j = 0%Z /\ score = 0%Q)
       /\ (forallb (fun metric =>
                      JS.eqs (m (parseVectorV4 vector_v4_low_impact) metric) "N")
                   ["VC"; "VI"; "VA"; "SC"; "SI"; "SA"] = false ->
           (exists low,
              (low = value
               \/ In (Some (Some low))
                     (next_lower_scores
                        (scores (num := Exact.num) cvssLookup_globalV4)
                        eq1 eq2 eq3 eq4 eq5 eq6))
              /\ (low <= inject_Z j / 10)%Q)
           /\ (exists low,
                 (low = value
                  \/ In (Some (Some low))
                        (next_lower_scores
                           (scores (num := Exact.num) cvssLookup_globalV4)
                           eq1 eq2 eq3 eq4 eq5 eq6))
                 /\ (low <= score)%Q)).
Proof.
  split; [vm_compute; reflexivity|].
  apply (v4_score_between_macrovectors vector_v4_low_impact).
  vm_compute. reflexivity.
Defined.



(** The score of a vector that [validateVectorV4] accepts in both models. *)
Lemma v4_score_both (vectorString : string) :
  valid (validateVectorV4 vectorString) = true ->
  exists k,
    (0 <= k <= 100)%Z
    /\ calculateBaseScore (num := Exact.num) vectorString
       = Ok (lit (inject_Z k / 10))
    /\ (calculateBaseScore (num := Float64.num) vectorString
        = Ok (lit (inject_Z k / 10))
        \/ (1 <= k)%Z
           /\ calculateBaseScore (num := Float64.num) vectorString
              = Ok (lit (inject_Z (k - 1) / 10))).
Proof.
  intros Hvalid.
  pose proof (parseVectorV4_selected_ok _ Hvalid) as Hok.
  rewrite !(calculateBaseScore_v4 _ Hvalid).
  set (cvssSelected := parseVectorV4 vectorString) in *.
  destruct (forallb (fun metric => JS.eqs (m cvssSelected metric) "N")
                    ["VC"; "VI"; "VA"; "SC"; "SI"; "SA"]) eqn:Hshort.
  - exists 0%Z. split; [lia|]. unfold cvss_score. rewrite Hshort.
    split; [reflexivity|left; reflexivity].
  - exact (validated_binary64 _ Hok Hshort).
Qed.

(** X17 (binary64 against exact arithmetic).  For every vector that
    [validateVectorV4] accepts, the score in exact arithmetic is k/10 with k
    between 0 and 100, and the score that the program computes in binary64
    is the double nearest to k/10 or the double nearest to (k-1)/10: the
    rounding errors of binary64 never raise the score, and lower it by at
    most one tenth. *)
Theorem v4_score_binary64 (vectorString : string) :
  valid (validateVectorV4 vectorString) = true ->
  exists k,
    (0 <= k <= 100)%Z
    /\ calculateBaseScore (num := Exact.num) vectorString
       = Ok (lit (inject_Z k / 10))
    /\ (calculateBaseScore (num := Float64.num) vectorString
        = Ok (lit (inject_Z k / 10))
        \/ (1 <= k)%Z
           /\ calculateBaseScore (num := Float64.num) vectorString
              = Ok (lit (inject_Z (k - 1) / 10))).
Proof. exact (v4_score_both vectorString). Qed.

(** A vector on which binary64 loses one tenth: the exact score is 9.1 and
    the program returns 9.0. *)
Definition vector_v4_tie : string :=
  "CVSS:4.0/AV:N/AC:L/AT:N/PR:N/UI:N/VC:H/VI:H/VA:H/SC:L/SI:H/SA:H/E:U".

Lemma v4_score_binary64_witness :
  valid (validateVectorV4 vector_v4_tie) = true
  /\ calculateBaseScore (num := Exact.num) vector_v4_tie = Ok (lit 9.1)
  /\ calculateBaseScore (num := Float64.num) vector_v4_tie = Ok (lit 9.0)
  /\ exists k,
       (0 <= k <= 100)%Z
       /\ calculateBaseScore (num := Exact.num) vector_v4_tie
          = Ok (lit (inject_Z k / 10))
       /\ (calculateBaseScore (num := Float64.num) vector_v4_tie
           = Ok (lit (inject_Z k / 10))
           \/ (1 <= k)%Z
              /\ calculateBaseScore (num := Float64.num) vector_v4_tie
                 = Ok (lit (inject_Z (k - 1) / 10))).
Proof.
  split; [vm_compute; reflexivity|].
  split; [vm_compute; reflexivity|].
  split; [vm_compute; reflexivity|].
  apply (v4_score_binary64 vector_v4_tie).
  vm_compute. reflexivity.
Defined.

(* ===================================================================== *)
(** * Binary64 against exact arithmetic: the v3.x base and temporal scores *)

Section WeightsAnyNumber.

Context {num : Type} `{JSNumber num}.

Local Open Scope js_scope.

(** The weight that [getMetricNumericValue] reads for a metric other than
    PR and MPR, in any number model. *)
Definition metric_weight (metric value : string) : result error num :=
  match field (spread (spread baseMetricValueScores temporalMetricValueScores)
                      environmentalMetricValueScores) metric with
  | None => Throw (MissingMetricScore metric)
  | Some score => Ok (toNumber (JS.get score value))
  end.

Lemma getMetricNumericValue_metric_weight metricsMap metric value :
  String.eqb metric BaseMetric.PRIVILEGES_REQUIRED = false ->
  String.eqb metric EnvironmentalMetric.MODIFIED_PRIVILEGES_REQUIRED = false ->
  JS.get metricsMap metric = Some value ->
  getMetricNumericValue metric metricsMap = metric_weight metric value.
Proof.
  intros Hpr Hmpr Hget.
  unfold getMetricNumericValue, getMetricValue, metric_weight.
  rewrite Hget. cbn [bind]. rewrite Hpr, Hmpr. reflexivity.
Qed.

(** The impact and exploitability subscores and the base score, from the
    values of the base metrics. *)
Definition impact_from (s : string) (c i a : result error num)
  : result error num :=
  confidentiality <- c ;;
  integrity <- i ;;
  availability <- a ;;
  let iss := lit 1 - (lit 1 - confidentiality) * (lit 1 - integrity)
                     * (lit 1 - availability) in
  Ok (if String.eqb s "U" then lit 6.42 * iss
      else lit 7.52 * (iss - lit 0.029) - lit 3.25 * Math_pow (iss - lit 0.02) 15).

Definition exploitability_from (av ac pr ui : result error num)
  : result error num :=
  av <- av ;; ac <- ac ;; pr <- pr ;; ui <- ui ;;
  Ok (lit 8.22 * av * ac * pr * ui).

Definition base_impact (s c i a : string) : result error num :=
  impact_from s (metric_weight "C" c) (metric_weight "I" i) (metric_weight "A" a).

Definition base_exploitability (s av ac pr ui : string) : result error num :=
  exploitability_from (metric_weight "AV" av) (metric_weight "AC" ac)
                      (getPrivilegesRequiredNumericValue pr s)
                      (metric_weight "UI" ui).

Definition base_score_from (s : string) (impact exploitability : num) : num :=
  if impact <=? lit 0 then lit 0
  else if String.eqb s "U"
       then roundUp (Math_min (impact + exploitability) (lit 10))
       else roundUp (Math_min (lit 1.08 * (impact + exploitability)) (lit 10)).

Definition base_score_of (metricsMap : list (string * string))
  : result error num :=
  r <- base_result_of metricsMap ;; Ok (score r).

Lemma base_score_by_values metricsMap (av ac pr ui s c i a : string) :
  JS.get metricsMap "AV" = Some av -> JS.get metricsMap "AC" = Some ac ->
  JS.get metricsMap "PR" = Some pr -> JS.get metricsMap "UI" = Some ui ->
  JS.get metricsMap "S" = Some s -> JS.get metricsMap "C" = Some c ->
  JS.get metricsMap "I" = Some i -> JS.get metricsMap "A" = Some a ->
  base_score_of metricsMap
  = (impact <- base_impact s c i a ;;
     exploitability <- base_exploitability s av ac pr ui ;;
     Ok (base_score_from s impact exploitability)).
Proof.
  intros Hav Hac Hpr Hui Hs Hc Hi Ha.
  unfold base_score_of, base_result_of, calculateIss, calculateExploitability,
    base_impact, base_exploitability, impact_from, exploitability_from.
  change BaseMetric.CONFIDENTIALITY with "C".
  change BaseMetric.INTEGRITY with "I".
  change BaseMetric.AVAILABILITY with "A".
  change BaseMetric.ATTACK_VECTOR with "AV".
  change BaseMetric.ATTACK_COMPLEXITY with "AC".
  change BaseMetric.USER_INTERACTION with "UI".
  change BaseMetric.SCOPE with "S".
  rewrite (getMetricNumericValue_metric_weight _ "C" c eq_refl eq_refl Hc).
  rewrite (getMetricNumericValue_metric_weight _ "I" i eq_refl eq_refl Hi).
  rewrite (getMetricNumericValue_metric_weight _ "A" a eq_refl eq_refl Ha).
  rewrite (getMetricNumericValue_metric_weight _ "AV" av eq_refl eq_refl Hav).
  rewrite (getMetricNumericValue_metric_weight _ "AC" ac eq_refl eq_refl Hac).
  rewrite (getMetricNumericValue_metric_weight _ "UI" ui eq_refl eq_refl Hui).
  rewrite (getMetricNumericValue_PR _ _ _ Hpr Hs).
  destruct (metric_weight "C" c); [|reflexivity].
  destruct (metric_weight "I" i); [|reflexivity].
  destruct (metric_weight "A" a); [|reflexivity].
  cbn [bind].
  destruct (metric_weight "AV" av); [|reflexivity].
  destruct (metric_weight "AC" ac); [|reflexivity].
  destruct (getPrivilegesRequiredNumericValue pr s); [|reflexivity].
  destruct (metric_weight "UI" ui); [|reflexivity].
  cbn [bind score]. unfold calculateImpact, base_score_from.
  change BaseMetric.SCOPE with "S". rewrite Hs. reflexivity.
Qed.

Lemma calculateBaseScore_v3 (cvssString : string) (v : ValidationResult) :
  detectCvssVersion cvssString = Ok "3.1" ->
  validate cvssString = Ok v ->
  calculateBaseScore cvssString = base_score_of (metricsMap v).
Proof.
  intros Hd Hv. unfold calculateBaseScore. rewrite Hd. cbn [bind].
  change (String.eqb "3.1" "4.0") with false.
  change (String.eqb "3.1" "3.1") with true. cbv iota.
  rewrite calculateBaseResult_of, Hv. reflexivity.
Qed.

(** The temporal score from the base score and the values of the temporal
    metrics. *)
Definition temporal_from (base : num) (rc e rl : result error num)
  : result error num :=
  rc <- rc ;; e <- e ;; rl <- rl ;; Ok (roundUp (base * rc * e * rl)).

Definition temporal_score_from (base : num) (rc e rl : string)
  : result error num :=
  temporal_from base (metric_weight "RC" rc) (metric_weight "E" e)
                (metric_weight "RL" rl).

Lemma calculateTemporalScore_by_values (cvssString : string)
  (v : ValidationResult) (rc e rl : string) :
  validate cvssString = Ok v ->
  JS.get (populateTemporalMetricDefaults (metricsMap v)) "RC" = Some rc ->
  JS.get (populateTemporalMetricDefaults (metricsMap v)) "E" = Some e ->
  JS.get (populateTemporalMetricDefaults (metricsMap v)) "RL" = Some rl ->
  calculateTemporalScore cvssString
  = (base <- base_score_of (metricsMap v) ;; temporal_score_from base rc e rl).
Proof.
  intros Hv Hrc He Hrl.
  unfold calculateTemporalScore, calculateTemporalResult, base_score_of,
    temporal_score_from, temporal_from.
  rewrite calculateBaseResult_of, Hv. cbn [bind].
  destruct (base_result_of (metricsMap v)) as [r|]; [|reflexivity].
  cbn [bind].
  change TemporalMetric.REPORT_CONFIDENCE with "RC".
  change TemporalMetric.EXPLOIT_CODE_MATURITY with "E".
  change TemporalMetric.REMEDIATION_LEVEL with "RL".
  rewrite (getMetricNumericValue_metric_weight _ "RC" rc eq_refl eq_refl Hrc).
  rewrite (getMetricNumericValue_metric_weight _ "E" e eq_refl eq_refl He).
  rewrite (getMetricNumericValue_metric_weight _ "RL" rl eq_refl eq_refl Hrl).
  destruct (metric_weight "RC" rc); [|reflexivity].
  destruct (metric_weight "E" e); [|reflexivity].
  destruct (metric_weight "RL" rl); [|reflexivity].
  reflexivity.
Qed.

End WeightsAnyNumber.

(** The binary64 score is the double nearest to the exact score, a multiple
    of 0.1 between 0 and 10. *)
Definition same_score (exact : Exact.num) (binary64 : Float64.num) : bool :=
  match exact with
  | Some q =>
      let k := Qfloor (q * 10) in
      num_eqb exact (lit (inject_Z k / 10)) && Z.leb 0 k && Z.leb k 100
      && PrimFloat.Leibniz.eqb binary64 (lit (inject_Z k / 10))
  | None => false
  end.

Lemma same_score_spec (exact : Exact.num) (binary64 : Float64.num) :
  same_score exact binary64 = true ->
  exists k, (0 <= k <= 100)%Z
    /\ exact = lit (inject_Z k / 10) /\ binary64 = lit (inject_Z k / 10).
Proof.
  unfold same_score. destruct exact as [q|]; [|discriminate]. cbv zeta.
  set (k := Qfloor (q * 10)). intros Hr.
  rewrite !andb_true_iff in Hr. destruct Hr as (((He & H0) & H100) & Hb).
  apply num_eqb_eq in He. apply Z.leb_le in H0, H100.
  exists k. split; [lia|]. split; [exact He|].
  apply FloatAxioms.Leibniz.eqb_spec. exact Hb.
Qed.

(** The weights of the listed values of a metric, in both models. *)
Definition weights (metric : string) (values : list string)
  : list (result error Exact.num * result error Float64.num) :=
  map (fun value => (metric_weight metric value, metric_weight metric value))
      values.

Definition privileges_required_weights (s : string)
  : list (result error Exact.num * result error Float64.num) :=
  map (fun pr => (getPrivilegesRequiredNumericValue pr s,
                  getPrivilegesRequiredNumericValue pr s))
      ["N"; "L"; "H"].

Definition base_agrees (s : string) : bool :=
  let cs := weights "C" ["N"; "L"; "H"] in
  let is_ := weights "I" ["N"; "L"; "H"] in
  let as_ := weights "A" ["N"; "L"; "H"] in
  let avs := weights "AV" ["N"; "A"; "L"; "P"] in
  let acs := weights "AC" ["L"; "H"] in
  let prs := privileges_required_weights s in
  let uis := weights "UI" ["N"; "R"] in
  forallb (fun c => forallb (fun i => forallb (fun a =>
    match impact_from s (fst c) (fst i) (fst a),
          impact_from s (snd c) (snd i) (snd a) with
    | Ok impact, Ok impact64 =>
        forallb (fun av => forallb (fun ac => forallb (fun pr => forallb (fun ui =>
          match exploitability_from (fst av) (fst ac) (fst pr) (fst ui),
                exploitability_from (snd av) (snd ac) (snd pr) (snd ui) with
          | Ok exploitability, Ok exploitability64 =>
              same_score (base_score_from s impact exploitability)
                         (base_score_from s impact64 exploitability64)
          | _, _ => false
          end) uis) prs) acs) avs
    | _, _ => false
    end) as_) is_) cs.

Lemma base_agrees_all : forallb base_agrees ["U"; "C"] = true.
Proof. vm_compute. reflexivity. Qed.

Definition temporal_agrees
  (rcs es rls : list (result error Exact.num * result error Float64.num))
  (k : Z) : bool :=
  forallb (fun rc => forallb (fun e => forallb (fun rl =>
    match temporal_from (lit (inject_Z k / 10)) (fst rc) (fst e) (fst rl),
          temporal_from (lit (inject_Z k / 10)) (snd rc) (snd e) (snd rl) with
    | Ok score, Ok score64 => same_score score score64
    | _, _ => false
    end) rls) es) rcs.

Lemma temporal_agrees_all :
  forallb (temporal_agrees (weights "RC" ["X"; "C"; "R"; "U"])
                           (weights "E" ["X"; "H"; "F"; "P"; "U"])
                           (weights "RL" ["X"; "U"; "W"; "T"; "O"]))
          (map Z.of_nat (seq 0 101)) = true.
Proof. vm_compute. reflexivity. Qed.

Lemma In_tenths (k : Z) :
  (0 <= k <= 100)%Z -> In k (map Z.of_nat (seq 0 101)).
Proof.
  intros Hk. apply in_map_iff. exists (Z.to_nat k).
  split; [lia|]. apply in_seq. lia.
Qed.

Lemma base_value metricsMap metric values :
  base_ok metricsMap ->
  In metric baseMetrics ->
  JS.get allKnownMetricsValues metric = Some values ->
  exists value, JS.get metricsMap metric = Some value /\ In value values.
Proof.
  intros Hok Hin Hvalues. destruct (Hok metric Hin) as (value & Hget & Ha).
  exists value. split; [exact Hget|].
  destruct (allowed_value_In _ _ Ha) as (allowed & Hg & Hi). congruence.
Qed.

Lemma temporal_value metricsMap metric values :
  allowed_map metricsMap ->
  In metric temporalMetrics ->
  JS.get allKnownMetricsValues metric = Some values ->
  exists value,
    JS.get (populateTemporalMetricDefaults metricsMap) metric = Some value
    /\ In value values.
Proof.
  intros Hall Hin Hvalues. rewrite get_populateTemporalMetricDefaults.
  assert (Hinc : JS.arr_includes temporalMetrics metric = true)
    by (apply arr_includes_In; exact Hin).
  rewrite Hinc.
  assert (Hex : exists value,
             match JS.get metricsMap metric with
             | Some v => Some v
             | None => Some "X"
             end = Some value /\ allowed_value metric value = true).
  { destruct (JS.get metricsMap metric) as [v|] eqn:Hm.
    - exists v. split; [reflexivity|]. apply (Hall metric v); [|exact Hm].
      unfold allKnownMetrics. apply in_or_app. right. apply in_or_app. left.
      exact Hin.
    - exists "X". split; [reflexivity|]. simpl in Hin.
      repeat (destruct Hin as [<-|Hin]; [reflexivity|]). destruct Hin. }
  destruct Hex as (value & Hv & Ha). exists value. split; [exact Hv|].
  destruct (allowed_value_In _ _ Ha) as (allowed & Hg & Hi). congruence.
Qed.

Lemma base_agrees_spec (s c i a av ac pr ui : string) :
  In s ["U"; "C"] -> In c ["N"; "L"; "H"] -> In i ["N"; "L"; "H"] ->
  In a ["N"; "L"; "H"] -> In av ["N"; "A"; "L"; "P"] -> In ac ["L"; "H"] ->
  In pr ["N"; "L"; "H"] -> In ui ["N"; "R"] ->
  match base_impact (num := Exact.num) s c i a,
        base_impact (num := Float64.num) s c i a,
        base_exploitability (num := Exact.num) s av ac pr ui,
        base_exploitability (num := Float64.num) s av ac pr ui with
  | Ok impact, Ok impact64, Ok exploitability, Ok exploitability64 =>
      same_score (base_score_from s impact exploitability)
                 (base_score_from s impact64 exploitability64) = true
  | _, _, _, _ => False
  end.
Proof.
  intros Is Ic Ii Ia Iav Iac Ipr Iui.
  pose proof base_agrees_all as Hb. rewrite forallb_forall in Hb.
  specialize (Hb _ Is). unfold base_agrees in Hb. cbv zeta in Hb.
  unfold weights, privileges_required_weights in Hb.
  rewrite forallb_forall in Hb.
  specialize (Hb _ (in_map (fun value => (metric_weight "C" value,
                                          metric_weight "C" value)) _ _ Ic)).
  rewrite forallb_forall in Hb.
  specialize (Hb _ (in_map (fun value => (metric_weight "I" value,
                                          metric_weight "I" value)) _ _ Ii)).
  rewrite forallb_forall in Hb.
  specialize (Hb _ (in_map (fun value => (metric_weight "A" value,
                                          metric_weight "A" value)) _ _ Ia)).
  cbn [fst snd] in Hb.
  unfold base_impact, base_exploitability.
  destruct (impact_from (num := Exact.num) s (metric_weight "C" c)
              (metric_weight "I" i) (metric_weight "A" a)) as [impact|];
    [|discriminate].
  destruct (impact_from (num := Float64.num) s (metric_weight "C" c)
              (metric_weight "I" i) (metric_weight "A" a)) as [impact64|];
    [|discriminate].
  rewrite forallb_forall in Hb.
  specialize (Hb _ (in_map (fun value => (metric_weight "AV" value,
                                          metric_weight "AV" value)) _ _ Iav)).
  rewrite forallb_forall in Hb.
  specialize (Hb _ (in_map (fun value => (metric_weight "AC" value,
                                          metric_weight "AC" value)) _ _ Iac)).
  rewrite forallb_forall in Hb.
  specialize (Hb _ (in_map (fun value =>
                              (getPrivilegesRequiredNumericValue value s,
                               getPrivilegesRequiredNumericValue value s))
                           _ _ Ipr)).
  rewrite forallb_forall in Hb.
  specialize (Hb _ (in_map (fun value => (metric_weight "UI" value,
                                          metric_weight "UI" value)) _ _ Iui)).
  cbn [fst snd] in Hb.
  destruct (exploitability_from (num := Exact.num) (metric_weight "AV" av)
              (metric_weight "AC" ac) (getPrivilegesRequiredNumericValue pr s)
              (metric_weight "UI" ui)) as [exploitability|]; [|discriminate].
  destruct (exploitability_from (num := Float64.num) (metric_weight "AV" av)
              (metric_weight "AC" ac) (getPrivilegesRequiredNumericValue pr s)
              (metric_weight "UI" ui)) as [exploitability64|]; [|discriminate].
  exact Hb.
Qed.

Lemma In_weights (metric : string) (values : list string) (value : string) :
  In value values ->
  In (metric_weight metric value, metric_weight metric value)
     (weights metric values).
Proof.
  intros Hin. unfold weights.
  exact (in_map (fun value => (metric_weight metric value,
                               metric_weight metric value)) _ _ Hin).
Qed.

Lemma temporal_agrees_In
  (rcs es rls : list (result error Exact.num * result error Float64.num))
  (k : Z) (rc e rl : result error Exact.num * result error Float64.num) :
  temporal_agrees rcs es rls k = true ->
  In rc rcs -> In e es -> In rl rls ->
  match temporal_from (lit (inject_Z k / 10)) (fst rc) (fst e) (fst rl),
        temporal_from (lit (inject_Z k / 10)) (snd rc) (snd e) (snd rl) with
  | Ok score, Ok score64 => same_score score score64 = true
  | _, _ => False
  end.
Proof.
  intros Ht Irc Ie Irl. unfold temporal_agrees in Ht.
  rewrite forallb_forall in Ht. specialize (Ht _ Irc).
  rewrite forallb_forall in Ht. specialize (Ht _ Ie).
  rewrite forallb_forall in Ht. specialize (Ht _ Irl).
  destruct (temporal_from (lit (inject_Z k / 10)) (fst rc) (fst e) (fst rl));
    [|discriminate].
  destruct (temporal_from (lit (inject_Z k / 10)) (snd rc) (snd e) (snd rl));
    [|discriminate].
  exact Ht.
Qed.

Lemma temporal_agrees_spec (base : Z) (rc e rl : string) :
  (0 <= base <= 100)%Z ->
  In rc ["X"; "C"; "R"; "U"] -> In e ["X"; "H"; "F"; "P"; "U"] ->
  In rl ["X"; "U"; "W"; "T"; "O"] ->
  match temporal_score_from (num := Exact.num) (lit (inject_Z base / 10)) rc e rl,
        temporal_score_from (num := Float64.num) (lit (inject_Z base / 10)) rc e rl
  with
  | Ok score, Ok score64 => same_score score score64 = true
  | _, _ => False
  end.
Proof.
  intros Hbase Irc Ie Irl.
  pose proof temporal_agrees_all as Ht.
  rewrite forallb_forall in Ht. specialize (Ht _ (In_tenths _ Hbase)).
  exact (temporal_agrees_In _ _ _ _ _ _ _ Ht
           (In_weights "RC" _ _ Irc) (In_weights "E" _ _ Ie)
           (In_weights "RL" _ _ Irl)).
Qed.

(** The base and temporal scores of a well-formed v3.x vector in both
    models. *)
Lemma base_temporal_scores_both (cvssStr : string) :
  wellFormedV3 cvssStr = true ->
  exists base temporal,
    (0 <= base <= 100)%Z /\ (0 <= temporal <= 100)%Z
    /\ calculateBaseScore (num := Exact.num) cvssStr
       = Ok (lit (inject_Z base / 10))
    /\ calculateBaseScore (num := Float64.num) cvssStr
       = Ok (lit (inject_Z base / 10))
    /\ calculateTemporalScore (num := Exact.num) cvssStr
       = Ok (lit (inject_Z temporal / 10))
    /\ calculateTemporalScore (num := Float64.num) cvssStr
       = Ok (lit (inject_Z temporal / 10)).
Proof.
  intros Hw. destruct (wellFormedV3_inv _ Hw) as (Hd & v & Hv & _ & _).
  destruct (wellFormedV3_base_ok _ _ Hw Hv) as (Hok & Hall).
  destruct (base_value _ "AV" _ Hok ltac:(unfold baseMetrics; simpl; tauto) eq_refl)
    as (av & Gav & Iav).
  destruct (base_value _ "AC" _ Hok ltac:(unfold baseMetrics; simpl; tauto) eq_refl)
    as (ac & Gac & Iac).
  destruct (base_value _ "PR" _ Hok ltac:(unfold baseMetrics; simpl; tauto) eq_refl)
    as (pr & Gpr & Ipr).
  destruct (base_value _ "UI" _ Hok ltac:(unfold baseMetrics; simpl; tauto) eq_refl)
    as (ui & Gui & Iui).
  destruct (base_value _ "S" _ Hok ltac:(unfold baseMetrics; simpl; tauto) eq_refl)
    as (s & Gs & Is).
  destruct (base_value _ "C" _ Hok ltac:(unfold baseMetrics; simpl; tauto) eq_refl)
    as (c & Gc & Ic).
  destruct (base_value _ "I" _ Hok ltac:(unfold baseMetrics; simpl; tauto) eq_refl)
    as (i & Gi & Ii).
  destruct (base_value _ "A" _ Hok ltac:(unfold baseMetrics; simpl; tauto) eq_refl)
    as (a & Ga & Ia).
  destruct (temporal_value _ "RC" _ Hall ltac:(simpl; tauto) eq_refl)
    as (rc & Grc & Irc).
  destruct (temporal_value _ "E" _ Hall ltac:(simpl; tauto) eq_refl)
    as (e & Ge & Ie).
  destruct (temporal_value _ "RL" _ Hall ltac:(simpl; tauto) eq_refl)
    as (rl & Grl & Irl).
  rewrite (calculateBaseScore_v3 (num := Exact.num) _ _ Hd Hv).
  rewrite (calculateBaseScore_v3 (num := Float64.num) _ _ Hd Hv).
  rewrite (calculateTemporalScore_by_values (num := Exact.num) _ _ _ _ _
             Hv Grc Ge Grl).
  rewrite (calculateTemporalScore_by_values (num := Float64.num) _ _ _ _ _
             Hv Grc Ge Grl).
  rewrite (base_score_by_values (num := Exact.num) _ _ _ _ _ _ _ _ _
             Gav Gac Gpr Gui Gs Gc Gi Ga).
  rewrite (base_score_by_values (num := Float64.num) _ _ _ _ _ _ _ _ _
             Gav Gac Gpr Gui Gs Gc Gi Ga).
  pose proof (base_agrees_spec s c i a av ac pr ui Is Ic Ii Ia Iav Iac Ipr Iui)
    as Hb.
  destruct (base_impact (num := Exact.num) s c i a) as [impact|]; [|destruct Hb].
  destruct (base_impact (num := Float64.num) s c i a) as [impact64|];
    [|destruct Hb].
  destruct (base_exploitability (num := Exact.num) s av ac pr ui)
    as [exploitability|]; [|destruct Hb].
  destruct (base_exploitability (num := Float64.num) s av ac pr ui)
    as [exploitability64|]; [|destruct Hb].
  cbn [bind].
  destruct (same_score_spec _ _ Hb) as (base & Hbase & Eb & Eb64).
  rewrite Eb, Eb64.
  pose proof (temporal_agrees_spec base rc e rl Hbase Irc Ie Irl) as Ht.
  destruct (temporal_score_from (num := Exact.num) (lit (inject_Z base / 10))
                                rc e rl) as [score|]; [|destruct Ht].
  destruct (temporal_score_from (num := Float64.num) (lit (inject_Z base / 10))
                                rc e rl) as [score64|]; [|destruct Ht].
  destruct (same_score_spec _ _ Ht) as (temporal & Htemporal & Et & Et64).
  rewrite Et, Et64.
  exists base, temporal.
  split; [exact Hbase|]. split; [exact Htemporal|].
  split; [reflexivity|]. split; [reflexivity|]. split; reflexivity.
Qed.

(** X18 (binary64 against exact arithmetic, v3.x).  For every well-formed
    v3.x vector, the base score and the temporal score that the program
    computes in binary64 are the doubles nearest to the scores of exact
    arithmetic, which are multiples of 0.1 between 0 and 10: the rounding
    errors of binary64 are absorbed by [roundUp].  [Math.pow], which the
    impact of a changed scope uses, is taken as the iterated product. *)
Theorem v3_scores_binary64 (cvssStr : string) :
  wellFormedV3 cvssStr = true ->
  exists base temporal,
    (0 <= base <= 100)%Z /\ (0 <= temporal <= 100)%Z
    /\ calculateBaseScore (num := Exact.num) cvssStr
       = Ok (lit (inject_Z base / 10))
    /\ calculateBaseScore (num := Float64.num) cvssStr
       = Ok (lit (inject_Z base / 10))
    /\ calculateTemporalScore (num := Exact.num) cvssStr
       = Ok (lit (inject_Z temporal / 10))
    /\ calculateTemporalScore (num := Float64.num) cvssStr
       = Ok (lit (inject_Z temporal / 10)).
Proof. exact (base_temporal_scores_both cvssStr). Qed.

Definition vector_v31_scope_changed : string :=
  "CVSS:3.1/AV:A/AC:H/PR:L/UI:R/S:C/C:H/I:L/A:N/E:P/RL:W/RC:R".

Lemma v3_scores_binary64_witness :
  wellFormedV3 vector_v31_scope_changed = true
  /\ calculateBaseScore (num := Float64.num) vector_v31_scope_changed
     = Ok (lit 6.2)
  /\ calculateTemporalScore (num := Float64.num) vector_v31_scope_changed
     = Ok (lit 5.5)
  /\ exists base temporal,
       (0 <= base <= 100)%Z /\ (0 <= temporal <= 100)%Z
       /\ calculateBaseScore (num := Exact.num) vector_v31_scope_changed
          = Ok (lit (inject_Z base / 10))
       /\ calculateBaseScore (num := Float64.num) vector_v31_scope_changed
          = Ok (lit (inject_Z base / 10))
       /\ calculateTemporalScore (num := Exact.num) vector_v31_scope_changed
          = Ok (lit (inject_Z temporal / 10))
       /\ calculateTemporalScore (num := Float64.num) vector_v31_scope_changed
          = Ok (lit (inject_Z temporal / 10)).
Proof.
  split; [vm_compute; reflexivity|].
  split; [vm_compute; reflexivity|].
  split; [vm_compute; reflexivity|].
  apply (v3_scores_binary64 vector_v31_scope_changed).
  vm_compute. reflexivity.
Defined.

(* ===================================================================== *)
(** * Binary64 against exact arithmetic: the v3.x environmental score *)

Section EnvironmentalAnyNumber.

Context {num : Type} `{JSNumber num}.

Local Open Scope js_scope.

(** The modified impact subscore input MISS from the weights of the
    requirements and of the modified impact metrics. *)
Definition miss_from (cr mc ir mi ar ma : result error num)
  : result error num :=
  rConfidentiality <- cr ;;
  mConfidentiality <- mc ;;
  rIntegrity <- ir ;;
  mIntegrity <- mi ;;
  rAvailability <- ar ;;
  mAvailability <- ma ;;
  Ok (Math_min
        (lit 1 - (lit 1 - rConfidentiality * mConfidentiality)
                 * (lit 1 - rIntegrity * mIntegrity)
                 * (lit 1 - rAvailability * mAvailability))
        (lit 0.915)).

Definition modified_miss (cr mc ir mi ar ma : string) : result error num :=
  miss_from (metric_weight "CR" cr) (metric_weight "MC" mc)
            (metric_weight "IR" ir) (metric_weight "MI" mi)
            (metric_weight "AR" ar) (metric_weight "MA" ma).

Definition modified_exploitability (ms mav mac mpr mui : string)
  : result error num :=
  exploitability_from (metric_weight "MAV" mav) (metric_weight "MAC" mac)
                      (getPrivilegesRequiredNumericValue mpr ms)
                      (metric_weight "MUI" mui).

(** The environmental score from the impact, the exploitability and the
    weights of the temporal metrics. *)
Definition environmental_from (ms : string) (impact exploitability : num)
  (e rl rc : result error num) : result error num :=
  if impact <=? lit 0 then Ok (lit 0)
  else temporal_from (base_score_from ms impact exploitability) e rl rc.

Lemma calculateModifiedImpact_by_value metricsMap (ms : string) (miss : num)
  (versionStr : option string) :
  JS.get metricsMap "MS" = Some ms ->
  calculateModifiedImpact metricsMap miss versionStr
  = calculateModifiedImpact [("MS", ms)] miss versionStr.
Proof.
  intros Hms. unfold calculateModifiedImpact.
  change EnvironmentalMetric.MODIFIED_SCOPE with "MS". rewrite Hms.
  reflexivity.
Qed.

(** Only the comparison of the version string with 3.0 matters. *)
Lemma calculateModifiedImpact_version metricsMap (miss : num)
  (versionStr : option string) :
  calculateModifiedImpact metricsMap miss versionStr
  = calculateModifiedImpact metricsMap miss
      (if JS.eqs versionStr "3.0" then Some "3.0" else Some "3.1").
Proof.
  unfold calculateModifiedImpact.
  destruct (JS.eqs versionStr "3.0"); reflexivity.
Qed.

Lemma calculateEnvironmentalScore_by_values (cvssString : string)
  (v : ValidationResult)
  (cr mc ir mi ar ma mav mac mpr mui ms e rl rc : string) :
  validate cvssString = Ok v ->
  let metricsMap :=
    populateEnvironmentalMetricDefaults
      (populateTemporalMetricDefaults (metricsMap v)) in
  JS.get metricsMap "CR" = Some cr -> JS.get metricsMap "MC" = Some mc ->
  JS.get metricsMap "IR" = Some ir -> JS.get metricsMap "MI" = Some mi ->
  JS.get metricsMap "AR" = Some ar -> JS.get metricsMap "MA" = Some ma ->
  JS.get metricsMap "MAV" = Some mav -> JS.get metricsMap "MAC" = Some mac ->
  JS.get metricsMap "MPR" = Some mpr -> JS.get metricsMap "MUI" = Some mui ->
  JS.get metricsMap "MS" = Some ms ->
  JS.get metricsMap "E" = Some e -> JS.get metricsMap "RL" = Some rl ->
  JS.get metricsMap "RC" = Some rc ->
  calculateEnvironmentalScore cvssString
  = (miss <- modified_miss cr mc ir mi ar ma ;;
     exploitability <- modified_exploitability ms mav mac mpr mui ;;
     environmental_from ms
       (calculateModifiedImpact [("MS", ms)] miss (versionStr v))
       exploitability
       (metric_weight "E" e) (metric_weight "RL" rl) (metric_weight "RC" rc)).
Proof.
  intros Hv metricsMap Hcr Hmc Hir Hmi Har Hma Hmav Hmac Hmpr Hmui Hms He Hrl Hrc.
  unfold calculateEnvironmentalScore, calculateEnvironmentalResult.
  rewrite Hv. cbn [bind]. fold metricsMap.
  unfold calculateMiss, calculateModifiedExploitability, modified_miss,
    modified_exploitability, miss_from, exploitability_from.
  change EnvironmentalMetric.CONFIDENTIALITY_REQUIREMENT with "CR".
  change EnvironmentalMetric.INTEGRITY_REQUIREMENT with "IR".
  change EnvironmentalMetric.AVAILABILITY_REQUIREMENT with "AR".
  change EnvironmentalMetric.MODIFIED_CONFIDENTIALITY with "MC".
  change EnvironmentalMetric.MODIFIED_INTEGRITY with "MI".
  change EnvironmentalMetric.MODIFIED_AVAILABILITY with "MA".
  change EnvironmentalMetric.MODIFIED_ATTACK_VECTOR with "MAV".
  change EnvironmentalMetric.MODIFIED_ATTACK_COMPLEXITY with "MAC".
  change EnvironmentalMetric.MODIFIED_PRIVILEGES_REQUIRED with "MPR".
  change EnvironmentalMetric.MODIFIED_USER_INTERACTION with "MUI".
  change EnvironmentalMetric.MODIFIED_SCOPE with "MS".
  change TemporalMetric.EXPLOIT_CODE_MATURITY with "E".
  change TemporalMetric.REMEDIATION_LEVEL with "RL".
  change TemporalMetric.REPORT_CONFIDENCE with "RC".
  rewrite (getMetricNumericValue_metric_weight _ "CR" cr eq_refl eq_refl Hcr).
  rewrite (getMetricNumericValue_metric_weight _ "MC" mc eq_refl eq_refl Hmc).
  rewrite (getMetricNumericValue_metric_weight _ "IR" ir eq_refl eq_refl Hir).
  rewrite (getMetricNumericValue_metric_weight _ "MI" mi eq_refl eq_refl Hmi).
  rewrite (getMetricNumericValue_metric_weight _ "AR" ar eq_refl eq_refl Har).
  rewrite (getMetricNumericValue_metric_weight _ "MA" ma eq_refl eq_refl Hma).
  rewrite (getMetricNumericValue_metric_weight _ "MAV" mav eq_refl eq_refl Hmav).
  rewrite (getMetricNumericValue_metric_weight _ "MAC" mac eq_refl eq_refl Hmac).
  rewrite (getMetricNumericValue_metric_weight _ "MUI" mui eq_refl eq_refl Hmui).
  rewrite (getMetricNumericValue_metric_weight _ "E" e eq_refl eq_refl He).
  rewrite (getMetricNumericValue_metric_weight _ "RL" rl eq_refl eq_refl Hrl).
  rewrite (getMetricNumericValue_metric_weight _ "RC" rc eq_refl eq_refl Hrc).
  rewrite (getMetricNumericValue_MPR _ _ _ Hmpr Hms).
  destruct (metric_weight "CR" cr); [|reflexivity].
  destruct (metric_weight "MC" mc); [|reflexivity].
  destruct (metric_weight "IR" ir); [|reflexivity].
  destruct (metric_weight "MI" mi); [|reflexivity].
  destruct (metric_weight "AR" ar); [|reflexivity].
  destruct (metric_weight "MA" ma); [|reflexivity].
  cbn [bind].
  destruct (metric_weight "MAV" mav); [|reflexivity].
  destruct (metric_weight "MAC" mac); [|reflexivity].
  destruct (getPrivilegesRequiredNumericValue mpr ms); [|reflexivity].
  destruct (metric_weight "MUI" mui); [|reflexivity].
  cbn [bind].
  rewrite (calculateModifiedImpact_by_value metricsMap ms _ _ Hms).
  unfold environmental_from, temporal_from, base_score_from.
  destruct (le _ (lit 0)) eqn:Hle; [reflexivity|].
  destruct (metric_weight "E" e); [|reflexivity].
  destruct (metric_weight "RL" rl); [|reflexivity].
  destruct (metric_weight "RC" rc); [|reflexivity].
  cbn [bind score]. rewrite Hms. cbn [JS.eqs].
  destruct (String.eqb ms "U"); reflexivity.
Qed.

End EnvironmentalAnyNumber.

(** ** The exact score between two nearby impacts *)

Module BracketFacts.

Import ExactFacts OrderFacts.
Local Open Scope Q_scope.

(** The score before the temporal weights, as a function of the impact. *)
Definition scaled (ms : string) (x : Q) : Q :=
  if String.eqb ms "U" then x else 1.08 * x.

Definition capped (x : Q) : Q := if Qle_bool x 10 then x else 10.

Definition score_of_impact (ms : string) (e x : Q) : Q :=
  roundup_spec (capped (scaled ms (x + e))).

Lemma capped_mono (p q : Q) : p <= q -> capped p <= capped q.
Proof.
  intros Hpq. unfold capped.
  destruct (Qle_bool p 10) eqn:Hp, (Qle_bool q 10) eqn:Hq.
  - exact Hpq.
  - apply Qle_bool_imp_le. exact Hp.
  - exfalso. apply Qle_bool_imp_le in Hq.
    assert (Hle : p <= 10) by lra. apply Qle_bool_iff in Hle. congruence.
  - apply Qle_refl.
Qed.

Lemma capped_comp (p q : Q) : p == q -> capped p == capped q.
Proof.
  intros Hpq. apply Qle_antisym; apply capped_mono; rewrite Hpq; apply Qle_refl.
Qed.

Lemma score_of_impact_mono (ms : string) (e p q : Q) :
  p <= q -> score_of_impact ms e p <= score_of_impact ms e q.
Proof.
  intros Hpq. unfold score_of_impact. apply roundup_spec_mono, capped_mono.
  unfold scaled. destruct (String.eqb ms "U"); lra.
Qed.

Lemma Math_min_capped (q : Q) :
  Math_min (num := Exact.num) (Some q) (lit 10) = Some (capped q).
Proof.
  unfold Math_min, capped.
  cbn [isNaN Exact.exact_number orb lit lt Exact.cmp2].
  change (Qred 10) with 10. unfold Exact.Qltb.
  destruct (Qle_bool q 10); reflexivity.
Qed.

Lemma base_score_from_exact (ms : string) (x e : Q) :
  base_score_from (num := Exact.num) ms (Some x) (Some e)
  = if Qle_bool x 0 then Some 0
    else Some (Qred (score_of_impact ms e x)).
Proof.
  unfold base_score_from.
  cbn [le lit Exact.exact_number Exact.cmp2]. change (Qred 0) with 0.
  destruct (Qle_bool x 0); [reflexivity|].
  unfold score_of_impact, scaled.
  destruct (String.eqb ms "U").
  - cbn [add Exact.exact_number Exact.lift2].
    rewrite Math_min_capped, roundUp_spec. f_equal. apply Qred_complete.
    rewrite (RangeFacts.roundup_spec_comp (capped (Qred (x + e)))
                                          (capped (x + e)));
      [reflexivity|].
    apply capped_comp. apply Qred_correct.
  - cbn [add mul lit Exact.exact_number Exact.lift2].
    rewrite Math_min_capped, roundUp_spec. f_equal. apply Qred_complete.
    rewrite (RangeFacts.roundup_spec_comp
               (capped (Qred (Qred 1.08 * Qred (x + e))))
               (capped (1.08 * (x + e))));
      [reflexivity|].
    apply capped_comp. rewrite !Qred_correct. reflexivity.
Qed.

(** The score in tenths. *)
Definition tenths_of_impact (ms : string) (e x : Q) : Z :=
  tenths (Qfloor (capped (scaled ms (x + e)) * 100000 + (1 # 2))).

Lemma score_of_impact_tenths (ms : string) (e x : Q) :
  score_of_impact ms e x == inject_Z (tenths_of_impact ms e x) / 10.
Proof. apply roundup_spec_tenths. Qed.

Lemma tenths_of_impact_mono (ms : string) (e p q : Q) :
  p <= q -> (tenths_of_impact ms e p <= tenths_of_impact ms e q)%Z.
Proof.
  intros Hpq. pose proof (score_of_impact_mono ms e p q Hpq) as Hs.
  rewrite !score_of_impact_tenths in Hs.
  rewrite Zle_Qle. unfold Qdiv in Hs.
  exact (proj1 (Qmult_le_r _ _ (/ 10) eq_refl) Hs).
Qed.

(** The score is a monotone step function of the impact: a positive impact
    between two impacts of the same score has that score. *)
Lemma base_score_from_tenths (ms : string) (lo x hi e : Q) (k : Z) :
  lo <= x -> x <= hi -> Qle_bool x 0 = false ->
  tenths_of_impact ms e lo = k -> tenths_of_impact ms e hi = k ->
  base_score_from (num := Exact.num) ms (Some x) (Some e)
  = lit (inject_Z k / 10).
Proof.
  intros Hlo Hhi Hx Hl Hh. rewrite base_score_from_exact, Hx.
  cbn [lit Exact.exact_number]. f_equal. apply Qred_complete.
  rewrite score_of_impact_tenths.
  assert (Hk : tenths_of_impact ms e x = k).
  { pose proof (tenths_of_impact_mono ms e lo x Hlo).
    pose proof (tenths_of_impact_mono ms e x hi Hhi). lia. }
  rewrite Hk. reflexivity.
Qed.

End BracketFacts.

(** ** The modified subscores in both models *)

(** The numbers of two results that are both returned. *)
Definition both_numbers (exact : result error Exact.num)
  (binary64 : result error Float64.num) : option (Exact.num * Float64.num) :=
  match exact, binary64 with
  | Ok x, Ok y => Some (x, y)
  | _, _ => None
  end.

Definition requirement_values : list string := ["X"; "H"; "M"; "L"].
Definition impact_values : list string := ["N"; "L"; "H"].

Definition miss_pairs : list (option (Exact.num * Float64.num)) :=
  flat_map (fun cr => flat_map (fun mc => flat_map (fun ir =>
  flat_map (fun mi => flat_map (fun ar => map (fun ma =>
    both_numbers (modified_miss cr mc ir mi ar ma)
                 (modified_miss cr mc ir mi ar ma))
    impact_values) requirement_values) impact_values) requirement_values)
    impact_values) requirement_values.

Definition listed (pairs : list (option (Exact.num * Float64.num)))
  : list (Exact.num * Float64.num) :=
  distinct (flat_map (fun p => match p with Some x => [x] | None => [] end)
                     pairs).

(** The distinct values of MISS. *)
Definition modified_misses : list (Exact.num * Float64.num) :=
  Eval vm_compute in listed miss_pairs.

Definition exploitability_pairs (ms : string)
  : list (option (Exact.num * Float64.num)) :=
  flat_map (fun mav => flat_map (fun mac => flat_map (fun mpr => map (fun mui =>
    both_numbers (modified_exploitability ms mav mac mpr mui)
                 (modified_exploitability ms mav mac mpr mui))
    ["N"; "R"]) ["N"; "L"; "H"]) ["L"; "H"]) ["N"; "A"; "L"; "P"].

(** The distinct values of the modified exploitability, by Modified Scope. *)
Definition modified_exploitabilities_unchanged
  : list (Exact.num * Float64.num) :=
  Eval vm_compute in listed (exploitability_pairs "U").

Definition modified_exploitabilities_changed
  : list (Exact.num * Float64.num) :=
  Eval vm_compute in listed (exploitability_pairs "C").

Definition modified_exploitabilities (ms : string)
  : list (Exact.num * Float64.num) :=
  if String.eqb ms "U" then modified_exploitabilities_unchanged
  else modified_exploitabilities_changed.

Definition all_listed (pairs : list (option (Exact.num * Float64.num)))
  (l : list (Exact.num * Float64.num)) : bool :=
  forallb (fun p => match p with
                    | Some x => existsb (both_eqb x) l
                    | None => false
                    end) pairs.

Lemma all_listed_spec pairs l p :
  all_listed pairs l = true -> In p pairs ->
  exists x, p = Some x /\ In x l.
Proof.
  unfold all_listed. intros Ha Hin. rewrite forallb_forall in Ha.
  specialize (Ha _ Hin). destruct p as [x|]; [|discriminate].
  apply existsb_exists in Ha. destruct Ha as (y & Hy & Hb).
  apply both_eqb_eq in Hb. subst y. exists x. split; [reflexivity|exact Hy].
Qed.

Lemma misses_listed : all_listed miss_pairs modified_misses = true.
Proof. vm_compute. reflexivity. Qed.

Lemma exploitabilities_listed :
  forallb (fun ms => all_listed (exploitability_pairs ms)
                                (modified_exploitabilities ms))
          ["U"; "C"] = true.
Proof. vm_compute. reflexivity. Qed.

(** ** The score of the modified base metrics, in both models *)

Definition precision : positive := Eval vm_compute in (10 ^ 20)%positive.

(** The multiples of 10^-20 next to [q]. *)
Definition lower (q : Q) : Q := Qfloor (q * inject_Z (Zpos precision)) # precision.
Definition upper (q : Q) : Q := Qceiling (q * inject_Z (Zpos precision)) # precision.

Lemma lower_le (q : Q) : (lower q <= q)%Q.
Proof.
  unfold lower. pose proof (Qfloor_le (q * inject_Z (Zpos precision))) as Hf.
  set (n := Qfloor (q * inject_Z (Zpos precision))) in *.
  assert (Hn : (n # precision == inject_Z n / inject_Z (Zpos precision))%Q).
  { unfold Qeq, Qdiv, Qmult, Qinv, inject_Z. cbn [Qnum Qden]. lia. }
  rewrite Hn. apply Qle_shift_div_r; [reflexivity|exact Hf].
Qed.

Lemma le_upper (q : Q) : (q <= upper q)%Q.
Proof.
  unfold upper. pose proof (Qle_ceiling (q * inject_Z (Zpos precision))) as Hf.
  set (n := Qceiling (q * inject_Z (Zpos precision))) in *.
  assert (Hn : (n # precision == inject_Z n / inject_Z (Zpos precision))%Q).
  { unfold Qeq, Qdiv, Qmult, Qinv, inject_Z. cbn [Qnum Qden]. lia. }
  rewrite Hn. apply Qle_shift_div_l; [reflexivity|exact Hf].
Qed.

(** For one impact, in both models: the sign test agrees and, when the
    impact is positive, with every listed exploitability the exact score is
    the same k/10 at the two multiples of 10^-20 around the impact, and
    the binary64 score is the double nearest to k/10. *)
Definition modified_score_agrees (ms : string)
  (exploitabilities : list (Exact.num * Float64.num))
  (impact : Exact.num) (impact64 : Float64.num) : bool :=
  match impact with
  | Some x =>
      let lo := lower x in
      let hi := upper x in
      Bool.eqb (le impact64 (lit 0)) (Qle_bool x 0)
      && (Qle_bool x 0
          || forallb (fun e =>
               match fst e with
               | Some exploitability =>
                   let k := BracketFacts.tenths_of_impact ms exploitability lo in
                   Z.eqb (BracketFacts.tenths_of_impact ms exploitability hi) k
                   && Z.leb 0 k && Z.leb k 100
                   && PrimFloat.Leibniz.eqb
                        (base_score_from ms impact64 (snd e))
                        (lit (inject_Z k / 10))
               | None => false
               end) exploitabilities)
  | None => false
  end.

Definition modified_scores_agree
  (misses : list (Exact.num * Float64.num))
  (versionStr : option string) (ms : string) : bool :=
  forallb (fun miss =>
             modified_score_agrees ms (modified_exploitabilities ms)
               (calculateModifiedImpact [("MS", ms)] (fst miss) versionStr)
               (calculateModifiedImpact [("MS", ms)] (snd miss) versionStr))
          misses.

Lemma modified_scores_agree_all :
  forallb (fun versionStr =>
             forallb (modified_scores_agree modified_misses versionStr)
                     ["U"; "C"])
          [Some "3.0"; Some "3.1"] = true.
Proof. vm_compute. reflexivity. Qed.

(** The temporal weights applied to the score of the modified base metrics,
    in the order E, RL, RC. *)
Lemma environmental_temporal_agrees_all :
  forallb (temporal_agrees (weights "E" ["X"; "H"; "F"; "P"; "U"])
                           (weights "RL" ["X"; "U"; "W"; "T"; "O"])
                           (weights "RC" ["X"; "C"; "R"; "U"]))
          (map Z.of_nat (seq 0 101)) = true.
Proof. vm_compute. reflexivity. Qed.

Lemma both_numbers_some (exact : result error Exact.num)
  (binary64 : result error Float64.num) (x : Exact.num) (y : Float64.num) :
  both_numbers exact binary64 = Some (x, y) -> exact = Ok x /\ binary64 = Ok y.
Proof.
  destruct exact as [a|], binary64 as [b|]; try discriminate.
  intros [= -> ->]. split; reflexivity.
Qed.

Lemma miss_listed (cr mc ir mi ar ma : string) :
  In cr requirement_values -> In mc impact_values ->
  In ir requirement_values -> In mi impact_values ->
  In ar requirement_values -> In ma impact_values ->
  exists miss miss64,
    modified_miss (num := Exact.num) cr mc ir mi ar ma = Ok miss
    /\ modified_miss (num := Float64.num) cr mc ir mi ar ma = Ok miss64
    /\ In (miss, miss64) modified_misses.
Proof.
  intros Icr Imc Iir Imi Iar Ima.
  destruct (all_listed_spec _ _
              (both_numbers (modified_miss cr mc ir mi ar ma)
                            (modified_miss cr mc ir mi ar ma))
              misses_listed) as ([miss miss64] & Hb & Hin).
  { unfold miss_pairs.
    apply in_flat_map. exists cr. split; [exact Icr|].
    apply in_flat_map. exists mc. split; [exact Imc|].
    apply in_flat_map. exists ir. split; [exact Iir|].
    apply in_flat_map. exists mi. split; [exact Imi|].
    apply in_flat_map. exists ar. split; [exact Iar|].
    apply in_map_iff. exists ma. split; [reflexivity|exact Ima]. }
  destruct (both_numbers_some _ _ _ _ Hb) as (He & Hf).
  exists miss, miss64. auto.
Qed.

Lemma exploitability_listed (ms mav mac mpr mui : string) :
  In ms ["U"; "C"] -> In mav ["N"; "A"; "L"; "P"] -> In mac ["L"; "H"] ->
  In mpr ["N"; "L"; "H"] -> In mui ["N"; "R"] ->
  exists e e64,
    modified_exploitability (num := Exact.num) ms mav mac mpr mui = Ok e
    /\ modified_exploitability (num := Float64.num) ms mav mac mpr mui = Ok e64
    /\ In (e, e64) (modified_exploitabilities ms).
Proof.
  intros Ims Imav Imac Impr Imui.
  pose proof exploitabilities_listed as Hl. rewrite forallb_forall in Hl.
  specialize (Hl _ Ims).
  destruct (all_listed_spec _ _
              (both_numbers (modified_exploitability ms mav mac mpr mui)
                            (modified_exploitability ms mav mac mpr mui))
              Hl) as ([e e64] & Hb & Hin).
  { unfold exploitability_pairs.
    apply in_flat_map. exists mav. split; [exact Imav|].
    apply in_flat_map. exists mac. split; [exact Imac|].
    apply in_flat_map. exists mpr. split; [exact Impr|].
    apply in_map_iff. exists mui. split; [reflexivity|exact Imui]. }
  destruct (both_numbers_some _ _ _ _ Hb) as (He & Hf).
  exists e, e64. auto.
Qed.

Lemma modified_score_agrees_In (ms : string)
  (exploitabilities : list (Exact.num * Float64.num))
  (impact : Exact.num) (impact64 : Float64.num)
  (e : Exact.num) (e64 : Float64.num) :
  modified_score_agrees ms exploitabilities impact impact64 = true ->
  In (e, e64) exploitabilities ->
  (le impact (lit 0) = true /\ le impact64 (lit 0) = true)
  \/ (le impact (lit 0) = false /\ le impact64 (lit 0) = false
      /\ exists k, (0 <= k <= 100)%Z
           /\ base_score_from ms impact e = lit (inject_Z k / 10)
           /\ base_score_from ms impact64 e64 = lit (inject_Z k / 10)).
Proof.
  unfold modified_score_agrees. destruct impact as [x|]; [|discriminate].
  cbv zeta. intros Ha Hin. apply andb_prop in Ha. destruct Ha as [Hsign Ha].
  apply eqb_prop in Hsign.
  assert (Hle : le (num := Exact.num) (Some x) (lit 0) = Qle_bool x 0)
    by reflexivity.
  rewrite Hle, Hsign.
  destruct (Qle_bool x 0) eqn:Hx; [left; split; reflexivity|].
  right. split; [reflexivity|]. split; [reflexivity|].
  cbn [orb] in Ha. rewrite forallb_forall in Ha. specialize (Ha _ Hin).
  cbn [fst snd] in Ha. destruct e as [exploitability|]; [|discriminate].
  rewrite !andb_true_iff in Ha. destruct Ha as (((Hhi & H0) & H100) & Hf).
  apply Z.eqb_eq in Hhi. apply Z.leb_le in H0, H100.
  apply FloatAxioms.Leibniz.eqb_spec in Hf.
  exists (BracketFacts.tenths_of_impact ms exploitability (lower x)).
  split; [lia|]. split; [|exact Hf].
  exact (BracketFacts.base_score_from_tenths ms (lower x) x (upper x)
           exploitability _ (lower_le x) (le_upper x) Hx eq_refl Hhi).
Qed.

Lemma modified_scores_agree_In
  (misses : list (Exact.num * Float64.num)) (versionStr : option string)
  (ms : string) (miss : Exact.num) (miss64 : Float64.num)
  (e : Exact.num) (e64 : Float64.num) :
  modified_scores_agree misses versionStr ms = true ->
  In (miss, miss64) misses ->
  In (e, e64) (modified_exploitabilities ms) ->
  let impact := calculateModifiedImpact [("MS", ms)] miss versionStr in
  let impact64 := calculateModifiedImpact [("MS", ms)] miss64 versionStr in
  (le impact (lit 0) = true /\ le impact64 (lit 0) = true)
  \/ (le impact (lit 0) = false /\ le impact64 (lit 0) = false
      /\ exists k, (0 <= k <= 100)%Z
           /\ base_score_from ms impact e = lit (inject_Z k / 10)
           /\ base_score_from ms impact64 e64 = lit (inject_Z k / 10)).
Proof.
  unfold modified_scores_agree. intros Ha Hmiss He.
  rewrite forallb_forall in Ha. specialize (Ha _ Hmiss). cbn [fst snd] in Ha.
  exact (modified_score_agrees_In _ _ _ _ _ _ Ha He).
Qed.

(** The value of a temporal metric after both sets of defaults. *)
Lemma environmental_temporal_value metricsMap metric values :
  allowed_map metricsMap ->
  In metric temporalMetrics ->
  JS.get allKnownMetricsValues metric = Some values ->
  exists value,
    JS.get (populateEnvironmentalMetricDefaults
              (populateTemporalMetricDefaults metricsMap)) metric = Some value
    /\ In value values.
Proof.
  intros Hall Hin Hvalues.
  destruct (temporal_value _ _ _ Hall Hin Hvalues) as (value & Hget & Hv).
  exists value. split; [|exact Hv].
  rewrite get_populateEnvironmentalMetricDefaults.
  simpl in Hin.
  repeat (destruct Hin as [<-|Hin]; [exact Hget|]). destruct Hin.
Qed.

Lemma requirement_value metricsMap metric :
  allowed_map metricsMap ->
  In metric ["CR"; "IR"; "AR"] ->
  exists value,
    JS.get (populateEnvironmentalMetricDefaults
              (populateTemporalMetricDefaults metricsMap)) metric = Some value
    /\ In value requirement_values.
Proof.
  intros Hall Hin.
  destruct (requirement_value_allowed _ _ Hin Hall) as (value & Hget & Ha).
  exists value. split; [exact Hget|].
  destruct (allowed_value_In _ _ Ha) as (allowed & Hg & Hi).
  simpl in Hin.
  repeat (destruct Hin as [<-|Hin];
          [vm_compute in Hg; injection Hg as <-; exact Hi|]).
  destruct Hin.
Qed.

Lemma modified_value metricsMap metric baseMetric values :
  base_ok metricsMap -> allowed_map metricsMap ->
  In (metric, baseMetric)
     [ ("MAV", "AV"); ("MAC", "AC"); ("MPR", "PR"); ("MUI", "UI");
       ("MS", "S"); ("MC", "C"); ("MI", "I"); ("MA", "A") ] ->
  JS.get allKnownMetricsValues baseMetric = Some values ->
  exists value,
    JS.get (populateEnvironmentalMetricDefaults
              (populateTemporalMetricDefaults metricsMap)) metric = Some value
    /\ In value values.
Proof.
  intros Hok Hall Hin Hvalues.
  destruct (modified_value_allowed _ _ _ Hin Hok Hall) as (Hget & Ha).
  eexists. split; [exact Hget|].
  destruct (allowed_value_In _ _ Ha) as (allowed & Hg & Hi). congruence.
Qed.

Lemma In_versions (versionStr : option string) :
  In (if JS.eqs versionStr "3.0" then Some "3.0" else Some "3.1")
     [Some "3.0"; Some "3.1"].
Proof. destruct (JS.eqs versionStr "3.0"); simpl; tauto. Qed.

(** For every well-formed v3.x vector, the environmental score that the
    program computes in binary64 is the double nearest to the score of exact
    arithmetic, k/10 with k between 0 and 100. *)
Lemma environmental_score_both (cvssStr : string) :
  wellFormedV3 cvssStr = true ->
  exists k, (0 <= k <= 100)%Z
    /\ calculateEnvironmentalScore (num := Exact.num) cvssStr
       = Ok (lit (inject_Z k / 10))
    /\ calculateEnvironmentalScore (num := Float64.num) cvssStr
       = Ok (lit (inject_Z k / 10)).
Proof.
  intros Hw. destruct (wellFormedV3_inv _ Hw) as (Hd & v & Hv & _ & _).
  destruct (wellFormedV3_base_ok _ _ Hw Hv) as (Hok & Hall).
  destruct (requirement_value _ "CR" Hall ltac:(simpl; tauto)) as (cr & Gcr & Icr).
  destruct (requirement_value _ "IR" Hall ltac:(simpl; tauto)) as (ir & Gir & Iir).
  destruct (requirement_value _ "AR" Hall ltac:(simpl; tauto)) as (ar & Gar & Iar).
  destruct (modified_value _ "MC" "C" _ Hok Hall ltac:(simpl; tauto) eq_refl)
    as (mc & Gmc & Imc).
  destruct (modified_value _ "MI" "I" _ Hok Hall ltac:(simpl; tauto) eq_refl)
    as (mi & Gmi & Imi).
  destruct (modified_value _ "MA" "A" _ Hok Hall ltac:(simpl; tauto) eq_refl)
    as (ma & Gma & Ima).
  destruct (modified_value _ "MAV" "AV" _ Hok Hall ltac:(simpl; tauto) eq_refl)
    as (mav & Gmav & Imav).
  destruct (modified_value _ "MAC" "AC" _ Hok Hall ltac:(simpl; tauto) eq_refl)
    as (mac & Gmac & Imac).
  destruct (modified_value _ "MPR" "PR" _ Hok Hall ltac:(simpl; tauto) eq_refl)
    as (mpr & Gmpr & Impr).
  destruct (modified_value _ "MUI" "UI" _ Hok Hall ltac:(simpl; tauto) eq_refl)
    as (mui & Gmui & Imui).
  destruct (modified_value _ "MS" "S" _ Hok Hall ltac:(simpl; tauto) eq_refl)
    as (ms & Gms & Ims).
  destruct (environmental_temporal_value _ "E" _ Hall ltac:(simpl; tauto) eq_refl)
    as (e & Ge & Ie).
  destruct (environmental_temporal_value _ "RL" _ Hall ltac:(simpl; tauto) eq_refl)
    as (rl & Grl & Irl).
  destruct (environmental_temporal_value _ "RC" _ Hall ltac:(simpl; tauto) eq_refl)
    as (rc & Grc & Irc).
  rewrite (calculateEnvironmentalScore_by_values (num := Exact.num) _ _
             _ _ _ _ _ _ _ _ _ _ _ _ _ _
             Hv Gcr Gmc Gir Gmi Gar Gma Gmav Gmac Gmpr Gmui Gms Ge Grl Grc).
  rewrite (calculateEnvironmentalScore_by_values (num := Float64.num) _ _
             _ _ _ _ _ _ _ _ _ _ _ _ _ _
             Hv Gcr Gmc Gir Gmi Gar Gma Gmav Gmac Gmpr Gmui Gms Ge Grl Grc).
  destruct (miss_listed cr mc ir mi ar ma Icr Imc Iir Imi Iar Ima)
    as (miss & miss64 & Em & Em64 & Imiss).
  destruct (exploitability_listed ms mav mac mpr mui Ims Imav Imac Impr Imui)
    as (ex & ex64 & Ee & Ee64 & Iex).
  rewrite Em, Em64, Ee, Ee64. cbn [bind].
  rewrite (calculateModifiedImpact_version (num := Exact.num)).
  rewrite (calculateModifiedImpact_version (num := Float64.num)).
  pose proof modified_scores_agree_all as Ha. rewrite forallb_forall in Ha.
  specialize (Ha _ (In_versions (versionStr v))).
  rewrite forallb_forall in Ha. specialize (Ha _ Ims).
  pose proof (modified_scores_agree_In _ _ _ _ _ _ _ Ha Imiss Iex) as Hs.
  cbv zeta in Hs. unfold environmental_from.
  destruct Hs as [(Hle & Hle64)|(Hle & Hle64 & k & Hk & Es & Es64)].
  - rewrite Hle, Hle64. exists 0%Z. split; [lia|]. split; reflexivity.
  - rewrite Hle, Hle64, Es, Es64.
    pose proof environmental_temporal_agrees_all as Ht.
    rewrite forallb_forall in Ht. specialize (Ht _ (In_tenths _ Hk)).
    pose proof (temporal_agrees_In _ _ _ _ _ _ _ Ht
                  (In_weights "E" _ _ Ie) (In_weights "RL" _ _ Irl)
                  (In_weights "RC" _ _ Irc)) as Hto.
    cbn [fst snd] in Hto.
    destruct (temporal_from (num := Exact.num) (lit (inject_Z k / 10))
                (metric_weight "E" e) (metric_weight "RL" rl)
                (metric_weight "RC" rc)) as [score|]; [|destruct Hto].
    destruct (temporal_from (num := Float64.num) (lit (inject_Z k / 10))
                (metric_weight "E" e) (metric_weight "RL" rl)
                (metric_weight "RC" rc)) as [score64|]; [|destruct Hto].
    destruct (same_score_spec _ _ Hto) as (j & Hj & Ej & Ej64).
    exists j. split; [exact Hj|]. rewrite Ej, Ej64. split; reflexivity.
Qed.

(* ===================================================================== *)
(** * Range and precision of the scores, in binary64 and in exact arithmetic *)

Lemma tenths_inj (j k : Z) :
  lit (num := Exact.num) (inject_Z j / 10) = lit (inject_Z k / 10) -> j = k.
Proof.
  intros Heq.
  assert (Hr : Qred (inject_Z j / 10) = Qred (inject_Z k / 10))
    by exact (f_equal (fun x => match x with Some q => q | None => 0%Q end) Heq).
  apply Qred_eq_iff in Hr.
  unfold Qeq, Qdiv, Qmult, Qinv, inject_Z in Hr. cbn [Qnum Qden] in Hr. lia.
Qed.

(** C6 (range and precision of the scores).  For every well-formed v3.x
    vector the base, temporal and environmental scores that the program
    computes in binary64 are returned and are the doubles nearest to k/10 for
    integers k between 0 and 100; they are the scores of exact arithmetic.
    For every vector that [validateVectorV4] accepts the base score is
    returned and is k/10 with k between 0 and 100 in exact arithmetic, and
    the double nearest to such a number in binary64.  [Math.pow] is taken as
    the iterated product. *)
Theorem scores_one_decimal_in_range (cvssStr : string) :
  (wellFormedV3 cvssStr = true ->
   exists base temporal environmental,
     (0 <= base <= 100)%Z /\ (0 <= temporal <= 100)%Z
     /\ (0 <= environmental <= 100)%Z
     /\ calculateBaseScore (num := Float64.num) cvssStr
        = Ok (lit (inject_Z base / 10))
     /\ calculateTemporalScore (num := Float64.num) cvssStr
        = Ok (lit (inject_Z temporal / 10))
     /\ calculateEnvironmentalScore (num := Float64.num) cvssStr
        = Ok (lit (inject_Z environmental / 10))
     /\ calculateBaseScore (num := Exact.num) cvssStr
        = Ok (lit (inject_Z base / 10))
     /\ calculateTemporalScore (num := Exact.num) cvssStr
        = Ok (lit (inject_Z temporal / 10))
     /\ calculateEnvironmentalScore (num := Exact.num) cvssStr
        = Ok (lit (inject_Z environmental / 10)))
  /\ (valid (validateVectorV4 cvssStr) = true ->
      exists k k64,
        (0 <= k <= 100)%Z /\ (0 <= k64 <= 100)%Z
        /\ calculateBaseScore (num := Float64.num) cvssStr
           = Ok (lit (inject_Z k64 / 10))
        /\ calculateBaseScore (num := Exact.num) cvssStr
           = Ok (lit (inject_Z k / 10))).
Proof.
  split.
  - intros Hw.
    destruct (base_temporal_scores_both _ Hw)
      as (base & temporal & Hb & Ht & Eb & Eb64 & Et & Et64).
    destruct (environmental_score_both _ Hw) as (environmental & He & Ee & Ee64).
    exists base, temporal, environmental. repeat split; assumption || lia.
  - intros Hvalid.
    destruct (v4_score_both _ Hvalid) as (k & Hk & Ek & [Ek64|[H1 Ek64]]).
    + exists k, k. repeat split; assumption || lia.
    + exists k, (k - 1)%Z. repeat split; assumption || lia.
Qed.

Definition vector_v30_full : string :=
  "CVSS:3.0/AV:N/AC:L/PR:N/UI:N/S:C/C:H/I:N/A:N/E:P/RL:W/CR:H/MAV:L/MS:U".

Lemma scores_one_decimal_in_range_witness :
  wellFormedV3 vector_v30_full = true
  /\ valid (validateVectorV4 vector_v4_tie) = true
  /\ calculateEnvironmentalScore (num := Float64.num) vector_v30_full
     = Ok (lit 7.3)
  /\ calculateBaseScore (num := Float64.num) vector_v4_tie = Ok (lit 9.0)
  /\ (exists base temporal environmental,
        (0 <= base <= 100)%Z /\ (0 <= temporal <= 100)%Z
        /\ (0 <= environmental <= 100)%Z
        /\ calculateBaseScore (num := Float64.num) vector_v30_full
           = Ok (lit (inject_Z base / 10))
        /\ calculateTemporalScore (num := Float64.num) vector_v30_full
           = Ok (lit (inject_Z temporal / 10))
        /\ calculateEnvironmentalScore (num := Float64.num) vector_v30_full
           = Ok (lit (inject_Z environmental / 10))
        /\ calculateBaseScore (num := Exact.num) vector_v30_full
           = Ok (lit (inject_Z base / 10))
        /\ calculateTemporalScore (num := Exact.num) vector_v30_full
           = Ok (lit (inject_Z temporal / 10))
        /\ calculateEnvironmentalScore (num := Exact.num) vector_v30_full
           = Ok (lit (inject_Z environmental / 10)))
  /\ (exists k k64,
        (0 <= k <= 100)%Z /\ (0 <= k64 <= 100)%Z
        /\ calculateBaseScore (num := Float64.num) vector_v4_tie
           = Ok (lit (inject_Z k64 / 10))
        /\ calculateBaseScore (num := Exact.num) vector_v4_tie
           = Ok (lit (inject_Z k / 10))).
Proof.
  split; [vm_compute; reflexivity|].
  split; [vm_compute; reflexivity|].
  split; [vm_compute; reflexivity|].
  split; [vm_compute; reflexivity|].
  split.
  - apply (proj1 (scores_one_decimal_in_range vector_v30_full)).
    vm_compute. reflexivity.
  - apply (proj2 (scores_one_decimal_in_range vector_v4_tie)).
    vm_compute. reflexivity.
Defined.

(** X6 (no environmental metric).  For every well-formed v3.x vector that
    selects no environmental metric, and that is tagged 3.0 or has an
    unchanged Scope, the environmental score is the temporal score, in
    exact arithmetic and in binary64: the modified metrics take the base
    values, the requirements have weight 1, MISS is ISS and the two impact
    formulas coincide. *)
Theorem environmental_score_without_environmental_metrics
  (cvssStr : string) (v : ValidationResult) :
  wellFormedV3 cvssStr = true ->
  validate cvssStr = Ok v ->
  isEnvironmental v = false ->
  versionStr v = Some "3.0" \/ JS.get (metricsMap v) "S" = Some "U" ->
  calculateEnvironmentalScore (num := Float64.num) cvssStr
  = calculateTemporalScore (num := Float64.num) cvssStr
  /\ calculateEnvironmentalScore (num := Exact.num) cvssStr
     = calculateTemporalScore (num := Exact.num) cvssStr.
Proof.
  intros Hw Hv Hne Hcase.
  pose proof (environmental_score_inherits_exact cvssStr v Hw Hv Hne Hcase)
    as Hexact.
  split; [|exact Hexact].
  destruct (base_temporal_scores_both _ Hw)
    as (base & temporal & _ & _ & _ & _ & Et & Et64).
  destruct (environmental_score_both _ Hw) as (environmental & _ & Ee & Ee64).
  rewrite Et, Ee in Hexact.
  assert (Hk : environmental = temporal).
  { apply tenths_inj.
    exact (f_equal (fun r => match r with Ok x => x | Throw _ => NaN end)
                   Hexact). }
  rewrite Ee64, Et64, Hk. reflexivity.
Qed.

Lemma environmental_score_without_environmental_metrics_witness :
  calculateEnvironmentalScore (num := Float64.num) vector_v30_scope_changed
  = Ok (lit 8.7)
  /\ calculateEnvironmentalScore (num := Float64.num) vector_v30_scope_changed
     = calculateTemporalScore (num := Float64.num) vector_v30_scope_changed
  /\ calculateEnvironmentalScore (num := Exact.num) vector_v30_scope_changed
     = calculateTemporalScore (num := Exact.num) vector_v30_scope_changed.
Proof.
  split; [vm_compute; reflexivity|].
  destruct (validate vector_v30_scope_changed) as [v|e] eqn:Hv.
  - apply (environmental_score_without_environmental_metrics
             vector_v30_scope_changed v);
      [vm_compute; reflexivity|exact Hv| |];
      vm_compute in Hv; injection Hv as <-; [reflexivity|left; reflexivity].
  - vm_compute in Hv. discriminate.
Defined.

(** ** The rating of a v4 score *)

Lemma calculateQualScore_tenths_binary64 (k : Z) :
  (0 <= k <= 100)%Z ->
  calculateQualScore (num := Float64.num) (lit (inject_Z k / 10)) = qual_band k.
Proof.
  intros Hk.
  assert (Hall : forallb (fun k =>
                   String.eqb
                     (calculateQualScore (num := Float64.num)
                        (lit (inject_Z k / 10)))
                     (qual_band k))
                   (map Z.of_nat (seq 0 101)) = true) by (vm_compute; reflexivity).
  rewrite forallb_forall in Hall. specialize (Hall _ (In_tenths _ Hk)).
  apply String.eqb_eq. exact Hall.
Qed.

Lemma calculateBaseScoreV4_of_valid {num} `{JSNumber num} (vectorString : string) :
  valid (validateVectorV4 vectorString) = true ->
  calculateBaseScoreV4 vectorString = calculateBaseScore vectorString.
Proof.
  intros Hvalid. unfold calculateBaseScore.
  rewrite (detectCvssVersion_v4 _ Hvalid). reflexivity.
Qed.

(** X11 (the rating of a v4 score).  For every vector that
    [validateVectorV4] accepts, the score that the program computes in
    binary64 is the double nearest to k/10 for an integer k between 0 and
    100, and [calculateQualScore] rates it None when k = 0, Low up to 3.9,
    Medium up to 6.9, High up to 8.9 and Critical from 9.0 on; the same
    holds of the score of exact arithmetic.  A score that is NaN is rated
    Critical: every comparison with NaN is false. *)
Theorem calculateQualScore_of_v4_score (vectorString : string) :
  (valid (validateVectorV4 vectorString) = true ->
   (exists k : Z,
      (0 <= k <= 100)%Z
      /\ calculateBaseScoreV4 (num := Float64.num) vectorString
         = Ok (lit (inject_Z k / 10))
      /\ calculateQualScore (num := Float64.num) (lit (inject_Z k / 10))
         = qual_band k)
   /\ (exists k : Z,
         (0 <= k <= 100)%Z
         /\ calculateBaseScoreV4 (num := Exact.num) vectorString
            = Ok (lit (inject_Z k / 10))
         /\ calculateQualScore (num := Exact.num) (lit (inject_Z k / 10))
            = qual_band k))
  /\ calculateQualScore (num := Exact.num) NaN = "Critical"
  /\ calculateQualScore (num := Float64.num) NaN = "Critical".
Proof.
  split; [|split; reflexivity].
  intros Hvalid. rewrite !(calculateBaseScoreV4_of_valid _ Hvalid).
  destruct (v4_score_both _ Hvalid) as (k & Hk & Ek & [Ek64|[H1 Ek64]]).
  - split; exists k; (split; [exact Hk|]).
    + split; [exact Ek64|exact (calculateQualScore_tenths_binary64 k Hk)].
    + split; [exact Ek|exact (calculateQualScore_tenths k Hk)].
  - split.
    + exists (k - 1)%Z. split; [lia|].
      split; [exact Ek64|apply calculateQualScore_tenths_binary64; lia].
    + exists k. split; [exact Hk|].
      split; [exact Ek|exact (calculateQualScore_tenths k Hk)].
Qed.

(** On this vector the exact score 9.1 and the binary64 score 9.0 are both
    rated Critical. *)
Lemma calculateQualScore_of_v4_score_witness :
  calculateBaseScoreV4 (num := Float64.num) vector_v4_tie = Ok (lit 9.0)
  /\ calculateQualScore (num := Float64.num) (lit 9.0) = "Critical"
  /\ (exists k : Z,
        (0 <= k <= 100)%Z
        /\ calculateBaseScoreV4 (num := Float64.num) vector_v4_tie
           = Ok (lit (inject_Z k / 10))
        /\ calculateQualScore (num := Float64.num) (lit (inject_Z k / 10))
           = qual_band k)
  /\ (exists k : Z,
        (0 <= k <= 100)%Z
        /\ calculateBaseScoreV4 (num := Exact.num) vector_v4_tie
           = Ok (lit (inject_Z k / 10))
        /\ calculateQualScore (num := Exact.num) (lit (inject_Z k / 10))
           = qual_band k).
Proof.
  split; [vm_compute; reflexivity|].
  split; [vm_compute; reflexivity|].
  apply (proj1 (calculateQualScore_of_v4_score vector_v4_tie)).
  vm_compute. reflexivity.
Defined.

(* ===================================================================== *)
(** * The roundup operation in binary64 *)

(** The weights of the temporal metrics. *)
Definition report_confidence_weights : list Q := [1; 0.92; 0.96]%Q.
Definition exploit_maturity_weights : list Q := [1; 0.91; 0.97; 0.94]%Q.
Definition remediation_level_weights : list Q := [1; 0.95; 0.96; 0.97]%Q.

(** For a score of k/10 and every combination of temporal weights, the
    binary64 roundup of the product, in the order of the temporal score and
    in the order of the environmental score, is the double nearest to the
    roundup of the specification on the exact product. *)
Definition temporal_products_agree (qrcs qes qrls : list Q) (k : Z) : bool :=
  forallb (fun qrc => forallb (fun qe => forallb (fun qrl =>
    let r := ExactFacts.roundup_spec (inject_Z k / 10 * qrc * qe * qrl) in
    let j := Qfloor (r * 10) in
    Qeq_bool r (inject_Z j / 10) && Z.leb 0 j && Z.leb j 100
    && PrimFloat.Leibniz.eqb
         (roundUp (num := Float64.num)
            (lit (inject_Z k / 10) * lit qrc * lit qe * lit qrl)%js)
         (lit (inject_Z j / 10))
    && PrimFloat.Leibniz.eqb
         (roundUp (num := Float64.num)
            (lit (inject_Z k / 10) * lit qe * lit qrl * lit qrc)%js)
         (lit (inject_Z j / 10)))
    qrls) qes) qrcs.

Lemma temporal_products_agree_all :
  forallb (temporal_products_agree report_confidence_weights
             exploit_maturity_weights remediation_level_weights)
          (map Z.of_nat (seq 0 101)) = true.
Proof. vm_compute. reflexivity. Qed.

Lemma temporal_products_agree_In (qrcs qes qrls : list Q) (k : Z)
  (qrc qe qrl : Q) :
  temporal_products_agree qrcs qes qrls k = true ->
  In qrc qrcs -> In qe qes -> In qrl qrls ->
  exists j, (0 <= j <= 100)%Z
    /\ (ExactFacts.roundup_spec (inject_Z k / 10 * qrc * qe * qrl)
        == inject_Z j / 10)%Q
    /\ roundUp (num := Float64.num)
         (lit (inject_Z k / 10) * lit qrc * lit qe * lit qrl)%js
       = lit (inject_Z j / 10)
    /\ roundUp (num := Float64.num)
         (lit (inject_Z k / 10) * lit qe * lit qrl * lit qrc)%js
       = lit (inject_Z j / 10).
Proof.
  unfold temporal_products_agree. intros Ha Irc Ie Irl.
  rewrite forallb_forall in Ha. specialize (Ha _ Irc).
  rewrite forallb_forall in Ha. specialize (Ha _ Ie).
  rewrite forallb_forall in Ha. specialize (Ha _ Irl).
  cbv zeta in Ha. rewrite !andb_true_iff in Ha.
  destruct Ha as ((((Hr & H0) & H100) & Ht) & He).
  apply Qeq_bool_eq in Hr. apply Z.leb_le in H0, H100.
  apply FloatAxioms.Leibniz.eqb_spec in Ht, He.
  eexists. split; [split; eassumption|]. split; [exact Hr|].
  split; [exact Ht|exact He].
Qed.

Lemma roundUp_tenths_binary64 (k : Z) :
  (0 <= k <= 100)%Z ->
  roundUp (num := Float64.num) (lit (inject_Z k / 10)) = lit (inject_Z k / 10).
Proof.
  intros Hk.
  assert (Hall : forallb (fun k =>
                   PrimFloat.Leibniz.eqb
                     (roundUp (num := Float64.num) (lit (inject_Z k / 10)))
                     (lit (inject_Z k / 10)))
                   (map Z.of_nat (seq 0 101)) = true) by (vm_compute; reflexivity).
  rewrite forallb_forall in Hall. specialize (Hall _ (In_tenths _ Hk)).
  apply FloatAxioms.Leibniz.eqb_spec. exact Hall.
Qed.

Lemma roundUp_tenths_exact (k : Z) :
  roundUp (num := Exact.num) (lit (inject_Z k / 10)) = lit (inject_Z k / 10).
Proof.
  cbn [lit Exact.exact_number]. rewrite ExactFacts.roundUp_spec. f_equal.
  apply Qred_complete.
  rewrite (RangeFacts.roundup_spec_comp _ _ (Qred_correct _)).
  apply RangeFacts.roundup_spec_fixed.
Qed.

(** C9 (the v3.x roundup).  In real arithmetic [roundUp] is the operation
    of the specification on every rational: multiply by 100000 and round to
    the nearest integer; when that integer is divisible by 10000 divide it by
    100000, otherwise take floor(integer/10000)+1 divided by 10.  In binary64,
    the arithmetic of the program: an input on a 0.1 boundary, the double
    nearest to k/10 for any k from 0 to 100, is returned as it is (4.0 gives
    4.0 and not 4.1); on every input that the temporal and environmental
    scores pass to the operation, a score k/10 times the three temporal
    weights, the result is the double nearest to what the operation of the
    specification gives on the exact product; and for every well-formed
    v3.x vector the base, temporal and environmental scores, each of them
    0 or a result of [roundUp], are the doubles nearest to the scores of real
    arithmetic.  The product by 100000 is rounded in binary64 before it is
    rounded to an integer: on the double nearest to 4.000005, which is below
    4.000005, the program returns 4.1 where real arithmetic on that double
    gives 4.0; no input of the score functions is of that kind, as the
    previous statements show.  [Math.pow] is taken as the iterated product. *)
Theorem roundUp_refines_spec :
  (forall q : Q,
     roundUp (num := Exact.num) (Some q) = Some (Qred (ExactFacts.roundup_spec q)))
  /\ (forall k : Z,
        (0 <= k <= 100)%Z ->
        roundUp (num := Float64.num) (lit (inject_Z k / 10))
        = lit (inject_Z k / 10)
        /\ roundUp (num := Exact.num) (lit (inject_Z k / 10))
           = lit (inject_Z k / 10))
  /\ (forall (k : Z) (qrc qe qrl : Q),
        (0 <= k <= 100)%Z ->
        In qrc report_confidence_weights ->
        In qe exploit_maturity_weights ->
        In qrl remediation_level_weights ->
        exists j, (0 <= j <= 100)%Z
          /\ (ExactFacts.roundup_spec (inject_Z k / 10 * qrc * qe * qrl)
              == inject_Z j / 10)%Q
          /\ roundUp (num := Float64.num)
               (lit (inject_Z k / 10) * lit qrc * lit qe * lit qrl)%js
             = lit (inject_Z j / 10)
          /\ roundUp (num := Float64.num)
               (lit (inject_Z k / 10) * lit qe * lit qrl * lit qrc)%js
             = lit (inject_Z j / 10))
  /\ (forall cvssStr : string,
        wellFormedV3 cvssStr = true ->
        exists base temporal environmental,
          (0 <= base <= 100)%Z /\ (0 <= temporal <= 100)%Z
          /\ (0 <= environmental <= 100)%Z
          /\ calculateBaseScore (num := Exact.num) cvssStr
             = Ok (lit (inject_Z base / 10))
          /\ calculateBaseScore (num := Float64.num) cvssStr
             = Ok (lit (inject_Z base / 10))
          /\ calculateTemporalScore (num := Exact.num) cvssStr
             = Ok (lit (inject_Z temporal / 10))
          /\ calculateTemporalScore (num := Float64.num) cvssStr
             = Ok (lit (inject_Z temporal / 10))
          /\ calculateEnvironmentalScore (num := Exact.num) cvssStr
             = Ok (lit (inject_Z environmental / 10))
          /\ calculateEnvironmentalScore (num := Float64.num) cvssStr
             = Ok (lit (inject_Z environmental / 10)))
  /\ roundUp (num := Float64.num) (lit 4.00000) = lit 4.0
  /\ roundUp (num := Float64.num) (lit 4.00000) <> lit 4.1
  /\ roundUp (num := Float64.num) (lit 4.00001) = lit 4.1
  /\ roundUp (num := Float64.num) (lit 4.000000000000001) = lit 4.0
  /\ roundUp (num := Float64.num) (lit 3.999999999999999) = lit 4.0
  /\ roundUp (num := Float64.num) (lit 4.000005) = lit 4.1
  /\ roundUp (num := Exact.num) (exact_value (lit 4.000005)) = lit 4.0.
Proof.
  split; [exact ExactFacts.roundUp_spec|].
  split.
  { intros k Hk. split; [exact (roundUp_tenths_binary64 k Hk)|].
    exact (roundUp_tenths_exact k). }
  split.
  { intros k qrc qe qrl Hk Irc Ie Irl.
    pose proof temporal_products_agree_all as Ha.
    rewrite forallb_forall in Ha. specialize (Ha _ (In_tenths _ Hk)).
    exact (temporal_products_agree_In _ _ _ _ _ _ _ Ha Irc Ie Irl). }
  split.
  { intros cvssStr Hw.
    destruct (base_temporal_scores_both _ Hw)
      as (base & temporal & Hb & Ht & Eb & Eb64 & Et & Et64).
    destruct (environmental_score_both _ Hw) as (environmental & He & Ee & Ee64).
    exists base, temporal, environmental. repeat split; assumption || lia. }
  split; [vm_compute; reflexivity|].
  split.
  { intros Heq. apply FloatAxioms.Leibniz.eqb_spec in Heq.
    vm_compute in Heq. discriminate Heq. }
  split; [vm_compute; reflexivity|].
  split; [vm_compute; reflexivity|].
  split; [vm_compute; reflexivity|].
  split; vm_compute; reflexivity.
Qed.

(* ===================================================================== *)
(** * The version string in the environmental score *)

Section VersionThreading.

Context {num : Type} `{JSNumber num}.

Local Open Scope js_scope.

(** ModifiedImpact in the words of the specification, for a Modified Scope
    that is Changed: with the factor 0.9731 and the exponent 13 for version
    3.1, with the factor 1 and the exponent 15 for version 3.0. *)
Definition spec_modified_impact_v31 (miss : num) : num :=
  lit 7.52 * (miss - lit 0.029)
  - lit 3.25 * Math_pow (miss * lit 0.9731 - lit 0.02) 13.

Definition spec_modified_impact_v30 (miss : num) : num :=
  lit 7.52 * (miss - lit 0.029)
  - lit 3.25 * Math_pow (miss * lit 1 - lit 0.02) 15.

Definition spec_modified_impact_unchanged (miss : num) : num :=
  lit 6.42 * miss.

(** The environmental score computed from the metrics after the defaults,
    with a given ModifiedImpact formula. *)
Definition environmental_score_with (modifiedImpact : num -> num)
  (metricsMap : list (string * string)) : result error num :=
  miss <- calculateMiss metricsMap ;;
  let impact := modifiedImpact miss in
  exploitability <- calculateModifiedExploitability metricsMap ;;
  if impact <=? lit 0 then Ok (lit 0)
  else
    e <- getMetricNumericValue "E" metricsMap ;;
    rl <- getMetricNumericValue "RL" metricsMap ;;
    rc <- getMetricNumericValue "RC" metricsMap ;;
    if JS.eqs (JS.get metricsMap "MS") "U"
    then Ok (roundUp
               (roundUp (Math_min (impact + exploitability) (lit 10))
                * e * rl * rc))
    else Ok (roundUp
               (roundUp (Math_min (lit 1.08 * (impact + exploitability)) (lit 10))
                * e * rl * rc)).

(** [calculateEnvironmentalScore] hands the version string that [validate]
    returns to [calculateModifiedImpact]. *)
Lemma calculateEnvironmentalScore_version (cvssStr : string)
  (v : ValidationResult) :
  validate cvssStr = Ok v ->
  let metricsMap :=
    populateEnvironmentalMetricDefaults
      (populateTemporalMetricDefaults (metricsMap v)) in
  calculateEnvironmentalScore cvssStr
  = environmental_score_with
      (if JS.eqs (JS.get metricsMap "MS") "U"
       then spec_modified_impact_unchanged
       else if JS.eqs (versionStr v) "3.0" then spec_modified_impact_v30
            else spec_modified_impact_v31)
      metricsMap.
Proof.
  intros Hv metricsMap.
  unfold calculateEnvironmentalScore, calculateEnvironmentalResult.
  rewrite Hv. cbn [bind]. fold metricsMap.
  unfold environmental_score_with, calculateModifiedImpact.
  change EnvironmentalMetric.MODIFIED_SCOPE with "MS".
  change TemporalMetric.EXPLOIT_CODE_MATURITY with "E".
  change TemporalMetric.REMEDIATION_LEVEL with "RL".
  change TemporalMetric.REPORT_CONFIDENCE with "RC".
  destruct (calculateMiss metricsMap) as [miss|]; [|reflexivity].
  destruct (calculateModifiedExploitability metricsMap) as [exploitability|];
    [|reflexivity].
  cbn [bind].
  assert (Himpact :
            (if JS.eqs (JS.get metricsMap "MS") "U"
             then lit 6.42 * miss
             else lit 7.52 * (miss - lit 0.029)
                  - lit 3.25
                    * Math_pow
                        (miss * (if JS.eqs (versionStr v) "3.0"
                                 then lit 1 else lit 0.9731) - lit 0.02)
                        (if JS.eqs (versionStr v) "3.0" then 15 else 13))
            = (if JS.eqs (JS.get metricsMap "MS") "U"
               then spec_modified_impact_unchanged
               else if JS.eqs (versionStr v) "3.0"
                    then spec_modified_impact_v30
                    else spec_modified_impact_v31) miss).
  { destruct (JS.eqs (JS.get metricsMap "MS") "U"); [reflexivity|].
    destruct (JS.eqs (versionStr v) "3.0"); reflexivity. }
  rewrite Himpact.
  destruct (le _ (lit 0)); [reflexivity|].
  destruct (getMetricNumericValue "E" metricsMap); [|reflexivity].
  destruct (getMetricNumericValue "RL" metricsMap); [|reflexivity].
  destruct (getMetricNumericValue "RC" metricsMap); [|reflexivity].
  cbn [bind]. destruct (JS.eqs (JS.get metricsMap "MS") "U"); reflexivity.
Qed.

(** The environmental scores of a vector tagged 3.1 and of the same vector
    tagged 3.0. *)
Lemma calculateEnvironmentalScore_v30_v31 (rest : string)
  (v : ValidationResult) :
  validate ("CVSS:3.1/" ++ rest) = Ok v ->
  let metricsMap :=
    populateEnvironmentalMetricDefaults
      (populateTemporalMetricDefaults (metricsMap v)) in
  versionStr v = Some "3.1"
  /\ calculateEnvironmentalScore ("CVSS:3.1/" ++ rest)
     = environmental_score_with
         (if JS.eqs (JS.get metricsMap "MS") "U"
          then spec_modified_impact_unchanged else spec_modified_impact_v31)
         metricsMap
  /\ calculateEnvironmentalScore ("CVSS:3.0/" ++ rest)
     = environmental_score_with
         (if JS.eqs (JS.get metricsMap "MS") "U"
          then spec_modified_impact_unchanged else spec_modified_impact_v30)
         metricsMap.
Proof.
  intros Hv metricsMap.
  assert (Hver : versionStr v = Some "3.1").
  { unfold validate in Hv.
    change (parseVersion ("CVSS:3.1/" ++ rest)) with (Some "3.1") in Hv.
    destruct (negb (JS.truthy ("CVSS:3.1/" ++ rest))
              || negb (JS.startsWith ("CVSS:3.1/" ++ rest) "CVSS:"));
      [discriminate|].
    cbv zeta in Hv.
    apply bind_ok in Hv. destruct Hv as (_ & _ & Hv).
    apply bind_ok in Hv. destruct Hv as (_ & _ & Hv).
    apply bind_ok in Hv. destruct Hv as (mm & _ & Hv).
    apply bind_ok in Hv. destruct Hv as (_ & _ & Hv).
    apply bind_ok in Hv. destruct Hv as (_ & _ & Hv).
    apply bind_ok in Hv. destruct Hv as (_ & _ & Hv).
    injection Hv as <-. reflexivity. }
  split; [exact Hver|]. split.
  - rewrite (calculateEnvironmentalScore_version _ v Hv). cbv zeta.
    fold metricsMap. rewrite Hver. reflexivity.
  - assert (Hv30 : validate ("CVSS:3.0/" ++ rest)
                   = Ok (with_version (Some "3.0") v))
      by (rewrite validate_v30_v31, Hv; reflexivity).
    rewrite (calculateEnvironmentalScore_version _ _ Hv30). reflexivity.
Qed.

Lemma scores_v30_v31 (rest : string) :
  calculateBaseScore ("CVSS:3.0/" ++ rest)
  = calculateBaseScore ("CVSS:3.1/" ++ rest)
  /\ calculateTemporalScore ("CVSS:3.0/" ++ rest)
     = calculateTemporalScore ("CVSS:3.1/" ++ rest).
Proof.
  destruct (detectCvssVersion_v30_v31 rest) as [H30 H31]. split.
  - unfold calculateBaseScore. rewrite H30, H31. cbn [bind].
    change (String.eqb "3.1" "4.0") with false.
    change (String.eqb "3.1" "3.1") with true. cbv iota.
    rewrite calculateBaseResult_v30_v31. reflexivity.
  - unfold calculateTemporalScore, calculateTemporalResult.
    rewrite calculateBaseResult_v30_v31, validate_v30_v31.
    destruct (validate ("CVSS:3.1/" ++ rest)) as [v|e]; reflexivity.
Qed.

End VersionThreading.

Definition rest_scope_changed : string := "AV:P/AC:H/PR:H/UI:R/S:C/C:H/I:H/A:H".

(** C7 (the version-dependent ModifiedImpact).  In any number model, for
    every string that [validate] accepts, [calculateEnvironmentalScore]
    computes the score with the ModifiedImpact formula that the version
    string returned by [validate] selects: 6.42 MISS when the Modified Scope
    after the defaults is Unchanged, and otherwise
    7.52 (MISS - 0.029) - 3.25 (MISS 1 - 0.02)^15 when the version string is
    3.0 and 7.52 (MISS - 0.029) - 3.25 (MISS 0.9731 - 0.02)^13 when it is
    not.  So a vector tagged 3.1 is scored with the second formula and the
    same vector tagged 3.0 with the first.  Nothing else depends on the tag:
    the base and temporal scores of the two coincide, and so do the
    environmental scores when the Modified Scope is Unchanged.  With a
    changed Modified Scope they can differ: 6.8 for 3.0 against 6.9 for 3.1
    on AV:P/AC:H/PR:H/UI:R/S:C/C:H/I:H/A:H, in exact arithmetic and in
    binary64. *)
Theorem modified_impact_version_dependence :
  (forall (num : Type) (JSN : JSNumber num) (cvssStr : string)
          (v : ValidationResult),
     validate cvssStr = Ok v ->
     calculateEnvironmentalScore (num := num) cvssStr
     = environmental_score_with
         (if JS.eqs (JS.get (populateEnvironmentalMetricDefaults
                               (populateTemporalMetricDefaults (metricsMap v)))
                            "MS") "U"
          then spec_modified_impact_unchanged
          else if JS.eqs (versionStr v) "3.0" then spec_modified_impact_v30
               else spec_modified_impact_v31)
         (populateEnvironmentalMetricDefaults
            (populateTemporalMetricDefaults (metricsMap v))))
  /\ (forall (num : Type) (JSN : JSNumber num) (rest : string)
             (v : ValidationResult),
        validate ("CVSS:3.1/" ++ rest) = Ok v ->
        versionStr v = Some "3.1"
        /\ validate ("CVSS:3.0/" ++ rest) = Ok (with_version (Some "3.0") v)
        /\ calculateEnvironmentalScore (num := num) ("CVSS:3.1/" ++ rest)
           = environmental_score_with
               (if JS.eqs (JS.get (populateEnvironmentalMetricDefaults
                                     (populateTemporalMetricDefaults
                                        (metricsMap v))) "MS") "U"
                then spec_modified_impact_unchanged
                else spec_modified_impact_v31)
               (populateEnvironmentalMetricDefaults
                  (populateTemporalMetricDefaults (metricsMap v)))
        /\ calculateEnvironmentalScore (num := num) ("CVSS:3.0/" ++ rest)
           = environmental_score_with
               (if JS.eqs (JS.get (populateEnvironmentalMetricDefaults
                                     (populateTemporalMetricDefaults
                                        (metricsMap v))) "MS") "U"
                then spec_modified_impact_unchanged
                else spec_modified_impact_v30)
               (populateEnvironmentalMetricDefaults
                  (populateTemporalMetricDefaults (metricsMap v))))
  /\ (forall (num : Type) (JSN : JSNumber num) (rest : string),
        calculateBaseScore (num := num) ("CVSS:3.0/" ++ rest)
        = calculateBaseScore ("CVSS:3.1/" ++ rest)
        /\ calculateTemporalScore (num := num) ("CVSS:3.0/" ++ rest)
           = calculateTemporalScore ("CVSS:3.1/" ++ rest))
  /\ (forall (num : Type) (JSN : JSNumber num) (rest : string)
             (v : ValidationResult),
        validate ("CVSS:3.1/" ++ rest) = Ok v ->
        JS.eqs (JS.get (populateEnvironmentalMetricDefaults
                          (populateTemporalMetricDefaults (metricsMap v))) "MS")
               "U" = true ->
        calculateEnvironmentalScore (num := num) ("CVSS:3.0/" ++ rest)
        = calculateEnvironmentalScore ("CVSS:3.1/" ++ rest))
  /\ calculateEnvironmentalScore (num := Float64.num)
       ("CVSS:3.0/" ++ rest_scope_changed) = Ok (lit 6.8)
  /\ calculateEnvironmentalScore (num := Float64.num)
       ("CVSS:3.1/" ++ rest_scope_changed) = Ok (lit 6.9)
  /\ calculateEnvironmentalScore (num := Exact.num)
       ("CVSS:3.0/" ++ rest_scope_changed) = Ok (lit 6.8)
  /\ calculateEnvironmentalScore (num := Exact.num)
       ("CVSS:3.1/" ++ rest_scope_changed) = Ok (lit 6.9).
Proof.
  split.
  { intros num JSN cvssStr v Hv.
    exact (calculateEnvironmentalScore_version cvssStr v Hv). }
  split.
  { intros num JSN rest v Hv.
    destruct (calculateEnvironmentalScore_v30_v31 (num := num) rest v Hv)
      as (Hver & H31 & H30).
    split; [exact Hver|].
    split; [rewrite validate_v30_v31, Hv; reflexivity|].
    split; [exact H31|exact H30]. }
  split.
  { intros num JSN rest. exact (scores_v30_v31 rest). }
  split.
  { intros num JSN rest v Hv Hms.
    destruct (calculateEnvironmentalScore_v30_v31 (num := num) rest v Hv)
      as (_ & H31 & H30).
    cbv zeta in H31, H30. rewrite Hms in H31, H30. rewrite H31, H30.
    reflexivity. }
  split; [vm_compute; reflexivity|].
  split; [vm_compute; reflexivity|].
  split; vm_compute; reflexivity.
Qed.

(* ===================================================================== *)
(** * The next lower MacroVectors in the score of a validated vector *)

Lemma validated_spec_scores cvssSelected :
  selected_ok cvssSelected ->
  forallb (fun metric => JS.eqs (m cvssSelected metric) "N")
          ["VC"; "VI"; "VA"; "SC"; "SI"; "SA"] = false ->
  exists eq1 eq2 eq3 eq4 eq5 eq6,
    digits (macroVector cvssSelected) = Some (eq1, eq2, eq3, eq4, eq5, eq6)
    /\ (In eq1 [0; 1; 2] /\ In eq2 [0; 1]
        /\ In (eq3, eq6) [(0, 0); (0, 1); (1, 0); (1, 1); (2, 1)]
        /\ In eq4 [0; 1; 2] /\ In eq5 [0; 1; 2])
    /\ cvss_score (num := Float64.num) cvssSelected (scores cvssLookup_globalV4)
                  maxSeverityV4 (macroVector cvssSelected)
       = Ok (spec_next_lower_score code_eq3eq6_neighbors
               (scores cvssLookup_globalV4) cvssSelected
               eq1 eq2 eq3 eq4 eq5 eq6)
    /\ cvss_score (num := Exact.num) cvssSelected (scores cvssLookup_globalV4)
                  maxSeverityV4 (macroVector cvssSelected)
       = Ok (spec_next_lower_score code_eq3eq6_neighbors
               (scores cvssLookup_globalV4) cvssSelected
               eq1 eq2 eq3 eq4 eq5 eq6).
Proof.
  intros Hok Hshort. effective_values Hok.
  pose proof (macroVector_selected cvssSelected av pr ui ac at_ vc vi va sc si sa
                cr ir ar Hok Hav Hpr Hui Hac Hat Hvc Hvi Hva Hsc Hsi Hsa
                Hcr Hir Har) as Hm.
  pose proof (selected_digits cvssSelected av pr ui ac at_ vc vi va sc si sa
                cr ir ar) as Hdigits.
  pose proof Hdigits as (H1 & H2 & H36 & H4 & H5).
  destruct (digits_in_table _ _ _ _ _ _ H1 H2 H36 H4 H5) as (_ & Hd).
  do 6 eexists.
  split; [rewrite Hm; exact Hd|]. split; [exact Hdigits|]. split.
  - exact (cvss_score_spec_binary64 cvssSelected av pr ui ac at_ vc vi va
             sc si sa cr ir ar Hok Hav Hpr Hui Hac Hat Hvc Hvi Hva Hsc Hsi Hsa
             Hcr Hir Har Iav Ipr Iui Iac Iat Ivc Ivi Iva Isc Isi Isa
             Icr Iir Iar Hshort).
  - rewrite Hm.
    exact (cvss_score_spec_exact cvssSelected _ _ _ _ _ _ H1 H2 H36 H4 H5 Hshort).
Qed.

Section NoNeighbor.

Context {num : Type} `{JSNumber num}.

Lemma best_neighbor_absent (lookup : list (string * num)) (keys : list string) :
  forallb (fun key => negb (JS.has lookup key)) keys = true ->
  best_neighbor lookup keys = None.
Proof.
  unfold best_neighbor. induction keys as [|key keys IH]; [reflexivity|].
  cbn [forallb fold_left]. intros Ha. apply andb_prop in Ha.
  destruct Ha as [Hk Ha]. apply negb_true_iff in Hk. unfold JS.has in Hk.
  destruct (JS.get lookup key); [discriminate|]. exact (IH Ha).
Qed.

(** With no neighbor in any class the mean of the specification is 0. *)
Lemma spec_next_lower_score_no_neighbor
  (neighbors36 : nat -> nat -> list (nat * nat))
  (lookup : list (string * num)) cvssSelected (eq1 eq2 eq3 eq4 eq5 eq6 : nat) :
  let value := toNumber (JS.get lookup (template eq1 eq2 eq3 eq4 eq5 eq6)) in
  isNaN (value - NaN)%js = true ->
  JS.get lookup (template (eq1 + 1) eq2 eq3 eq4 eq5 eq6) = None ->
  JS.get lookup (template eq1 (eq2 + 1) eq3 eq4 eq5 eq6) = None ->
  best_neighbor lookup
    (map (fun p => template eq1 eq2 (fst p) eq4 eq5 (snd p))
         (neighbors36 eq3 eq6)) = None ->
  JS.get lookup (template eq1 eq2 eq3 (eq4 + 1) eq5 eq6) = None ->
  JS.get lookup (template eq1 eq2 eq3 eq4 (eq5 + 1) eq6) = None ->
  spec_next_lower_score neighbors36 lookup cvssSelected eq1 eq2 eq3 eq4 eq5 eq6
  = final_score value (lit 0).
Proof.
  intros value Hnan N1 N2 N36 N4 N5.
  unfold spec_next_lower_score, class_distance, spec_mean_distance.
  cbv zeta. rewrite N1, N2, N36, N4, N5. cbn [toNumber filter fst snd].
  fold value. rewrite Hnan. reflexivity.
Qed.

(** In the state EQ3 = 1, EQ6 = 1 the key that is looked up is in no
    table, and the key that the comment of the source names is in the
    table. *)
Lemma state_11_neighbors (eq1 eq2 eq4 eq5 : nat) :
  In eq1 [0; 1; 2] -> In eq2 [0; 1] -> In eq4 [0; 1; 2] -> In eq5 [0; 1; 2] ->
  best_neighbor (scores cvssLookup_globalV4)
    (map (fun p => template eq1 eq2 (fst p) eq4 eq5 (snd p))
         (code_eq3eq6_neighbors 1 1)) = None
  /\ exists q,
       JS.get cvssLookup_globalV4 (template eq1 eq2 2 eq4 eq5 1) = Some q
       /\ best_neighbor (scores cvssLookup_globalV4)
            (map (fun p => template eq1 eq2 (fst p) eq4 eq5 (snd p))
                 (intended_eq3eq6_neighbors 1 1)) = Some (lit q).
Proof.
  intros H1 H2 H4 H5.
  assert (Hall :
    forallb (fun e1 => forallb (fun e2 => forallb (fun e4 => forallb (fun e5 =>
      negb (JS.has cvssLookup_globalV4 (template e1 e2 2 e4 e5 2))
      && JS.has cvssLookup_globalV4 (template e1 e2 2 e4 e5 1))
      [0; 1; 2]) [0; 1; 2]) [0; 1]) [0; 1; 2] = true) by (vm_compute; reflexivity).
  rewrite forallb_forall in Hall. specialize (Hall _ H1).
  rewrite forallb_forall in Hall. specialize (Hall _ H2).
  rewrite forallb_forall in Hall. specialize (Hall _ H4).
  rewrite forallb_forall in Hall. specialize (Hall _ H5).
  apply andb_prop in Hall. destruct Hall as [H22 H21].
  apply negb_true_iff in H22. unfold JS.has in H22, H21.
  unfold best_neighbor, code_eq3eq6_neighbors, intended_eq3eq6_neighbors.
  cbn [map fst snd fold_left Nat.add]. rewrite !scores_get.
  destruct (JS.get cvssLookup_globalV4 (template eq1 eq2 2 eq4 eq5 2));
    [discriminate|].
  destruct (JS.get cvssLookup_globalV4 (template eq1 eq2 2 eq4 eq5 1)) as [q|];
    [|discriminate].
  split; [reflexivity|]. exists q. split; reflexivity.
Qed.

End NoNeighbor.

Lemma scores_absent {num} `{JSNumber num} (key : string) :
  JS.get cvssLookup_globalV4 key = None ->
  JS.get (scores (num := num) cvssLookup_globalV4) key = None.
Proof. intros Hn. rewrite scores_get, Hn. reflexivity. Qed.

Lemma table_value_minus_NaN (key : string) (q : Q) :
  In (key, q) cvssLookup_globalV4 ->
  isNaN (lit (num := Float64.num) q - NaN)%js = true.
Proof.
  intros Hin.
  assert (Hall : forallb (fun kv => isNaN (lit (num := Float64.num) (snd kv)
                                            - NaN)%js)
                         cvssLookup_globalV4 = true) by (vm_compute; reflexivity).
  rewrite forallb_forall in Hall. exact (Hall _ Hin).
Qed.

Lemma exact_minus_NaN (q : Q) :
  isNaN (lit (num := Exact.num) q - NaN)%js = true.
Proof. reflexivity. Qed.

(** A validated vector with no next lower MacroVector in the table. *)
Definition no_next_lower (eq1 eq2 eq3 eq4 eq5 eq6 : nat) : bool :=
  negb (JS.has cvssLookup_globalV4 (template (eq1 + 1) eq2 eq3 eq4 eq5 eq6))
  && negb (JS.has cvssLookup_globalV4 (template eq1 (eq2 + 1) eq3 eq4 eq5 eq6))
  && forallb (fun key => negb (JS.has cvssLookup_globalV4 key))
             (map (fun p => template eq1 eq2 (fst p) eq4 eq5 (snd p))
                  (code_eq3eq6_neighbors eq3 eq6))
  && negb (JS.has cvssLookup_globalV4 (template eq1 eq2 eq3 (eq4 + 1) eq5 eq6))
  && negb (JS.has cvssLookup_globalV4 (template eq1 eq2 eq3 eq4 (eq5 + 1) eq6)).

Lemma has_scores {num} `{JSNumber num} (key : string) :
  JS.has (scores (num := num) cvssLookup_globalV4) key
  = JS.has cvssLookup_globalV4 key.
Proof.
  unfold JS.has. rewrite scores_get.
  destruct (JS.get cvssLookup_globalV4 key); reflexivity.
Qed.

Lemma not_has_get {A} (d : list (string * A)) (key : string) :
  negb (JS.has d key) = true -> JS.get d key = None.
Proof.
  unfold JS.has. destruct (JS.get d key); [discriminate|reflexivity].
Qed.

Lemma no_next_lower_score {num} `{JSNumber num}
  (neighbors36 := code_eq3eq6_neighbors) cvssSelected
  (eq1 eq2 eq3 eq4 eq5 eq6 : nat) (q : Q) :
  no_next_lower eq1 eq2 eq3 eq4 eq5 eq6 = true ->
  JS.get cvssLookup_globalV4 (template eq1 eq2 eq3 eq4 eq5 eq6) = Some q ->
  isNaN (lit (num := num) q - NaN)%js = true ->
  spec_next_lower_score neighbors36 (scores cvssLookup_globalV4) cvssSelected
                        eq1 eq2 eq3 eq4 eq5 eq6
  = final_score (lit q) (lit 0).
Proof.
  unfold no_next_lower. intros Hno Hq Hnan.
  rewrite !andb_true_iff in Hno. destruct Hno as ((((N1 & N2) & N36) & N4) & N5).
  assert (Hvalue : toNumber (JS.get (scores (num := num) cvssLookup_globalV4)
                               (template eq1 eq2 eq3 eq4 eq5 eq6)) = lit q)
    by (rewrite scores_get, Hq; reflexivity).
  rewrite <- Hvalue. apply spec_next_lower_score_no_neighbor.
  - rewrite Hvalue. exact Hnan.
  - apply scores_absent, not_has_get. exact N1.
  - apply scores_absent, not_has_get. exact N2.
  - apply best_neighbor_absent.
    rewrite forallb_forall in N36. apply forallb_forall. intros key Hin.
    rewrite has_scores. exact (N36 key Hin).
  - apply scores_absent, not_has_get. exact N4.
  - apply scores_absent, not_has_get. exact N5.
Qed.

Lemma digits_template_inj (key : string) (d e : nat * nat * nat * nat * nat * nat) :
  digits key = Some d -> digits key = Some e -> d = e.
Proof. congruence. Qed.

Definition vector_v4_state_00 : string :=
  "CVSS:4.0/AV:L/AC:L/AT:N/PR:L/UI:N/VC:H/VI:H/VA:H/SC:N/SI:N/SA:N".

Definition vector_v4_state_11 : string :=
  "CVSS:4.0/AV:N/AC:L/AT:N/PR:N/UI:N/VC:H/VI:N/VA:N/SC:N/SI:N/SA:N/CR:L/IR:L/AR:L".

Definition vector_v4_state_11_lowest : string :=
  "CVSS:4.0/AV:P/AC:H/AT:P/PR:H/UI:A/VC:H/VI:N/VA:N/SC:N/SI:N/SA:N/E:U/CR:L/IR:L/AR:L".

Definition vector_v4_lowest : string :=
  "CVSS:4.0/AV:P/AC:H/AT:P/PR:H/UI:A/VC:L/VI:L/VA:L/SC:L/SI:L/SA:L/E:U".

(** C5 (the next lower MacroVectors and the mean distance).  For every
    vector that [validateVectorV4] accepts, outside the shortcut, the score
    that [calculateBaseScore] returns, in binary64 and in exact arithmetic,
    is the score of the MacroVector minus the mean of the normalized
    distances of the classes whose neighbor is in the table, kept in [0, 10]
    and rounded to one decimal: a class without neighbor is left out of the
    mean and does not count as 0.  From EQ3 = 0, EQ6 = 0 the two candidates
    01 and 10 are looked up and the higher score is used; from 01 and 10 the
    neighbor is 11.  From EQ3 = 1, EQ6 = 1 the key that is looked up has
    both digits incremented, 22, which no MacroVector has, so no neighbor is
    used in that state, although the neighbor 21 that the comment of the
    source names is in the table: there the score differs from the score
    with the neighbor 21 (8.0 against 7.8, and 0.2 against 0.1 on a vector
    left with no neighbor at all).  When no class has a neighbor the score
    is the score of the MacroVector in the table; with neighbors it is not
    (8.5 against 8.7 on a vector of MacroVector 100200, whose candidates
    100201 and 101200 score 7.5 and 7.2). *)
Theorem next_lower_macro_search :
  (forall vectorString : string,
     valid (validateVectorV4 vectorString) = true ->
     forallb (fun metric => JS.eqs (m (parseVectorV4 vectorString) metric) "N")
             ["VC"; "VI"; "VA"; "SC"; "SI"; "SA"] = false ->
     exists eq1 eq2 eq3 eq4 eq5 eq6,
       digits (macroVector (parseVectorV4 vectorString))
       = Some (eq1, eq2, eq3, eq4, eq5, eq6)
       /\ In (eq3, eq6) [(0, 0); (0, 1); (1, 0); (1, 1); (2, 1)]
       /\ calculateBaseScore (num := Float64.num) vectorString
          = Ok (spec_next_lower_score code_eq3eq6_neighbors
                  (scores cvssLookup_globalV4) (parseVectorV4 vectorString)
                  eq1 eq2 eq3 eq4 eq5 eq6)
       /\ calculateBaseScore (num := Exact.num) vectorString
          = Ok (spec_next_lower_score code_eq3eq6_neighbors
                  (scores cvssLookup_globalV4) (parseVectorV4 vectorString)
                  eq1 eq2 eq3 eq4 eq5 eq6)
       /\ (no_next_lower eq1 eq2 eq3 eq4 eq5 eq6 = true ->
           exists q,
             JS.get cvssLookup_globalV4
                    (macroVector (parseVectorV4 vectorString)) = Some q
             /\ calculateBaseScore (num := Float64.num) vectorString
                = Ok (lit q)
             /\ calculateBaseScore (num := Exact.num) vectorString
                = Ok (lit q)))
  /\ (forall eq3 eq6 : nat,
        (eq3, eq6) <> (1, 1) ->
        code_eq3eq6_neighbors eq3 eq6 = intended_eq3eq6_neighbors eq3 eq6)
  /\ code_eq3eq6_neighbors 0 0 = [(0, 1); (1, 0)]
  /\ code_eq3eq6_neighbors 1 1 = [(2, 2)]
  /\ intended_eq3eq6_neighbors 1 1 = [(2, 1)]
  /\ (forall (num : Type) (JSN : JSNumber num) (eq1 eq2 eq4 eq5 : nat),
        In eq1 [0; 1; 2] -> In eq2 [0; 1] -> In eq4 [0; 1; 2] ->
        In eq5 [0; 1; 2] ->
        best_neighbor (scores (num := num) cvssLookup_globalV4)
          (map (fun p => template eq1 eq2 (fst p) eq4 eq5 (snd p))
               (code_eq3eq6_neighbors 1 1)) = None
        /\ exists q,
             JS.get cvssLookup_globalV4 (template eq1 eq2 2 eq4 eq5 1) = Some q
             /\ best_neighbor (scores (num := num) cvssLookup_globalV4)
                  (map (fun p => template eq1 eq2 (fst p) eq4 eq5 (snd p))
                       (intended_eq3eq6_neighbors 1 1)) = Some (lit q))
  /\ (valid (validateVectorV4 vector_v4_state_00) = true
      /\ macroVector (parseVectorV4 vector_v4_state_00) = "100200"
      /\ JS.get cvssLookup_globalV4 "100200" = Some 8.7%Q
      /\ JS.get cvssLookup_globalV4 "100201" = Some 7.5%Q
      /\ JS.get cvssLookup_globalV4 "101200" = Some 7.2%Q
      /\ best_neighbor (scores (num := Float64.num) cvssLookup_globalV4)
           (map (fun p => template 1 0 (fst p) 2 0 (snd p))
                (code_eq3eq6_neighbors 0 0)) = Some (lit 7.5)
      /\ calculateBaseScore (num := Float64.num) vector_v4_state_00
         = Ok (lit 8.5)
      /\ calculateBaseScore (num := Exact.num) vector_v4_state_00
         = Ok (lit 8.5))
  /\ (valid (validateVectorV4 vector_v4_state_11) = true
      /\ macroVector (parseVectorV4 vector_v4_state_11) = "001201"
      /\ calculateBaseScore (num := Float64.num) vector_v4_state_11
         = Ok (lit 8.0)
      /\ calculateBaseScore (num := Exact.num) vector_v4_state_11
         = Ok (lit 8.0)
      /\ spec_next_lower_score (num := Float64.num) intended_eq3eq6_neighbors
           (scores cvssLookup_globalV4) (parseVectorV4 vector_v4_state_11)
           0 0 1 2 0 1 = lit 7.8
      /\ spec_next_lower_score (num := Exact.num) intended_eq3eq6_neighbors
           (scores cvssLookup_globalV4) (parseVectorV4 vector_v4_state_11)
           0 0 1 2 0 1 = lit 7.8)
  /\ (valid (validateVectorV4 vector_v4_state_11_lowest) = true
      /\ macroVector (parseVectorV4 vector_v4_state_11_lowest) = "211221"
      /\ no_next_lower 2 1 1 2 2 1 = true
      /\ calculateBaseScore (num := Float64.num) vector_v4_state_11_lowest
         = Ok (lit 0.2)
      /\ calculateBaseScore (num := Exact.num) vector_v4_state_11_lowest
         = Ok (lit 0.2)
      /\ spec_next_lower_score (num := Float64.num) intended_eq3eq6_neighbors
           (scores cvssLookup_globalV4)
           (parseVectorV4 vector_v4_state_11_lowest) 2 1 1 2 2 1 = lit 0.1
      /\ spec_next_lower_score (num := Exact.num) intended_eq3eq6_neighbors
           (scores cvssLookup_globalV4)
           (parseVectorV4 vector_v4_state_11_lowest) 2 1 1 2 2 1 = lit 0.1).
Proof.
  split.
  { intros vectorString Hvalid Hshort.
    pose proof (parseVectorV4_selected_ok _ Hvalid) as Hok.
    rewrite !(calculateBaseScore_v4 _ Hvalid).
    destruct (validated_spec_scores _ Hok Hshort)
      as (eq1 & eq2 & eq3 & eq4 & eq5 & eq6 & Hd & Hdigits & E64 & Eex).
    exists eq1, eq2, eq3, eq4, eq5, eq6.
    split; [exact Hd|]. split; [tauto|].
    split; [exact E64|]. split; [exact Eex|].
    intros Hno.
    destruct Hdigits as (H1 & H2 & H36 & H4 & H5).
    destruct (macroVector_digits (parseVectorV4 vectorString))
      as (d1 & d2 & d3 & d4 & d5 & d6 & Hm & G1 & G2 & G36 & G4 & G5).
    destruct (digits_in_table _ _ _ _ _ _ G1 G2 G36 G4 G5) as (Hhas & Hdt).
    rewrite Hm in Hd.
    pose proof (digits_template_inj _ _ _ Hdt Hd) as Heq.
    injection Heq as -> -> -> -> -> ->.
    unfold JS.has in Hhas.
    destruct (JS.get cvssLookup_globalV4 (template eq1 eq2 eq3 eq4 eq5 eq6))
      as [q|] eqn:Hq; [|discriminate].
    exists q. split; [rewrite Hm; exact Hq|].
    rewrite E64, Eex.
    rewrite (no_next_lower_score (num := Float64.num) _ _ _ _ _ _ _ q Hno Hq
               (table_value_minus_NaN _ _ (get_In _ _ _ Hq))).
    rewrite (no_next_lower_score (num := Exact.num) _ _ _ _ _ _ _ q Hno Hq
               (exact_minus_NaN q)).
    rewrite (final_score_table_value_float _ _ (get_In _ _ _ Hq)).
    rewrite (final_score_table_value_exact _ _ (get_In _ _ _ Hq)).
    split; reflexivity. }
  split.
  { intros eq3 eq6 Hne.
    destruct eq3 as [|[|eq3]], eq6 as [|[|eq6]]; try reflexivity.
    contradiction Hne. reflexivity. }
  split; [reflexivity|]. split; [reflexivity|]. split; [reflexivity|].
  split.
  { intros num JSN eq1 eq2 eq4 eq5 H1 H2 H4 H5.
    exact (state_11_neighbors eq1 eq2 eq4 eq5 H1 H2 H4 H5). }
  split; [repeat split; vm_compute; reflexivity|].
  split; repeat split; vm_compute; reflexivity.
Qed.

Lemma next_lower_macro_search_witness :
  valid (validateVectorV4 vector_v4_lowest) = true
  /\ macroVector (parseVectorV4 vector_v4_lowest) = "212221"
  /\ no_next_lower 2 1 2 2 2 1 = true
  /\ calculateBaseScore (num := Float64.num) vector_v4_lowest = Ok (lit 0.1)
  /\ exists eq1 eq2 eq3 eq4 eq5 eq6,
       digits (macroVector (parseVectorV4 vector_v4_lowest))
       = Some (eq1, eq2, eq3, eq4, eq5, eq6)
       /\ In (eq3, eq6) [(0, 0); (0, 1); (1, 0); (1, 1); (2, 1)]
       /\ calculateBaseScore (num := Float64.num) vector_v4_lowest
          = Ok (spec_next_lower_score code_eq3eq6_neighbors
                  (scores cvssLookup_globalV4) (parseVectorV4 vector_v4_lowest)
                  eq1 eq2 eq3 eq4 eq5 eq6)
       /\ calculateBaseScore (num := Exact.num) vector_v4_lowest
          = Ok (spec_next_lower_score code_eq3eq6_neighbors
                  (scores cvssLookup_globalV4) (parseVectorV4 vector_v4_lowest)
                  eq1 eq2 eq3 eq4 eq5 eq6)
       /\ (no_next_lower eq1 eq2 eq3 eq4 eq5 eq6 = true ->
           exists q,
             JS.get cvssLookup_globalV4
                    (macroVector (parseVectorV4 vector_v4_lowest)) = Some q
             /\ calculateBaseScore (num := Float64.num) vector_v4_lowest
                = Ok (lit q)
             /\ calculateBaseScore (num := Exact.num) vector_v4_lowest
                = Ok (lit q)).
Proof.
  split; [vm_compute; reflexivity|].
  split; [vm_compute; reflexivity|].
  split; [vm_compute; reflexivity|].
  split; [vm_compute; reflexivity|].
  apply (proj1 next_lower_macro_search vector_v4_lowest);
    vm_compute; reflexivity.
Defined.
